(** * The vehicle store of bebabeba: listing, partial update, status guard and soft delete

    A shallow embedding of [services/vehicle/internal/types],
    [services/vehicle/internal/store] and [services/vehicle/internal/service],
    with the transition table of [services/staff/internal/types].  The store
    runs against a relational model of the two tables of the vehicle schema;
    the library functions it calls, [encoding/base64] with the URL alphabet and
    the RFC 3339 text form of [time.Time], are modelled beside it.  Go strings
    are [string], byte slices are [list ascii], and [int32] values are [Z]:
    page sizes stay within a hundred, so no addition wraps.  The request
    validators of [services/vehicle/internal/validator] and the status change
    of [services/staff/internal/service] follow the vehicle service. *)

From Stdlib Require Import NArith ZArith List String Ascii Bool Lia.
Import ListNotations.
Open Scope Z_scope.

Notation "x <- a ;; b" := (match a with Some x => b | None => None end)
  (at level 61, a at next level, right associativity).
Notation "' p <- a ;; b" := (match a with Some p => b | None => None end)
  (at level 61, p pattern, a at next level, right associativity).

(** * encoding/base64 *)

(** [base64.URLEncoding]: the URL alphabet with [=] padding, decoded without
    the strict check of trailing bits.  [Encode] follows the library's loop
    over groups of three bytes; [decodeQuanta] is its [decodeQuantum] run over
    the input once the line breaks, which the decoder skips wherever they
    stand, are taken out. *)
Module Base64.
Local Open Scope N_scope.

Definition encodeURL : string :=
  "ABCDEFGHIJKLMNOPQRSTUVWXYZabcdefghijklmnopqrstuvwxyz0123456789-_".

(** [StdPadding] *)
Definition padChar : ascii := "="%char.

(** [enc.encode[i]] *)
Definition encode (i : N) : ascii :=
  nth (N.to_nat i) (list_ascii_of_string encodeURL) "A"%char.

Fixpoint indexOf (c : ascii) (l : list ascii) (i : N) : option N :=
  match l with
  | [] => None
  | x :: l' => if Ascii.eqb x c then Some i else indexOf c l' (N.succ i)
  end.

(** [enc.decodeMap[c]], with [None] for the entry 0xff of a byte outside the
    alphabet. *)
Definition decodeMap (c : ascii) : option N :=
  indexOf c (list_ascii_of_string encodeURL) 0.

(** The conversions [byte(x)] and [uint(c)]. *)
Definition byte (x : N) : ascii := ascii_of_N (N.land x 255).
Definition uint (c : ascii) : N := N_of_ascii c.

Fixpoint Encode (src : list ascii) : list ascii :=
  match src with
  | [] => []
  | [b0] =>
      let val := N.shiftl (uint b0) 16 in
      [encode (N.land (N.shiftr val 18) 63);
       encode (N.land (N.shiftr val 12) 63); padChar; padChar]
  | [b0; b1] =>
      let val := N.lor (N.shiftl (uint b0) 16) (N.shiftl (uint b1) 8) in
      [encode (N.land (N.shiftr val 18) 63);
       encode (N.land (N.shiftr val 12) 63);
       encode (N.land (N.shiftr val 6) 63); padChar]
  | b0 :: b1 :: b2 :: rest =>
      let val := N.lor (N.lor (N.shiftl (uint b0) 16) (N.shiftl (uint b1) 8)) (uint b2) in
      encode (N.land (N.shiftr val 18) 63)
      :: encode (N.land (N.shiftr val 12) 63)
      :: encode (N.land (N.shiftr val 6) 63)
      :: encode (N.land val 63)
      :: Encode rest
  end.

Definition EncodeToString (src : list ascii) : string :=
  string_of_list_ascii (Encode src).

Definition isNewline (c : ascii) : bool :=
  Ascii.eqb c "010"%char || Ascii.eqb c "013"%char.

(** [uint(dbuf[0])<<18 | uint(dbuf[1])<<12 | uint(dbuf[2])<<6 | uint(dbuf[3])] *)
Definition assemble (d0 d1 d2 d3 : N) : N :=
  N.lor (N.lor (N.lor (N.shiftl d0 18) (N.shiftl d1 12)) (N.shiftl d2 6)) d3.

(** Four characters give three bytes; a last group may end in one or two
    padding characters and gives two bytes or one; nothing may follow the
    padding, and a group may not be cut short. *)
Fixpoint decodeQuanta (src : list ascii) : option (list ascii) :=
  match src with
  | [] => Some []
  | c0 :: c1 :: c2 :: c3 :: rest =>
      match decodeMap c0, decodeMap c1 with
      | Some d0, Some d1 =>
          match decodeMap c2 with
          | Some d2 =>
              match decodeMap c3 with
              | Some d3 =>
                  let val := assemble d0 d1 d2 d3 in
                  match decodeQuanta rest with
                  | Some out =>
                      Some (byte (N.shiftr val 16) :: byte (N.shiftr val 8)
                            :: byte val :: out)
                  | None => None
                  end
              | None =>
                  if Ascii.eqb c3 padChar then
                    match rest with
                    | [] =>
                        let val := assemble d0 d1 d2 0 in
                        Some [byte (N.shiftr val 16); byte (N.shiftr val 8)]
                    | _ :: _ => None
                    end
                  else None
              end
          | None =>
              if Ascii.eqb c2 padChar && Ascii.eqb c3 padChar then
                match rest with
                | [] =>
                    let val := assemble d0 d1 0 0 in
                    Some [byte (N.shiftr val 16)]
                | _ :: _ => None
                end
              else None
          end
      | _, _ => None
      end
  | _ => None
  end.

Definition DecodeString (s : string) : option (list ascii) :=
  decodeQuanta (filter (fun c => negb (isNewline c)) (list_ascii_of_string s)).

End Base64.

(** * time *)

(** [time.Time] as the wall-clock reading of an instant in a zone, with the
    offset of the zone east of UTC in seconds.  [MarshalText] and [Format] with
    the layout [time.RFC3339Nano] write that reading.  [UnmarshalText] reads a
    text with the RFC 3339 reader [parseRFC3339], which accepts what the
    grammar allows, and falls back on [Parse] with the layout [time.RFC3339]
    for a text that reader refuses; either leaves a time in the zone it
    read.  The library is the one of Go 1.20 and later. *)
Module GoTime.
Local Open Scope Z_scope.

Record DateTime := mkDateTime {
  Year : Z; Month : Z; Day : Z;
  Hour : Z; Minute : Z; Second : Z; Nanosecond : Z
}.

Record Time := mkTime { wall : DateTime; zoneOffset : Z }.

(** The zero [Time], January 1 of year 1, 00:00:00 UTC. *)
Definition zeroTime : Time := mkTime (mkDateTime 1 1 1 0 0 0 0) 0.

(** [time.Date(year, month, day, hour, min, sec, nsec, time.UTC)] *)
Definition Date (dt : DateTime) : Time := mkTime dt 0.

Definition isLeap (year : Z) : bool :=
  (year mod 4 =? 0) && (negb (year mod 100 =? 0) || (year mod 400 =? 0)).

Definition daysBefore (m : Z) : Z :=
  nth (Z.to_nat m) [0; 31; 59; 90; 120; 151; 181; 212; 243; 273; 304; 334; 365] 0.

Definition daysIn (m year : Z) : Z :=
  if (m =? 2) && isLeap year then 29 else daysBefore m - daysBefore (m - 1).

(** Days from January 1 of year 1 to the given day of the proleptic Gregorian
    calendar. *)
Definition daysSinceEpoch (year month day : Z) : Z :=
  let y := year - 1 in
  365 * y + y / 4 - y / 100 + y / 400
  + daysBefore (month - 1)
  + (if (2 <? month) && isLeap year then 1 else 0)
  + (day - 1).

(** Seconds from the zero time to the instant of [t]. *)
Definition absSeconds (t : Time) : Z :=
  let w := wall t in
  daysSinceEpoch (Year w) (Month w) (Day w) * 86400
  + Hour w * 3600 + Minute w * 60 + Second w - zoneOffset t.

Definition IsZero (t : Time) : bool :=
  (absSeconds t =? 0) && (Nanosecond (wall t) =? 0).

(** [t.After(u)] *)
Definition After (t u : Time) : bool :=
  (absSeconds u <? absSeconds t)
  || ((absSeconds u =? absSeconds t) && (Nanosecond (wall u) <? Nanosecond (wall t))).

Definition digit (d : Z) : ascii := ascii_of_N (Z.to_N (48 + d)).
Definition isDigit (c : ascii) : bool :=
  let n := Z.of_N (N_of_ascii c) in (48 <=? n) && (n <=? 57).
Definition digitVal (c : ascii) : Z := Z.of_N (N_of_ascii c) - 48.

(** The last [n] decimal digits of [u]. *)
Fixpoint digitsN (n : nat) (u : Z) : list ascii :=
  match n with
  | O => []
  | S n' => digitsN n' (u / 10) ++ [digit (u mod 10)]
  end.

(** The decimal digits of [u], as many as it has. *)
Fixpoint utoa (fuel : nat) (u : Z) : list ascii :=
  match fuel with
  | O => []
  | S f => if u <? 10 then [digit u] else utoa f (u / 10) ++ [digit (u mod 10)]
  end.

(** [appendInt(b, x, width)]: a sign for a negative [x], then its digits,
    padded with zeros to the width. *)
Definition appendInt (x : Z) (width : nat) : list ascii :=
  let u := Z.abs x in
  (if x <? 0 then ["-"%char] else [])
  ++ (if u <? 10 ^ Z.of_nat width then digitsN width u
      else utoa (S (Z.to_nat (Z.log2 u))) u).

Fixpoint trimZeros (l : list ascii) : list ascii :=
  match l with
  | [] => []
  | c :: l' =>
      match trimZeros l' with
      | [] => if Ascii.eqb c "0"%char then [] else [c]
      | r => c :: r
      end
  end.

(** The fraction of [.999999999]: nine digits without the trailing zeros,
    and nothing at all for zero nanoseconds. *)
Definition appendNano (nanosec : Z) : list ascii :=
  if nanosec =? 0 then [] else "."%char :: trimZeros (digitsN 9 nanosec).

(** The zone of [Z07:00]: [Z] for UTC, else sign, hours and minutes. *)
Definition appendZone (offset : Z) : list ascii :=
  if offset =? 0 then ["Z"%char]
  else
    let zone := Z.quot offset 60 in
    (if zone <? 0 then ["-"%char] else ["+"%char])
    ++ appendInt (Z.abs zone / 60) 2 ++ [":"%char] ++ appendInt (Z.abs zone mod 60) 2.

Definition appendDate (w : DateTime) : list ascii :=
  appendInt (Year w) 4 ++ ["-"%char] ++ appendInt (Month w) 2
  ++ ["-"%char] ++ appendInt (Day w) 2.

Definition appendFormatRFC3339 (t : Time) : list ascii :=
  let w := wall t in
  appendDate w ++ ["T"%char]
  ++ appendInt (Hour w) 2 ++ [":"%char] ++ appendInt (Minute w) 2
  ++ [":"%char] ++ appendInt (Second w) 2
  ++ appendNano (Nanosecond w) ++ appendZone (zoneOffset t).

(** [t.Format(time.RFC3339Nano)] *)
Definition Format_RFC3339Nano (t : Time) : string :=
  string_of_list_ascii (appendFormatRFC3339 t).

(** [t.Format("2006-01-02")] *)
Definition Format_Date (t : Time) : string :=
  string_of_list_ascii (appendDate (wall t)).

Definition num2 (b : list ascii) : Z :=
  match b with
  | c0 :: c1 :: _ => 10 * digitVal c0 + digitVal c1
  | _ => 0
  end.

(** [t.MarshalText()]: the text, refused when the year does not take exactly
    four digits or the hour of the zone is not below 24. *)
Definition MarshalText (t : Time) : option (list ascii) :=
  let b := appendFormatRFC3339 t in
  let n := List.length b in
  if negb (Ascii.eqb (nth 4 b "000"%char) "-"%char) then None
  else if Ascii.eqb (nth (n - 1) b "000"%char) "Z"%char then Some b
  else
    let c := nth (n - 6) b "000"%char in
    if isDigit c || (24 <=? num2 (skipn (n - 5) b)) then None else Some b.

Fixpoint atoi (s : list ascii) (x : Z) : option Z :=
  match s with
  | [] => Some x
  | c :: s' => if isDigit c then atoi s' (x * 10 + digitVal c) else None
  end.

(** The [parseUint] of [parseRFC3339]: digits only, and within the range. *)
Definition parseUint (s : list ascii) (min max : Z) : option Z :=
  x <- atoi s 0 ;;
  if (x <? min) || (max <? x) then None else Some x.

Fixpoint spanDigits (s : list ascii) : list ascii * list ascii :=
  match s with
  | c :: s' =>
      if isDigit c then let (ds, r) := spanDigits s' in (c :: ds, r) else ([], s)
  | [] => ([], [])
  end.

(** [parseNanoseconds]: at most nine digits count, scaled to nanoseconds. *)
Definition parseNanoseconds (ds : list ascii) : Z :=
  let ds9 := firstn 9 ds in
  match atoi ds9 0 with
  | Some ns => ns * 10 ^ Z.of_nat (9 - List.length ds9)
  | None => 0
  end.

(** The fraction, when a dot and a digit follow the seconds; all its digits
    are consumed. *)
Definition parseFraction (s : list ascii) : Z * list ascii :=
  match s with
  | dot :: c :: _ =>
      if Ascii.eqb dot "."%char && isDigit c then
        let (ds, r) := spanDigits (tl s) in (parseNanoseconds ds, r)
      else (0, s)
  | _ => (0, s)
  end.

(** The zone: [Z], or a sign with two digits of hours and two of minutes. *)
Definition parseZone (s : list ascii) : option Z :=
  match s with
  | [z] => if Ascii.eqb z "Z"%char then Some 0 else None
  | [sg; h1; h2; c; m1; m2] =>
      hr <- parseUint [h1; h2] 0 23 ;;
      mm <- parseUint [m1; m2] 0 59 ;;
      if (Ascii.eqb sg "-"%char || Ascii.eqb sg "+"%char) && Ascii.eqb c ":"%char then
        let zoneOffset := (hr * 60 + mm) * 60 in
        Some (if Ascii.eqb sg "-"%char then - zoneOffset else zoneOffset)
      else None
  | _ => None
  end.

Definition parseDate (y1 y2 y3 y4 c4 m1 m2 c7 d1 d2 : ascii) : option (Z * Z * Z) :=
  year <- parseUint [y1; y2; y3; y4] 0 9999 ;;
  month <- parseUint [m1; m2] 1 12 ;;
  day <- parseUint [d1; d2] 1 (daysIn month year) ;;
  if Ascii.eqb c4 "-"%char && Ascii.eqb c7 "-"%char then Some (year, month, day)
  else None.

Definition parseRFC3339 (s : list ascii) : option Time :=
  match s with
  | y1 :: y2 :: y3 :: y4 :: c4 :: m1 :: m2 :: c7 :: d1 :: d2 :: c10
    :: h1 :: h2 :: c13 :: mi1 :: mi2 :: c16 :: s1 :: s2 :: rest =>
      '(year, month, day) <- parseDate y1 y2 y3 y4 c4 m1 m2 c7 d1 d2 ;;
      hour <- parseUint [h1; h2] 0 23 ;;
      min <- parseUint [mi1; mi2] 0 59 ;;
      sec <- parseUint [s1; s2] 0 59 ;;
      if Ascii.eqb c10 "T"%char && Ascii.eqb c13 ":"%char && Ascii.eqb c16 ":"%char then
        let (nsec, rest') := parseFraction rest in
        off <- parseZone rest' ;;
        Some (mkTime (mkDateTime year month day hour min sec nsec) off)
      else None
  | _ => None
  end.

(** ** The lenient reader *)

(** [getnum(s, fixed)]: the number of one or two digits at the head of [s],
    of two digits when [fixed]. *)
Definition getnum (s : list ascii) (fixed : bool) : option (Z * list ascii) :=
  match s with
  | c0 :: s1 =>
      if isDigit c0 then
        match s1 with
        | c1 :: s2 =>
            if isDigit c1 then Some (digitVal c0 * 10 + digitVal c1, s2)
            else if fixed then None else Some (digitVal c0, s1)
        | [] => if fixed then None else Some (digitVal c0, s1)
        end
      else None
  | [] => None
  end.

(** [skip(value, prefix)] for the prefixes of the layout, each one character
    that is not a space. *)
Definition skip (value : list ascii) (prefix : ascii) : option (list ascii) :=
  match value with
  | c :: value' => if Ascii.eqb c prefix then Some value' else None
  | [] => None
  end.

Definition commaOrPeriod (c : ascii) : bool :=
  Ascii.eqb c "."%char || Ascii.eqb c ","%char.

(** The fraction that [Parse] reads after the seconds though the layout has
    none: a period or a comma and the digits that follow. *)
Definition parseSecondFraction (value : list ascii) : Z * list ascii :=
  match value with
  | sep :: c :: _ =>
      if commaOrPeriod sep && isDigit c then
        let (ds, r) := spanDigits (tl value) in (parseNanoseconds ds, r)
      else (0, value)
  | _ => (0, value)
  end.

(** The zone of the layout element [Z07:00]: a [Z], or a sign, two digits of
    hours, a colon and two digits of minutes; hours up to 24 and minutes up to
    60 pass the range test. *)
Definition parseISO8601ColonTZ (value : list ascii) : option (Z * list ascii) :=
  match value with
  | [] => None
  | z :: value' =>
      if Ascii.eqb z "Z"%char then Some (0, value')
      else
        match value with
        | sign :: h1 :: h2 :: c :: m1 :: m2 :: rest =>
            if negb (Ascii.eqb c ":"%char) then None
            else
              '(hr, _) <- getnum [h1; h2] true ;;
              '(mm, _) <- getnum [m1; m2] true ;;
              if (24 <? hr) || (60 <? mm) then None
              else
                let zoneOffset := (hr * 60 + mm) * 60 in
                if Ascii.eqb sign "+"%char then Some (zoneOffset, rest)
                else if Ascii.eqb sign "-"%char then Some (- zoneOffset, rest)
                else None
        | _ => None
        end
  end.

(** [time.Parse(time.RFC3339, value)], the layout [2006-01-02T15:04:05Z07:00]
    taken element by element: a year of four digits, month, day, minute and
    second of two digits, an hour of one or two, a fraction of the second
    after a period or a comma, the zone, and nothing after it.  The day is
    checked against the month once the text is read. *)
Definition Parse_RFC3339 (value : list ascii) : option Time :=
  match value with
  | y1 :: y2 :: y3 :: y4 :: value =>
      if negb (isDigit y1) then None
      else
        year <- atoi [y1; y2; y3; y4] 0 ;;
        value <- skip value "-"%char ;;
        '(month, value) <- getnum value true ;;
        if (month <=? 0) || (12 <? month) then None
        else
          value <- skip value "-"%char ;;
          '(day, value) <- getnum value true ;;
          value <- skip value "T"%char ;;
          '(hour, value) <- getnum value false ;;
          if 24 <=? hour then None
          else
            value <- skip value ":"%char ;;
            '(min, value) <- getnum value true ;;
            if 60 <=? min then None
            else
              value <- skip value ":"%char ;;
              '(sec, value) <- getnum value true ;;
              if 60 <=? sec then None
              else
                let (nsec, value) := parseSecondFraction value in
                '(zoneOffset, value) <- parseISO8601ColonTZ value ;;
                match value with
                | _ :: _ => None
                | [] =>
                    if (day <? 1) || (daysIn month year <? day) then None
                    else Some (mkTime (mkDateTime year month day hour min sec nsec)
                                 zoneOffset)
                end
  | _ => None
  end.

(** [parseStrictRFC3339]: the RFC 3339 reader, and the lenient one for what it
    refuses.  The checks that the library has after the lenient reader are
    switched off in it, so what the lenient reader accepts is accepted. *)
Definition parseStrictRFC3339 (b : list ascii) : option Time :=
  match parseRFC3339 b with
  | Some t => Some t
  | None => Parse_RFC3339 b
  end.

Definition UnmarshalText (data : list ascii) : option Time := parseStrictRFC3339 data.

(** [time.Parse("2006-01-02", s)] *)
Definition Parse_Date (s : string) : option DateTime :=
  match list_ascii_of_string s with
  | [y1; y2; y3; y4; c4; m1; m2; c7; d1; d2] =>
      '(year, month, day) <- parseDate y1 y2 y3 y4 c4 m1 m2 c7 d1 d2 ;;
      Some (mkDateTime year month day 0 0 0 0)
  | _ => None
  end.

(** The times that have an RFC 3339 text: a year of four digits, a day that
    exists, a time of day, and a zone of whole minutes within a day of UTC. *)
Definition validZone (off : Z) : bool :=
  (off mod 60 =? 0) && (-86400 <? off) && (off <? 86400).

Definition validWall (w : DateTime) : bool :=
  (0 <=? Year w) && (Year w <=? 9999)
  && (1 <=? Month w) && (Month w <=? 12)
  && (1 <=? Day w) && (Day w <=? daysIn (Month w) (Year w))
  && (0 <=? Hour w) && (Hour w <=? 23)
  && (0 <=? Minute w) && (Minute w <=? 59)
  && (0 <=? Second w) && (Second w <=? 59)
  && (0 <=? Nanosecond w) && (Nanosecond w <? 1000000000).

Definition valid (t : Time) : bool := validWall (wall t) && validZone (zoneOffset t).

(** The zones that the lenient reader leaves: whole minutes, up to 24 hours
    and 60 minutes from UTC. *)
Definition lenientZone (off : Z) : bool :=
  (off mod 60 =? 0) && (-90000 <=? off) && (off <=? 90000).

(** ** Shapes of the formatted text *)

(** The sign that opens a numeric zone. *)
Definition zoneSign (off : Z) : ascii := if off <? 0 then "-"%char else "+"%char.

(** What follows the seconds and their fraction opens with neither a digit nor
    a dot. *)
Definition zoneHead (r : list ascii) : Prop :=
  match r with
  | [] => False
  | c :: _ => isDigit c = false /\ Ascii.eqb c "."%char = false
  end.

(** The nineteen characters of date and time for four-digit years. *)
Definition head19 (w : DateTime) : list ascii :=
  digitsN 4 (Year w) ++ "-"%char :: digitsN 2 (Month w) ++ "-"%char :: digitsN 2 (Day w)
  ++ "T"%char :: digitsN 2 (Hour w) ++ ":"%char :: digitsN 2 (Minute w)
  ++ ":"%char :: digitsN 2 (Second w).

Record fields_ok (w : DateTime) : Prop := {
  ok_year : 0 <= Year w <= 9999;
  ok_month : 1 <= Month w <= 12;
  ok_day : 1 <= Day w <= daysIn (Month w) (Year w);
  ok_hour : 0 <= Hour w <= 23;
  ok_minute : 0 <= Minute w <= 59;
  ok_second : 0 <= Second w <= 59;
  ok_nano : 0 <= Nanosecond w < 1000000000
}.

(** [t.Before(u)] *)
Definition Before (t u : Time) : bool := After u t.

(** [t.AddDate(years, 0, 0)]: the same reading in another year.  When that
    year has no such day, February 29, the reading stands for the day after
    February 28, which is how [absSeconds] counts it. *)
Definition AddDate_years (t : Time) (years : Z) : Time :=
  let w := wall t in
  mkTime (mkDateTime (Year w + years) (Month w) (Day w) (Hour w) (Minute w) (Second w)
            (Nanosecond w))
         (zoneOffset t).

(** The start of the day of a reading. *)
Definition midnight (t : Time) : DateTime :=
  mkDateTime (Year (wall t)) (Month (wall t)) (Day (wall t)) 0 0 0 0.


End GoTime.

(** * Generated protobuf messages and enums *)

Module genproto.
Local Open Scope string_scope.

(** Identifiers produced by [uuid.NewV4]: 16 bytes, read as a number.  The
    hexadecimal rendering [LOWER(HEX(external_id))] that the queries select is
    injective, so a message carries the identifier itself. *)
Definition UUID := N.

(** Modelled from the spec: the generated package [proto/genproto] is not among
    the sources.  The constants are the ones the service, the validator and the
    gateway name, and the text of each constant is the member of the column's
    [ENUM(...)] in the migration. *)
Inductive VehicleStatus :=
| VehicleStatus_STATUS_UNSPECIFIED
| VehicleStatus_ACTIVE
| VehicleStatus_MAINTENANCE
| VehicleStatus_RETIRED
| VehicleStatus_ASSIGNED.

Definition VehicleStatus_String (s : VehicleStatus) : string :=
  match s with
  | VehicleStatus_STATUS_UNSPECIFIED => "STATUS_UNSPECIFIED"
  | VehicleStatus_ACTIVE => "ACTIVE"
  | VehicleStatus_MAINTENANCE => "MAINTENANCE"
  | VehicleStatus_RETIRED => "RETIRED"
  | VehicleStatus_ASSIGNED => "ASSIGNED"
  end.

Definition VehicleStatus_all : list VehicleStatus :=
  [VehicleStatus_STATUS_UNSPECIFIED; VehicleStatus_ACTIVE; VehicleStatus_MAINTENANCE;
   VehicleStatus_RETIRED; VehicleStatus_ASSIGNED].

Definition VehicleStatus_value (name : string) : option VehicleStatus :=
  find (fun s => String.eqb (VehicleStatus_String s) name) VehicleStatus_all.

Definition VehicleStatus_eqb (a b : VehicleStatus) : bool :=
  match a, b with
  | VehicleStatus_STATUS_UNSPECIFIED, VehicleStatus_STATUS_UNSPECIFIED
  | VehicleStatus_ACTIVE, VehicleStatus_ACTIVE
  | VehicleStatus_MAINTENANCE, VehicleStatus_MAINTENANCE
  | VehicleStatus_RETIRED, VehicleStatus_RETIRED
  | VehicleStatus_ASSIGNED, VehicleStatus_ASSIGNED => true
  | _, _ => false
  end.

(** Modelled from the spec: the fuel type enum of the same generated package,
    with the members of the [fuel_type] column. *)
Inductive FuelType :=
| FuelType_FUEL_UNSPECIFIED
| FuelType_PETROL
| FuelType_DIESEL
| FuelType_ELECTRIC
| FuelType_HYBRID.

Definition FuelType_String (f : FuelType) : string :=
  match f with
  | FuelType_FUEL_UNSPECIFIED => "FUEL_UNSPECIFIED"
  | FuelType_PETROL => "PETROL"
  | FuelType_DIESEL => "DIESEL"
  | FuelType_ELECTRIC => "ELECTRIC"
  | FuelType_HYBRID => "HYBRID"
  end.

Definition FuelType_all : list FuelType :=
  [FuelType_FUEL_UNSPECIFIED; FuelType_PETROL; FuelType_DIESEL; FuelType_ELECTRIC;
   FuelType_HYBRID].

Definition FuelType_value (name : string) : option FuelType :=
  find (fun f => String.eqb (FuelType_String f) name) FuelType_all.

Definition FuelType_eqb (a b : FuelType) : bool :=
  String.eqb (FuelType_String a) (FuelType_String b).

(** Modelled from the spec: the driver status enum of the staff service's
    generated package, with the members of the [drivers.status] column. *)
Inductive DriverStatus :=
| DriverStatus_STATUS_UNSPECIFIED
| DriverStatus_PENDING_VERIFICATION
| DriverStatus_ACTIVE
| DriverStatus_SUSPENDED
| DriverStatus_INACTIVE.

Definition DriverStatus_eqb (a b : DriverStatus) : bool :=
  match a, b with
  | DriverStatus_STATUS_UNSPECIFIED, DriverStatus_STATUS_UNSPECIFIED
  | DriverStatus_PENDING_VERIFICATION, DriverStatus_PENDING_VERIFICATION
  | DriverStatus_ACTIVE, DriverStatus_ACTIVE
  | DriverStatus_SUSPENDED, DriverStatus_SUSPENDED
  | DriverStatus_INACTIVE, DriverStatus_INACTIVE => true
  | _, _ => false
  end.

(** The [Vehicle] message returned to callers.  Timestamps are [timestamppb]
    values; [AsTime] reads them back as a [Time] in UTC, which is how they are
    kept here. *)
Module Vehicle.
Record t := mk {
  Id : UUID;
  VehicleTypeId : string;
  VehicleTypeName : string;
  LicensePlate : string;
  Make : string;
  Model : string;
  Year : Z;
  Color : string;
  SeatingCapacity : Z;
  FuelType : FuelType;
  EngineNumber : string;
  ChassisNumber : string;
  RegistrationDate : option GoTime.Time;
  InsuranceExpiry : option GoTime.Time;
  Status : VehicleStatus;
  CreatedAt : GoTime.Time;
  UpdatedAt : GoTime.Time
}.
End Vehicle.

Module VehicleInput.
Record t := mk {
  VehicleTypeId : string;
  LicensePlate : string;
  Make : string;
  Model : string;
  Year : Z;
  Color : string;
  SeatingCapacity : Z;
  FuelType : FuelType;
  EngineNumber : string;
  ChassisNumber : string;
  RegistrationDate : option GoTime.Time;
  InsuranceExpiry : option GoTime.Time
}.
End VehicleInput.

Module CreateVehicleRequest.
Record t := mk { Vehicle : option VehicleInput.t }.
End CreateVehicleRequest.

Module ListVehiclesRequest.
Record t := mk {
  PageSize : Z;
  PageToken : string;
  StatusFilter : option VehicleStatus;
  VehicleTypeFilter : option string;
  MakeFilter : option string
}.
End ListVehiclesRequest.

Module ListVehiclesResponse.
Record t := mk {
  Vehicles : list Vehicle.t;
  NextPageToken : string;
  TotalCount : Z
}.
End ListVehiclesResponse.

Module UpdateVehicleRequest.
Record t := mk {
  VehicleId : string;
  Vehicle : option VehicleInput.t;
  UpdateMask : option (list string)
}.
End UpdateVehicleRequest.

Module DeleteVehicleRequest.
Record t := mk { VehicleId : string }.
End DeleteVehicleRequest.

Module UpdateVehicleStatusRequest.
Record t := mk { VehicleId : string; Status : VehicleStatus }.
End UpdateVehicleStatusRequest.

(** The [VehicleType] message; its [Id] is the decimal text of the row's
    number. *)
Module VehicleType.
Record t := mk {
  Id : string;
  Name : string;
  Description : string;
  CreatedAt : GoTime.Time
}.
End VehicleType.

Module GetVehicleRequest.
Record t := mk { VehicleId : string }.
End GetVehicleRequest.

Module GetVehiclesByTypeRequest.
Record t := mk {
  VehicleTypeId : string;
  PageSize : Z;
  PageToken : string;
  StatusFilter : option VehicleStatus
}.
End GetVehiclesByTypeRequest.

Module GetAvailableVehiclesRequest.
Record t := mk {
  VehicleTypeId : option string;
  PageSize : Z;
  PageToken : string
}.
End GetAvailableVehiclesRequest.

Module CreateVehicleTypeRequest.
Record t := mk { Name : string; Description : string }.
End CreateVehicleTypeRequest.

Module ListVehicleTypesRequest.
Record t := mk { PageSize : Z; PageToken : string }.
End ListVehicleTypesRequest.

Module ListVehicleTypesResponse.
Record t := mk {
  VehicleTypes : list VehicleType.t;
  NextPageToken : string
}.
End ListVehicleTypesResponse.

End genproto.

(** * services/vehicle/internal/types *)

Module types.
Import genproto.

Module VehicleData.
Record t := mk {
  VehicleTypeID : string;
  LicensePlate : string;
  Make : string;
  Model : string;
  Year : Z;
  Color : string;
  SeatingCapacity : Z;
  FuelType : FuelType;
  EngineNumber : option string;
  ChassisNumber : option string;
  RegistrationDate : option string;
  InsuranceExpiry : option string
}.
End VehicleData.

Module VehicleUpdateFields.
Record t := mk {
  VehicleTypeID : option string;
  LicensePlate : option string;
  Make : option string;
  Model : option string;
  Year : option Z;
  Color : option string;
  SeatingCapacity : option Z;
  FuelType : option FuelType;
  EngineNumber : option string;
  ChassisNumber : option string;
  RegistrationDate : option string;
  InsuranceExpiry : option string
}.
End VehicleUpdateFields.

Module ListVehiclesParams.
Record t := mk {
  PageSize : Z;
  PageToken : string;
  StatusFilter : option VehicleStatus;
  VehicleTypeFilter : option string;
  MakeFilter : option string
}.
End ListVehiclesParams.

(** The sentinel errors of the package, and [fmt.Errorf] wrapping of a driver
    or library error, of which the format text is kept.  No wrapped error has
    a sentinel as its cause, so [errors.Is err sentinel] is equality. *)
Inductive error :=
| ErrVehicleNotFound
| ErrDuplicateEntry
| ErrVehicleTypeNotFound
| ErrInvalidStatus
| ErrVehicleInUse
| Errorf (format : string).

Inductive result (A : Type) :=
| Ok (a : A)
| Err (e : error).
Arguments Ok {A} a.
Arguments Err {A} e.

Definition is_ErrVehicleNotFound (e : error) : bool :=
  match e with ErrVehicleNotFound => true | _ => false end.
Definition is_ErrDuplicateEntry (e : error) : bool :=
  match e with ErrDuplicateEntry => true | _ => false end.

(** A Go map literal, kept as the list of its entries; [lookup] is the
    [v, exists := m[k]] read. *)
Fixpoint lookup {K V : Type} (eqb : K -> K -> bool) (m : list (K * V)) (k : K)
  : option V :=
  match m with
  | [] => None
  | (k', v) :: m' => if eqb k' k then Some v else lookup eqb m' k
  end.

Definition ValidStatusTransitions : list (VehicleStatus * list VehicleStatus) :=
  [ (VehicleStatus_ACTIVE,
      [VehicleStatus_ASSIGNED; VehicleStatus_MAINTENANCE; VehicleStatus_RETIRED]);
    (VehicleStatus_ASSIGNED,
      [VehicleStatus_ACTIVE; VehicleStatus_MAINTENANCE]);
    (VehicleStatus_MAINTENANCE,
      [VehicleStatus_ACTIVE; VehicleStatus_RETIRED]);
    (VehicleStatus_RETIRED, []) ].

Definition IsValidStatusTransition (from to : VehicleStatus) : bool :=
  match lookup VehicleStatus_eqb ValidStatusTransitions from with
  | None => false
  | Some allowedTransitions =>
      existsb (fun allowed => VehicleStatus_eqb allowed to) allowedTransitions
  end.

(** Common vehicle types for SACCO: name and description. *)
Definition StandardVehicleTypes : list (string * string) :=
  [ ("cab", "Taxi cabs for individual passenger transport");
    ("bus", "Large passenger buses for city-to-city routes");
    ("matatu", "Shared taxis for local and regional routes");
    ("bodaboda", "Motorcycle taxis for short distance transport");
    ("truck", "Cargo vehicles for goods transport");
    ("van", "Small passenger or cargo vans");
    ("pickup", "Pickup trucks for light cargo transport") ]%string.

End types.

(** * services/staff/internal/types *)

Module staff_types.
Import genproto.

Definition ValidDriverStatusTransitions : list (DriverStatus * list DriverStatus) :=
  [ (DriverStatus_PENDING_VERIFICATION, [DriverStatus_ACTIVE; DriverStatus_INACTIVE]);
    (DriverStatus_ACTIVE, [DriverStatus_SUSPENDED; DriverStatus_INACTIVE]);
    (DriverStatus_SUSPENDED, [DriverStatus_ACTIVE; DriverStatus_INACTIVE]);
    (DriverStatus_INACTIVE, [DriverStatus_ACTIVE; DriverStatus_PENDING_VERIFICATION]) ].

Definition IsValidDriverStatusTransition (from to : DriverStatus) : bool :=
  match types.lookup DriverStatus_eqb ValidDriverStatusTransitions from with
  | None => false
  | Some allowedTransitions =>
      existsb (fun allowed => DriverStatus_eqb allowed to) allowedTransitions
  end.

End staff_types.

(** * The edge tables of the specification *)

(** The transitions as section 4.5 of the specification lists them, written
    down from its words to be compared with the tables of the two [types]
    packages. *)
Module spec.
Import genproto.

Definition driver_edges : list (DriverStatus * DriverStatus) :=
  [ (DriverStatus_PENDING_VERIFICATION, DriverStatus_ACTIVE);
    (DriverStatus_PENDING_VERIFICATION, DriverStatus_INACTIVE);
    (DriverStatus_ACTIVE, DriverStatus_SUSPENDED);
    (DriverStatus_ACTIVE, DriverStatus_INACTIVE);
    (DriverStatus_SUSPENDED, DriverStatus_ACTIVE);
    (DriverStatus_SUSPENDED, DriverStatus_INACTIVE);
    (DriverStatus_INACTIVE, DriverStatus_ACTIVE);
    (DriverStatus_INACTIVE, DriverStatus_PENDING_VERIFICATION) ].

Definition vehicle_edges : list (VehicleStatus * VehicleStatus) :=
  [ (VehicleStatus_ACTIVE, VehicleStatus_ASSIGNED);
    (VehicleStatus_ACTIVE, VehicleStatus_MAINTENANCE);
    (VehicleStatus_ACTIVE, VehicleStatus_RETIRED);
    (VehicleStatus_ASSIGNED, VehicleStatus_ACTIVE);
    (VehicleStatus_ASSIGNED, VehicleStatus_MAINTENANCE);
    (VehicleStatus_MAINTENANCE, VehicleStatus_ACTIVE);
    (VehicleStatus_MAINTENANCE, VehicleStatus_RETIRED) ].

End spec.

(** * services/vehicle/internal/store *)

(** The MySQL database behind [*sql.DB] is a pair of tables.  [DATETIME]
    columns hold a wall-clock reading without a zone; the session zone is taken
    to be UTC, so a column read back is that reading in UTC.  Text is compared
    byte by byte (a binary collation), and limits on column length are left
    out.  The columns [vehicle_types.id] and [vehicles.vehicle_type_id] are
    [INT] columns and hold numbers, while the code binds Go strings to the
    parameters that meet them: the engine converts, and its conversion is the
    interface [Engine] below.  Connection failures are not part of the model:
    a statement either runs or is refused by the engine. *)
Module store.
Import genproto types GoTime.
Local Open Scope string_scope.

Module VehicleRow.
Record t := mk {
  internal_id : Z;
  external_id : UUID;
  vehicle_type_id : Z;
  license_plate : string;
  make : string;
  model : string;
  year : Z;
  color : string;
  seating_capacity : Z;
  fuel_type : FuelType;
  engine_number : option string;
  chassis_number : option string;
  registration_date : option DateTime;
  insurance_expiry : option DateTime;
  status : VehicleStatus;
  created_at : DateTime;
  updated_at : DateTime
}.
End VehicleRow.

Module VehicleTypeRow.
Record t := mk {
  id : Z;
  name : string;
  description : string;
  created_at : DateTime
}.
End VehicleTypeRow.

Record DB := mkDB {
  vehicles : list VehicleRow.t;
  vehicle_types : list VehicleTypeRow.t
}.

Record MySQLError := mkMySQLError { Number : Z }.

Definition ER_DUP_ENTRY : Z := 1062.
Definition ER_NO_REFERENCED_ROW_2 : Z := 1452.
Definition WARN_DATA_TRUNCATED : Z := 1265.
Definition ER_TRUNCATED_WRONG_VALUE_FOR_FIELD : Z := 1366.

(** [strconv.FormatInt(i, 10)]: the text that [Scan] reads an [INT] column
    into, and that of [fmt.Sprintf("%d", i)]. *)
Definition FormatInt (i : Z) : string :=
  string_of_list_ascii
    ((if (i <? 0)%Z then ["-"%char] else [])
     ++ utoa (S (Z.to_nat (Z.log2 (Z.abs i)))) (Z.abs i)).

(** What the engine makes of a text parameter that meets an [INT] column.
    [int_eq n s] is the comparison [col = ?] of a column that holds [n] with
    the parameter [s], which the engine decides on the number it reads [s]
    as, so that the text [01] equals the number 1.  [int_of s] is the number
    that the column takes when [s] is assigned to it in an [INSERT] or an
    [UPDATE]; there is none when the engine refuses the text, as it does in
    strict mode for a text that is not a number.  Both depend on the version
    and the mode of the server, and nothing is assumed of them but that a
    number equals its own decimal text. *)
Class Engine := {
  int_eq : Z -> string -> bool;
  int_of : string -> option Z;
  int_eq_FormatInt : forall n : Z, int_eq n (FormatInt n) = true
}.

Definition DateTime_eq_dec (a b : DateTime) : {a = b} + {a <> b}.
Proof. decide equality; apply Z.eq_dec. Defined.

Definition VehicleRow_eq_dec (a b : VehicleRow.t) : {a = b} + {a <> b}.
Proof.
  decide equality;
    try apply Z.eq_dec; try apply N.eq_dec; try apply string_dec;
    try apply DateTime_eq_dec;
    try (decide equality; (apply string_dec || apply DateTime_eq_dec));
    decide equality.
Defined.

Section Statements.
Context {G : Engine}.

(** ** Query evaluation *)

(** [FROM vehicles v INNER JOIN vehicle_types vt ON v.vehicle_type_id = vt.id] *)
Definition joinVehicleTypes (db : DB) : list (VehicleRow.t * VehicleTypeRow.t) :=
  flat_map
    (fun v =>
       map (fun vt => (v, vt))
           (filter (fun vt => (VehicleTypeRow.id vt =? VehicleRow.vehicle_type_id v)%Z)
                   (vehicle_types db)))
    (vehicles db).

(** [s LIKE pat]: [%] matches any run of characters, [_] one character, and a
    backslash takes the next pattern character literally. *)
Fixpoint like (pat s : list ascii) : bool :=
  match pat with
  | [] => match s with [] => true | _ :: _ => false end
  | "%"%char :: pat' =>
      (fix star (s : list ascii) : bool :=
         like pat' s || match s with [] => false | _ :: s' => star s' end) s
  | "_"%char :: pat' =>
      match s with [] => false | _ :: s' => like pat' s' end
  | "\"%char :: c :: pat' =>
      match s with [] => false | d :: s' => Ascii.eqb c d && like pat' s' end
  | c :: pat' =>
      match s with [] => false | d :: s' => Ascii.eqb c d && like pat' s' end
  end.

Definition LIKE (s pat : string) : bool :=
  like (list_ascii_of_string pat) (list_ascii_of_string s).

(** [created_at > ?] with a text parameter: the text is read as the instant it
    denotes; a text that denotes none compares as NULL, which selects nothing. *)
Definition created_after (created_at : DateTime) (cursorStr : string) : bool :=
  match parseRFC3339 (list_ascii_of_string cursorStr) with
  | Some cursor => After (Date created_at) cursor
  | None => false
  end.

(** [ORDER BY v.created_at DESC]; rows of equal [created_at] keep table order. *)
Fixpoint insertDesc (x : VehicleRow.t * VehicleTypeRow.t)
  (l : list (VehicleRow.t * VehicleTypeRow.t)) : list (VehicleRow.t * VehicleTypeRow.t) :=
  match l with
  | [] => [x]
  | y :: l' =>
      if After (Date (VehicleRow.created_at (fst y))) (Date (VehicleRow.created_at (fst x)))
      then y :: insertDesc x l'
      else x :: l
  end.

Definition orderByCreatedAtDesc (l : list (VehicleRow.t * VehicleTypeRow.t))
  : list (VehicleRow.t * VehicleTypeRow.t) :=
  fold_right insertDesc [] l.

Definition LIMIT {A : Type} (n : Z) (l : list A) : list A := firstn (Z.to_nat n) l.

(** The Go slice expression [l[:n]] *)
Definition slice_to {A : Type} (l : list A) (n : Z) : list A := firstn (Z.to_nat n) l.

Definition getVehicleByIDQuery (db : DB) (externalID : UUID)
  : list (VehicleRow.t * VehicleTypeRow.t) :=
  LIMIT 1 (filter (fun r => N.eqb (VehicleRow.external_id (fst r)) externalID)
                  (joinVehicleTypes db)).

Definition getVehicleByLicensePlateQuery (db : DB) (licensePlate : string)
  : list (VehicleRow.t * VehicleTypeRow.t) :=
  LIMIT 1 (filter (fun r => String.eqb (VehicleRow.license_plate (fst r)) licensePlate)
                  (joinVehicleTypes db)).

Definition listVehiclesWhere (statusStr vehicleTypeStr makePattern cursorStr : string)
  (v : VehicleRow.t) : bool :=
  (String.eqb statusStr "" || String.eqb (VehicleStatus_String (VehicleRow.status v)) statusStr)
  && (String.eqb vehicleTypeStr "" || int_eq (VehicleRow.vehicle_type_id v) vehicleTypeStr)
  && (String.eqb makePattern "" || LIKE (VehicleRow.make v) makePattern)
  && (String.eqb cursorStr "" || created_after (VehicleRow.created_at v) cursorStr).

Definition listVehiclesQuery (db : DB)
  (statusStr vehicleTypeStr makePattern cursorStr : string) (limit : Z)
  : list (VehicleRow.t * VehicleTypeRow.t) :=
  LIMIT limit
    (orderByCreatedAtDesc
       (filter (fun r => listVehiclesWhere statusStr vehicleTypeStr makePattern cursorStr (fst r))
               (joinVehicleTypes db))).

Definition getVehicleTypeByIDQuery (db : DB) (typeID : string) : list VehicleTypeRow.t :=
  filter (fun vt => int_eq (VehicleTypeRow.id vt) typeID) (vehicle_types db).

(** The value of an [INT] column assigned from a text parameter.  A text that
    the engine refuses fails the statement, with error 1366 or 1265, neither
    of which the code tells from any other error but 1062. *)
Definition assignInt (s : string) : MySQLError + Z :=
  match int_of s with
  | Some n => inr n
  | None => inl (mkMySQLError ER_TRUNCATED_WRONG_VALUE_FOR_FIELD)
  end.

(** An [UPDATE vehicles SET ... WHERE ...]: every selected row is assigned; the
    statement is refused as a whole when an assignment is; the count is of the
    rows whose stored value changed, which is what [RowsAffected] reports. *)
Definition sqlUpdate (rows : list VehicleRow.t) (where_ : VehicleRow.t -> bool)
  (set : VehicleRow.t -> MySQLError + VehicleRow.t)
  : MySQLError + (list VehicleRow.t * Z) :=
  fold_right
    (fun r acc =>
       match acc with
       | inl e => inl e
       | inr (rs, n) =>
           if where_ r then
             match set r with
             | inl e => inl e
             | inr r' => inr (r' :: rs, if VehicleRow_eq_dec r' r then n else n + 1)
             end
           else inr (r :: rs, n)
       end)
    (inr ([], 0)) rows.

(** [INSERT INTO vehicles] of a row whose values the engine has taken: the
    primary key and the two unique keys, then the foreign key to
    [vehicle_types]. *)
Definition sqlInsert (db : DB) (row : VehicleRow.t) : MySQLError + DB :=
  if existsb (fun r => (VehicleRow.internal_id r =? VehicleRow.internal_id row)%Z
                       || N.eqb (VehicleRow.external_id r) (VehicleRow.external_id row)
                       || String.eqb (VehicleRow.license_plate r) (VehicleRow.license_plate row))
             (vehicles db)
  then inl (mkMySQLError ER_DUP_ENTRY)
  else if negb (existsb (fun vt => (VehicleTypeRow.id vt =? VehicleRow.vehicle_type_id row)%Z)
                        (vehicle_types db))
  then inl (mkMySQLError ER_NO_REFERENCED_ROW_2)
  else inr (mkDB (vehicles db ++ [row]) (vehicle_types db)).

(** The constraints of the schema that the single-row reads rely on: the
    foreign key from [vehicles] to [vehicle_types], and the unique key on
    [external_id]. *)
Definition foreign_key (db : DB) : bool :=
  forallb (fun v => existsb (fun vt => (VehicleTypeRow.id vt =? VehicleRow.vehicle_type_id v)%Z)
                            (vehicle_types db))
          (vehicles db).

Fixpoint distinct (l : list UUID) : bool :=
  match l with
  | [] => true
  | x :: l' => negb (existsb (N.eqb x) l') && distinct l'
  end.

Definition unique_external_id (db : DB) : bool :=
  distinct (map VehicleRow.external_id (vehicles db)).

Definition constraints (db : DB) : bool := foreign_key db && unique_external_id db.

(** ** Helper functions *)

Definition populateVehicle (vehicle : Vehicle.t) (statusStr fuelTypeStr : string)
  (engineNumber chassisNumber : option string)
  (registrationDate insuranceExpiry : option DateTime)
  (createdAt updatedAt : DateTime) : result Vehicle.t :=
  match VehicleStatus_value statusStr with
  | None => Err (Errorf "invalid status value: %s")
  | Some statusVal =>
      match FuelType_value fuelTypeStr with
      | None => Err (Errorf "invalid fuel type value: %s")
      | Some fuelTypeVal =>
          Ok (Vehicle.mk
                (Vehicle.Id vehicle)
                (Vehicle.VehicleTypeId vehicle)
                (Vehicle.VehicleTypeName vehicle)
                (Vehicle.LicensePlate vehicle)
                (Vehicle.Make vehicle)
                (Vehicle.Model vehicle)
                (Vehicle.Year vehicle)
                (Vehicle.Color vehicle)
                (Vehicle.SeatingCapacity vehicle)
                fuelTypeVal
                (match engineNumber with Some s => s | None => Vehicle.EngineNumber vehicle end)
                (match chassisNumber with Some s => s | None => Vehicle.ChassisNumber vehicle end)
                (match registrationDate with
                 | Some d => Some (Date d)
                 | None => Vehicle.RegistrationDate vehicle
                 end)
                (match insuranceExpiry with
                 | Some d => Some (Date d)
                 | None => Vehicle.InsuranceExpiry vehicle
                 end)
                statusVal
                (Date createdAt)
                (Date updatedAt))
      end
  end.

(** [rows.Scan] into a zero [Vehicle] and the local variables, then
    [populateVehicle].  The number of [vehicle_type_id] is scanned into a
    string field. *)
Definition scanVehicleFromRows (r : VehicleRow.t * VehicleTypeRow.t) : result Vehicle.t :=
  let (v, vt) := r in
  populateVehicle
    (Vehicle.mk (VehicleRow.external_id v) (FormatInt (VehicleRow.vehicle_type_id v))
       (VehicleTypeRow.name vt) (VehicleRow.license_plate v) (VehicleRow.make v)
       (VehicleRow.model v) (VehicleRow.year v) (VehicleRow.color v)
       (VehicleRow.seating_capacity v) FuelType_FUEL_UNSPECIFIED "" "" None None
       VehicleStatus_STATUS_UNSPECIFIED zeroTime zeroTime)
    (VehicleStatus_String (VehicleRow.status v))
    (FuelType_String (VehicleRow.fuel_type v))
    (VehicleRow.engine_number v) (VehicleRow.chassis_number v)
    (VehicleRow.registration_date v) (VehicleRow.insurance_expiry v)
    (VehicleRow.created_at v) (VehicleRow.updated_at v).

(** [QueryRowContext] and [scanVehicleFromRow]: the first row, or
    [sql.ErrNoRows], reported here as [None]. *)
Definition scanVehicle (rows : list (VehicleRow.t * VehicleTypeRow.t))
  : option (result Vehicle.t) :=
  match rows with
  | [] => None
  | r :: _ => Some (scanVehicleFromRows r)
  end.

(** ** Store operations *)

Definition GetVehicleTypeByID (db : DB) (typeID : string) : result VehicleTypeRow.t :=
  match getVehicleTypeByIDQuery db typeID with
  | [] => Err ErrVehicleTypeNotFound
  | vt :: _ => Ok vt
  end.

Definition GetVehicleByID (db : DB) (externalID : UUID) : result Vehicle.t :=
  match scanVehicle (getVehicleByIDQuery db externalID) with
  | None => Err ErrVehicleNotFound
  | Some (Err _) => Err (Errorf "failed to get vehicle by ID: %w")
  | Some (Ok vehicle) => Ok vehicle
  end.

Definition GetVehicleByLicensePlate (db : DB) (licensePlate : string) : result Vehicle.t :=
  match scanVehicle (getVehicleByLicensePlateQuery db licensePlate) with
  | None => Err ErrVehicleNotFound
  | Some (Err _) => Err (Errorf "failed to get vehicle by license plate: %w")
  | Some (Ok vehicle) => Ok vehicle
  end.

Definition CreateVehicle (db : DB) (now : DateTime) (internalID : Z) (externalID : UUID)
  (vehicle : VehicleData.t) : DB * option error :=
  let engineNumber := VehicleData.EngineNumber vehicle in
  let chassisNumber := VehicleData.ChassisNumber vehicle in
  let registrationDate :=
    match VehicleData.RegistrationDate vehicle with
    | Some s => Parse_Date s
    | None => None
    end in
  let insuranceExpiry :=
    match VehicleData.InsuranceExpiry vehicle with
    | Some s => Parse_Date s
    | None => None
    end in
  match (match assignInt (VehicleData.VehicleTypeID vehicle) with
         | inl mysqlErr => inl mysqlErr
         | inr vehicleTypeID =>
             sqlInsert db
               (VehicleRow.mk internalID externalID
                  vehicleTypeID (VehicleData.LicensePlate vehicle)
                  (VehicleData.Make vehicle) (VehicleData.Model vehicle)
                  (VehicleData.Year vehicle) (VehicleData.Color vehicle)
                  (VehicleData.SeatingCapacity vehicle) (VehicleData.FuelType vehicle)
                  engineNumber chassisNumber registrationDate insuranceExpiry
                  VehicleStatus_ACTIVE now now)
         end) with
  | inl mysqlErr =>
      if (Number mysqlErr =? 1062)%Z then (db, Some ErrDuplicateEntry)
      else (db, Some (Errorf "failed to insert vehicle: %w"))
  | inr db' => (db', None)
  end.

(** The page token read at the head of [ListVehicles]. *)
Definition decodePageToken (PageToken : string) : result Time :=
  if String.eqb PageToken "" then Ok zeroTime
  else
    match Base64.DecodeString PageToken with
    | None => Err (Errorf "invalid page token: %w")
    | Some decoded =>
        match UnmarshalText decoded with
        | None => Err (Errorf "invalid page token format: %w")
        | Some cursorTime => Ok cursorTime
        end
    end.

(** The page token written at the end of [ListVehicles]. *)
Definition encodePageToken (lastCreatedAt : Time) : result string :=
  match MarshalText lastCreatedAt with
  | None => Err (Errorf "failed to create next page token: %w")
  | Some tokenBytes => Ok (Base64.EncodeToString tokenBytes)
  end.

(** The [for rows.Next()] loop: the vehicles scanned so far and the
    [created_at] of the row scanned last. *)
Fixpoint scanRows (rows : list (VehicleRow.t * VehicleTypeRow.t))
  (vehicles : list Vehicle.t) (lastCreatedAt : Time) : result (list Vehicle.t * Time) :=
  match rows with
  | [] => Ok (vehicles, lastCreatedAt)
  | r :: rows' =>
      match scanVehicleFromRows r with
      | Err _ => Err (Errorf "failed to scan vehicle: %w")
      | Ok vehicle => scanRows rows' (vehicles ++ [vehicle]) (Vehicle.CreatedAt vehicle)
      end
  end.

Definition ListVehicles (db : DB) (params : ListVehiclesParams.t)
  : result (list Vehicle.t * string) :=
  let PageSize :=
    if ((ListVehiclesParams.PageSize params <=? 0)
        || (100 <? ListVehiclesParams.PageSize params))%Z
    then 50%Z else ListVehiclesParams.PageSize params in
  match decodePageToken (ListVehiclesParams.PageToken params) with
  | Err e => Err e
  | Ok cursorTime =>
      let statusStr :=
        match ListVehiclesParams.StatusFilter params with
        | Some s => VehicleStatus_String s
        | None => ""
        end in
      let vehicleTypeStr :=
        match ListVehiclesParams.VehicleTypeFilter params with
        | Some s => s
        | None => ""
        end in
      let makePattern :=
        match ListVehiclesParams.MakeFilter params with
        | Some m => "%" ++ m ++ "%"
        | None => ""
        end in
      let cursorStr := if IsZero cursorTime then "" else Format_RFC3339Nano cursorTime in
      let rows :=
        listVehiclesQuery db statusStr vehicleTypeStr makePattern cursorStr (PageSize + 1)%Z in
      match scanRows rows [] zeroTime with
      | Err e => Err e
      | Ok (vehicles, lastCreatedAt) =>
          if (PageSize <? Z.of_nat (List.length vehicles))%Z then
            match encodePageToken lastCreatedAt with
            | Err e => Err e
            | Ok nextPageToken => Ok (slice_to vehicles PageSize, nextPageToken)
            end
          else Ok (vehicles, "")
      end
  end.

Definition inPaths (paths : list string) (path : string) : bool :=
  existsb (fun p => String.eqb p path) paths.

Definition isSome {A : Type} (o : option A) : bool :=
  match o with Some _ => true | None => false end.

(** The flag of one column: set by a path of the mask when there is a mask,
    by the presence of the field when there is none. *)
Definition updateFlag {A : Type} (updateMask : option (list string)) (path : string)
  (field : option A) : bool :=
  match updateMask with
  | Some paths => inPaths paths path
  | None => isSome field
  end.

(** [if flag && field != nil { v = *field }], [v] starting from its zero value *)
Definition updateValue {A : Type} (flag : bool) (field : option A) (zero : A) : A :=
  if flag then match field with Some v => v | None => zero end else zero.

Definition updateNull {A : Type} (flag : bool) (field : option A) : option A :=
  if flag then field else None.

Definition updateDate (flag : bool) (field : option string) : option DateTime :=
  if flag then match field with Some s => Parse_Date s | None => None end else None.

(** [col = CASE WHEN ? THEN ? ELSE col END] *)
Definition CASE {A : Type} (flag : bool) (value col : A) : A :=
  if flag then value else col.

Definition UpdateVehicle (db : DB) (now : DateTime) (externalID : UUID)
  (updates : VehicleUpdateFields.t) (updateMask : option (list string))
  : DB * result Vehicle.t :=
  let updateVehicleTypeID :=
    updateFlag updateMask "vehicle_type_id" (VehicleUpdateFields.VehicleTypeID updates) in
  let updateLicensePlate :=
    updateFlag updateMask "license_plate" (VehicleUpdateFields.LicensePlate updates) in
  let updateMake := updateFlag updateMask "make" (VehicleUpdateFields.Make updates) in
  let updateModel := updateFlag updateMask "model" (VehicleUpdateFields.Model updates) in
  let updateYear := updateFlag updateMask "year" (VehicleUpdateFields.Year updates) in
  let updateColor := updateFlag updateMask "color" (VehicleUpdateFields.Color updates) in
  let updateSeatingCapacity :=
    updateFlag updateMask "seating_capacity" (VehicleUpdateFields.SeatingCapacity updates) in
  let updateFuelType :=
    updateFlag updateMask "fuel_type" (VehicleUpdateFields.FuelType updates) in
  let updateEngineNumber :=
    updateFlag updateMask "engine_number" (VehicleUpdateFields.EngineNumber updates) in
  let updateChassisNumber :=
    updateFlag updateMask "chassis_number" (VehicleUpdateFields.ChassisNumber updates) in
  let updateRegistrationDate :=
    updateFlag updateMask "registration_date" (VehicleUpdateFields.RegistrationDate updates) in
  let updateInsuranceExpiry :=
    updateFlag updateMask "insurance_expiry" (VehicleUpdateFields.InsuranceExpiry updates) in
  let vehicleTypeID :=
    updateValue updateVehicleTypeID (VehicleUpdateFields.VehicleTypeID updates) "" in
  let licensePlate :=
    updateValue updateLicensePlate (VehicleUpdateFields.LicensePlate updates) "" in
  let make := updateValue updateMake (VehicleUpdateFields.Make updates) "" in
  let model := updateValue updateModel (VehicleUpdateFields.Model updates) "" in
  let year := updateValue updateYear (VehicleUpdateFields.Year updates) 0%Z in
  let color := updateValue updateColor (VehicleUpdateFields.Color updates) "" in
  let seatingCapacity :=
    updateValue updateSeatingCapacity (VehicleUpdateFields.SeatingCapacity updates) 0%Z in
  let fuelType :=
    updateValue updateFuelType
      (option_map FuelType_String (VehicleUpdateFields.FuelType updates)) "" in
  let engineNumber := updateNull updateEngineNumber (VehicleUpdateFields.EngineNumber updates) in
  let chassisNumber :=
    updateNull updateChassisNumber (VehicleUpdateFields.ChassisNumber updates) in
  let registrationDate :=
    updateDate updateRegistrationDate (VehicleUpdateFields.RegistrationDate updates) in
  let insuranceExpiry :=
    updateDate updateInsuranceExpiry (VehicleUpdateFields.InsuranceExpiry updates) in
  let set (r : VehicleRow.t) : MySQLError + VehicleRow.t :=
    match (if updateVehicleTypeID then assignInt vehicleTypeID
           else inr (VehicleRow.vehicle_type_id r)) with
    | inl mysqlErr => inl mysqlErr
    | inr typeID =>
    match (if updateFuelType then FuelType_value fuelType
           else Some (VehicleRow.fuel_type r)) with
    | None => inl (mkMySQLError WARN_DATA_TRUNCATED)
    | Some fuel =>
        let r' :=
          VehicleRow.mk
            (VehicleRow.internal_id r)
            (VehicleRow.external_id r)
            typeID
            (CASE updateLicensePlate licensePlate (VehicleRow.license_plate r))
            (CASE updateMake make (VehicleRow.make r))
            (CASE updateModel model (VehicleRow.model r))
            (CASE updateYear year (VehicleRow.year r))
            (CASE updateColor color (VehicleRow.color r))
            (CASE updateSeatingCapacity seatingCapacity (VehicleRow.seating_capacity r))
            fuel
            (CASE updateEngineNumber engineNumber (VehicleRow.engine_number r))
            (CASE updateChassisNumber chassisNumber (VehicleRow.chassis_number r))
            (CASE updateRegistrationDate registrationDate (VehicleRow.registration_date r))
            (CASE updateInsuranceExpiry insuranceExpiry (VehicleRow.insurance_expiry r))
            (VehicleRow.status r)
            (VehicleRow.created_at r)
            now in
        if negb (String.eqb (VehicleRow.license_plate r') (VehicleRow.license_plate r))
           && existsb (fun o => String.eqb (VehicleRow.license_plate o)
                                           (VehicleRow.license_plate r'))
                      (vehicles db)
        then inl (mkMySQLError ER_DUP_ENTRY)
        else if negb (VehicleRow.vehicle_type_id r' =? VehicleRow.vehicle_type_id r)%Z
                && negb (existsb (fun vt => (VehicleTypeRow.id vt
                                             =? VehicleRow.vehicle_type_id r')%Z)
                                 (vehicle_types db))
        then inl (mkMySQLError ER_NO_REFERENCED_ROW_2)
        else inr r'
    end
    end in
  match sqlUpdate (vehicles db)
          (fun r => N.eqb (VehicleRow.external_id r) externalID) set with
  | inl mysqlErr =>
      if (Number mysqlErr =? 1062)%Z then (db, Err ErrDuplicateEntry)
      else (db, Err (Errorf "failed to update vehicle: %w"))
  | inr (rows, rowsAffected) =>
      if (rowsAffected =? 0)%Z then (db, Err ErrVehicleNotFound)
      else
        let db' := mkDB rows (vehicle_types db) in
        (db', GetVehicleByID db' externalID)
  end.

Definition with_status (r : VehicleRow.t) (status : VehicleStatus) (now : DateTime)
  : VehicleRow.t :=
  VehicleRow.mk
    (VehicleRow.internal_id r) (VehicleRow.external_id r) (VehicleRow.vehicle_type_id r)
    (VehicleRow.license_plate r) (VehicleRow.make r) (VehicleRow.model r)
    (VehicleRow.year r) (VehicleRow.color r) (VehicleRow.seating_capacity r)
    (VehicleRow.fuel_type r) (VehicleRow.engine_number r) (VehicleRow.chassis_number r)
    (VehicleRow.registration_date r) (VehicleRow.insurance_expiry r)
    status (VehicleRow.created_at r) now.

Definition UpdateVehicleStatus (db : DB) (now : DateTime) (externalID : UUID)
  (status : VehicleStatus) : DB * result Vehicle.t :=
  match sqlUpdate (vehicles db)
          (fun r => N.eqb (VehicleRow.external_id r) externalID)
          (fun r => inr (with_status r status now)) with
  | inl _ => (db, Err (Errorf "failed to update vehicle status: %w"))
  | inr (rows, rowsAffected) =>
      let db' := mkDB rows (vehicle_types db) in
      if (rowsAffected =? 0)%Z then (db', Err ErrVehicleNotFound)
      else (db', GetVehicleByID db' externalID)
  end.

Definition deleteVehicleWhere (externalID : UUID) (r : VehicleRow.t) : bool :=
  N.eqb (VehicleRow.external_id r) externalID
  && negb (String.eqb (VehicleStatus_String (VehicleRow.status r)) "RETIRED").

Definition DeleteVehicle (db : DB) (now : DateTime) (externalID : UUID)
  : DB * option error :=
  match sqlUpdate (vehicles db) (deleteVehicleWhere externalID)
          (fun r => inr (with_status r VehicleStatus_RETIRED now)) with
  | inl _ => (db, Some (Errorf "failed to delete vehicle: %w"))
  | inr (rows, rowsAffected) =>
      let db' := mkDB rows (vehicle_types db) in
      if (rowsAffected =? 0)%Z then (db', Some ErrVehicleNotFound)
      else (db', None)
  end.

(** ** Predicates on stores and rows *)

(** The two constraints as propositions. *)
Definition fk_ok (db : DB) : Prop :=
  Forall (fun v => exists vt, In vt (vehicle_types db)
                              /\ VehicleTypeRow.id vt = VehicleRow.vehicle_type_id v)
         (vehicles db).

Definition unique_ids (db : DB) : Prop :=
  NoDup (map VehicleRow.external_id (vehicles db)).

Definition wf (db : DB) : Prop := fk_ok db /\ unique_ids db.

(** The rows of the join that one vehicle contributes. *)
Definition typesOf (db : DB) (v : VehicleRow.t) : list (VehicleRow.t * VehicleTypeRow.t) :=
  map (fun vt => (v, vt))
      (filter (fun vt => (VehicleTypeRow.id vt =? VehicleRow.vehicle_type_id v)%Z)
              (vehicle_types db)).

(** Whether an assignment changes the stored value of a row. *)
Definition changed (f : VehicleRow.t -> VehicleRow.t) (r : VehicleRow.t) : bool :=
  if VehicleRow_eq_dec (f r) r then false else true.

(** Every column but [make] and [updated_at] *)
Definition unmasked_columns_equal (r r' : VehicleRow.t) : Prop :=
  VehicleRow.internal_id r' = VehicleRow.internal_id r
  /\ VehicleRow.external_id r' = VehicleRow.external_id r
  /\ VehicleRow.vehicle_type_id r' = VehicleRow.vehicle_type_id r
  /\ VehicleRow.license_plate r' = VehicleRow.license_plate r
  /\ VehicleRow.model r' = VehicleRow.model r
  /\ VehicleRow.year r' = VehicleRow.year r
  /\ VehicleRow.color r' = VehicleRow.color r
  /\ VehicleRow.seating_capacity r' = VehicleRow.seating_capacity r
  /\ VehicleRow.fuel_type r' = VehicleRow.fuel_type r
  /\ VehicleRow.engine_number r' = VehicleRow.engine_number r
  /\ VehicleRow.chassis_number r' = VehicleRow.chassis_number r
  /\ VehicleRow.registration_date r' = VehicleRow.registration_date r
  /\ VehicleRow.insurance_expiry r' = VehicleRow.insurance_expiry r
  /\ VehicleRow.status r' = VehicleRow.status r
  /\ VehicleRow.created_at r' = VehicleRow.created_at r.

(** A stored row before and after an update of the vehicle [externalID] under
    the mask [make]: another vehicle's row is untouched, and this vehicle's row
    is untouched or has the new [make] and [updated_at] and its other columns
    as they were. *)
Definition make_only (externalID : UUID) (make : string) (now : DateTime)
  (r r' : VehicleRow.t) : Prop :=
  unmasked_columns_equal r r'
  /\ (VehicleRow.external_id r <> externalID -> r' = r)
  /\ (r' = r \/ (VehicleRow.make r' = make /\ VehicleRow.updated_at r' = now)).

(** The row of [externalID] moved to RETIRED, any other row as it is. *)
Definition retire (externalID : UUID) (now : DateTime) (r : VehicleRow.t) : VehicleRow.t :=
  if N.eqb (VehicleRow.external_id r) externalID
  then with_status r VehicleStatus_RETIRED now else r.

(** No stored vehicle has the status STATUS_UNSPECIFIED. *)
Definition specified (db : DB) : Prop :=
  Forall (fun r => VehicleRow.status r <> VehicleStatus_STATUS_UNSPECIFIED) (vehicles db).

(** ** Specialized queries *)

Definition GetVehiclesByType (db : DB) (vehicleTypeID : string)
  (params : ListVehiclesParams.t) : result (list Vehicle.t * string) :=
  ListVehicles db
    (ListVehiclesParams.mk
       (ListVehiclesParams.PageSize params)
       (ListVehiclesParams.PageToken params)
       (ListVehiclesParams.StatusFilter params)
       (Some vehicleTypeID)
       (ListVehiclesParams.MakeFilter params)).

Definition getAvailableVehiclesWhere (vehicleTypeStr cursorStr : string)
  (v : VehicleRow.t) : bool :=
  String.eqb (VehicleStatus_String (VehicleRow.status v)) "ACTIVE"
  && (String.eqb vehicleTypeStr "" || int_eq (VehicleRow.vehicle_type_id v) vehicleTypeStr)
  && (String.eqb cursorStr "" || created_after (VehicleRow.created_at v) cursorStr).

Definition getAvailableVehiclesQuery (db : DB) (vehicleTypeStr cursorStr : string)
  (limit : Z) : list (VehicleRow.t * VehicleTypeRow.t) :=
  LIMIT limit
    (orderByCreatedAtDesc
       (filter (fun r => getAvailableVehiclesWhere vehicleTypeStr cursorStr (fst r))
               (joinVehicleTypes db))).

Definition GetAvailableVehicles (db : DB) (vehicleTypeID : option string)
  (params : ListVehiclesParams.t) : result (list Vehicle.t * string) :=
  let PageSize :=
    if ((ListVehiclesParams.PageSize params <=? 0)
        || (100 <? ListVehiclesParams.PageSize params))%Z
    then 50%Z else ListVehiclesParams.PageSize params in
  match decodePageToken (ListVehiclesParams.PageToken params) with
  | Err e => Err e
  | Ok cursorTime =>
      let vehicleTypeStr :=
        match vehicleTypeID with
        | Some s => s
        | None => ""
        end in
      let cursorStr := if IsZero cursorTime then "" else Format_RFC3339Nano cursorTime in
      let rows := getAvailableVehiclesQuery db vehicleTypeStr cursorStr (PageSize + 1)%Z in
      match scanRows rows [] zeroTime with
      | Err e => Err e
      | Ok (vehicles, lastCreatedAt) =>
          if (PageSize <? Z.of_nat (List.length vehicles))%Z then
            match encodePageToken lastCreatedAt with
            | Err e => Err e
            | Ok nextPageToken => Ok (slice_to vehicles PageSize, nextPageToken)
            end
          else Ok (vehicles, "")
      end
  end.

(** ** Vehicle type operations *)

(** [Scan] of a [vehicle_types] row into the message. *)
Definition scanVehicleType (vt : VehicleTypeRow.t) : VehicleType.t :=
  VehicleType.mk (FormatInt (VehicleTypeRow.id vt)) (VehicleTypeRow.name vt)
    (VehicleTypeRow.description vt) (Date (VehicleTypeRow.created_at vt)).

Definition getVehicleTypeByNameQuery (db : DB) (name : string) : list VehicleTypeRow.t :=
  filter (fun vt => String.eqb (VehicleTypeRow.name vt) name) (vehicle_types db).

Definition GetVehicleTypeByName (db : DB) (name : string) : result VehicleType.t :=
  match getVehicleTypeByNameQuery db name with
  | [] => Err ErrVehicleTypeNotFound
  | vt :: _ => Ok (scanVehicleType vt)
  end.

(** [INSERT INTO vehicle_types (name, description, created_at)]: the unique
    key on [name].  The number of the row comes from the engine's
    [AUTO_INCREMENT] counter, which is above every number in the table; it is
    the [id] of the row handed in, and what [LastInsertId] returns. *)
Definition sqlInsertType (db : DB) (row : VehicleTypeRow.t) : MySQLError + DB :=
  if existsb (fun vt => String.eqb (VehicleTypeRow.name vt) (VehicleTypeRow.name row))
             (vehicle_types db)
  then inl (mkMySQLError ER_DUP_ENTRY)
  else inr (mkDB (vehicles db) (vehicle_types db ++ [row])).

Definition CreateVehicleType (db : DB) (now : DateTime) (LastInsertId : Z)
  (name description : string) : DB * result VehicleType.t :=
  match sqlInsertType db
          (VehicleTypeRow.mk LastInsertId name description now) with
  | inl mysqlErr =>
      if (Number mysqlErr =? 1062)%Z then (db, Err ErrDuplicateEntry)
      else (db, Err (Errorf "failed to create vehicle type: %w"))
  | inr db' =>
      (db', Ok (VehicleType.mk (FormatInt LastInsertId) name description (Date now)))
  end.

(** [ORDER BY created_at DESC] on [vehicle_types]; rows of equal [created_at]
    keep table order. *)
Fixpoint insertTypeDesc (x : VehicleTypeRow.t) (l : list VehicleTypeRow.t)
  : list VehicleTypeRow.t :=
  match l with
  | [] => [x]
  | y :: l' =>
      if After (Date (VehicleTypeRow.created_at y)) (Date (VehicleTypeRow.created_at x))
      then y :: insertTypeDesc x l'
      else x :: l
  end.

Definition listVehicleTypesQuery (db : DB) (cursorStr : string) (limit : Z)
  : list VehicleTypeRow.t :=
  LIMIT limit
    (fold_right insertTypeDesc []
       (filter (fun vt => String.eqb cursorStr ""
                          || created_after (VehicleTypeRow.created_at vt) cursorStr)
               (vehicle_types db))).

(** The [for rows.Next()] loop of [ListVehicleTypes]. *)
Fixpoint scanTypeRows (rows : list VehicleTypeRow.t) (types : list VehicleType.t)
  (lastCreatedAt : Time) : list VehicleType.t * Time :=
  match rows with
  | [] => (types, lastCreatedAt)
  | r :: rows' =>
      scanTypeRows rows' (types ++ [scanVehicleType r]) (Date (VehicleTypeRow.created_at r))
  end.

Definition ListVehicleTypes (db : DB) (pageSize : Z) (pageToken : string)
  : result (list VehicleType.t * string) :=
  let pageSize := if ((pageSize <=? 0) || (100 <? pageSize))%Z then 50%Z else pageSize in
  match decodePageToken pageToken with
  | Err e => Err e
  | Ok cursorTime =>
      let cursorStr := if IsZero cursorTime then "" else Format_RFC3339Nano cursorTime in
      let rows := listVehicleTypesQuery db cursorStr (pageSize + 1)%Z in
      let (types, lastCreatedAt) := scanTypeRows rows [] zeroTime in
      if (pageSize <? Z.of_nat (List.length types))%Z then
        match encodePageToken lastCreatedAt with
        | Err e => Err e
        | Ok nextPageToken => Ok (slice_to types pageSize, nextPageToken)
        end
      else Ok (types, "")
  end.

(** ** More predicates on stores *)

(** The unique key on [license_plate]. *)
Definition unique_plates (db : DB) : Prop :=
  NoDup (map VehicleRow.license_plate (vehicles db)).

(** The unique key on the [name] of a vehicle type. *)
Definition unique_type_names (db : DB) : Prop :=
  NoDup (map VehicleTypeRow.name (vehicle_types db)).

(** A page in the order of the query: no vehicle is followed by a later one. *)
Fixpoint descending (l : list Vehicle.t) : Prop :=
  match l with
  | [] => True
  | v :: l' =>
      Forall (fun u => After (Vehicle.CreatedAt u) (Vehicle.CreatedAt v) = false) l'
      /\ descending l'
  end.

(** The message that a row of the join is read into. *)
Definition toVehicle (r : VehicleRow.t * VehicleTypeRow.t) : Vehicle.t :=
  Vehicle.mk
    (VehicleRow.external_id (fst r))
    (FormatInt (VehicleRow.vehicle_type_id (fst r)))
    (VehicleTypeRow.name (snd r))
    (VehicleRow.license_plate (fst r))
    (VehicleRow.make (fst r))
    (VehicleRow.model (fst r))
    (VehicleRow.year (fst r))
    (VehicleRow.color (fst r))
    (VehicleRow.seating_capacity (fst r))
    (VehicleRow.fuel_type (fst r))
    (match VehicleRow.engine_number (fst r) with Some s => s | None => "" end)
    (match VehicleRow.chassis_number (fst r) with Some s => s | None => "" end)
    (option_map Date (VehicleRow.registration_date (fst r)))
    (option_map Date (VehicleRow.insurance_expiry (fst r)))
    (VehicleRow.status (fst r))
    (Date (VehicleRow.created_at (fst r)))
    (Date (VehicleRow.updated_at (fst r))).

(** A column that an update leaves alone: its path is not in the mask, or
    there is no mask and its field is absent. *)
Definition untouched {A : Type} (updateMask : option (list string)) (path : string)
  (field : option A) : Prop :=
  match updateMask with
  | Some paths => ~ In path paths
  | None => field = None
  end.

(** The columns that no update writes. *)
Definition fixed_columns_equal (r r' : VehicleRow.t) : Prop :=
  VehicleRow.internal_id r' = VehicleRow.internal_id r
  /\ VehicleRow.external_id r' = VehicleRow.external_id r
  /\ VehicleRow.status r' = VehicleRow.status r
  /\ VehicleRow.created_at r' = VehicleRow.created_at r.

(** The row of [externalID] moved to a status, any other row as it is. *)
Definition move (externalID : UUID) (status : VehicleStatus) (now : DateTime)
  (r : VehicleRow.t) : VehicleRow.t :=
  if N.eqb (VehicleRow.external_id r) externalID then with_status r status now else r.

(** The row that the statement of [UpdateVehicle] leaves in place of a row of
    the vehicle, [typeID] and [fuel] being the new values of [vehicle_type_id]
    and [fuel_type]. *)
Definition assigned (now : DateTime) (updates : VehicleUpdateFields.t)
  (updateMask : option (list string)) (typeID : Z) (fuel : FuelType) (r : VehicleRow.t)
  : VehicleRow.t :=
  let flag {A : Type} (path : string) (field : option A) :=
    updateFlag updateMask path field in
  VehicleRow.mk
    (VehicleRow.internal_id r)
    (VehicleRow.external_id r)
    typeID
    (CASE (flag "license_plate" (VehicleUpdateFields.LicensePlate updates))
       (updateValue (flag "license_plate" (VehicleUpdateFields.LicensePlate updates))
          (VehicleUpdateFields.LicensePlate updates) "")
       (VehicleRow.license_plate r))
    (CASE (flag "make" (VehicleUpdateFields.Make updates))
       (updateValue (flag "make" (VehicleUpdateFields.Make updates))
          (VehicleUpdateFields.Make updates) "")
       (VehicleRow.make r))
    (CASE (flag "model" (VehicleUpdateFields.Model updates))
       (updateValue (flag "model" (VehicleUpdateFields.Model updates))
          (VehicleUpdateFields.Model updates) "")
       (VehicleRow.model r))
    (CASE (flag "year" (VehicleUpdateFields.Year updates))
       (updateValue (flag "year" (VehicleUpdateFields.Year updates))
          (VehicleUpdateFields.Year updates) 0%Z)
       (VehicleRow.year r))
    (CASE (flag "color" (VehicleUpdateFields.Color updates))
       (updateValue (flag "color" (VehicleUpdateFields.Color updates))
          (VehicleUpdateFields.Color updates) "")
       (VehicleRow.color r))
    (CASE (flag "seating_capacity" (VehicleUpdateFields.SeatingCapacity updates))
       (updateValue (flag "seating_capacity" (VehicleUpdateFields.SeatingCapacity updates))
          (VehicleUpdateFields.SeatingCapacity updates) 0%Z)
       (VehicleRow.seating_capacity r))
    fuel
    (CASE (flag "engine_number" (VehicleUpdateFields.EngineNumber updates))
       (updateNull (flag "engine_number" (VehicleUpdateFields.EngineNumber updates))
          (VehicleUpdateFields.EngineNumber updates))
       (VehicleRow.engine_number r))
    (CASE (flag "chassis_number" (VehicleUpdateFields.ChassisNumber updates))
       (updateNull (flag "chassis_number" (VehicleUpdateFields.ChassisNumber updates))
          (VehicleUpdateFields.ChassisNumber updates))
       (VehicleRow.chassis_number r))
    (CASE (flag "registration_date" (VehicleUpdateFields.RegistrationDate updates))
       (updateDate (flag "registration_date" (VehicleUpdateFields.RegistrationDate updates))
          (VehicleUpdateFields.RegistrationDate updates))
       (VehicleRow.registration_date r))
    (CASE (flag "insurance_expiry" (VehicleUpdateFields.InsuranceExpiry updates))
       (updateDate (flag "insurance_expiry" (VehicleUpdateFields.InsuranceExpiry updates))
          (VehicleUpdateFields.InsuranceExpiry updates))
       (VehicleRow.insurance_expiry r))
    (VehicleRow.status r)
    (VehicleRow.created_at r)
    now.

(** A stored row before and after the statement of [UpdateVehicle] has run:
    the row of another vehicle as it was, a row of the vehicle assigned. *)
Definition updated_row (now : DateTime) (externalID : UUID)
  (updates : VehicleUpdateFields.t) (updateMask : option (list string))
  (r r' : VehicleRow.t) : Prop :=
  (VehicleRow.external_id r <> externalID /\ r' = r)
  \/ (VehicleRow.external_id r = externalID
      /\ exists typeID fuel,
          r' = assigned now updates updateMask typeID fuel r
          /\ (updateFlag updateMask "vehicle_type_id"
                (VehicleUpdateFields.VehicleTypeID updates) = false
              -> typeID = VehicleRow.vehicle_type_id r)
          /\ (updateFlag updateMask "fuel_type" (VehicleUpdateFields.FuelType updates) = false
              -> fuel = VehicleRow.fuel_type r)).


(** What identifies a stored vehicle and dates it. *)
Definition identity (r : VehicleRow.t) : Z * UUID * DateTime :=
  (VehicleRow.internal_id r, VehicleRow.external_id r, VehicleRow.created_at r).

(** The row that the insert of [CreateVehicle] adds, [vehicleTypeID] being
    the number the engine takes the text of the vehicle type for. *)
Definition newRow (now : DateTime) (internalID : Z) (externalID : UUID)
  (vehicleTypeID : Z) (vehicle : VehicleData.t) : VehicleRow.t :=
  VehicleRow.mk internalID externalID
    vehicleTypeID (VehicleData.LicensePlate vehicle)
    (VehicleData.Make vehicle) (VehicleData.Model vehicle)
    (VehicleData.Year vehicle) (VehicleData.Color vehicle)
    (VehicleData.SeatingCapacity vehicle) (VehicleData.FuelType vehicle)
    (VehicleData.EngineNumber vehicle) (VehicleData.ChassisNumber vehicle)
    (match VehicleData.RegistrationDate vehicle with
     | Some s => Parse_Date s
     | None => None
     end)
    (match VehicleData.InsuranceExpiry vehicle with
     | Some s => Parse_Date s
     | None => None
     end)
    VehicleStatus_ACTIVE now now.

(** The page size that [ListVehicles] works with. *)
Definition pageSizeOf (params : ListVehiclesParams.t) : Z :=
  if ((ListVehiclesParams.PageSize params <=? 0)
      || (100 <? ListVehiclesParams.PageSize params))%Z
  then 50%Z else ListVehiclesParams.PageSize params.

(** The text that [ListVehicles] binds to the cursor parameters. *)
Definition cursorStrOf (cursorTime : Time) : string :=
  if IsZero cursorTime then "" else Format_RFC3339Nano cursorTime.

(** The rows that the query of [ListVehicles] returns for the parameters and
    the cursor read from the token. *)
Definition listVehiclesRows (db : DB) (params : ListVehiclesParams.t) (cursorTime : Time)
  : list (VehicleRow.t * VehicleTypeRow.t) :=
  listVehiclesQuery db
    (match ListVehiclesParams.StatusFilter params with
     | Some s => VehicleStatus_String s
     | None => ""
     end)
    (match ListVehiclesParams.VehicleTypeFilter params with
     | Some s => s
     | None => ""
     end)
    (match ListVehiclesParams.MakeFilter params with
     | Some m => "%" ++ m ++ "%"
     | None => ""
     end)
    (cursorStrOf cursorTime)
    (pageSizeOf params + 1)%Z.

(** The [created_at] of the row scanned last, [init] when there is none. *)
Definition lastCreatedAtOf (rows : list (VehicleRow.t * VehicleTypeRow.t)) (init : Time)
  : Time :=
  fold_left (fun _ r => Date (VehicleRow.created_at (fst r))) rows init.

(** The rows that match the filters and the cursor, before [ORDER BY] and
    [LIMIT]. *)
Definition matching (db : DB) (params : ListVehiclesParams.t) (cursorTime : Time)
  : list (VehicleRow.t * VehicleTypeRow.t) :=
  filter
    (fun r =>
       listVehiclesWhere
         (match ListVehiclesParams.StatusFilter params with
          | Some s => VehicleStatus_String s
          | None => ""
          end)
         (match ListVehiclesParams.VehicleTypeFilter params with
          | Some s => s
          | None => ""
          end)
         (match ListVehiclesParams.MakeFilter params with
          | Some m => "%" ++ m ++ "%"
          | None => ""
          end)
         (cursorStrOf cursorTime)
         (fst r))
    (joinVehicleTypes db).

End Statements.

End store.

(** * services/vehicle/internal/service *)

Module codes.
Inductive Code :=
| InvalidArgument
| NotFound
| AlreadyExists
| FailedPrecondition
| Internal.
End codes.

Module service.
Import genproto types GoTime.
Local Open Scope string_scope.

(** [status.Errorf(code, format, ...)]: the code and the format text *)
Record Status := mkStatus { Code : codes.Code; Format : string }.

Inductive reply (A : Type) :=
| Reply (a : A)
| Failed (st : Status).
Arguments Reply {A} a.
Arguments Failed {A} st.

Definition Errorf {A : Type} (c : codes.Code) (format : string) : reply A :=
  Failed (mkStatus c format).

Record ValidationError := mkValidationError { Field : string; Message : string }.

(** What [utils.GetSnowflakeNodeID], the snowflake generator and [uuid.NewV4]
    hand to one [CreateVehicle] call. *)
Record IdSource := mkIdSource {
  GetSnowflakeNodeID : option Z;
  Next : Z;
  NewV4 : option UUID
}.

(** The collaborators outside the persistence pattern: the identifier parser
    of the uuid library, and the request validators, which normalise the input
    in place and either refuse the request or leave the normalised input.
    Every statement below holds whatever these functions are. *)
Class Env := {
  uuid_FromString : string -> option UUID;
  ValidateCreateVehicleRequest :
    DateTime -> CreateVehicleRequest.t -> ValidationError + VehicleInput.t;
  ValidateUpdateVehicleRequest :
    UpdateVehicleRequest.t -> ValidationError + VehicleInput.t
}.

Definition ValidateVehicleStatus (field : string) (status : VehicleStatus)
  : option ValidationError :=
  if VehicleStatus_eqb status VehicleStatus_STATUS_UNSPECIFIED
  then Some (mkValidationError field "must be specified")
  else None.

Definition nonEmpty (s : string) : option string :=
  if String.eqb s "" then None else Some s.

(** The vehicle data that [CreateVehicle] prepares from the validated input:
    the required fields, and the optional ones when they are set. *)
Definition prepareVehicleData (vehicle : VehicleInput.t) : VehicleData.t :=
  VehicleData.mk
    (VehicleInput.VehicleTypeId vehicle)
    (VehicleInput.LicensePlate vehicle)
    (VehicleInput.Make vehicle)
    (VehicleInput.Model vehicle)
    (VehicleInput.Year vehicle)
    (VehicleInput.Color vehicle)
    (VehicleInput.SeatingCapacity vehicle)
    (VehicleInput.FuelType vehicle)
    (nonEmpty (VehicleInput.EngineNumber vehicle))
    (nonEmpty (VehicleInput.ChassisNumber vehicle))
    (option_map Format_Date (VehicleInput.RegistrationDate vehicle))
    (option_map Format_Date (VehicleInput.InsuranceExpiry vehicle)).

Section Service.
Context {G : store.Engine} {E : Env}.

Definition CreateVehicle (db : store.DB) (now : DateTime) (ids : IdSource)
  (req : CreateVehicleRequest.t) : store.DB * reply Vehicle.t :=
  match ValidateCreateVehicleRequest now req with
  | inl _ => (db, Errorf codes.InvalidArgument "validation failed: %v")
  | inr vehicle =>
      match store.GetVehicleTypeByID db (VehicleInput.VehicleTypeId vehicle) with
      | Err ErrVehicleTypeNotFound =>
          (db, Errorf codes.InvalidArgument "vehicle type not found: %s")
      | Err _ => (db, Errorf codes.Internal "failed to validate vehicle type: %v")
      | Ok _ =>
          let create : store.DB * reply Vehicle.t :=
            match GetSnowflakeNodeID ids with
            | None => (db, Errorf codes.Internal "failed to get snowflake node ID: %v")
            | Some _ =>
                let internalID := Next ids in
                match NewV4 ids with
                | None => (db, Errorf codes.Internal "failed to generate UUID: %v")
                | Some externalID =>
                    let vehicleData := prepareVehicleData vehicle in
                    match store.CreateVehicle db now internalID externalID vehicleData with
                    | (db', Some err) =>
                        if is_ErrDuplicateEntry err then
                          (db', Errorf codes.AlreadyExists
                                  "vehicle with this license plate already exists")
                        else (db', Errorf codes.Internal "failed to create vehicle: %v")
                    | (db', None) =>
                        match store.GetVehicleByID db' externalID with
                        | Err _ =>
                            (db', Errorf codes.Internal
                                    "failed to retrieve created vehicle: %v")
                        | Ok createdVehicle => (db', Reply createdVehicle)
                        end
                    end
                end
            end in
          match store.GetVehicleByLicensePlate db (VehicleInput.LicensePlate vehicle) with
          | Err err =>
              if negb (is_ErrVehicleNotFound err) then
                (db, Errorf codes.Internal "failed to check license plate uniqueness: %v")
              else create
          | Ok _ =>
              (db, Errorf codes.AlreadyExists "vehicle with license plate %s already exists")
          end
      end
  end.

Definition ListVehicles (db : store.DB) (req : ListVehiclesRequest.t)
  : reply ListVehiclesResponse.t :=
  let pageSize := ListVehiclesRequest.PageSize req in
  let pageSize := if (pageSize <=? 0)%Z then 50%Z else pageSize in
  let pageSize := if (100 <? pageSize)%Z then 100%Z else pageSize in
  let params :=
    ListVehiclesParams.mk
      pageSize
      (ListVehiclesRequest.PageToken req)
      (ListVehiclesRequest.StatusFilter req)
      (match ListVehiclesRequest.VehicleTypeFilter req with
       | Some s => nonEmpty s
       | None => None
       end)
      (match ListVehiclesRequest.MakeFilter req with
       | Some s => nonEmpty s
       | None => None
       end) in
  match store.ListVehicles db params with
  | Err _ => Errorf codes.Internal "failed to list vehicles: %v"
  | Ok (vehicles, nextPageToken) =>
      Reply (ListVehiclesResponse.mk vehicles nextPageToken (Z.of_nat (List.length vehicles)))
  end.

Definition UpdateVehicle (db : store.DB) (now : DateTime) (req : UpdateVehicleRequest.t)
  : store.DB * reply Vehicle.t :=
  match ValidateUpdateVehicleRequest req with
  | inl _ => (db, Errorf codes.InvalidArgument "validation failed: %v")
  | inr vehicle =>
  match uuid_FromString (UpdateVehicleRequest.VehicleId req) with
  | None => (db, Errorf codes.InvalidArgument "invalid vehicle ID format: %v")
  | Some vehicleID =>
  match store.GetVehicleByID db vehicleID with
  | Err ErrVehicleNotFound => (db, Errorf codes.NotFound "vehicle not found")
  | Err _ => (db, Errorf codes.Internal "failed to get existing vehicle: %v")
  | Ok existingVehicle =>
  let typeCheck : option Status :=
    if negb (String.eqb (VehicleInput.VehicleTypeId vehicle) "") then
      match store.GetVehicleTypeByID db (VehicleInput.VehicleTypeId vehicle) with
      | Err ErrVehicleTypeNotFound =>
          Some (mkStatus codes.InvalidArgument "vehicle type not found: %s")
      | Err _ => Some (mkStatus codes.Internal "failed to validate vehicle type: %v")
      | Ok _ => None
      end
    else None in
  match typeCheck with
  | Some st => (db, Failed st)
  | None =>
  let plateCheck : option Status :=
    if negb (String.eqb (VehicleInput.LicensePlate vehicle) "")
       && negb (String.eqb (VehicleInput.LicensePlate vehicle)
                           (Vehicle.LicensePlate existingVehicle)) then
      match store.GetVehicleByLicensePlate db (VehicleInput.LicensePlate vehicle) with
      | Err ErrVehicleNotFound => None
      | Err _ =>
          Some (mkStatus codes.Internal "failed to check license plate uniqueness: %v")
      | Ok existing =>
          if negb (N.eqb (Vehicle.Id existing) (Vehicle.Id existingVehicle)) then
            Some (mkStatus codes.AlreadyExists
                    "vehicle with license plate %s already exists")
          else None
      end
    else None in
  match plateCheck with
  | Some st => (db, Failed st)
  | None =>
  let updates :=
    VehicleUpdateFields.mk
      (nonEmpty (VehicleInput.VehicleTypeId vehicle))
      (nonEmpty (VehicleInput.LicensePlate vehicle))
      (nonEmpty (VehicleInput.Make vehicle))
      (nonEmpty (VehicleInput.Model vehicle))
      (if (VehicleInput.Year vehicle =? 0)%Z then None else Some (VehicleInput.Year vehicle))
      (nonEmpty (VehicleInput.Color vehicle))
      (if (VehicleInput.SeatingCapacity vehicle =? 0)%Z then None
       else Some (VehicleInput.SeatingCapacity vehicle))
      (if FuelType_eqb (VehicleInput.FuelType vehicle) FuelType_FUEL_UNSPECIFIED then None
       else Some (VehicleInput.FuelType vehicle))
      (nonEmpty (VehicleInput.EngineNumber vehicle))
      (nonEmpty (VehicleInput.ChassisNumber vehicle))
      (option_map Format_Date (VehicleInput.RegistrationDate vehicle))
      (option_map Format_Date (VehicleInput.InsuranceExpiry vehicle)) in
  match store.UpdateVehicle db now vehicleID updates (UpdateVehicleRequest.UpdateMask req) with
  | (db', Err ErrVehicleNotFound) => (db', Errorf codes.NotFound "vehicle not found")
  | (db', Err ErrDuplicateEntry) => (db', Errorf codes.AlreadyExists "duplicate license plate")
  | (db', Err _) => (db', Errorf codes.Internal "failed to update vehicle: %v")
  | (db', Ok updatedVehicle) => (db', Reply updatedVehicle)
  end
  end end end end end.

Definition DeleteVehicle (db : store.DB) (now : DateTime) (req : DeleteVehicleRequest.t)
  : store.DB * option Status :=
  if String.eqb (DeleteVehicleRequest.VehicleId req) "" then
    (db, Some (mkStatus codes.InvalidArgument "vehicle ID is required"))
  else
    match uuid_FromString (DeleteVehicleRequest.VehicleId req) with
    | None => (db, Some (mkStatus codes.InvalidArgument "invalid vehicle ID format: %v"))
    | Some vehicleID =>
        match store.GetVehicleByID db vehicleID with
        | Err ErrVehicleNotFound => (db, Some (mkStatus codes.NotFound "vehicle not found"))
        | Err _ => (db, Some (mkStatus codes.Internal "failed to get vehicle: %v"))
        | Ok existingVehicle =>
            if VehicleStatus_eqb (Vehicle.Status existingVehicle) VehicleStatus_ASSIGNED then
              (db, Some (mkStatus codes.FailedPrecondition
                           "cannot delete assigned vehicle. Unassign vehicle first"))
            else
              match store.DeleteVehicle db now vehicleID with
              | (db', Some ErrVehicleNotFound) =>
                  (db', Some (mkStatus codes.NotFound "vehicle not found"))
              | (db', Some _) =>
                  (db', Some (mkStatus codes.Internal "failed to delete vehicle: %v"))
              | (db', None) => (db', None)
              end
        end
    end.

Definition UpdateVehicleStatus (db : store.DB) (now : DateTime)
  (req : UpdateVehicleStatusRequest.t) : store.DB * reply Vehicle.t :=
  if String.eqb (UpdateVehicleStatusRequest.VehicleId req) "" then
    (db, Errorf codes.InvalidArgument "vehicle ID is required")
  else
    match ValidateVehicleStatus "status" (UpdateVehicleStatusRequest.Status req) with
    | Some _ => (db, Errorf codes.InvalidArgument "validation failed: %v")
    | None =>
        match uuid_FromString (UpdateVehicleStatusRequest.VehicleId req) with
        | None => (db, Errorf codes.InvalidArgument "invalid vehicle ID format: %v")
        | Some vehicleID =>
            match store.GetVehicleByID db vehicleID with
            | Err ErrVehicleNotFound => (db, Errorf codes.NotFound "vehicle not found")
            | Err _ => (db, Errorf codes.Internal "failed to get current vehicle: %v")
            | Ok currentVehicle =>
                if negb (IsValidStatusTransition (Vehicle.Status currentVehicle)
                           (UpdateVehicleStatusRequest.Status req)) then
                  (db, Errorf codes.InvalidArgument
                         "invalid status transition from %s to %s")
                else
                  match store.UpdateVehicleStatus db now vehicleID
                          (UpdateVehicleStatusRequest.Status req) with
                  | (db', Err ErrVehicleNotFound) =>
                      (db', Errorf codes.NotFound "vehicle not found")
                  | (db', Err _) =>
                      (db', Errorf codes.Internal "failed to update vehicle status: %v")
                  | (db', Ok updatedVehicle) => (db', Reply updatedVehicle)
                  end
            end
        end
    end.

End Service.

(** One call of the service that writes to the store; the [vehicle_types]
    table is written by the type-management calls and the migrations, which
    may leave any rows in it. *)
Inductive step {G : store.Engine} {E : Env} : store.DB -> store.DB -> Prop :=
| step_CreateVehicle db now ids req :
    step db (fst (CreateVehicle db now ids req))
| step_UpdateVehicle db now req :
    step db (fst (UpdateVehicle db now req))
| step_UpdateVehicleStatus db now req :
    step db (fst (UpdateVehicleStatus db now req))
| step_DeleteVehicle db now req :
    step db (fst (DeleteVehicle db now req))
| step_vehicle_types db vehicle_types :
    step db (store.mkDB (store.vehicles db) vehicle_types).

(** The stores the service can be in: started on an empty [vehicles] table. *)
Inductive reachable {G : store.Engine} {E : Env} : store.DB -> Prop :=
| reachable_init vehicle_types : reachable (store.mkDB [] vehicle_types)
| reachable_step db db' : reachable db -> step db db' -> reachable db'.

(** The identifiers on a page and its token. *)
Definition page (r : reply ListVehiclesResponse.t) : option (list UUID * string) :=
  match r with
  | Reply resp =>
      Some (map Vehicle.Id (ListVehiclesResponse.Vehicles resp),
            ListVehiclesResponse.NextPageToken resp)
  | Failed _ => None
  end.

(** ** Reads, specialized queries and vehicle types *)

(** The page size of a request, within the limits of the service. *)
Definition clampPageSize (pageSize : Z) : Z :=
  let pageSize := if (pageSize <=? 0)%Z then 50%Z else pageSize in
  if (100 <? pageSize)%Z then 100%Z else pageSize.

Section Queries.
Context {G : store.Engine} {E : Env}.

Definition GetVehicle (db : store.DB) (req : GetVehicleRequest.t) : reply Vehicle.t :=
  if String.eqb (GetVehicleRequest.VehicleId req) "" then
    Errorf codes.InvalidArgument "vehicle ID is required"
  else
    match uuid_FromString (GetVehicleRequest.VehicleId req) with
    | None => Errorf codes.InvalidArgument "invalid vehicle ID format: %v"
    | Some vehicleID =>
        match store.GetVehicleByID db vehicleID with
        | Err ErrVehicleNotFound => Errorf codes.NotFound "vehicle not found"
        | Err _ => Errorf codes.Internal "failed to get vehicle: %v"
        | Ok vehicle => Reply vehicle
        end
    end.

Definition GetVehiclesByType (db : store.DB) (req : GetVehiclesByTypeRequest.t)
  : reply ListVehiclesResponse.t :=
  if String.eqb (GetVehiclesByTypeRequest.VehicleTypeId req) "" then
    Errorf codes.InvalidArgument "vehicle type ID is required"
  else
    match store.GetVehicleTypeByID db (GetVehiclesByTypeRequest.VehicleTypeId req) with
    | Err ErrVehicleTypeNotFound => Errorf codes.NotFound "vehicle type not found"
    | Err _ => Errorf codes.Internal "failed to validate vehicle type: %v"
    | Ok _ =>
        let pageSize := clampPageSize (GetVehiclesByTypeRequest.PageSize req) in
        let params :=
          ListVehiclesParams.mk pageSize (GetVehiclesByTypeRequest.PageToken req)
            (GetVehiclesByTypeRequest.StatusFilter req) None None in
        match store.GetVehiclesByType db (GetVehiclesByTypeRequest.VehicleTypeId req)
                params with
        | Err _ => Errorf codes.Internal "failed to get vehicles by type: %v"
        | Ok (vehicles, nextPageToken) =>
            Reply (ListVehiclesResponse.mk vehicles nextPageToken
                     (Z.of_nat (List.length vehicles)))
        end
    end.

Definition GetAvailableVehicles (db : store.DB) (req : GetAvailableVehiclesRequest.t)
  : reply ListVehiclesResponse.t :=
  let typeCheck : option Status :=
    match GetAvailableVehiclesRequest.VehicleTypeId req with
    | Some VehicleTypeId =>
        if negb (String.eqb VehicleTypeId "") then
          match store.GetVehicleTypeByID db VehicleTypeId with
          | Err ErrVehicleTypeNotFound =>
              Some (mkStatus codes.NotFound "vehicle type not found")
          | Err _ => Some (mkStatus codes.Internal "failed to validate vehicle type: %v")
          | Ok _ => None
          end
        else None
    | None => None
    end in
  match typeCheck with
  | Some st => Failed st
  | None =>
      let pageSize := clampPageSize (GetAvailableVehiclesRequest.PageSize req) in
      let params :=
        ListVehiclesParams.mk pageSize (GetAvailableVehiclesRequest.PageToken req)
          None None None in
      match store.GetAvailableVehicles db (GetAvailableVehiclesRequest.VehicleTypeId req)
              params with
      | Err _ => Errorf codes.Internal "failed to get available vehicles: %v"
      | Ok (vehicles, nextPageToken) =>
          Reply (ListVehiclesResponse.mk vehicles nextPageToken
                   (Z.of_nat (List.length vehicles)))
      end
  end.

(** [ValidateVehicleTypeName] is a check on text of the validator package, an
    argument here; [now] and [LastInsertId] are what the clock and the engine
    give to the insert. *)
Definition CreateVehicleType
  (ValidateVehicleTypeName : string -> string -> option ValidationError)
  (db : store.DB) (now : DateTime) (LastInsertId : Z) (req : CreateVehicleTypeRequest.t)
  : store.DB * reply VehicleType.t :=
  if String.eqb (CreateVehicleTypeRequest.Name req) "" then
    (db, Errorf codes.InvalidArgument "vehicle type name is required")
  else
    match ValidateVehicleTypeName "name" (CreateVehicleTypeRequest.Name req) with
    | Some _ => (db, Errorf codes.InvalidArgument "validation failed: %v")
    | None =>
        match store.GetVehicleTypeByName db (CreateVehicleTypeRequest.Name req) with
        | Ok _ => (db, Errorf codes.AlreadyExists "vehicle type %s already exists")
        | Err ErrVehicleTypeNotFound =>
            match store.CreateVehicleType db now LastInsertId
                    (CreateVehicleTypeRequest.Name req)
                    (CreateVehicleTypeRequest.Description req) with
            | (db', Err ErrDuplicateEntry) =>
                (db', Errorf codes.AlreadyExists "vehicle type %s already exists")
            | (db', Err _) => (db', Errorf codes.Internal "failed to create vehicle type: %v")
            | (db', Ok vehicleType) => (db', Reply vehicleType)
            end
        | Err _ =>
            (db, Errorf codes.Internal "failed to check vehicle type uniqueness: %v")
        end
    end.

Definition ListVehicleTypes (db : store.DB) (req : ListVehicleTypesRequest.t)
  : reply ListVehicleTypesResponse.t :=
  let pageSize := clampPageSize (ListVehicleTypesRequest.PageSize req) in
  match store.ListVehicleTypes db pageSize (ListVehicleTypesRequest.PageToken req) with
  | Err _ => Errorf codes.Internal "failed to list vehicle types: %v"
  | Ok (vehicleTypes, nextPageToken) =>
      Reply (ListVehicleTypesResponse.mk vehicleTypes nextPageToken)
  end.

(** The loop of [InitializeStandardVehicleTypes] over the types that are left;
    [engine] gives the clock reading and the row number for the insert of the
    type of a name. *)
Fixpoint initializeVehicleTypes (engine : string -> DateTime * Z)
  (stdTypes : list (string * string)) (db : store.DB) : store.DB * option error :=
  match stdTypes with
  | [] => (db, None)
  | (Name, Description) :: rest =>
      match store.GetVehicleTypeByName db Name with
      | Err ErrVehicleTypeNotFound =>
          match store.CreateVehicleType db (fst (engine Name)) (snd (engine Name))
                  Name Description with
          | (db', Err ErrDuplicateEntry) => initializeVehicleTypes engine rest db'
          | (db', Err _) =>
              (db', Some (types.Errorf "failed to create standard vehicle type %s: %w"))
          | (db', Ok _) => initializeVehicleTypes engine rest db'
          end
      | Err _ => (db, Some (types.Errorf "failed to check vehicle type %s: %w"))
      | Ok _ => initializeVehicleTypes engine rest db
      end
  end.

Definition InitializeStandardVehicleTypes (engine : string -> DateTime * Z)
  (db : store.DB) : store.DB * option error :=
  initializeVehicleTypes engine StandardVehicleTypes db.

(** The update fields that [UpdateVehicle] prepares from the validated input:
    a field is provided when it is not the zero value of its type. *)
Definition prepareUpdateFields (vehicle : VehicleInput.t) : VehicleUpdateFields.t :=
  VehicleUpdateFields.mk
    (nonEmpty (VehicleInput.VehicleTypeId vehicle))
    (nonEmpty (VehicleInput.LicensePlate vehicle))
    (nonEmpty (VehicleInput.Make vehicle))
    (nonEmpty (VehicleInput.Model vehicle))
    (if (VehicleInput.Year vehicle =? 0)%Z then None else Some (VehicleInput.Year vehicle))
    (nonEmpty (VehicleInput.Color vehicle))
    (if (VehicleInput.SeatingCapacity vehicle =? 0)%Z then None
     else Some (VehicleInput.SeatingCapacity vehicle))
    (if FuelType_eqb (VehicleInput.FuelType vehicle) FuelType_FUEL_UNSPECIFIED then None
     else Some (VehicleInput.FuelType vehicle))
    (nonEmpty (VehicleInput.EngineNumber vehicle))
    (nonEmpty (VehicleInput.ChassisNumber vehicle))
    (option_map Format_Date (VehicleInput.RegistrationDate vehicle))
    (option_map Format_Date (VehicleInput.InsuranceExpiry vehicle)).

(** The parameters that [ListVehicles] prepares from a request. *)
Definition listParams (req : ListVehiclesRequest.t) : ListVehiclesParams.t :=
  ListVehiclesParams.mk
    (clampPageSize (ListVehiclesRequest.PageSize req))
    (ListVehiclesRequest.PageToken req)
    (ListVehiclesRequest.StatusFilter req)
    (match ListVehiclesRequest.VehicleTypeFilter req with
     | Some s => nonEmpty s
     | None => None
     end)
    (match ListVehiclesRequest.MakeFilter req with
     | Some s => nonEmpty s
     | None => None
     end).


End Queries.

End service.

(** * services/vehicle/internal/validator *)

(** The request validators.  The checks on text rest on the Unicode tables
    and the regular expressions of the library; they and the two string
    functions of the normaliser are the interface [Text], and what is proved
    of the request validators holds whatever they are.  A request is never
    nil.  The checks read the clock one after the other, within one call;
    [now] is that reading, taken as one. *)
Module validator.
Import genproto GoTime.
Local Open Scope string_scope.

Definition ValidationError := service.ValidationError.

Class Text := {
  ValidateLicensePlate : string -> string -> option ValidationError;
  NormalizeLicensePlate : string -> string;
  ValidateVehicleMake : string -> string -> option ValidationError;
  ValidateVehicleModel : string -> string -> option ValidationError;
  ValidateColor : string -> string -> option ValidationError;
  ValidateEngineNumber : string -> string -> option ValidationError;
  ValidateChassisNumber : string -> string -> option ValidationError;
  ValidateVehicleTypeID : string -> string -> option ValidationError;
  TrimSpace : string -> string;
  ToUpper : string -> string
}.

(** [currentYear] is the year of [time.Now()]. *)
Definition ValidateVehicleYear (now : DateTime) (field : string) (year : Z)
  : option ValidationError :=
  let currentYear := Year now in
  if ((year <? 1900) || (currentYear + 1 <? year))%Z
  then Some (service.mkValidationError field "must be between 1900 and %d")
  else None.

Definition ValidateSeatingCapacity (field : string) (capacity : Z)
  : option ValidationError :=
  if ((capacity <? 1) || (100 <? capacity))%Z
  then Some (service.mkValidationError field "must be between 1 and 100")
  else None.

(** [if err := check; err != nil { return err }], then the rest *)
Definition orElse (err rest : option ValidationError) : option ValidationError :=
  match err with
  | Some e => Some e
  | None => rest
  end.

(** A check that runs when the field is provided *)
Definition provided (given : bool) (err : option ValidationError)
  : option ValidationError :=
  if given then err else None.

Definition isEmpty (s : string) : bool := String.eqb s "".

Section Requests.
Context {T : Text}.

Definition NormalizeVehicleFields (input : VehicleInput.t) : VehicleInput.t :=
  VehicleInput.mk
    (TrimSpace (VehicleInput.VehicleTypeId input))
    (NormalizeLicensePlate (VehicleInput.LicensePlate input))
    (TrimSpace (VehicleInput.Make input))
    (TrimSpace (VehicleInput.Model input))
    (VehicleInput.Year input)
    (TrimSpace (VehicleInput.Color input))
    (VehicleInput.SeatingCapacity input)
    (VehicleInput.FuelType input)
    (ToUpper (TrimSpace (VehicleInput.EngineNumber input)))
    (ToUpper (TrimSpace (VehicleInput.ChassisNumber input)))
    (VehicleInput.RegistrationDate input)
    (VehicleInput.InsuranceExpiry input).

(** The checks of [ValidateCreateVehicleRequest] on the normalised vehicle *)
Definition validateCreate (now : DateTime) (vehicle : VehicleInput.t)
  : option ValidationError :=
  orElse (ValidateVehicleTypeID "vehicle_type_id" (VehicleInput.VehicleTypeId vehicle))
  (orElse (ValidateLicensePlate "license_plate" (VehicleInput.LicensePlate vehicle))
  (orElse (ValidateVehicleMake "make" (VehicleInput.Make vehicle))
  (orElse (ValidateVehicleModel "model" (VehicleInput.Model vehicle))
  (orElse (ValidateVehicleYear now "year" (VehicleInput.Year vehicle))
  (orElse (ValidateColor "color" (VehicleInput.Color vehicle))
  (orElse (ValidateSeatingCapacity "seating_capacity" (VehicleInput.SeatingCapacity vehicle))
  (orElse (if FuelType_eqb (VehicleInput.FuelType vehicle) FuelType_FUEL_UNSPECIFIED
           then Some (service.mkValidationError "fuel_type" "must be specified")
           else None)
  (orElse (provided (negb (isEmpty (VehicleInput.EngineNumber vehicle)))
             (ValidateEngineNumber "engine_number" (VehicleInput.EngineNumber vehicle)))
  (orElse (provided (negb (isEmpty (VehicleInput.ChassisNumber vehicle)))
             (ValidateChassisNumber "chassis_number" (VehicleInput.ChassisNumber vehicle)))
  (orElse (match VehicleInput.RegistrationDate vehicle with
           | Some regDate =>
               if After regDate (Date now) then
                 Some (service.mkValidationError "registration_date"
                         "cannot be in the future")
               else if Before regDate (Date (mkDateTime 1900 1 1 0 0 0 0)) then
                 Some (service.mkValidationError "registration_date"
                         "cannot be before 1900")
               else None
           | None => None
           end)
          (match VehicleInput.InsuranceExpiry vehicle with
           | Some expiry =>
               if Before expiry (AddDate_years (Date now) (-1)) then
                 Some (service.mkValidationError "insurance_expiry"
                         "cannot be expired by more than 1 year")
               else None
           | None => None
           end))))))))))).

Definition ValidateCreateVehicleRequest (now : DateTime) (req : CreateVehicleRequest.t)
  : ValidationError + VehicleInput.t :=
  match CreateVehicleRequest.Vehicle req with
  | None => inl (service.mkValidationError "vehicle" "cannot be nil")
  | Some input =>
      let vehicle := NormalizeVehicleFields input in
      match validateCreate now vehicle with
      | Some err => inl err
      | None => inr vehicle
      end
  end.

(** The paths that the [switch] of [validateMaskedFields] has a case for. *)
Definition maskPaths : list string :=
  [ "vehicle_type_id"; "license_plate"; "make"; "model"; "year"; "color";
    "seating_capacity"; "fuel_type"; "engine_number"; "chassis_number" ].

(** One path of the mask: the [switch] of [validateMaskedFields] *)
Definition validateMaskedField (now : DateTime) (vehicle : VehicleInput.t) (path : string)
  : option ValidationError :=
  if String.eqb path "vehicle_type_id" then
    provided (negb (isEmpty (VehicleInput.VehicleTypeId vehicle)))
      (ValidateVehicleTypeID "vehicle_type_id" (VehicleInput.VehicleTypeId vehicle))
  else if String.eqb path "license_plate" then
    provided (negb (isEmpty (VehicleInput.LicensePlate vehicle)))
      (ValidateLicensePlate "license_plate" (VehicleInput.LicensePlate vehicle))
  else if String.eqb path "make" then
    provided (negb (isEmpty (VehicleInput.Make vehicle)))
      (ValidateVehicleMake "make" (VehicleInput.Make vehicle))
  else if String.eqb path "model" then
    provided (negb (isEmpty (VehicleInput.Model vehicle)))
      (ValidateVehicleModel "model" (VehicleInput.Model vehicle))
  else if String.eqb path "year" then
    provided (negb (VehicleInput.Year vehicle =? 0)%Z)
      (ValidateVehicleYear now "year" (VehicleInput.Year vehicle))
  else if String.eqb path "color" then
    provided (negb (isEmpty (VehicleInput.Color vehicle)))
      (ValidateColor "color" (VehicleInput.Color vehicle))
  else if String.eqb path "seating_capacity" then
    provided (negb (VehicleInput.SeatingCapacity vehicle =? 0)%Z)
      (ValidateSeatingCapacity "seating_capacity" (VehicleInput.SeatingCapacity vehicle))
  else if String.eqb path "fuel_type" then None
  else if String.eqb path "engine_number" then
    provided (negb (isEmpty (VehicleInput.EngineNumber vehicle)))
      (ValidateEngineNumber "engine_number" (VehicleInput.EngineNumber vehicle))
  else if String.eqb path "chassis_number" then
    provided (negb (isEmpty (VehicleInput.ChassisNumber vehicle)))
      (ValidateChassisNumber "chassis_number" (VehicleInput.ChassisNumber vehicle))
  else Some (service.mkValidationError "update_mask" "unsupported field path: %s").

Fixpoint validateMaskedFields (now : DateTime) (vehicle : VehicleInput.t)
  (paths : list string) : option ValidationError :=
  match paths with
  | [] => None
  | path :: paths' =>
      orElse (validateMaskedField now vehicle path)
             (validateMaskedFields now vehicle paths')
  end.

Definition validateAllProvidedFields (now : DateTime) (vehicle : VehicleInput.t)
  : option ValidationError :=
  orElse (provided (negb (isEmpty (VehicleInput.VehicleTypeId vehicle)))
            (ValidateVehicleTypeID "vehicle_type_id" (VehicleInput.VehicleTypeId vehicle)))
  (orElse (provided (negb (isEmpty (VehicleInput.LicensePlate vehicle)))
             (ValidateLicensePlate "license_plate" (VehicleInput.LicensePlate vehicle)))
  (orElse (provided (negb (isEmpty (VehicleInput.Make vehicle)))
             (ValidateVehicleMake "make" (VehicleInput.Make vehicle)))
  (orElse (provided (negb (isEmpty (VehicleInput.Model vehicle)))
             (ValidateVehicleModel "model" (VehicleInput.Model vehicle)))
  (orElse (provided (negb (VehicleInput.Year vehicle =? 0)%Z)
             (ValidateVehicleYear now "year" (VehicleInput.Year vehicle)))
  (orElse (provided (negb (isEmpty (VehicleInput.Color vehicle)))
             (ValidateColor "color" (VehicleInput.Color vehicle)))
  (orElse (provided (negb (VehicleInput.SeatingCapacity vehicle =? 0)%Z)
             (ValidateSeatingCapacity "seating_capacity"
                (VehicleInput.SeatingCapacity vehicle)))
  (orElse (provided (negb (isEmpty (VehicleInput.EngineNumber vehicle)))
             (ValidateEngineNumber "engine_number" (VehicleInput.EngineNumber vehicle)))
          (provided (negb (isEmpty (VehicleInput.ChassisNumber vehicle)))
             (ValidateChassisNumber "chassis_number"
                (VehicleInput.ChassisNumber vehicle)))))))))).

Definition ValidateUpdateVehicleRequest (now : DateTime) (req : UpdateVehicleRequest.t)
  : ValidationError + VehicleInput.t :=
  if isEmpty (UpdateVehicleRequest.VehicleId req) then
    inl (service.mkValidationError "vehicle_id" "cannot be empty")
  else
    match UpdateVehicleRequest.Vehicle req with
    | None => inl (service.mkValidationError "vehicle" "cannot be nil")
    | Some input =>
        let vehicle := NormalizeVehicleFields input in
        match (match UpdateVehicleRequest.UpdateMask req with
               | Some paths => validateMaskedFields now vehicle paths
               | None => validateAllProvidedFields now vehicle
               end) with
        | Some err => inl err
        | None => inr vehicle
        end
    end.

End Requests.

(** The service with these validators; [now] is the reading of the clock
    that the year check of an update takes. *)
Definition env {T : Text} (uuid_FromString : string -> option UUID) (now : DateTime)
  : service.Env := {|
  service.uuid_FromString := uuid_FromString;
  service.ValidateCreateVehicleRequest := ValidateCreateVehicleRequest;
  service.ValidateUpdateVehicleRequest := ValidateUpdateVehicleRequest now
|}.

End validator.

(** * services/staff/internal/service *)

(** The status change of the staff service.  The service is written against
    the interface [types.StaffStore] and holds for every store behind it: the
    store is any state with the two operations the call uses, a driver is any
    value with the two fields the call reads, and the validator of the status
    and the parser of identifiers are arguments. *)
Module staff_service.
Import genproto.
Local Open Scope string_scope.

Inductive error :=
| ErrDriverNotFound
| Errorf (format : string).

Inductive result (A : Type) :=
| Ok (a : A)
| Err (e : error).
Arguments Ok {A} a.
Arguments Err {A} e.

Module UpdateDriverStatusRequest.
Record t := mk { DriverId : string; Status : DriverStatus; Reason : string }.
End UpdateDriverStatusRequest.

Section Service.
Variable Driver : Type.
Variable Status : Driver -> DriverStatus.
Variable LicenseExpired : Driver -> bool.
Variable Store : Type.
Variable GetDriverByID : Store -> UUID -> Store * result Driver.
Variable store_UpdateDriverStatus :
  Store -> UUID -> DriverStatus -> string -> Store * result Driver.
Variable ValidateDriverStatus : string -> DriverStatus -> option service.ValidationError.
Variable uuid_FromString : string -> option UUID.

Definition UpdateDriverStatus (s : Store) (req : UpdateDriverStatusRequest.t)
  : Store * service.reply Driver :=
  if String.eqb (UpdateDriverStatusRequest.DriverId req) "" then
    (s, service.Errorf codes.InvalidArgument "driver ID is required")
  else
    match ValidateDriverStatus "status" (UpdateDriverStatusRequest.Status req) with
    | Some _ => (s, service.Errorf codes.InvalidArgument "validation failed: %v")
    | None =>
        match uuid_FromString (UpdateDriverStatusRequest.DriverId req) with
        | None => (s, service.Errorf codes.InvalidArgument "invalid driver ID format: %v")
        | Some driverID =>
            match GetDriverByID s driverID with
            | (s1, Err ErrDriverNotFound) =>
                (s1, service.Errorf codes.NotFound "driver not found")
            | (s1, Err _) =>
                (s1, service.Errorf codes.Internal "failed to get current driver: %v")
            | (s1, Ok currentDriver) =>
                if negb (staff_types.IsValidDriverStatusTransition (Status currentDriver)
                           (UpdateDriverStatusRequest.Status req)) then
                  (s1, service.Errorf codes.InvalidArgument
                         "invalid status transition from %s to %s")
                else if DriverStatus_eqb (UpdateDriverStatusRequest.Status req)
                          DriverStatus_ACTIVE
                        && LicenseExpired currentDriver then
                  (s1, service.Errorf codes.FailedPrecondition
                         "cannot activate driver with expired license")
                else
                  match store_UpdateDriverStatus s1 driverID
                          (UpdateDriverStatusRequest.Status req)
                          (UpdateDriverStatusRequest.Reason req) with
                  | (s2, Err ErrDriverNotFound) =>
                      (s2, service.Errorf codes.NotFound "driver not found")
                  | (s2, Err _) =>
                      (s2, service.Errorf codes.Internal
                             "failed to update driver status: %v")
                  | (s2, Ok updatedDriver) => (s2, service.Reply updatedDriver)
                  end
            end
        end
    end.

End Service.

End staff_service.

(** * Sample data *)

Module samples.
Import genproto types GoTime.
Local Open Scope string_scope.

Definition at_hour (h : Z) : DateTime := mkDateTime 2025 9 5 h 0 0 0.

Definition cab : store.VehicleTypeRow.t :=
  store.VehicleTypeRow.mk 1 "cab" "Taxi cabs for individual passenger transport"
    (mkDateTime 2025 9 1 0 0 0 0).

Definition vehicle (n : Z) (id : UUID) (plate : string) (st : VehicleStatus) (h : Z)
  : store.VehicleRow.t :=
  store.VehicleRow.mk n id 1 plate "Toyota" "Hiace" 2019 "White" 14 FuelType_DIESEL
    None None None None st (at_hour h) (at_hour h).

Definition v1 := vehicle 101 1%N "KAA 001A" VehicleStatus_ACTIVE 10.
Definition v2 := vehicle 102 2%N "KAA 002B" VehicleStatus_ACTIVE 11.
Definition v3 := vehicle 103 3%N "KAA 003C" VehicleStatus_ACTIVE 12.
Definition v4 := vehicle 104 4%N "KAA 004D" VehicleStatus_ASSIGNED 13.

(** The number that the sample engine reads a text as: decimal digits, after
    a minus sign for a negative number, and no other text. *)
Definition number (s : string) : option Z :=
  match list_ascii_of_string s with
  | [] => None
  | c :: ds =>
      match atoi (c :: ds) 0 with
      | Some n => Some n
      | None =>
          if Ascii.eqb c "-"%char then
            match ds with
            | [] => None
            | _ :: _ => option_map Z.opp (atoi ds 0)
            end
          else None
      end
  end.

(** An engine for the examples: it compares and stores a text as the number
    it reads it as, so that [01] is the number 1, and refuses a text that is
    not a number. *)
#[export] Instance engine : store.Engine.
Proof.
  refine {| store.int_eq := fun n s =>
              match number s with Some m => (n =? m)%Z | None => false end;
            store.int_of := number;
            store.int_eq_FormatInt := _ |}.
  assert (Hsnoc : forall l c x,
             atoi (l ++ [c]) x
             = match atoi l x with
               | Some y => if isDigit c then Some (y * 10 + digitVal c)%Z else None
               | None => None
               end).
  { induction l as [| d l IH]; intros c x; cbn [app atoi].
    - destruct (isDigit c); reflexivity.
    - destruct (isDigit d); [apply IH | reflexivity]. }
  assert (Hdigit : forall d, (0 <= d < 10)%Z ->
                             isDigit (digit d) = true /\ digitVal (digit d) = d).
  { intros d Hd.
    assert (Hc : (d = 0 \/ d = 1 \/ d = 2 \/ d = 3 \/ d = 4 \/ d = 5 \/ d = 6 \/ d = 7
                  \/ d = 8 \/ d = 9)%Z) by lia.
    repeat (destruct Hc as [-> | Hc]; [split; reflexivity|]). subst d. split; reflexivity. }
  assert (Hutoa : forall fuel u, (0 <= u < 2 ^ Z.of_nat fuel)%Z ->
                                 atoi (utoa fuel u) 0 = Some u).
  { induction fuel as [| fuel IH]; intros u Hu.
    - cbn in Hu. replace u with 0%Z by lia. reflexivity.
    - cbn [utoa]. destruct (Z.ltb_spec u 10) as [Hlt | Hge].
      + cbn [atoi]. destruct (Hdigit u ltac:(lia)) as [-> ->]. reflexivity.
      + rewrite Nat2Z.inj_succ, Z.pow_succ_r in Hu by lia.
        assert (Hq : (0 <= u / 10 < 2 ^ Z.of_nat fuel)%Z).
        { split; [apply Z.div_pos; lia|].
          apply Z.div_lt_upper_bound; lia. }
        rewrite Hsnoc, (IH _ Hq).
        destruct (Hdigit (u mod 10)%Z ltac:(apply Z.mod_pos_bound; lia)) as [-> ->].
        f_equal. rewrite (Z.div_mod u 10) at 3 by lia. lia. }
  assert (Hnonempty : forall fuel u, utoa (S fuel) u <> []).
  { intros fuel u. cbn [utoa]. destruct (u <? 10)%Z; [discriminate|].
    destruct (utoa fuel (u / 10)); discriminate. }
  assert (Hfuel : forall u, (0 <= u)%Z ->
                            (0 <= u < 2 ^ Z.of_nat (S (Z.to_nat (Z.log2 u))))%Z).
  { intros u Hu. split; [exact Hu|].
    rewrite Nat2Z.inj_succ, Z2Nat.id by apply Z.log2_nonneg.
    destruct (Z.eq_dec u 0) as [-> | Hnz]; [reflexivity|].
    apply Z.log2_spec. lia. }
  intros n. unfold store.FormatInt, number.
  rewrite list_ascii_of_string_of_list_ascii.
  pose proof (Hutoa _ _ (Hfuel (Z.abs n) (Z.abs_nonneg n))) as Hread.
  pose proof (Hnonempty (Z.to_nat (Z.log2 (Z.abs n))) (Z.abs n)) as Hne.
  destruct (Z.ltb_spec n 0) as [Hneg | Hpos]; cbn [app].
  - destruct (utoa (S (Z.to_nat (Z.log2 (Z.abs n)))) (Z.abs n)) as [| d ds] eqn:Hds;
      [congruence|].
    change (atoi ("-"%char :: d :: ds) 0) with (@None Z).
    change (Ascii.eqb "-" "-") with true. cbv iota. rewrite Hread. cbn [option_map].
    apply Z.eqb_eq. lia.
  - destruct (utoa (S (Z.to_nat (Z.log2 (Z.abs n)))) (Z.abs n)) as [| d ds] eqn:Hds;
      [congruence|].
    rewrite Hread. apply Z.eqb_eq. lia.
Defined.

(** Three vehicles, inserted at ten, eleven and twelve o'clock. *)
Definition three : store.DB := store.mkDB [v1; v2; v3] [cab].

Definition fleet : store.DB := store.mkDB [v1; v2; v3; v4] [cab].

(** The fleet after the vehicle of identifier 2 was deleted at three o'clock. *)
Definition retired : store.DB :=
  store.mkDB (map (store.retire 2%N (at_hour 15)) (store.vehicles fleet))
             (store.vehicle_types fleet).

Definition firstPage : ListVehiclesRequest.t :=
  ListVehiclesRequest.mk 2 "" None None None.

Definition nextPage (token : string) : ListVehiclesRequest.t :=
  ListVehiclesRequest.mk 2 token None None None.

(** The identifier parser of the sample environment reads a decimal numeral;
    its validators accept every request that carries a vehicle, unchanged. *)
Definition decimal (s : string) : option UUID :=
  match list_ascii_of_string s with
  | [] => None
  | l => option_map Z.to_N (atoi l 0)
  end.

#[export] Instance env : service.Env := {|
  service.uuid_FromString := decimal;
  service.ValidateCreateVehicleRequest := fun _ req =>
    match CreateVehicleRequest.Vehicle req with
    | Some v => inr v
    | None => inl (service.mkValidationError "vehicle" "cannot be nil")
    end;
  service.ValidateUpdateVehicleRequest := fun req =>
    match UpdateVehicleRequest.Vehicle req with
    | Some v => inr v
    | None => inl (service.mkValidationError "vehicle" "cannot be nil")
    end
|}.

Definition input (plate make : string) : VehicleInput.t :=
  VehicleInput.mk "1" plate make "Atenza" 2018 "Blue" 5 FuelType_PETROL "" "" None None.

(** An update of the vehicle of identifier 2 that names [make] and [year] in
    its mask and provides neither. *)
Definition blank : VehicleInput.t :=
  VehicleInput.mk "" "" "" "" 0 "" 0 FuelType_FUEL_UNSPECIFIED "" "" None None.

Definition blankMake : UpdateVehicleRequest.t :=
  UpdateVehicleRequest.mk "2" (Some blank) (Some ["make"; "year"]).

(** Checks on text that accept every text, and normalisers that change
    nothing. *)
#[export] Instance text : validator.Text := {|
  validator.ValidateLicensePlate := fun _ _ => None;
  validator.NormalizeLicensePlate := fun s => s;
  validator.ValidateVehicleMake := fun _ _ => None;
  validator.ValidateVehicleModel := fun _ _ => None;
  validator.ValidateColor := fun _ _ => None;
  validator.ValidateEngineNumber := fun _ _ => None;
  validator.ValidateChassisNumber := fun _ _ => None;
  validator.ValidateVehicleTypeID := fun _ _ => None;
  validator.TrimSpace := fun s => s;
  validator.ToUpper := fun s => s
|}.

(** A store of drivers by identifier, with their status and whether their
    license is expired. *)
Definition Drivers := list (UUID * (DriverStatus * bool)).

Fixpoint findDriver (s : Drivers) (driverID : UUID) : option (DriverStatus * bool) :=
  match s with
  | [] => None
  | (id, d) :: s' => if N.eqb id driverID then Some d else findDriver s' driverID
  end.

Definition getDriver (s : Drivers) (driverID : UUID)
  : Drivers * staff_service.result (DriverStatus * bool) :=
  match findDriver s driverID with
  | Some d => (s, staff_service.Ok d)
  | None => (s, staff_service.Err staff_service.ErrDriverNotFound)
  end.

Definition setDriver (s : Drivers) (driverID : UUID) (status : DriverStatus) (reason : string)
  : Drivers * staff_service.result (DriverStatus * bool) :=
  match findDriver s driverID with
  | Some d =>
      (map (fun e => if N.eqb (fst e) driverID then (fst e, (status, snd (snd e))) else e) s,
       staff_service.Ok (status, snd d))
  | None => (s, staff_service.Err staff_service.ErrDriverNotFound)
  end.


(** A vehicle registered on the tenth of January 2022, at half past eight,
    and insured to the end of 2026. *)
Definition dated : VehicleInput.t :=
  VehicleInput.mk "1" "KAA 006F" "Isuzu" "NQR" 2021 "White" 33 FuelType_DIESEL "" ""
    (Some (Date (mkDateTime 2022 1 10 8 30 0 0)))
    (Some (Date (mkDateTime 2026 12 31 23 59 59 0))).

(** An empty [vehicles] table beside the vehicle type [cab]. *)
Definition empty : store.DB := store.mkDB [] [cab].

Definition ids : service.IdSource := service.mkIdSource (Some 1) 105 (Some 5%N).


End samples.
(** * Facts about base64 *)

Module Base64Facts.
Import Base64.
Local Open Scope N_scope.

Lemma land_shiftl_low (x c n : N) : c < 2 ^ n -> N.land (N.shiftl x n) c = 0.
Proof.
  intros Hc. apply N.bits_inj_0. intros m.
  rewrite N.land_spec.
  destruct (N.lt_ge_cases m n) as [Hm | Hm].
  - now rewrite N.shiftl_spec_low.
  - destruct (N.eq_dec c 0) as [-> | Hnz].
    + now rewrite N.bits_0, andb_false_r.
    + rewrite (N.bits_above_log2 c m), andb_false_r; [reflexivity|].
      apply N.log2_lt_pow2; [lia|].
      eapply N.lt_le_trans; [exact Hc|]. apply N.pow_le_mono_r; lia.
Qed.

Lemma lor_shiftl_add (x c n : N) :
  c < 2 ^ n -> N.lor (N.shiftl x n) c = x * 2 ^ n + c.
Proof.
  intros Hc.
  rewrite <- N.lxor_lor by now apply land_shiftl_low.
  rewrite <- N.add_nocarry_lxor by now apply land_shiftl_low.
  now rewrite N.shiftl_mul_pow2.
Qed.

Lemma uint_bound (c : ascii) : uint c < 256.
Proof. apply N_ascii_bounded. Qed.

Lemma byte_uint (c : ascii) : byte (uint c) = c.
Proof.
  unfold byte, uint. change 255 with (N.ones 8).
  rewrite N.land_ones, N.mod_small by apply N_ascii_bounded.
  apply ascii_N_embedding.
Qed.

Ltac arith :=
  repeat rewrite N.shiftr_div_pow2;
  repeat match goal with
         | |- context [N.land ?x 63] =>
             change (N.land x 63) with (N.land x (N.ones 6)); rewrite (N.land_ones x 6)
         | |- context [N.land ?x 255] =>
             change (N.land x 255) with (N.land x (N.ones 8)); rewrite (N.land_ones x 8)
         end.

Lemma pack3 (b0 b1 b2 : N) :
  b0 < 256 -> b1 < 256 -> b2 < 256 ->
  N.lor (N.lor (N.shiftl b0 16) (N.shiftl b1 8)) b2 = b0 * 65536 + b1 * 256 + b2.
Proof.
  intros H0 H1 H2.
  replace (N.shiftl b0 16) with (N.shiftl (N.shiftl b0 8) 8)
    by (rewrite N.shiftl_shiftl; reflexivity).
  rewrite <- N.shiftl_lor.
  rewrite (lor_shiftl_add _ b2 8) by (change (2 ^ 8) with 256; lia).
  rewrite (lor_shiftl_add b0 b1 8) by (change (2 ^ 8) with 256; lia).
  change (2 ^ 8) with 256. lia.
Qed.

Lemma assemble_add (d0 d1 d2 d3 : N) :
  d0 < 64 -> d1 < 64 -> d2 < 64 -> d3 < 64 ->
  assemble d0 d1 d2 d3 = d0 * 262144 + d1 * 4096 + d2 * 64 + d3.
Proof.
  intros H0 H1 H2 H3. unfold assemble.
  replace (N.shiftl d0 18) with (N.shiftl (N.shiftl (N.shiftl d0 6) 6) 6)
    by (rewrite !N.shiftl_shiftl; reflexivity).
  replace (N.shiftl d1 12) with (N.shiftl (N.shiftl d1 6) 6)
    by (rewrite !N.shiftl_shiftl; reflexivity).
  rewrite <- !N.shiftl_lor.
  rewrite !lor_shiftl_add by (change (2 ^ 6) with 64; lia).
  change (2 ^ 6) with 64. lia.
Qed.

Ltac divmod := 
  change (2 ^ 18) with 262144 in *; change (2 ^ 16) with 65536 in *;
  change (2 ^ 12) with 4096 in *; change (2 ^ 8) with 256 in *;
  change (2 ^ 6) with 64 in *;
  zify; Z.to_euclidean_division_equations; lia.

Lemma decodeMap_encode (i : N) : i < 64 -> decodeMap (encode i) = Some i.
Proof.
  intros Hi.
  assert (Hall : forallb (fun j => match decodeMap (encode j) with
                                   | Some k => N.eqb k j
                                   | None => false
                                   end) (map N.of_nat (seq 0 64)) = true)
    by (vm_compute; reflexivity).
  rewrite forallb_forall in Hall.
  specialize (Hall i).
  destruct (decodeMap (encode i)) as [k|].
  - f_equal. apply N.eqb_eq. apply Hall.
    apply in_map_iff. exists (N.to_nat i). split; [lia|]. apply in_seq. lia.
  - discriminate Hall.
    apply in_map_iff. exists (N.to_nat i). split; [lia|]. apply in_seq. lia.
Qed.

Lemma decodeMap_pad : decodeMap padChar = None.
Proof. reflexivity. Qed.

Lemma sextet_lt (x : N) : N.land x 63 < 64.
Proof. arith. apply N.mod_lt. discriminate. Qed.

Lemma sextets (v : N) :
  v < 16777216 ->
  (v / 262144) mod 64 * 262144 + (v / 4096) mod 64 * 4096
  + (v / 64) mod 64 * 64 + v mod 64 = v.
Proof.
  intros Hv.
  replace (v / 262144) with (v / 64 / 64 / 64) by (rewrite !N.Div0.div_div; reflexivity).
  replace (v / 4096) with (v / 64 / 64) by (rewrite !N.Div0.div_div; reflexivity).
  zify; Z.to_euclidean_division_equations; lia.
Qed.

Lemma octets (b0 b1 b2 : N) :
  b0 < 256 -> b1 < 256 -> b2 < 256 ->
  let v := b0 * 65536 + b1 * 256 + b2 in
  (v / 65536) mod 256 = b0 /\ (v / 256) mod 256 = b1 /\ v mod 256 = b2.
Proof.
  intros H0 H1 H2 v. subst v.
  repeat split; zify; Z.to_euclidean_division_equations; lia.
Qed.

Lemma quantum3 (b0 b1 b2 : ascii) :
  let val := N.lor (N.lor (N.shiftl (uint b0) 16) (N.shiftl (uint b1) 8)) (uint b2) in
  let x := assemble (N.land (N.shiftr val 18) 63) (N.land (N.shiftr val 12) 63)
                    (N.land (N.shiftr val 6) 63) (N.land val 63) in
  byte (N.shiftr x 16) = b0 /\ byte (N.shiftr x 8) = b1 /\ byte x = b2.
Proof.
  intros val x.
  pose proof (uint_bound b0) as H0. pose proof (uint_bound b1) as H1.
  pose proof (uint_bound b2) as H2.
  assert (Hval : val = uint b0 * 65536 + uint b1 * 256 + uint b2)
    by (apply pack3; assumption).
  assert (Hx : x = val).
  { unfold x. rewrite assemble_add by apply sextet_lt. arith.
    clearbody val. apply sextets. lia. }
  rewrite Hx. clearbody val. clear x Hx.
  destruct (octets _ _ _ H0 H1 H2) as (E0 & E1 & E2). rewrite <- Hval in E0, E1, E2.
  unfold byte. arith.
  change (2 ^ 16) with 65536. change (2 ^ 8) with 256.
  rewrite E0, E1, E2. unfold uint. now rewrite !ascii_N_embedding.
Qed.

Lemma quantum2 (b0 b1 : ascii) :
  let val := N.lor (N.shiftl (uint b0) 16) (N.shiftl (uint b1) 8) in
  let x := assemble (N.land (N.shiftr val 18) 63) (N.land (N.shiftr val 12) 63)
                    (N.land (N.shiftr val 6) 63) 0 in
  byte (N.shiftr x 16) = b0 /\ byte (N.shiftr x 8) = b1.
Proof.
  intros val x.
  pose proof (uint_bound b0) as H0. pose proof (uint_bound b1) as H1.
  assert (Hval : val = uint b0 * 65536 + uint b1 * 256 + 0).
  { rewrite <- pack3 by lia. now rewrite N.lor_0_r. }
  assert (Hm : val mod 64 = 0).
  { rewrite Hval.
    replace (uint b0 * 65536 + uint b1 * 256 + 0)
      with ((uint b0 * 1024 + uint b1 * 4) * 64) by lia.
    apply N.Div0.mod_mul. }
  assert (Hx : x = val).
  { unfold x. rewrite assemble_add by (try apply sextet_lt; lia). arith.
    clearbody val. pose proof (sextets val ltac:(lia)) as S.
    rewrite Hm in S. exact S. }
  rewrite Hx. clearbody val. clear x Hx.
  destruct (octets _ _ 0 H0 H1 ltac:(lia)) as (E0 & E1 & _). rewrite <- Hval in E0, E1.
  unfold byte. arith.
  change (2 ^ 16) with 65536. change (2 ^ 8) with 256.
  rewrite E0, E1. unfold uint. now rewrite !ascii_N_embedding.
Qed.

Lemma quantum1 (b0 : ascii) :
  let val := N.shiftl (uint b0) 16 in
  let x := assemble (N.land (N.shiftr val 18) 63) (N.land (N.shiftr val 12) 63) 0 0 in
  byte (N.shiftr x 16) = b0.
Proof.
  intros val x.
  pose proof (uint_bound b0) as H0.
  assert (Hval : val = uint b0 * 65536 + 0 * 256 + 0).
  { rewrite <- pack3 by lia. now rewrite N.shiftl_0_l, !N.lor_0_r. }
  assert (Hm : val mod 64 = 0).
  { rewrite Hval.
    replace (uint b0 * 65536 + 0 * 256 + 0) with ((uint b0 * 1024) * 64) by lia.
    apply N.Div0.mod_mul. }
  assert (Hm' : (val / 64) mod 64 = 0).
  { rewrite Hval.
    replace (uint b0 * 65536 + 0 * 256 + 0) with ((uint b0 * 1024) * 64) by lia.
    rewrite N.div_mul by discriminate.
    replace (uint b0 * 1024) with ((uint b0 * 16) * 64) by lia.
    apply N.Div0.mod_mul. }
  assert (Hx : x = val).
  { unfold x. rewrite assemble_add by (try apply sextet_lt; lia). arith.
    clearbody val. pose proof (sextets val ltac:(lia)) as S.
    rewrite Hm, Hm' in S. exact S. }
  rewrite Hx. clearbody val. clear x Hx.
  destruct (octets _ 0 0 H0 ltac:(lia) ltac:(lia)) as (E0 & _ & _). rewrite <- Hval in E0.
  unfold byte. arith.
  change (2 ^ 16) with 65536. change (2 ^ 8) with 256.
  rewrite E0. unfold uint. now rewrite !ascii_N_embedding.
Qed.

Lemma list_ind3 (A : Type) (P : list A -> Prop) :
  P [] -> (forall a, P [a]) -> (forall a b, P [a; b]) ->
  (forall a b c l, P l -> P (a :: b :: c :: l)) ->
  forall l, P l.
Proof.
  intros P0 P1 P2 P3 l.
  enough (H : P l /\ (forall a, P (a :: l)) /\ (forall a b, P (a :: b :: l)))
    by apply H.
  induction l as [| x l (Hl & Hl1 & Hl2)]; repeat split; auto.
Qed.

Lemma encode_not_newline (i : N) : isNewline (encode i) = false.
Proof.
  destruct (N.lt_ge_cases i 64) as [Hi | Hi].
  - pose proof (decodeMap_encode i Hi) as E.
    unfold isNewline.
    destruct (Ascii.eqb_spec (encode i) "010"%char) as [e | _];
      [rewrite e in E; discriminate E|].
    destruct (Ascii.eqb_spec (encode i) "013"%char) as [e | _];
      [rewrite e in E; discriminate E|].
    reflexivity.
  - unfold encode. rewrite nth_overflow; [reflexivity|].
    change (List.length (list_ascii_of_string encodeURL)) with 64%nat. lia.
Qed.

Lemma Encode_no_newline (src : list ascii) :
  filter (fun c => negb (isNewline c)) (Encode src) = Encode src.
Proof.
  induction src as [| a | a b | a b c l IH] using list_ind3; cbn [Encode filter];
    rewrite ?encode_not_newline; cbn [negb isNewline padChar Ascii.eqb orb];
    try rewrite IH; reflexivity.
Qed.

Lemma decodeQuanta_Encode (src : list ascii) : decodeQuanta (Encode src) = Some src.
Proof.
  induction src as [| a | a b | a b c l IH] using list_ind3.
  - reflexivity.
  - cbn [Encode decodeQuanta].
    rewrite !decodeMap_encode by apply sextet_lt.
    rewrite decodeMap_pad, Ascii.eqb_refl. cbn [andb].
    now rewrite quantum1.
  - cbn [Encode decodeQuanta].
    rewrite !decodeMap_encode by apply sextet_lt.
    rewrite decodeMap_pad, Ascii.eqb_refl.
    destruct (quantum2 a b) as (E0 & E1). now rewrite E0, E1.
  - cbn [Encode decodeQuanta].
    rewrite !decodeMap_encode by apply sextet_lt.
    rewrite IH.
    destruct (quantum3 a b c) as (E0 & E1 & E2). now rewrite E0, E1, E2.
Qed.

Theorem DecodeString_EncodeToString (src : list ascii) :
  DecodeString (EncodeToString src) = Some src.
Proof.
  unfold DecodeString, EncodeToString.
  rewrite list_ascii_of_string_of_list_ascii, Encode_no_newline.
  apply decodeQuanta_Encode.
Qed.

End Base64Facts.

(** * Facts about the RFC 3339 text of a time *)

Module GoTimeFacts.
Import GoTime.
Local Open Scope Z_scope.

Ltac divlia := Z.to_euclidean_division_equations; lia.

Lemma digit_cases (d : Z) :
  0 <= d <= 9 ->
  d = 0 \/ d = 1 \/ d = 2 \/ d = 3 \/ d = 4 \/ d = 5 \/ d = 6 \/ d = 7 \/ d = 8 \/ d = 9.
Proof. lia. Qed.

Ltac each_digit d H :=
  destruct (digit_cases d H) as [-> | [-> | [-> | [-> | [-> | [-> | [-> | [-> | [-> | ->]]]]]]]]].

Lemma isDigit_digit (d : Z) : 0 <= d <= 9 -> isDigit (digit d) = true.
Proof. intros H. each_digit d H; reflexivity. Qed.

Lemma digitVal_digit (d : Z) : 0 <= d <= 9 -> digitVal (digit d) = d.
Proof. intros H. each_digit d H; reflexivity. Qed.

Lemma digit_not (c : ascii) (d : Z) :
  isDigit c = false -> 0 <= d <= 9 -> Ascii.eqb (digit d) c = false.
Proof.
  intros Hc Hd. destruct (Ascii.eqb_spec (digit d) c) as [<- | _]; [|reflexivity].
  now rewrite isDigit_digit in Hc.
Qed.

Lemma atoi_app (p q : list ascii) (x : Z) :
  atoi (p ++ q) x = (y <- atoi p x ;; atoi q y).
Proof.
  revert x. induction p as [| c p IH]; intros x; cbn [atoi app]; [reflexivity|].
  destruct (isDigit c); [apply IH | reflexivity].
Qed.

Lemma atoi_digitsN (n : nat) (u x : Z) :
  atoi (digitsN n u) x = Some (x * 10 ^ Z.of_nat n + u mod 10 ^ Z.of_nat n).
Proof.
  revert u x. induction n as [| n IH]; intros u x.
  - cbn [digitsN atoi]. f_equal. change (10 ^ Z.of_nat 0) with 1. rewrite Z.mod_1_r. lia.
  - cbn [digitsN]. rewrite atoi_app, IH. cbn [atoi].
    rewrite isDigit_digit, digitVal_digit by (apply Z.mod_pos_bound; lia) || divlia.
    f_equal. rewrite Nat2Z.inj_succ, Z.pow_succ_r by lia.
    rewrite (Z.rem_mul_r u 10 (10 ^ Z.of_nat n)) by lia. lia.
Qed.

Lemma digitsN_digits (n : nat) (u : Z) : forallb isDigit (digitsN n u) = true.
Proof.
  revert u. induction n as [| n IH]; intros u; cbn [digitsN]; [reflexivity|].
  rewrite forallb_app, IH. cbn [forallb]. rewrite isDigit_digit by divlia. reflexivity.
Qed.

Lemma digitsN_length (n : nat) (u : Z) : List.length (digitsN n u) = n.
Proof.
  revert u. induction n as [| n IH]; intros u; cbn [digitsN]; [reflexivity|].
  rewrite length_app, IH. cbn. lia.
Qed.

Lemma parseUint_digitsN (n : nat) (u lo hi : Z) :
  0 <= u < 10 ^ Z.of_nat n -> lo <= u <= hi ->
  parseUint (digitsN n u) lo hi = Some u.
Proof.
  intros Hu Hr. unfold parseUint. rewrite atoi_digitsN.
  rewrite Z.mod_small by assumption. rewrite Z.mul_0_l, Z.add_0_l.
  destruct (Z.ltb_spec u lo); [lia|]. destruct (Z.ltb_spec hi u); [lia|]. reflexivity.
Qed.

Lemma appendInt_small (x : Z) (w : nat) :
  0 <= x < 10 ^ Z.of_nat w -> appendInt x w = digitsN w x.
Proof.
  intros H. unfold appendInt.
  destruct (Z.ltb_spec x 0); [lia|]. rewrite Z.abs_eq by lia.
  destruct (Z.ltb_spec x (10 ^ Z.of_nat w)); [reflexivity | lia].
Qed.


Lemma trimZeros_split (l : list ascii) :
  exists k, l = trimZeros l ++ repeat "0"%char k.
Proof.
  induction l as [| c l [k IH]]; [now exists 0%nat|].
  cbn [trimZeros]. destruct (trimZeros l) as [| r0 r] eqn:E.
  - cbn [app] in IH.
    destruct (Ascii.eqb_spec c "0"%char) as [-> | _].
    + exists (S k). cbn [app repeat]. now rewrite <- IH.
    + exists k. cbn [app]. now rewrite <- IH.
  - exists k. cbn [app]. cbn [app] in IH. now rewrite <- IH.
Qed.

Lemma trimZeros_length (l : list ascii) :
  (List.length (trimZeros l) <= List.length l)%nat.
Proof.
  destruct (trimZeros_split l) as [k E].
  rewrite E at 2. rewrite length_app. lia.
Qed.

Lemma trimZeros_digits (l : list ascii) :
  forallb isDigit l = true -> forallb isDigit (trimZeros l) = true.
Proof.
  intros H. destruct (trimZeros_split l) as [k E].
  rewrite E, forallb_app in H.
  now apply andb_true_iff in H.
Qed.

Lemma atoi_zeros (k : nat) (x : Z) :
  atoi (repeat "0"%char k) x = Some (x * 10 ^ Z.of_nat k).
Proof.
  revert x. induction k as [| k IH]; intros x.
  - cbn. f_equal. lia.
  - cbn [repeat atoi]. change (isDigit "0") with true. cbv iota.
    rewrite IH. f_equal. change (digitVal "0") with 0.
    rewrite Nat2Z.inj_succ, Z.pow_succ_r by lia. lia.
Qed.

Lemma atoi_digits (l : list ascii) (x : Z) :
  forallb isDigit l = true -> exists v, atoi l x = Some v.
Proof.
  revert x. induction l as [| c l IH]; intros x H; cbn [atoi]; [eauto|].
  cbn [forallb] in H. apply andb_true_iff in H as [Hc Hl]. rewrite Hc. now apply IH.
Qed.

Lemma parseNanoseconds_trim (n : Z) :
  0 <= n < 1000000000 ->
  parseNanoseconds (trimZeros (digitsN 9 n)) = n.
Proof.
  intros Hn. unfold parseNanoseconds.
  set (l := digitsN 9 n). set (p := trimZeros l).
  assert (Hlen : List.length l = 9%nat) by apply digitsN_length.
  assert (Hp : (List.length p <= 9)%nat) by (rewrite <- Hlen; apply trimZeros_length).
  rewrite firstn_all2 by exact Hp.
  destruct (atoi_digits p 0) as [v Hv].
  { apply trimZeros_digits, digitsN_digits. }
  rewrite Hv.
  pose proof (atoi_digitsN 9 n 0) as Hl. fold l in Hl.
  destruct (trimZeros_split l) as [k E]. fold p in E.
  assert (Hk : List.length p = (9 - k)%nat).
  { apply (f_equal (@List.length ascii)) in E.
    rewrite length_app, repeat_length, Hlen in E. lia. }
  assert (Hk9 : (k <= 9)%nat).
  { apply (f_equal (@List.length ascii)) in E.
    rewrite length_app, repeat_length, Hlen in E. lia. }
  rewrite E, atoi_app, Hv, atoi_zeros in Hl.
  rewrite Z.mod_small in Hl by (change (10 ^ Z.of_nat 9) with 1000000000; lia).
  injection Hl as Hl. rewrite Hk.
  replace (9 - (9 - k))%nat with k by lia. lia.
Qed.

Lemma spanDigits_app (ds r : list ascii) :
  forallb isDigit ds = true ->
  match r with [] => True | c :: _ => isDigit c = false end ->
  spanDigits (ds ++ r) = (ds, r).
Proof.
  intros Hd Hr. induction ds as [| c ds IH]; cbn [app spanDigits].
  - destruct r as [| c r]; [reflexivity|]. cbn [spanDigits]. now rewrite Hr.
  - cbn [forallb] in Hd. apply andb_true_iff in Hd as [Hc Hd].
    rewrite Hc, IH by assumption. reflexivity.
Qed.

Lemma trimZeros_nonempty (n : Z) :
  0 < n < 1000000000 -> trimZeros (digitsN 9 n) <> [].
Proof.
  intros Hn E.
  pose proof (atoi_digitsN 9 n 0) as Hl.
  destruct (trimZeros_split (digitsN 9 n)) as [k Ek].
  rewrite Ek, E in Hl. cbn [app] in Hl.
  rewrite atoi_zeros in Hl. injection Hl as Hl.
  rewrite Z.mod_small in Hl by (change (10 ^ Z.of_nat 9) with 1000000000; lia). lia.
Qed.

Lemma parseFraction_appendNano (n : Z) (r : list ascii) :
  0 <= n < 1000000000 -> zoneHead r ->
  parseFraction (appendNano n ++ r) = (n, r).
Proof.
  intros Hn Hr. unfold appendNano.
  destruct (Z.eqb_spec n 0) as [-> | Hnz].
  - cbn [app]. destruct r as [| c r]; [destruct Hr|]. destruct Hr as [_ Hdot].
    unfold parseFraction. destruct r; [reflexivity | now rewrite Hdot].
  - assert (Hne := trimZeros_nonempty n ltac:(lia)).
    assert (Hds := trimZeros_digits _ (digitsN_digits 9 n)).
    assert (Hv := parseNanoseconds_trim n Hn).
    destruct (trimZeros (digitsN 9 n)) as [| c ds] eqn:E; [congruence|].
    cbn [app]. unfold parseFraction.
    assert (Hc : isDigit c = true) by (cbn [forallb] in Hds; now apply andb_true_iff in Hds).
    rewrite Hc. cbn [Ascii.eqb andb tl]. change (Ascii.eqb "." ".") with true. cbv iota.
    change (c :: ds ++ r) with ((c :: ds) ++ r).
    rewrite spanDigits_app; [now rewrite Hv | assumption |].
    destruct r; [exact I | apply Hr].
Qed.


Lemma parseUint4 (u lo hi : Z) :
  0 <= u < 10000 -> lo <= u <= hi ->
  parseUint [digit (u / 10 / 10 / 10 mod 10); digit (u / 10 / 10 mod 10);
             digit (u / 10 mod 10); digit (u mod 10)] lo hi = Some u.
Proof. intros Hu Hr. exact (parseUint_digitsN 4 u lo hi Hu Hr). Qed.

Lemma parseUint2 (u lo hi : Z) :
  0 <= u < 100 -> lo <= u <= hi ->
  parseUint [digit (u / 10 mod 10); digit (u mod 10)] lo hi = Some u.
Proof. intros Hu Hr. exact (parseUint_digitsN 2 u lo hi Hu Hr). Qed.

Lemma appendZone_nonzero (off : Z) :
  validZone off = true -> off <> 0 ->
  let k := Z.abs off / 60 in
  appendZone off
  = zoneSign off :: digitsN 2 (k / 60) ++ ":"%char :: digitsN 2 (k mod 60).
Proof.
  intros Hv Hnz k. unfold validZone in Hv.
  apply andb_true_iff in Hv as [Hv Hhi]. apply andb_true_iff in Hv as [Hm Hlo].
  apply Z.eqb_eq in Hm. apply Z.ltb_lt in Hlo, Hhi.
  unfold appendZone. destruct (Z.eqb_spec off 0) as [| _]; [contradiction|].
  assert (Hq : Z.quot off 60 = off / 60).
  { divlia. }
  rewrite Hq.
  assert (Hk : Z.abs (off / 60) = k) by (subst k; divlia).
  rewrite Hk.
  rewrite !appendInt_small by (change (10 ^ Z.of_nat 2) with 100; subst k; divlia).
  unfold zoneSign.
  replace (off / 60 <? 0) with (off <? 0).
  - destruct (off <? 0); reflexivity.
  - destruct (Z.ltb_spec off 0), (Z.ltb_spec (off / 60) 0); try reflexivity; divlia.
Qed.

Lemma zoneHead_appendZone (off : Z) : validZone off = true -> zoneHead (appendZone off).
Proof.
  intros Hv. destruct (Z.eq_dec off 0) as [-> | Hnz].
  - cbn. auto.
  - rewrite appendZone_nonzero by assumption. cbn [zoneHead].
    unfold zoneSign. destruct (off <? 0); auto.
Qed.

Lemma parseZone_appendZone (off : Z) :
  validZone off = true -> parseZone (appendZone off) = Some off.
Proof.
  intros Hv. destruct (Z.eq_dec off 0) as [-> | Hnz]; [reflexivity|].
  rewrite appendZone_nonzero by assumption.
  unfold validZone in Hv.
  apply andb_true_iff in Hv as [Hv Hhi]. apply andb_true_iff in Hv as [Hm Hlo].
  apply Z.eqb_eq in Hm. apply Z.ltb_lt in Hlo, Hhi.
  set (k := Z.abs off / 60).
  cbn [digitsN app]. unfold parseZone.
  rewrite !parseUint2 by (subst k; divlia).
  change (Ascii.eqb ":" ":") with true. rewrite andb_true_r.
  unfold zoneSign. destruct (Z.ltb_spec off 0).
  - change (Ascii.eqb "-" "-") with true. cbn [orb]. f_equal. subst k. divlia.
  - change (Ascii.eqb "+" "-") with false. change (Ascii.eqb "+" "+") with true.
    cbn [orb]. f_equal. subst k. divlia.
Qed.

Lemma validWall_ok (w : DateTime) : validWall w = true -> fields_ok w.
Proof.
  unfold validWall. intros H.
  repeat (apply andb_true_iff in H; destruct H as [H ?]).
  repeat match goal with
         | H : (_ <=? _) = true |- _ => apply Z.leb_le in H
         | H : (_ <? _) = true |- _ => apply Z.ltb_lt in H
         end.
  constructor; lia.
Qed.

Lemma daysIn_le (m y : Z) : daysIn m y <= 31.
Proof.
  unfold daysIn. destruct ((m =? 2) && isLeap y); [lia|].
  unfold daysBefore.
  destruct (Z.le_gt_cases m 0) as [H0 | H0].
  - replace (Z.to_nat m) with 0%nat by lia. replace (Z.to_nat (m - 1)) with 0%nat by lia.
    cbn. lia.
  - destruct (Z.le_gt_cases 14 m) as [H1 | H1].
    + rewrite !nth_overflow by (cbn [List.length]; lia). lia.
    + assert (Hc : m = 1 \/ m = 2 \/ m = 3 \/ m = 4 \/ m = 5 \/ m = 6 \/ m = 7 \/ m = 8
                   \/ m = 9 \/ m = 10 \/ m = 11 \/ m = 12 \/ m = 13) by lia.
      repeat (destruct Hc as [-> | Hc]; [apply Z.leb_le; reflexivity|]).
      rewrite Hc. apply Z.leb_le; reflexivity.
Qed.

Lemma appendFormat_valid (t : Time) :
  fields_ok (wall t) ->
  appendFormatRFC3339 t
  = head19 (wall t) ++ appendNano (Nanosecond (wall t)) ++ appendZone (zoneOffset t).
Proof.
  intros [Hy Hm Hd Hh Hmi Hs Hn].
  pose proof (daysIn_le (Month (wall t)) (Year (wall t))).
  unfold appendFormatRFC3339, appendDate, head19.
  rewrite !appendInt_small
    by (change (10 ^ Z.of_nat 2) with 100; change (10 ^ Z.of_nat 4) with 10000; lia).
  repeat (rewrite <- ?app_assoc; cbn [app]). reflexivity.
Qed.

Lemma parse_format (t : Time) :
  valid t = true -> parseRFC3339 (appendFormatRFC3339 t) = Some t.
Proof.
  intros Hv. unfold valid in Hv. apply andb_true_iff in Hv as [Hw Hz].
  pose proof (validWall_ok _ Hw) as Hok.
  rewrite appendFormat_valid by assumption.
  destruct Hok as [Hy Hm Hd Hh Hmi Hs Hn].
  pose proof (daysIn_le (Month (wall t)) (Year (wall t))).
  unfold head19. cbn [digitsN]. repeat (rewrite <- ?app_assoc; cbn [app]).
  unfold parseRFC3339, parseDate.
  rewrite parseUint4 by lia. rewrite (parseUint2 (Month (wall t))) by lia.
  rewrite (parseUint2 (Day (wall t))) by lia.
  change (Ascii.eqb "-" "-") with true. cbn [andb].
  rewrite !parseUint2 by lia.
  change (Ascii.eqb "T" "T") with true. change (Ascii.eqb ":" ":") with true. cbn [andb].
  rewrite parseFraction_appendNano by (try apply zoneHead_appendZone; assumption).
  rewrite parseZone_appendZone by assumption.
  destruct t as [[]]; reflexivity.
Qed.


Lemma MarshalText_valid (t : Time) :
  valid t = true -> MarshalText t = Some (appendFormatRFC3339 t).
Proof.
  intros Hv. unfold valid in Hv. apply andb_true_iff in Hv as [Hw Hz].
  pose proof (validWall_ok _ Hw) as Hok.
  unfold MarshalText. rewrite appendFormat_valid by assumption.
  set (nano := appendNano (Nanosecond (wall t))).
  assert (H4 : forall r, nth 4 (head19 (wall t) ++ r) "000"%char = "-"%char).
  { intros r. unfold head19. cbn [digitsN]. repeat (rewrite <- ?app_assoc; cbn [app]).
    reflexivity. }
  rewrite H4. change (Ascii.eqb "-" "-") with true. cbn [negb].
  rewrite app_assoc. set (p := head19 (wall t) ++ nano).
  destruct (Z.eq_dec (zoneOffset t) 0) as [E0 | Hnz].
  - rewrite E0. change (appendZone 0) with ["Z"%char].
    rewrite length_app. cbn [List.length].
    replace (List.length p + 1 - 1)%nat with (List.length p + 0)%nat by lia.
    rewrite app_nth2_plus. reflexivity.
  - rewrite appendZone_nonzero by assumption.
    unfold validZone in Hz.
    apply andb_true_iff in Hz as [Hz Hhi]. apply andb_true_iff in Hz as [Hm Hlo].
    apply Z.eqb_eq in Hm. apply Z.ltb_lt in Hlo, Hhi.
    set (k := Z.abs (zoneOffset t) / 60).
    cbn [digitsN app]. rewrite length_app. cbn [List.length].
    replace (List.length p + 6 - 1)%nat with (List.length p + 5)%nat by lia.
    replace (List.length p + 6 - 6)%nat with (List.length p + 0)%nat by lia.
    replace (List.length p + 6 - 5)%nat with (List.length p + 1)%nat by lia.
    rewrite !app_nth2_plus. cbn [nth].
    rewrite digit_not by (reflexivity || divlia).
    rewrite skipn_app, skipn_all2 by lia.
    replace (List.length p + 1 - List.length p)%nat with 1%nat by lia.
    cbn [app skipn num2].
    rewrite !digitVal_digit by divlia.
    replace (isDigit (zoneSign (zoneOffset t))) with false
      by (unfold zoneSign; destruct (zoneOffset t <? 0); reflexivity).
    cbn [orb].
    destruct (Z.leb_spec 24 (10 * (k / 60 / 10 mod 10) + k / 60 mod 10));
      [subst k; divlia | reflexivity].
Qed.

Theorem UnmarshalText_MarshalText (t : Time) :
  valid t = true ->
  exists b, MarshalText t = Some b /\ UnmarshalText b = Some t.
Proof.
  intros Hv. exists (appendFormatRFC3339 t). split.
  - now apply MarshalText_valid.
  - unfold UnmarshalText, parseStrictRFC3339. now rewrite parse_format.
Qed.

End GoTimeFacts.
(** * Facts about the store *)

Module StoreFacts.
Import genproto types GoTime store.
Local Open Scope string_scope.

Lemma VehicleStatus_value_String (s : VehicleStatus) :
  VehicleStatus_value (VehicleStatus_String s) = Some s.
Proof. destruct s; reflexivity. Qed.

Lemma FuelType_value_String (f : FuelType) :
  FuelType_value (FuelType_String f) = Some f.
Proof. destruct f; reflexivity. Qed.

Lemma VehicleStatus_eqb_eq (a b : VehicleStatus) :
  VehicleStatus_eqb a b = true <-> a = b.
Proof. destruct a, b; cbn; split; congruence. Qed.

Lemma scanVehicleFromRows_Ok (v : VehicleRow.t) (vt : VehicleTypeRow.t) :
  exists vehicle,
    scanVehicleFromRows (v, vt) = Ok vehicle
    /\ Vehicle.Id vehicle = VehicleRow.external_id v
    /\ Vehicle.Status vehicle = VehicleRow.status v
    /\ Vehicle.CreatedAt vehicle = Date (VehicleRow.created_at v).
Proof.
  unfold scanVehicleFromRows, populateVehicle.
  rewrite VehicleStatus_value_String, FuelType_value_String.
  eexists. split; [reflexivity|]. cbn. auto.
Qed.

(** ** The join and the single-row reads *)

Lemma foreign_key_fk_ok (db : DB) : foreign_key db = true -> fk_ok db.
Proof.
  unfold foreign_key, fk_ok. intros H. rewrite forallb_forall in H.
  apply Forall_forall. intros v Hv. specialize (H v Hv).
  apply existsb_exists in H as (vt & Hin & Hid). apply Z.eqb_eq in Hid. eauto.
Qed.

Lemma distinct_NoDup (l : list UUID) : distinct l = true -> NoDup l.
Proof.
  induction l as [| x l IH]; cbn [distinct]; intros H; constructor.
  - apply andb_true_iff in H as [H _]. apply negb_true_iff in H.
    intros Hin.
    assert (Hex : existsb (N.eqb x) l = true)
      by (apply existsb_exists; exists x; split; [assumption | apply N.eqb_refl]).
    congruence.
  - apply IH. now apply andb_true_iff in H as [_ H].
Qed.

Lemma constraints_wf (db : DB) : constraints db = true -> wf db.
Proof.
  unfold constraints. intros H. apply andb_true_iff in H as [Hfk Hu].
  split; [now apply foreign_key_fk_ok | now apply distinct_NoDup].
Qed.

Lemma typesOf_fst (db : DB) (v : VehicleRow.t) :
  Forall (fun r => fst r = v) (typesOf db v).
Proof.
  unfold typesOf. apply Forall_forall. intros r Hr.
  apply in_map_iff in Hr as (vt & <- & _). reflexivity.
Qed.

Lemma typesOf_nonempty (db : DB) (v : VehicleRow.t) :
  (exists vt, In vt (vehicle_types db)
              /\ VehicleTypeRow.id vt = VehicleRow.vehicle_type_id v) ->
  typesOf db v <> [].
Proof.
  intros (vt & Hin & Hid) E. unfold typesOf in E.
  apply map_eq_nil in E.
  assert (Hf : In vt (filter (fun vt => (VehicleTypeRow.id vt
                                         =? VehicleRow.vehicle_type_id v)%Z)
                             (vehicle_types db))).
  { apply filter_In. split; [assumption|]. apply Z.eqb_eq. assumption. }
  rewrite E in Hf. destruct Hf.
Qed.

Lemma filter_all {A : Type} (p : A -> bool) (l : list A) :
  Forall (fun x => p x = true) l -> filter p l = l.
Proof.
  induction 1 as [| x l Hx _ IH]; cbn; [reflexivity|]. now rewrite Hx, IH.
Qed.

Lemma filter_none {A : Type} (p : A -> bool) (l : list A) :
  Forall (fun x => p x = false) l -> filter p l = [].
Proof.
  induction 1 as [| x l Hx _ IH]; cbn; [reflexivity|]. now rewrite Hx, IH.
Qed.

Lemma joinVehicleTypes_In (db : DB) (r : VehicleRow.t * VehicleTypeRow.t) :
  In r (joinVehicleTypes db) -> In (fst r) (vehicles db).
Proof.
  unfold joinVehicleTypes. intros H. apply in_flat_map in H as (v & Hv & Hr).
  apply in_map_iff in Hr as (vt & <- & _). exact Hv.
Qed.

(** The first row of the join that a predicate on the vehicle selects. *)
Lemma join_first_match (db : DB) (p : VehicleRow.t -> bool) (v : VehicleRow.t) :
  fk_ok db -> In v (vehicles db) -> p v = true ->
  exists v' vt rest,
    filter (fun r => p (fst r)) (joinVehicleTypes db) = (v', vt) :: rest
    /\ In v' (vehicles db) /\ p v' = true.
Proof.
  unfold fk_ok, joinVehicleTypes. fold (typesOf db).
  generalize (vehicles db) as l. intros l Hfk Hin Hp.
  induction l as [| v0 l IH]; [destruct Hin|].
  inversion Hfk as [| ? ? Hfk0 Hfkl]; subst.
  cbn [flat_map]. rewrite filter_app.
  destruct (p v0) eqn:Hp0.
  - rewrite filter_all.
    + pose proof (typesOf_nonempty db v0 Hfk0) as Hne.
      pose proof (typesOf_fst db v0) as Hfst.
      destruct (typesOf db v0) as [| [v' vt] rest]; [congruence|].
      inversion Hfst as [| ? ? Hv' _]. cbn in Hv'. subst v'.
      exists v0, vt, (rest ++ filter (fun r => p (fst r)) (flat_map (typesOf db) l))%list.
      repeat split; [left; reflexivity | assumption].
    + eapply Forall_impl; [|apply typesOf_fst]. cbn. intros r ->. assumption.
  - rewrite filter_none.
    + destruct Hin as [-> | Hin]; [congruence|].
      destruct (IH Hfkl Hin) as (v' & vt & rest & E & Hin' & Hp').
      exists v', vt, rest. cbn [app]. repeat split; [assumption | right; assumption | assumption].
    + eapply Forall_impl; [|apply typesOf_fst]. cbn. intros r ->. assumption.
Qed.

Lemma unique_ids_inj (db : DB) (v v' : VehicleRow.t) :
  unique_ids db -> In v (vehicles db) -> In v' (vehicles db) ->
  VehicleRow.external_id v' = VehicleRow.external_id v -> v' = v.
Proof.
  unfold unique_ids. generalize (vehicles db) as l.
  induction l as [| x l IH]; intros Hnd Hv Hv' E; [destruct Hv|].
  cbn [map] in Hnd. inversion Hnd as [| ? ? Hx Hl]; subst.
  destruct Hv as [-> | Hv], Hv' as [-> | Hv'].
  - reflexivity.
  - exfalso. apply Hx. rewrite <- E. now apply in_map.
  - exfalso. apply Hx. rewrite E. now apply in_map.
  - now apply IH.
Qed.

Lemma LIMIT_1_cons {A : Type} (x : A) (l : list A) : LIMIT 1 (x :: l) = [x].
Proof. reflexivity. Qed.

Lemma GetVehicleByID_found (db : DB) (v : VehicleRow.t) :
  wf db -> In v (vehicles db) ->
  exists vehicle,
    GetVehicleByID db (VehicleRow.external_id v) = Ok vehicle
    /\ Vehicle.Status vehicle = VehicleRow.status v.
Proof.
  intros [Hfk Hnd] Hin.
  destruct (join_first_match db
              (fun r => N.eqb (VehicleRow.external_id r) (VehicleRow.external_id v))
              v Hfk Hin (N.eqb_refl _)) as (v' & vt & rest & E & Hin' & Hp).
  apply N.eqb_eq in Hp.
  assert (v' = v) by (eapply unique_ids_inj; eassumption). subst v'.
  unfold GetVehicleByID, getVehicleByIDQuery. rewrite E.
  rewrite LIMIT_1_cons. cbn [scanVehicle].
  destruct (scanVehicleFromRows_Ok v vt) as (vehicle & -> & _ & Hst & _).
  exists vehicle. split; [reflexivity | assumption].
Qed.

Lemma GetVehicleByLicensePlate_found (db : DB) (v : VehicleRow.t) :
  fk_ok db -> In v (vehicles db) ->
  exists vehicle, GetVehicleByLicensePlate db (VehicleRow.license_plate v) = Ok vehicle.
Proof.
  intros Hfk Hin.
  destruct (join_first_match db
              (fun r => String.eqb (VehicleRow.license_plate r) (VehicleRow.license_plate v))
              v Hfk Hin (String.eqb_refl _)) as (v' & vt & rest & E & _ & _).
  unfold GetVehicleByLicensePlate, getVehicleByLicensePlateQuery. rewrite E.
  rewrite LIMIT_1_cons. cbn [scanVehicle].
  destruct (scanVehicleFromRows_Ok v' vt) as (vehicle & -> & _).
  now exists vehicle.
Qed.

(** ** UPDATE statements *)

Lemma sqlUpdate_ext (rows : list VehicleRow.t) (w : VehicleRow.t -> bool)
  (set1 set2 : VehicleRow.t -> MySQLError + VehicleRow.t) :
  (forall r, set1 r = set2 r) -> sqlUpdate rows w set1 = sqlUpdate rows w set2.
Proof.
  intros H. unfold sqlUpdate. induction rows as [| r rows IH]; cbn [fold_right];
    [reflexivity|].
  now rewrite IH, H.
Qed.

Lemma sqlUpdate_inr (rows : list VehicleRow.t) (w : VehicleRow.t -> bool)
  (f : VehicleRow.t -> VehicleRow.t) :
  sqlUpdate rows w (fun r => inr (f r))
  = inr (map (fun r => if w r then f r else r) rows,
         Z.of_nat (List.length (filter (fun r => w r && changed f r) rows))).
Proof.
  unfold sqlUpdate. induction rows as [| r rows IH]; cbn [fold_right]; [reflexivity|].
  rewrite IH. cbn [map filter].
  destruct (w r); cbn [andb]; [|reflexivity].
  destruct (VehicleRow_eq_dec (f r) r) as [e | ne] eqn:D.
  - replace (changed f r) with false by (unfold changed; now rewrite D). reflexivity.
  - replace (changed f r) with true by (unfold changed; now rewrite D).
    cbn [List.length]. f_equal. f_equal. lia.
Qed.

(** Whatever the assignment, a statement that runs leaves each row either
    untouched or assigned. *)
Lemma sqlUpdate_frame (rows rows' : list VehicleRow.t) (w : VehicleRow.t -> bool)
  (set : VehicleRow.t -> MySQLError + VehicleRow.t) (n : Z) :
  sqlUpdate rows w set = inr (rows', n) ->
  Forall2 (fun r r' => (w r = false /\ r' = r) \/ (w r = true /\ set r = inr r')) rows rows'.
Proof.
  unfold sqlUpdate. revert rows' n.
  induction rows as [| r rows IH]; intros rows' n H; cbn [fold_right] in H.
  - injection H as <- _. constructor.
  - destruct (fold_right _ _ rows) as [e | [rs m]] eqn:E; [discriminate H|].
    specialize (IH rs m eq_refl).
    destruct (w r) eqn:Hw.
    + destruct (set r) as [e | r'] eqn:Hs; [discriminate H|].
      injection H as <- _. constructor; [right; auto | assumption].
    + injection H as <- _. constructor; [left; auto | assumption].
Qed.

Lemma sqlUpdate_zero (rows rows' : list VehicleRow.t) (w : VehicleRow.t -> bool)
  (set : VehicleRow.t -> MySQLError + VehicleRow.t) :
  sqlUpdate rows w set = inr (rows', 0) -> rows' = rows.
Proof.
  unfold sqlUpdate. revert rows'.
  assert (Hnn : forall l rs m,
             fold_right
               (fun r acc =>
                  match acc with
                  | inl e => inl e
                  | inr (rs, n) =>
                      if w r then
                        match set r with
                        | inl e => inl e
                        | inr r' => inr (r' :: rs, if VehicleRow_eq_dec r' r then n else n + 1)
                        end
                      else inr (r :: rs, n)
                  end) (inr ([], 0)) l = inr (rs, m) -> 0 <= m).
  { induction l as [| r l IHl]; intros rs m H; cbn [fold_right] in H.
    - injection H as _ <-. lia.
    - destruct (fold_right _ _ l) as [e | [rs0 m0]] eqn:E; [discriminate H|].
      specialize (IHl rs0 m0 eq_refl).
      destruct (w r); [destruct (set r) as [e | r']; [discriminate H|]|];
        injection H as _ <-; [destruct (VehicleRow_eq_dec r' r)|]; lia. }
  induction rows as [| r rows IH]; intros rows' H; cbn [fold_right] in H.
  - now injection H as <-.
  - destruct (fold_right _ _ rows) as [e | [rs m]] eqn:E; [discriminate H|].
    pose proof (Hnn rows rs m E) as Hm.
    destruct (w r).
    + destruct (set r) as [e | r']; [discriminate H|].
      injection H as <- Hz.
      destruct (VehicleRow_eq_dec r' r) as [-> | _]; [|lia].
      subst m. now rewrite (IH rs eq_refl).
    + injection H as <- Hz. subst m. now rewrite (IH rs eq_refl).
Qed.

End StoreFacts.
(** * The status transition guard *)

Import genproto types GoTime store.

(** C4. For drivers and for vehicles the transition predicate is false on every
    pair (s, s), true on exactly the edges the specification lists and false on
    every other ordered pair, and no edge leaves RETIRED. *)
Theorem transition_guard_matches_edge_tables :
  (forall s, staff_types.IsValidDriverStatusTransition s s = false)
  /\ (forall s, IsValidStatusTransition s s = false)
  /\ (forall from to,
        staff_types.IsValidDriverStatusTransition from to = true
        <-> In (from, to) spec.driver_edges)
  /\ (forall from to,
        IsValidStatusTransition from to = true <-> In (from, to) spec.vehicle_edges)
  /\ (forall to, IsValidStatusTransition VehicleStatus_RETIRED to = false).
Proof.
  repeat split; try (intros []; reflexivity).
  - destruct from, to; intros H; try discriminate H; cbn; tauto.
  - destruct from, to; intros H; try reflexivity; cbn in H;
      repeat (destruct H as [H | H]; [discriminate H|]); destruct H.
  - destruct from, to; intros H; try discriminate H; cbn; tauto.
  - destruct from, to; intros H; try reflexivity; cbn in H;
      repeat (destruct H as [H | H]; [discriminate H|]); destruct H.
Qed.

(** * Page tokens *)

Lemma Encode_nonempty (src : list ascii) : src <> [] -> Base64.Encode src <> [].
Proof.
  destruct src as [| a [| b [| c l]]]; intros H; [congruence | | |]; discriminate.
Qed.

Lemma EncodeToString_nonempty (src : list ascii) :
  src <> [] -> String.eqb (Base64.EncodeToString src) "" = false.
Proof.
  intros H. apply Encode_nonempty in H. unfold Base64.EncodeToString.
  destruct (Base64.Encode src); [congruence | reflexivity].
Qed.

Lemma appendFormatRFC3339_nonempty (t : Time) :
  valid t = true -> appendFormatRFC3339 t <> [].
Proof.
  intros Hv. unfold valid in Hv. apply andb_true_iff in Hv as [Hw _].
  rewrite GoTimeFacts.appendFormat_valid by now apply GoTimeFacts.validWall_ok.
  unfold head19. cbn [digitsN app]. discriminate.
Qed.

(** C9. A timestamp that has an RFC 3339 text with nanoseconds is encoded to a
    page token, and decoding that token gives the timestamp back. *)
Theorem page_token_round_trip (t : Time) :
  valid t = true ->
  exists token, store.encodePageToken t = Ok token /\ store.decodePageToken token = Ok t.
Proof.
  intros Hv. exists (Base64.EncodeToString (appendFormatRFC3339 t)).
  unfold store.encodePageToken, store.decodePageToken.
  rewrite GoTimeFacts.MarshalText_valid by assumption.
  split; [reflexivity|].
  rewrite EncodeToString_nonempty by now apply appendFormatRFC3339_nonempty.
  rewrite Base64Facts.DecodeString_EncodeToString.
  unfold UnmarshalText, parseStrictRFC3339. now rewrite GoTimeFacts.parse_format.
Qed.

Lemma page_token_round_trip_witness :
  valid (mkTime (mkDateTime 2025 9 5 19 11 45 123456000) 10800) = true
  /\ exists token,
       store.encodePageToken (mkTime (mkDateTime 2025 9 5 19 11 45 123456000) 10800)
       = Ok token
       /\ store.decodePageToken token
          = Ok (mkTime (mkDateTime 2025 9 5 19 11 45 123456000) 10800).
Proof.
  split; [reflexivity|].
  apply (page_token_round_trip (mkTime (mkDateTime 2025 9 5 19 11 45 123456000) 10800)).
  reflexivity.
Defined.

(** * Listing *)

(** The calls below name no vehicle type, so that they are the same on every
    engine. *)
Section ThreeVehicles.
Context {G : store.Engine}.

(** C1. With three stored vehicles and a page size of two, the first call
    returns the two newest vehicles and a token; the call with that token
    returns the same two vehicles again with an empty token, so the oldest
    vehicle is never listed. *)
Theorem ListVehicles_second_page_repeats_first :
  service.page (service.ListVehicles samples.three samples.firstPage)
  = Some ([3%N; 2%N], "MjAyNS0wOS0wNVQxMDowMDowMFo="%string)
  /\ service.page (service.ListVehicles samples.three
             (samples.nextPage "MjAyNS0wOS0wNVQxMDowMDowMFo="))
     = Some ([3%N; 2%N], ""%string).
Proof.
  split.
  - vm_compute. reflexivity.
  - vm_compute. reflexivity.
Qed.

(** C2. With three stored vehicles and a page size of two the query returns
    three rows; the token of the page is the encoding of the [created_at] of
    the third row, the one that was dropped, and not of the second row, the
    last one of the page. *)
Theorem ListVehicles_token_is_of_dropped_row :
  exists token,
    service.page (service.ListVehicles samples.three samples.firstPage)
    = Some (map store.VehicleRow.external_id [samples.v3; samples.v2], token)
    /\ store.encodePageToken (Date (store.VehicleRow.created_at samples.v1)) = Ok token
    /\ store.encodePageToken (Date (store.VehicleRow.created_at samples.v2)) <> Ok token.
Proof.
  exists "MjAyNS0wOS0wNVQxMDowMDowMFo="%string.
  repeat split; try (vm_compute; reflexivity).
  vm_compute. discriminate.
Qed.

End ThreeVehicles.

Section NotBase64.
#[local] Existing Instance samples.engine.

(** C3, as the specification states it, fails: a token that is not base64 is
    answered with a status whose code is Internal. *)
Lemma invalid_token_is_not_InvalidArgument :
  ListVehiclesRequest.PageToken (samples.nextPage "!!!") <> ""%string
  /\ Base64.DecodeString (ListVehiclesRequest.PageToken (samples.nextPage "!!!")) = None
  /\ forall format,
       service.ListVehicles samples.three (samples.nextPage "!!!")
       <> service.Errorf codes.InvalidArgument format.
Proof.
  split; [discriminate|]. split; [reflexivity|].
  intros format. vm_compute. discriminate.
Qed.

End NotBase64.

(** C3. A call whose page token is not empty and is not base64url, or whose
    decoded bytes are not an RFC 3339 timestamp, fails: the store returns an
    error and the service answers with the code Internal. *)
Theorem ListVehicles_invalid_token_Internal {G : store.Engine} (db : store.DB)
  (req : ListVehiclesRequest.t) :
  ListVehiclesRequest.PageToken req <> ""%string ->
  (Base64.DecodeString (ListVehiclesRequest.PageToken req) = None
   \/ exists decoded,
        Base64.DecodeString (ListVehiclesRequest.PageToken req) = Some decoded
        /\ UnmarshalText decoded = None) ->
  service.ListVehicles db req
  = service.Errorf codes.Internal "failed to list vehicles: %v".
Proof.
  intros Hne Hbad. unfold service.ListVehicles, store.ListVehicles.
  cbn [ListVehiclesParams.PageToken]. unfold store.decodePageToken.
  apply String.eqb_neq in Hne. rewrite Hne.
  destruct Hbad as [-> | (decoded & -> & ->)]; reflexivity.
Qed.

Section InvalidToken.
#[local] Existing Instance samples.engine.

Lemma ListVehicles_invalid_token_Internal_witness :
  ListVehiclesRequest.PageToken (samples.nextPage "bm90IGEgdGltZQ==") <> ""%string
  /\ (Base64.DecodeString (ListVehiclesRequest.PageToken (samples.nextPage "bm90IGEgdGltZQ=="))
      = None
      \/ exists decoded,
           Base64.DecodeString
             (ListVehiclesRequest.PageToken (samples.nextPage "bm90IGEgdGltZQ=="))
           = Some decoded
           /\ UnmarshalText decoded = None)
  /\ service.ListVehicles samples.three (samples.nextPage "bm90IGEgdGltZQ==")
     = service.Errorf codes.Internal "failed to list vehicles: %v".
Proof.
  assert (Hne : ListVehiclesRequest.PageToken (samples.nextPage "bm90IGEgdGltZQ==")
                <> ""%string) by discriminate.
  assert (Hbad : Base64.DecodeString
                   (ListVehiclesRequest.PageToken (samples.nextPage "bm90IGEgdGltZQ=="))
                 = None
                 \/ exists decoded,
                      Base64.DecodeString
                        (ListVehiclesRequest.PageToken (samples.nextPage "bm90IGEgdGltZQ=="))
                      = Some decoded
                      /\ UnmarshalText decoded = None).
  { right. exists (list_ascii_of_string "not a time"). split; reflexivity. }
  split; [exact Hne|]. split; [exact Hbad|].
  exact (ListVehicles_invalid_token_Internal samples.three
           (samples.nextPage "bm90IGEgdGltZQ==") Hne Hbad).
Defined.

End InvalidToken.

(** * Partial update *)

Import StoreFacts.

Lemma Forall2_diag {A : Type} (R : A -> A -> Prop) (l : list A) :
  (forall x, R x x) -> Forall2 R l l.
Proof. intros H. induction l; constructor; auto. Qed.

Lemma unmasked_columns_equal_refl (r : VehicleRow.t) : unmasked_columns_equal r r.
Proof. unfold unmasked_columns_equal. intuition. Qed.

Lemma make_only_refl (externalID : UUID) (make : string) (now : DateTime)
  (r : VehicleRow.t) : make_only externalID make now r r.
Proof. unfold make_only, unmasked_columns_equal. intuition. Qed.

Ltac eval_string_eqb :=
  repeat match goal with
         | |- context [String.eqb ?a ?b] =>
             let v := eval vm_compute in (String.eqb a b) in
             change (String.eqb a b) with v
         end.

Section UpdateVehicleFacts.
Context {G : store.Engine} {E : service.Env}.

Lemma store_UpdateVehicle_make (db : DB) (now : DateTime) (externalID : UUID)
  (updates : VehicleUpdateFields.t) :
  let db' := fst (store.UpdateVehicle db now externalID updates (Some ["make"%string])) in
  vehicle_types db' = vehicle_types db
  /\ Forall2
       (make_only externalID
          (match VehicleUpdateFields.Make updates with Some v => v | None => ""%string end)
          now)
       (vehicles db) (vehicles db').
Proof.
  unfold store.UpdateVehicle. cbv zeta.
  cbn [updateFlag inPaths existsb]. eval_string_eqb.
  cbn [orb updateValue updateNull updateDate CASE option_map].
  match goal with
  | |- context [sqlUpdate ?rows ?w ?set] =>
      destruct (sqlUpdate rows w set) as [e | [rows' n]] eqn:Hexec
  end.
  - destruct (Number e =? 1062); cbn [fst]; split; try reflexivity;
      apply Forall2_diag; intros; apply make_only_refl.
  - destruct (n =? 0); cbn [fst vehicles vehicle_types]; split; try reflexivity.
    + apply Forall2_diag; intros; apply make_only_refl.
    + apply sqlUpdate_frame in Hexec.
      eapply Forall2_impl; [|exact Hexec].
      intros r r' [[Hw ->] | [Hw Hset]]; [apply make_only_refl|].
      cbn beta in Hw, Hset. apply N.eqb_eq in Hw.
      cbn [VehicleRow.license_plate VehicleRow.vehicle_type_id] in Hset.
      rewrite String.eqb_refl, Z.eqb_refl in Hset. cbn [negb andb] in Hset.
      injection Hset as <-.
      unfold make_only, unmasked_columns_equal. cbn.
      repeat split; auto. intros Hne. congruence.
Qed.

(** The service writes through [store.UpdateVehicle] or not at all. *)
Lemma service_UpdateVehicle_writes (db : DB) (now : DateTime)
  (req : UpdateVehicleRequest.t) :
  fst (service.UpdateVehicle db now req) = db
  \/ exists vehicleID updates,
       service.uuid_FromString (UpdateVehicleRequest.VehicleId req) = Some vehicleID
       /\ fst (service.UpdateVehicle db now req)
          = fst (store.UpdateVehicle db now vehicleID updates
                   (UpdateVehicleRequest.UpdateMask req)).
Proof.
  unfold service.UpdateVehicle.
  destruct (service.ValidateUpdateVehicleRequest req) as [? | vehicle]; [now left|].
  destruct (service.uuid_FromString _) as [vehicleID |] eqn:Hid; [|now left].
  destruct (GetVehicleByID db vehicleID) as [existingVehicle | []]; try now left.
  cbv zeta.
  match goal with
  | |- context [match ?c with Some st => (db, service.Failed st) | None => _ end] =>
      destruct c; [now left|]
  end.
  match goal with
  | |- context [match ?c with Some st => (db, service.Failed st) | None => _ end] =>
      destruct c; [now left|]
  end.
  right. eexists vehicleID, _. split; [reflexivity|].
  match goal with
  | |- context [store.UpdateVehicle ?a ?b ?c ?d ?e] =>
      destruct (store.UpdateVehicle a b c d e) as [db' [v | []]]; reflexivity
  end.
Qed.

(** C5. An update whose mask is exactly [make] leaves every row of another
    vehicle as it was, and changes in the row of the vehicle nothing but [make]
    and [updated_at], whatever else the payload carries: in the store
    operation, where a changed row has the [make] of the payload, and in the
    service call, which writes through it or not at all. *)
Theorem UpdateVehicle_mask_make_isolation (db : DB) (now : DateTime) :
  (forall externalID updates,
      let db' := fst (store.UpdateVehicle db now externalID updates (Some ["make"%string])) in
      vehicle_types db' = vehicle_types db
      /\ Forall2
           (make_only externalID
              (match VehicleUpdateFields.Make updates with
               | Some v => v
               | None => ""%string
               end) now)
           (vehicles db) (vehicles db'))
  /\ (forall vehicleId payload,
        let req := UpdateVehicleRequest.mk vehicleId payload (Some ["make"%string]) in
        let db' := fst (service.UpdateVehicle db now req) in
        vehicle_types db' = vehicle_types db
        /\ Forall2
             (fun r r' =>
                unmasked_columns_equal r r'
                /\ (service.uuid_FromString vehicleId <> Some (VehicleRow.external_id r)
                    -> r' = r))
             (vehicles db) (vehicles db')).
Proof.
  split.
  - intros externalID updates. apply store_UpdateVehicle_make.
  - intros vehicleId payload req db'. subst db'.
    destruct (service_UpdateVehicle_writes db now req)
      as [-> | (vehicleID & updates & Hid & ->)].
    + split; [reflexivity|]. apply Forall2_diag. intros r.
      split; [apply unmasked_columns_equal_refl | auto].
    + cbn [UpdateVehicleRequest.UpdateMask req].
      destruct (store_UpdateVehicle_make db now vehicleID updates) as [Ht Hrows].
      split; [exact Ht|].
      eapply Forall2_impl; [|exact Hrows].
      intros r r' (Heq & Hother & _). split; [exact Heq|].
      intros Hne. apply Hother. cbn [UpdateVehicleRequest.VehicleId req] in Hid.
      congruence.
Qed.

End UpdateVehicleFacts.

(** * Soft delete *)

Lemma status_text_RETIRED (s : VehicleStatus) :
  String.eqb (VehicleStatus_String s) "RETIRED" = VehicleStatus_eqb s VehicleStatus_RETIRED.
Proof. destruct s; reflexivity. Qed.

Lemma deleteVehicleWhere_spec (externalID : UUID) (r : VehicleRow.t) :
  deleteVehicleWhere externalID r = true
  <-> VehicleRow.external_id r = externalID /\ VehicleRow.status r <> VehicleStatus_RETIRED.
Proof.
  unfold deleteVehicleWhere. rewrite status_text_RETIRED, andb_true_iff, negb_true_iff.
  rewrite N.eqb_eq. split; intros [H1 H2]; split; auto.
  - intros Hs. apply VehicleStatus_eqb_eq in Hs. congruence.
  - destruct (VehicleStatus_eqb _ _) eqn:Hs; [|reflexivity].
    apply VehicleStatus_eqb_eq in Hs. contradiction.
Qed.

Lemma retire_changes (externalID : UUID) (now : DateTime) (r : VehicleRow.t) :
  deleteVehicleWhere externalID r = true ->
  changed (fun r => with_status r VehicleStatus_RETIRED now) r = true.
Proof.
  intros Hw. apply deleteVehicleWhere_spec in Hw as [_ Hs].
  unfold changed. destruct (VehicleRow_eq_dec _ r) as [e | _]; [|reflexivity].
  exfalso. apply Hs. rewrite <- e. reflexivity.
Qed.

(** The statement of [DeleteVehicle], row by row. *)
Lemma store_DeleteVehicle_eq (db : DB) (now : DateTime) (externalID : UUID) :
  store.DeleteVehicle db now externalID
  = (mkDB (map (fun r => if deleteVehicleWhere externalID r
                         then with_status r VehicleStatus_RETIRED now else r)
               (vehicles db))
          (vehicle_types db),
     match filter (deleteVehicleWhere externalID) (vehicles db) with
     | [] => Some ErrVehicleNotFound
     | _ :: _ => None
     end).
Proof.
  unfold store.DeleteVehicle. rewrite sqlUpdate_inr.
  replace (filter (fun r => deleteVehicleWhere externalID r
                            && changed (fun r0 => with_status r0 VehicleStatus_RETIRED now) r)
                  (vehicles db))
    with (filter (deleteVehicleWhere externalID) (vehicles db)).
  - destruct (filter (deleteVehicleWhere externalID) (vehicles db)); reflexivity.
  - apply filter_ext_in. intros r _.
    destruct (deleteVehicleWhere externalID r) eqn:Hw; [|reflexivity].
    now rewrite (retire_changes externalID now r Hw).
Qed.

Lemma store_DeleteVehicle_NotFound_iff (db : DB) (now : DateTime) (externalID : UUID) :
  snd (store.DeleteVehicle db now externalID) = Some ErrVehicleNotFound
  <-> filter (deleteVehicleWhere externalID) (vehicles db) = [].
Proof.
  rewrite store_DeleteVehicle_eq. cbn [snd].
  destruct (filter _ _); split; intros H; congruence.
Qed.

Lemma wf_retire (db : DB) (externalID : UUID) (now : DateTime) :
  wf db -> wf (mkDB (map (retire externalID now) (vehicles db)) (vehicle_types db)).
Proof.
  intros [Hfk Hu]. split.
  - unfold fk_ok in *. cbn [vehicles vehicle_types]. apply Forall_map.
    eapply Forall_impl; [|exact Hfk]. intros r H. unfold retire.
    destruct (N.eqb _ _); exact H.
  - unfold unique_ids in *. cbn [vehicles]. rewrite map_map.
    erewrite map_ext; [exact Hu|]. intros r. unfold retire.
    destruct (N.eqb _ _); reflexivity.
Qed.

Section DeleteVehicleFacts.
Context {E : service.Env}.

(** C6. The first [DeleteVehicle] of a stored vehicle that is neither RETIRED
    nor ASSIGNED succeeds and leaves its row RETIRED, the other rows as they
    were; a second one on the same identifier is answered NotFound and changes
    nothing; and the store reports not-found exactly when no row has the
    identifier and a status other than RETIRED, which is when its conditional
    update affects no row. *)
Theorem DeleteVehicle_then_NotFound (db : DB) (now later : DateTime)
  (req : DeleteVehicleRequest.t) (v : VehicleRow.t) :
  constraints db = true ->
  In v (vehicles db) ->
  DeleteVehicleRequest.VehicleId req <> ""%string ->
  service.uuid_FromString (DeleteVehicleRequest.VehicleId req)
  = Some (VehicleRow.external_id v) ->
  VehicleRow.status v <> VehicleStatus_RETIRED ->
  VehicleRow.status v <> VehicleStatus_ASSIGNED ->
  let db1 := mkDB (map (retire (VehicleRow.external_id v) now) (vehicles db))
                  (vehicle_types db) in
  service.DeleteVehicle db now req = (db1, None)
  /\ In (with_status v VehicleStatus_RETIRED now) (vehicles db1)
  /\ service.DeleteVehicle db1 later req
     = (db1, Some (service.mkStatus codes.NotFound "vehicle not found"))
  /\ (forall db0 now0 externalID,
        snd (store.DeleteVehicle db0 now0 externalID) = Some ErrVehicleNotFound
        <-> filter (deleteVehicleWhere externalID) (vehicles db0) = []).
Proof.
  intros Hc Hin Hne Hid Hret Hass db1.
  pose proof (constraints_wf db Hc) as Hwf.
  apply String.eqb_neq in Hne.
  assert (Hrows : map (fun r => if deleteVehicleWhere (VehicleRow.external_id v) r
                                then with_status r VehicleStatus_RETIRED now else r)
                      (vehicles db)
                  = map (retire (VehicleRow.external_id v) now) (vehicles db)).
  { apply map_ext_in. intros r Hr. unfold retire.
    destruct (N.eqb (VehicleRow.external_id r) (VehicleRow.external_id v)) eqn:He.
    - apply N.eqb_eq in He.
      assert (r = v) by (destruct Hwf; eapply unique_ids_inj; eassumption). subst r.
      replace (deleteVehicleWhere (VehicleRow.external_id v) v) with true; [reflexivity|].
      symmetry. apply deleteVehicleWhere_spec. auto.
    - unfold deleteVehicleWhere. now rewrite He. }
  assert (Hv1 : In (with_status v VehicleStatus_RETIRED now) (vehicles db1)).
  { cbn [vehicles db1].
    replace (with_status v VehicleStatus_RETIRED now)
      with (retire (VehicleRow.external_id v) now v)
      by (unfold retire; now rewrite N.eqb_refl).
    now apply in_map. }
  repeat split.
  - unfold service.DeleteVehicle. rewrite Hne, Hid.
    destruct (GetVehicleByID_found db v Hwf Hin) as (vehicle & -> & Hst).
    rewrite Hst.
    replace (VehicleStatus_eqb (VehicleRow.status v) VehicleStatus_ASSIGNED) with false
      by (destruct (VehicleRow.status v) eqn:Es; cbn; congruence).
    rewrite store_DeleteVehicle_eq, Hrows.
    assert (Hf : In v (filter (deleteVehicleWhere (VehicleRow.external_id v)) (vehicles db))).
    { apply filter_In. split; [assumption|]. apply deleteVehicleWhere_spec. auto. }
    destruct (filter _ (vehicles db)); [destruct Hf | reflexivity].
  - exact Hv1.
  - unfold service.DeleteVehicle. rewrite Hne, Hid.
    pose proof (wf_retire db (VehicleRow.external_id v) now Hwf) as Hwf1. fold db1 in Hwf1.
    destruct (GetVehicleByID_found db1 _ Hwf1 Hv1) as (vehicle & Hget & Hst).
    cbn [with_status VehicleRow.external_id VehicleRow.status] in Hget, Hst.
    rewrite Hget, Hst. cbn [VehicleStatus_eqb].
    rewrite store_DeleteVehicle_eq.
    assert (Hnone : Forall (fun r => deleteVehicleWhere (VehicleRow.external_id v) r = false)
                           (vehicles db1)).
    { cbn [vehicles db1]. apply Forall_map. apply Forall_forall. intros r _.
      unfold retire, deleteVehicleWhere.
      destruct (N.eqb (VehicleRow.external_id r) (VehicleRow.external_id v)) eqn:He.
      - cbn [with_status VehicleRow.external_id VehicleRow.status VehicleStatus_String].
        rewrite He. reflexivity.
      - now rewrite He. }
    rewrite (filter_none _ _ Hnone).
    replace (map _ (vehicles db1)) with (vehicles db1); [reflexivity|].
    symmetry. erewrite map_ext_in; [apply map_id|].
    intros r Hr. rewrite Forall_forall in Hnone. now rewrite (Hnone r Hr).
  - apply store_DeleteVehicle_NotFound_iff.
  - apply store_DeleteVehicle_NotFound_iff.
Qed.

(** C7. [DeleteVehicle] of a stored vehicle whose status is ASSIGNED is
    refused with the code FailedPrecondition, which is not the InvalidArgument
    of a refused transition, and the store is left as it was. *)
Theorem DeleteVehicle_assigned_FailedPrecondition (db : DB) (now : DateTime)
  (req : DeleteVehicleRequest.t) (v : VehicleRow.t) :
  constraints db = true ->
  In v (vehicles db) ->
  DeleteVehicleRequest.VehicleId req <> ""%string ->
  service.uuid_FromString (DeleteVehicleRequest.VehicleId req)
  = Some (VehicleRow.external_id v) ->
  VehicleRow.status v = VehicleStatus_ASSIGNED ->
  service.DeleteVehicle db now req
  = (db, Some (service.mkStatus codes.FailedPrecondition
                 "cannot delete assigned vehicle. Unassign vehicle first"))
  /\ codes.FailedPrecondition <> codes.InvalidArgument.
Proof.
  intros Hc Hin Hne Hid Hst. split; [|discriminate].
  pose proof (constraints_wf db Hc) as Hwf.
  apply String.eqb_neq in Hne.
  unfold service.DeleteVehicle. rewrite Hne, Hid.
  destruct (GetVehicleByID_found db v Hwf Hin) as (vehicle & -> & Hs).
  rewrite Hs, Hst. reflexivity.
Qed.

End DeleteVehicleFacts.

Lemma DeleteVehicle_then_NotFound_witness :
  (constraints samples.fleet = true
   /\ In samples.v2 (vehicles samples.fleet)
   /\ DeleteVehicleRequest.VehicleId (DeleteVehicleRequest.mk "2") <> ""%string
   /\ service.uuid_FromString (Env := samples.env)
        (DeleteVehicleRequest.VehicleId (DeleteVehicleRequest.mk "2"))
      = Some (VehicleRow.external_id samples.v2)
   /\ VehicleRow.status samples.v2 <> VehicleStatus_RETIRED
   /\ VehicleRow.status samples.v2 <> VehicleStatus_ASSIGNED)
  /\ service.DeleteVehicle (E := samples.env) samples.fleet (samples.at_hour 15)
       (DeleteVehicleRequest.mk "2")
     = (samples.retired, None)
  /\ In (with_status samples.v2 VehicleStatus_RETIRED (samples.at_hour 15))
        (vehicles samples.retired)
  /\ service.DeleteVehicle (E := samples.env) samples.retired (samples.at_hour 16)
       (DeleteVehicleRequest.mk "2")
     = (samples.retired, Some (service.mkStatus codes.NotFound "vehicle not found")).
Proof.
  assert (H1 : constraints samples.fleet = true) by reflexivity.
  assert (H2 : In samples.v2 (vehicles samples.fleet)) by (cbn; auto).
  assert (H3 : DeleteVehicleRequest.VehicleId (DeleteVehicleRequest.mk "2") <> ""%string)
    by discriminate.
  assert (H4 : service.uuid_FromString (Env := samples.env)
                 (DeleteVehicleRequest.VehicleId (DeleteVehicleRequest.mk "2"))
               = Some (VehicleRow.external_id samples.v2)) by reflexivity.
  assert (H5 : VehicleRow.status samples.v2 <> VehicleStatus_RETIRED) by discriminate.
  assert (H6 : VehicleRow.status samples.v2 <> VehicleStatus_ASSIGNED) by discriminate.
  split; [auto 10|].
  destruct (DeleteVehicle_then_NotFound (E := samples.env) samples.fleet
              (samples.at_hour 15) (samples.at_hour 16) (DeleteVehicleRequest.mk "2")
              samples.v2 H1 H2 H3 H4 H5 H6) as (R1 & R2 & R3 & _).
  split; [exact R1|]. split; [exact R2 | exact R3].
Defined.

Lemma DeleteVehicle_assigned_FailedPrecondition_witness :
  (constraints samples.fleet = true
   /\ In samples.v4 (vehicles samples.fleet)
   /\ DeleteVehicleRequest.VehicleId (DeleteVehicleRequest.mk "4") <> ""%string
   /\ service.uuid_FromString (Env := samples.env)
        (DeleteVehicleRequest.VehicleId (DeleteVehicleRequest.mk "4"))
      = Some (VehicleRow.external_id samples.v4)
   /\ VehicleRow.status samples.v4 = VehicleStatus_ASSIGNED)
  /\ service.DeleteVehicle (E := samples.env) samples.fleet (samples.at_hour 15)
       (DeleteVehicleRequest.mk "4")
     = (samples.fleet,
        Some (service.mkStatus codes.FailedPrecondition
                "cannot delete assigned vehicle. Unassign vehicle first"))
  /\ codes.FailedPrecondition <> codes.InvalidArgument.
Proof.
  assert (H1 : constraints samples.fleet = true) by reflexivity.
  assert (H2 : In samples.v4 (vehicles samples.fleet)) by (cbn; auto).
  assert (H3 : DeleteVehicleRequest.VehicleId (DeleteVehicleRequest.mk "4") <> ""%string)
    by discriminate.
  assert (H4 : service.uuid_FromString (Env := samples.env)
                 (DeleteVehicleRequest.VehicleId (DeleteVehicleRequest.mk "4"))
               = Some (VehicleRow.external_id samples.v4)) by reflexivity.
  assert (H5 : VehicleRow.status samples.v4 = VehicleStatus_ASSIGNED) by reflexivity.
  split; [auto 10|].
  exact (DeleteVehicle_assigned_FailedPrecondition (E := samples.env) samples.fleet
           (samples.at_hour 15) (DeleteVehicleRequest.mk "4") samples.v4 H1 H2 H3 H4 H5).
Defined.

(** * Duplicate detection *)

Lemma sqlInsert_duplicate_plate (db : DB) (row A : VehicleRow.t) :
  In A (vehicles db) ->
  VehicleRow.license_plate A = VehicleRow.license_plate row ->
  sqlInsert db row = inl (mkMySQLError ER_DUP_ENTRY).
Proof.
  intros Hin Hplate. unfold sqlInsert.
  replace (existsb _ (vehicles db)) with true; [reflexivity|].
  symmetry. apply existsb_exists. exists A. split; [assumption|].
  rewrite Hplate, String.eqb_refl. now rewrite !orb_true_r.
Qed.

Section CreateVehicleFacts.
Context {G : store.Engine} {E : service.Env}.

Lemma store_CreateVehicle_duplicate_plate (db : DB) (now : DateTime) (internalID : Z)
  (externalID : UUID) (data : VehicleData.t) (vehicleTypeID : Z) (A : VehicleRow.t) :
  In A (vehicles db) ->
  VehicleRow.license_plate A = VehicleData.LicensePlate data ->
  store.int_of (VehicleData.VehicleTypeID data) = Some vehicleTypeID ->
  store.CreateVehicle db now internalID externalID data = (db, Some ErrDuplicateEntry).
Proof.
  intros Hin Hplate Hint. unfold store.CreateVehicle, assignInt. rewrite Hint.
  erewrite sqlInsert_duplicate_plate; [reflexivity | exact Hin | exact Hplate].
Qed.

(** C8. A create that passed validation and names an existing vehicle type,
    with the license plate of a stored vehicle A, is answered AlreadyExists and
    leaves the store, and so A, as it was; the insert of a row with that plate
    is refused by the store with the duplicate-entry error, not with a wrapped
    driver error, leaving the store as it was, unless the engine refuses the
    text of the vehicle type as a number, which fails the statement before any
    key is looked at; and whenever the insert that the service attempts is
    refused as a duplicate, the service answers AlreadyExists. *)
Theorem CreateVehicle_duplicate_plate_AlreadyExists (db : DB) (now : DateTime)
  (ids : service.IdSource) (req : CreateVehicleRequest.t) (vehicle : VehicleInput.t)
  (A : VehicleRow.t) :
  foreign_key db = true ->
  service.ValidateCreateVehicleRequest now req = inr vehicle ->
  (exists vt, GetVehicleTypeByID db (VehicleInput.VehicleTypeId vehicle) = Ok vt) ->
  In A (vehicles db) ->
  VehicleRow.license_plate A = VehicleInput.LicensePlate vehicle ->
  service.CreateVehicle db now ids req
  = (db, service.Errorf codes.AlreadyExists "vehicle with license plate %s already exists")
  /\ (forall internalID externalID data vehicleTypeID,
        VehicleData.LicensePlate data = VehicleInput.LicensePlate vehicle ->
        store.int_of (VehicleData.VehicleTypeID data) = Some vehicleTypeID ->
        store.CreateVehicle db now internalID externalID data
        = (db, Some ErrDuplicateEntry))
  /\ (forall internalID externalID data,
        store.int_of (VehicleData.VehicleTypeID data) = None ->
        store.CreateVehicle db now internalID externalID data
        = (db, Some (Errorf "failed to insert vehicle: %w")))
  /\ (forall db0 now0 ids0 req0 vehicle0 nodeID externalID,
        service.ValidateCreateVehicleRequest now0 req0 = inr vehicle0 ->
        (exists vt, GetVehicleTypeByID db0 (VehicleInput.VehicleTypeId vehicle0) = Ok vt) ->
        GetVehicleByLicensePlate db0 (VehicleInput.LicensePlate vehicle0)
        = Err ErrVehicleNotFound ->
        service.GetSnowflakeNodeID ids0 = Some nodeID ->
        service.NewV4 ids0 = Some externalID ->
        snd (store.CreateVehicle db0 now0 (service.Next ids0) externalID
               (service.prepareVehicleData vehicle0))
        = Some ErrDuplicateEntry ->
        snd (service.CreateVehicle db0 now0 ids0 req0)
        = service.Errorf codes.AlreadyExists
            "vehicle with this license plate already exists").
Proof.
  intros Hfk Hvalid (vt & Htype) Hin Hplate. repeat split.
  - unfold service.CreateVehicle. rewrite Hvalid, Htype. cbv zeta.
    destruct (GetVehicleByLicensePlate_found db A (foreign_key_fk_ok db Hfk) Hin)
      as (existing & Hget).
    rewrite Hplate in Hget. rewrite Hget. reflexivity.
  - intros internalID externalID data vehicleTypeID Hdata Hint.
    apply (store_CreateVehicle_duplicate_plate db now internalID externalID data
             vehicleTypeID A Hin); [congruence | exact Hint].
  - intros internalID externalID data Hint.
    unfold store.CreateVehicle, assignInt. now rewrite Hint.
  - intros db0 now0 ids0 req0 vehicle0 nodeID externalID Hv0 (vt0 & Ht0) Hp0 Hn0 Hu0 Hdup.
    unfold service.CreateVehicle. rewrite Hv0, Ht0. cbv zeta.
    rewrite Hp0, Hn0, Hu0. cbn [is_ErrVehicleNotFound negb].
    destruct (store.CreateVehicle db0 now0 (service.Next ids0) externalID
                (service.prepareVehicleData vehicle0)) as [db' res].
    cbn [snd] in Hdup. subst res. reflexivity.
Qed.

End CreateVehicleFacts.

Section DuplicatePlate.
#[local] Existing Instance samples.engine.

Lemma CreateVehicle_duplicate_plate_AlreadyExists_witness :
  (foreign_key samples.fleet = true
   /\ service.ValidateCreateVehicleRequest (Env := samples.env) (samples.at_hour 15)
        (CreateVehicleRequest.mk (Some (samples.input "KAA 002B" "Mazda")))
      = inr (samples.input "KAA 002B" "Mazda")
   /\ (exists vt,
         GetVehicleTypeByID samples.fleet
           (VehicleInput.VehicleTypeId (samples.input "KAA 002B" "Mazda")) = Ok vt)
   /\ In samples.v2 (vehicles samples.fleet)
   /\ VehicleRow.license_plate samples.v2
      = VehicleInput.LicensePlate (samples.input "KAA 002B" "Mazda"))
  /\ service.CreateVehicle (E := samples.env) samples.fleet (samples.at_hour 15)
       (service.mkIdSource (Some 1) 105 (Some 5%N))
       (CreateVehicleRequest.mk (Some (samples.input "KAA 002B" "Mazda")))
     = (samples.fleet,
        service.Errorf codes.AlreadyExists "vehicle with license plate %s already exists").
Proof.
  assert (H1 : foreign_key samples.fleet = true) by reflexivity.
  assert (H2 : service.ValidateCreateVehicleRequest (Env := samples.env) (samples.at_hour 15)
                 (CreateVehicleRequest.mk (Some (samples.input "KAA 002B" "Mazda")))
               = inr (samples.input "KAA 002B" "Mazda")) by reflexivity.
  assert (H3 : exists vt,
             GetVehicleTypeByID samples.fleet
               (VehicleInput.VehicleTypeId (samples.input "KAA 002B" "Mazda")) = Ok vt)
    by (exists samples.cab; reflexivity).
  assert (H4 : In samples.v2 (vehicles samples.fleet)) by (cbn; auto).
  assert (H5 : VehicleRow.license_plate samples.v2
               = VehicleInput.LicensePlate (samples.input "KAA 002B" "Mazda"))
    by reflexivity.
  split; [auto|].
  exact (proj1 (CreateVehicle_duplicate_plate_AlreadyExists (E := samples.env) samples.fleet
                  (samples.at_hour 15) (service.mkIdSource (Some 1) 105 (Some 5%N))
                  (CreateVehicleRequest.mk (Some (samples.input "KAA 002B" "Mazda")))
                  (samples.input "KAA 002B" "Mazda") samples.v2 H1 H2 H3 H4 H5)).
Defined.

End DuplicatePlate.

(** * The status filter *)

Lemma Forall2_preserves {A : Type} (R : A -> A -> Prop) (P : A -> Prop) (l l' : list A) :
  Forall2 R l l' -> (forall x y, R x y -> P x -> P y) -> Forall P l -> Forall P l'.
Proof.
  intros H HR. induction H as [| x y l l' Hxy _ IH]; intros HP; constructor;
    inversion HP; subst; eauto.
Qed.

Section Reachable.
Context {G : store.Engine} {E : service.Env}.

Lemma store_UpdateVehicle_status (db : DB) (now : DateTime) (externalID : UUID)
  (updates : VehicleUpdateFields.t) (updateMask : option (list string)) :
  Forall2 (fun r r' => VehicleRow.status r' = VehicleRow.status r)
          (vehicles db)
          (vehicles (fst (store.UpdateVehicle db now externalID updates updateMask))).
Proof.
  unfold store.UpdateVehicle. cbv zeta.
  match goal with
  | |- context [sqlUpdate ?rows ?w ?set] =>
      destruct (sqlUpdate rows w set) as [e | [rows' n]] eqn:Hexec
  end.
  - destruct (Number e =? 1062); apply Forall2_diag; reflexivity.
  - destruct (n =? 0); cbn [fst vehicles]; [apply Forall2_diag; reflexivity|].
    apply sqlUpdate_frame in Hexec. eapply Forall2_impl; [|exact Hexec].
    intros r r' [[_ ->] | [_ Hset]]; [reflexivity|].
    cbn beta in Hset.
    repeat match type of Hset with
           | context [match ?c with _ => _ end] => destruct c; try discriminate Hset
           end.
    all: injection Hset as <-; reflexivity.
Qed.

Lemma specified_sqlUpdate (db : DB) (w : VehicleRow.t -> bool) (status : VehicleStatus)
  (now : DateTime) (rows : list VehicleRow.t) (n : Z) :
  status <> VehicleStatus_STATUS_UNSPECIFIED ->
  sqlUpdate (vehicles db) w (fun r => inr (with_status r status now)) = inr (rows, n) ->
  specified db -> specified (mkDB rows (vehicle_types db)).
Proof.
  intros Hst Hexec Hdb. apply sqlUpdate_frame in Hexec. unfold specified in *.
  cbn [vehicles]. eapply Forall2_preserves; [exact Hexec | | exact Hdb].
  intros r r' [[_ ->] | [_ Hset]] Hr; [exact Hr|].
  injection Hset as <-. exact Hst.
Qed.

Lemma store_CreateVehicle_specified (db : DB) (now : DateTime) (internalID : Z)
  (externalID : UUID) (data : VehicleData.t) :
  specified db -> specified (fst (store.CreateVehicle db now internalID externalID data)).
Proof.
  intros Hdb. unfold store.CreateVehicle, assignInt, sqlInsert.
  destruct (int_of _); [|exact Hdb].
  destruct (existsb _ (vehicles db)); [exact Hdb|].
  destruct (negb _); [exact Hdb|].
  unfold specified. cbn [fst vehicles]. apply Forall_app. split; [exact Hdb|].
  constructor; [cbn; discriminate | constructor].
Qed.

Lemma service_CreateVehicle_writes (db : DB) (now : DateTime) (ids : service.IdSource)
  (req : CreateVehicleRequest.t) :
  fst (service.CreateVehicle db now ids req) = db
  \/ exists internalID externalID data,
       fst (service.CreateVehicle db now ids req)
       = fst (store.CreateVehicle db now internalID externalID data).
Proof.
  unfold service.CreateVehicle.
  destruct (service.ValidateCreateVehicleRequest now req) as [? | vehicle]; [now left|].
  destruct (GetVehicleTypeByID db _) as [vt | []]; try now left.
  cbv zeta.
  destruct (GetVehicleByLicensePlate db _) as [existing | err]; [now left|].
  destruct (negb (is_ErrVehicleNotFound err)); [now left|].
  destruct (service.GetSnowflakeNodeID ids); [|now left].
  destruct (service.NewV4 ids) as [externalID |]; [|now left].
  match goal with
  | |- context [store.CreateVehicle ?a ?b ?c ?d ?e] =>
      right; exists c, d, e;
      destruct (store.CreateVehicle a b c d e) as [db' [err' |]]
  end.
  - destruct (is_ErrDuplicateEntry err'); reflexivity.
  - destruct (GetVehicleByID db' externalID); reflexivity.
Qed.

Lemma specified_step (db db' : DB) : service.step db db' -> specified db -> specified db'.
Proof.
  intros Hstep Hdb. destruct Hstep as [db now ids req | db now req | db now req | db now req | db tys].
  - destruct (service_CreateVehicle_writes db now ids req)
      as [-> | (internalID & externalID & data & ->)]; [exact Hdb|].
    now apply store_CreateVehicle_specified.
  - destruct (service_UpdateVehicle_writes db now req) as [-> | (id & updates & _ & ->)];
      [exact Hdb|].
    unfold specified in *.
    eapply Forall2_preserves; [apply store_UpdateVehicle_status | | exact Hdb].
    cbn beta. intros r r' ->. auto.
  - unfold service.UpdateVehicleStatus.
    destruct (String.eqb _ _); [exact Hdb|].
    unfold service.ValidateVehicleStatus.
    destruct (VehicleStatus_eqb _ VehicleStatus_STATUS_UNSPECIFIED) eqn:Hst; [exact Hdb|].
    destruct (service.uuid_FromString _) as [id |]; [|exact Hdb].
    destruct (GetVehicleByID db id) as [current | []]; try exact Hdb.
    destruct (negb _); [exact Hdb|].
    unfold store.UpdateVehicleStatus.
    destruct (sqlUpdate _ _ _) as [e | [rows n]] eqn:Hexec; [exact Hdb|].
    assert (Hrows : specified (mkDB rows (vehicle_types db))).
    { eapply specified_sqlUpdate; [| exact Hexec | exact Hdb].
      intros Heq. rewrite Heq in Hst. discriminate Hst. }
    destruct (n =? 0); [exact Hrows|].
    destruct (GetVehicleByID _ id) as [updated | []]; exact Hrows.
  - unfold service.DeleteVehicle.
    destruct (String.eqb _ _); [exact Hdb|].
    destruct (service.uuid_FromString _) as [id |]; [|exact Hdb].
    destruct (GetVehicleByID db id) as [existing | []]; try exact Hdb.
    destruct (VehicleStatus_eqb _ _); [exact Hdb|].
    unfold store.DeleteVehicle.
    destruct (sqlUpdate _ _ _) as [e | [rows n]] eqn:Hexec; [exact Hdb|].
    assert (Hrows : specified (mkDB rows (vehicle_types db))).
    { eapply specified_sqlUpdate; [| exact Hexec | exact Hdb]. discriminate. }
    destruct (n =? 0); exact Hrows.
  - exact Hdb.
Qed.

Lemma specified_reachable (db : DB) : service.reachable db -> specified db.
Proof.
  induction 1 as [tys | db db' _ IH Hstep]; [constructor|].
  now apply (specified_step db db').
Qed.

End Reachable.

Section StatusFilter.
Context {G : store.Engine} {E : service.Env}.

Lemma unspecified_clause (statusStr vehicleTypeStr makePattern cursorStr : string)
  (v : VehicleRow.t) :
  VehicleRow.status v <> VehicleStatus_STATUS_UNSPECIFIED ->
  listVehiclesWhere "STATUS_UNSPECIFIED" vehicleTypeStr makePattern cursorStr v = false.
Proof.
  intros Hst. unfold listVehiclesWhere.
  replace (String.eqb (VehicleStatus_String (VehicleRow.status v)) "STATUS_UNSPECIFIED")
    with false by (destruct (VehicleRow.status v); cbn; congruence).
  reflexivity.
Qed.

Lemma listVehiclesQuery_unspecified (db : DB) (vehicleTypeStr makePattern cursorStr : string)
  (limit : Z) :
  specified db ->
  listVehiclesQuery db "STATUS_UNSPECIFIED" vehicleTypeStr makePattern cursorStr limit = [].
Proof.
  intros Hdb. unfold listVehiclesQuery. rewrite filter_none.
  - unfold LIMIT. cbn [orderByCreatedAtDesc fold_right]. apply firstn_nil.
  - apply Forall_forall. intros r Hr. apply joinVehicleTypes_In in Hr.
    unfold specified in Hdb. rewrite Forall_forall in Hdb.
    apply unspecified_clause; auto.
Qed.

Lemma insertDesc_length (x : VehicleRow.t * VehicleTypeRow.t)
  (l : list (VehicleRow.t * VehicleTypeRow.t)) :
  List.length (insertDesc x l) = S (List.length l).
Proof.
  induction l as [| y l IH]; cbn [insertDesc]; [reflexivity|].
  destruct (After _ _); cbn [List.length]; [now rewrite IH | reflexivity].
Qed.

Lemma orderByCreatedAtDesc_length (l : list (VehicleRow.t * VehicleTypeRow.t)) :
  List.length (orderByCreatedAtDesc l) = List.length l.
Proof.
  induction l as [| x l IH]; [reflexivity|].
  cbn [orderByCreatedAtDesc fold_right]. rewrite insertDesc_length.
  cbn [List.length]. f_equal. exact IH.
Qed.

Lemma scanRows_Ok (rows : list (VehicleRow.t * VehicleTypeRow.t)) (acc : list Vehicle.t)
  (last : Time) :
  exists vehicles lastCreatedAt,
    scanRows rows acc last = Ok (acc ++ vehicles, lastCreatedAt)
    /\ List.length vehicles = List.length rows.
Proof.
  revert acc last. induction rows as [| [v vt] rows IH]; intros acc last.
  - exists [], last. cbn [scanRows]. now rewrite app_nil_r.
  - cbn [scanRows].
    destruct (scanVehicleFromRows_Ok v vt) as (vehicle & -> & _).
    destruct (IH (acc ++ [vehicle]) (Vehicle.CreatedAt vehicle))
      as (vehicles & lastCreatedAt & -> & Hlen).
    exists (vehicle :: vehicles), lastCreatedAt.
    rewrite <- app_assoc. cbn [app List.length]. auto.
Qed.

Lemma absent_filters_clause (v : VehicleRow.t) : listVehiclesWhere "" "" "" "" v = true.
Proof. reflexivity. Qed.

(** Without a filter and without a token, a store with a vehicle to list is
    not answered with the empty page. *)
Lemma ListVehicles_absent_filter (db : DB) (pageSize : Z) :
  joinVehicleTypes db <> [] ->
  service.ListVehicles db (ListVehiclesRequest.mk pageSize "" None None None)
  <> service.Reply (ListVehiclesResponse.mk [] "" 0).
Proof.
  intros Hne. unfold service.ListVehicles, store.ListVehicles.
  cbn [ListVehiclesRequest.PageSize ListVehiclesRequest.PageToken
       ListVehiclesRequest.StatusFilter ListVehiclesRequest.VehicleTypeFilter
       ListVehiclesRequest.MakeFilter ListVehiclesParams.PageSize
       ListVehiclesParams.PageToken ListVehiclesParams.StatusFilter
       ListVehiclesParams.VehicleTypeFilter ListVehiclesParams.MakeFilter].
  change (decodePageToken "") with (Ok zeroTime).
  change (IsZero zeroTime) with true. cbv iota.
  set (p0 := if pageSize <=? 0 then 50 else pageSize).
  set (p1 := if 100 <? p0 then 100 else p0).
  set (PageSize := if (p1 <=? 0) || (100 <? p1) then 50 else p1).
  assert (Hp : 0 < PageSize).
  { subst PageSize. destruct (Z.leb_spec p1 0); cbn [orb]; [lia|].
    destruct (100 <? p1); lia. }
  unfold listVehiclesQuery.
  rewrite (filter_all _ _ ltac:(apply Forall_forall; intros; apply absent_filters_clause)).
  set (rows := LIMIT (PageSize + 1) (orderByCreatedAtDesc (joinVehicleTypes db))).
  assert (Hrows : rows <> []).
  { subst rows. unfold LIMIT.
    pose proof (orderByCreatedAtDesc_length (joinVehicleTypes db)) as Hlen.
    destruct (orderByCreatedAtDesc (joinVehicleTypes db)) as [| x l].
    - destruct (joinVehicleTypes db); [congruence | discriminate Hlen].
    - replace (Z.to_nat (PageSize + 1)) with (S (Z.to_nat PageSize)) by lia.
      discriminate. }
  destruct (scanRows_Ok rows [] zeroTime) as (vehicles & lastCreatedAt & -> & Hlen).
  cbn [app].
  assert (Hv : vehicles <> []).
  { destruct vehicles; [|discriminate]. destruct rows; [congruence | discriminate Hlen]. }
  destruct (PageSize <? Z.of_nat (List.length vehicles)).
  - destruct (encodePageToken lastCreatedAt); [|discriminate].
    unfold slice_to. replace (Z.to_nat PageSize) with (S (Z.to_nat PageSize - 1)) by lia.
    destruct vehicles; [congruence | discriminate].
  - destruct vehicles; [congruence | discriminate].
Qed.

(** C10. In every store the service can reach, a [ListVehicles] call whose
    status filter is set to STATUS_UNSPECIFIED is answered with the empty page
    and an empty token: the filter reaches the query as the text
    STATUS_UNSPECIFIED, which the status of no stored vehicle equals.  The
    call without filters is not answered so when there is a vehicle to list. *)
Theorem ListVehicles_unspecified_filter_empty (db : DB) (req : ListVehiclesRequest.t)
  (cursorTime : Time) :
  service.reachable db ->
  ListVehiclesRequest.StatusFilter req = Some VehicleStatus_STATUS_UNSPECIFIED ->
  decodePageToken (ListVehiclesRequest.PageToken req) = Ok cursorTime ->
  service.ListVehicles db req = service.Reply (ListVehiclesResponse.mk [] "" 0)
  /\ (forall v, In v (vehicles db) ->
                VehicleStatus_String (VehicleRow.status v) <> "STATUS_UNSPECIFIED"%string)
  /\ (joinVehicleTypes db <> [] ->
      service.ListVehicles db
        (ListVehiclesRequest.mk (ListVehiclesRequest.PageSize req) "" None None None)
      <> service.Reply (ListVehiclesResponse.mk [] "" 0)).
Proof.
  intros Hreach Hfilter Htoken.
  pose proof (specified_reachable db Hreach) as Hdb.
  repeat split.
  - unfold service.ListVehicles, store.ListVehicles.
    cbn [ListVehiclesParams.PageSize ListVehiclesParams.PageToken
         ListVehiclesParams.StatusFilter ListVehiclesParams.VehicleTypeFilter
         ListVehiclesParams.MakeFilter].
    rewrite Htoken, Hfilter. cbn [VehicleStatus_String].
    rewrite listVehiclesQuery_unspecified by exact Hdb.
    cbn [scanRows List.length Z.of_nat].
    set (p0 := if ListVehiclesRequest.PageSize req <=? 0 then 50
               else ListVehiclesRequest.PageSize req).
    set (p1 := if 100 <? p0 then 100 else p0).
    set (PageSize := if (p1 <=? 0) || (100 <? p1) then 50 else p1).
    assert (Hp : 0 < PageSize).
    { subst PageSize. destruct (Z.leb_spec p1 0); cbn [orb]; [lia|].
      destruct (100 <? p1); lia. }
    destruct (Z.ltb_spec PageSize 0); [lia | reflexivity].
  - intros v Hv. unfold specified in Hdb. rewrite Forall_forall in Hdb.
    specialize (Hdb v Hv). destruct (VehicleRow.status v); cbn; congruence.
  - apply ListVehicles_absent_filter.
Qed.

End StatusFilter.

Section UnspecifiedFilter.
#[local] Existing Instance samples.engine.

Lemma ListVehicles_unspecified_filter_empty_witness :
  (service.reachable (E := samples.env)
     (fst (service.CreateVehicle (E := samples.env) (mkDB [] [samples.cab])
             (samples.at_hour 15) (service.mkIdSource (Some 1) 105 (Some 5%N))
             (CreateVehicleRequest.mk (Some (samples.input "KAA 005B" "Mazda")))))
   /\ ListVehiclesRequest.StatusFilter
        (ListVehiclesRequest.mk 2 "" (Some VehicleStatus_STATUS_UNSPECIFIED) None None)
      = Some VehicleStatus_STATUS_UNSPECIFIED
   /\ decodePageToken
        (ListVehiclesRequest.PageToken
           (ListVehiclesRequest.mk 2 "" (Some VehicleStatus_STATUS_UNSPECIFIED) None None))
      = Ok zeroTime)
  /\ service.ListVehicles
       (fst (service.CreateVehicle (E := samples.env) (mkDB [] [samples.cab])
               (samples.at_hour 15) (service.mkIdSource (Some 1) 105 (Some 5%N))
               (CreateVehicleRequest.mk (Some (samples.input "KAA 005B" "Mazda")))))
       (ListVehiclesRequest.mk 2 "" (Some VehicleStatus_STATUS_UNSPECIFIED) None None)
     = service.Reply (ListVehiclesResponse.mk [] "" 0).
Proof.
  assert (H1 : service.reachable (E := samples.env)
                 (fst (service.CreateVehicle (E := samples.env) (mkDB [] [samples.cab])
                         (samples.at_hour 15) (service.mkIdSource (Some 1) 105 (Some 5%N))
                         (CreateVehicleRequest.mk
                            (Some (samples.input "KAA 005B" "Mazda")))))).
  { eapply service.reachable_step; [apply service.reachable_init|].
    apply service.step_CreateVehicle. }
  split; [split; [exact H1 | split; reflexivity]|].
  exact (proj1 (ListVehicles_unspecified_filter_empty (E := samples.env) _
                  (ListVehiclesRequest.mk 2 "" (Some VehicleStatus_STATUS_UNSPECIFIED)
                     None None)
                  zeroTime H1 eq_refl eq_refl)).
Defined.

End UnspecifiedFilter.

(** * Updates: what a statement can write *)

Lemma scanVehicleFromRows_toVehicle (r : VehicleRow.t * VehicleTypeRow.t) :
  scanVehicleFromRows r = Ok (toVehicle r).
Proof.
  destruct r as [v vt]. unfold scanVehicleFromRows, populateVehicle, toVehicle.
  rewrite VehicleStatus_value_String, FuelType_value_String. cbn.
  destruct (VehicleRow.engine_number v), (VehicleRow.chassis_number v),
    (VehicleRow.registration_date v), (VehicleRow.insurance_expiry v); reflexivity.
Qed.

Lemma inPaths_false (paths : list string) (path : string) :
  ~ In path paths -> inPaths paths path = false.
Proof.
  intros H. unfold inPaths. induction paths as [| p paths IH]; [reflexivity|].
  cbn. destruct (String.eqb p path) eqn:Ep.
  - apply String.eqb_eq in Ep. subst. exfalso. apply H. now left.
  - cbn. apply IH. intros Hin. apply H. now right.
Qed.

Lemma inPaths_true (paths : list string) (path : string) :
  In path paths -> inPaths paths path = true.
Proof.
  intros H. unfold inPaths. apply existsb_exists. exists path.
  split; [exact H | apply String.eqb_refl].
Qed.

Lemma untouched_updateFlag {A : Type} (updateMask : option (list string)) (path : string)
  (field : option A) :
  untouched updateMask path field -> updateFlag updateMask path field = false.
Proof.
  destruct updateMask as [paths |]; cbn.
  - apply inPaths_false.
  - intros ->. reflexivity.
Qed.

Section UpdateStatement.
Context {G : store.Engine}.

(** [store.UpdateVehicle] fails and leaves the store as it was, or runs its
    statement on every row and reads the vehicle back. *)
Lemma store_UpdateVehicle_cases (db : DB) (now : DateTime) (externalID : UUID)
  (updates : VehicleUpdateFields.t) (updateMask : option (list string)) :
  (exists e, store.UpdateVehicle db now externalID updates updateMask = (db, Err e))
  \/ (exists rows',
        store.UpdateVehicle db now externalID updates updateMask
        = (mkDB rows' (vehicle_types db),
           GetVehicleByID (mkDB rows' (vehicle_types db)) externalID)
        /\ Forall2 (updated_row now externalID updates updateMask) (vehicles db) rows').
Proof.
  unfold store.UpdateVehicle. cbv zeta.
  match goal with
  | |- context [sqlUpdate ?rows ?w ?set] =>
      destruct (sqlUpdate rows w set) as [e | [rows' n]] eqn:Hexec
  end.
  - left. destruct (Number e =? 1062); eexists; reflexivity.
  - destruct (n =? 0); [left; eexists; reflexivity|].
    right. exists rows'. split; [reflexivity|].
    apply sqlUpdate_frame in Hexec.
    eapply Forall2_impl; [|exact Hexec].
    intros r r' [[Hw ->] | [Hw Hset]].
    + left. split; [|reflexivity]. cbn beta in Hw. now apply N.eqb_neq in Hw.
    + right. cbn beta in Hw, Hset. apply N.eqb_eq in Hw. split; [exact Hw|].
      match type of Hset with
      | match ?c with inl _ => _ | inr _ => _ end = _ =>
          destruct c as [e | typeID] eqn:Etype; [discriminate|]
      end.
      match type of Hset with
      | match ?c with Some _ => _ | None => _ end = _ =>
          destruct c as [fuel |] eqn:Efuel; [|discriminate]
      end.
      exists typeID, fuel.
      match type of Hset with
      | (if ?c then _ else _) = _ => destruct c; [discriminate|]
      end.
      match type of Hset with
      | (if ?c then _ else _) = _ => destruct c; [discriminate|]
      end.
      injection Hset as <-. split; [reflexivity|]. split.
      * intros Hflag. rewrite Hflag in Etype. now injection Etype as <-.
      * intros Hflag. rewrite Hflag in Efuel. now injection Efuel as <-.
Qed.

(** The rows of the table after [store.UpdateVehicle]: each as it was, or
    as the statement assigned it. *)
Lemma store_UpdateVehicle_rows (db : DB) (now : DateTime) (externalID : UUID)
  (updates : VehicleUpdateFields.t) (updateMask : option (list string)) :
  let db' := fst (store.UpdateVehicle db now externalID updates updateMask) in
  vehicle_types db' = vehicle_types db
  /\ Forall2 (fun r r' => r' = r \/ updated_row now externalID updates updateMask r r')
             (vehicles db) (vehicles db').
Proof.
  destruct (store_UpdateVehicle_cases db now externalID updates updateMask)
    as [[e ->] | (rows' & -> & Hrows)]; cbn [fst vehicles vehicle_types].
  - split; [reflexivity|]. apply Forall2_diag. intros; now left.
  - split; [reflexivity|]. eapply Forall2_impl; [|exact Hrows]. intros; now right.
Qed.

(** X1. [store.UpdateVehicle] writes only the columns its mask names, or, with
    no mask, the columns whose field is provided: every other column of every
    row is as it was, the identifiers, the status and [created_at] in any case,
    and the rows of other vehicles and the vehicle types are not written at
    all. *)
Theorem UpdateVehicle_writes_only_named_columns (db : DB) (now : DateTime)
  (externalID : UUID) (updates : VehicleUpdateFields.t)
  (updateMask : option (list string)) :
  let db' := fst (store.UpdateVehicle db now externalID updates updateMask) in
  vehicle_types db' = vehicle_types db
  /\ Forall2
       (fun r r' =>
          (VehicleRow.external_id r <> externalID -> r' = r)
          /\ fixed_columns_equal r r'
          /\ (untouched updateMask "vehicle_type_id" (VehicleUpdateFields.VehicleTypeID updates)
              -> VehicleRow.vehicle_type_id r' = VehicleRow.vehicle_type_id r)
          /\ (untouched updateMask "license_plate" (VehicleUpdateFields.LicensePlate updates)
              -> VehicleRow.license_plate r' = VehicleRow.license_plate r)
          /\ (untouched updateMask "make" (VehicleUpdateFields.Make updates)
              -> VehicleRow.make r' = VehicleRow.make r)
          /\ (untouched updateMask "model" (VehicleUpdateFields.Model updates)
              -> VehicleRow.model r' = VehicleRow.model r)
          /\ (untouched updateMask "year" (VehicleUpdateFields.Year updates)
              -> VehicleRow.year r' = VehicleRow.year r)
          /\ (untouched updateMask "color" (VehicleUpdateFields.Color updates)
              -> VehicleRow.color r' = VehicleRow.color r)
          /\ (untouched updateMask "seating_capacity"
                (VehicleUpdateFields.SeatingCapacity updates)
              -> VehicleRow.seating_capacity r' = VehicleRow.seating_capacity r)
          /\ (untouched updateMask "fuel_type" (VehicleUpdateFields.FuelType updates)
              -> VehicleRow.fuel_type r' = VehicleRow.fuel_type r)
          /\ (untouched updateMask "engine_number" (VehicleUpdateFields.EngineNumber updates)
              -> VehicleRow.engine_number r' = VehicleRow.engine_number r)
          /\ (untouched updateMask "chassis_number"
                (VehicleUpdateFields.ChassisNumber updates)
              -> VehicleRow.chassis_number r' = VehicleRow.chassis_number r)
          /\ (untouched updateMask "registration_date"
                (VehicleUpdateFields.RegistrationDate updates)
              -> VehicleRow.registration_date r' = VehicleRow.registration_date r)
          /\ (untouched updateMask "insurance_expiry"
                (VehicleUpdateFields.InsuranceExpiry updates)
              -> VehicleRow.insurance_expiry r' = VehicleRow.insurance_expiry r))
       (vehicles db) (vehicles db').
Proof.
  destruct (store_UpdateVehicle_rows db now externalID updates updateMask) as [Ht Hrows].
  split; [exact Ht|].
  eapply Forall2_impl; [|exact Hrows].
  intros r r' [-> | [[Hid ->] | [Hid (typeID & fuel & -> & Htype & Hfuel)]]].
  - unfold fixed_columns_equal. repeat split; auto.
  - unfold fixed_columns_equal. repeat split; auto.
  - unfold fixed_columns_equal, assigned. cbn.
    repeat split; try (intros; congruence);
      try (intros Hu; apply untouched_updateFlag in Hu; rewrite Hu; reflexivity);
      intros Hu; apply untouched_updateFlag in Hu; auto.
Qed.

End UpdateStatement.

(** * Reads by identifier *)

(** The rows of the join that carry an identifier. *)
Lemma GetVehicleByID_eq (db : DB) (externalID : UUID) :
  GetVehicleByID db externalID
  = match filter (fun r => N.eqb (VehicleRow.external_id (fst r)) externalID)
                 (joinVehicleTypes db) with
    | [] => Err ErrVehicleNotFound
    | r :: _ => Ok (toVehicle r)
    end.
Proof.
  unfold GetVehicleByID, getVehicleByIDQuery.
  destruct (filter _ (joinVehicleTypes db)) as [| r l]; [reflexivity|].
  rewrite LIMIT_1_cons. cbn [scanVehicle]. now rewrite scanVehicleFromRows_toVehicle.
Qed.

Lemma GetVehicleByLicensePlate_eq (db : DB) (licensePlate : string) :
  GetVehicleByLicensePlate db licensePlate
  = match filter (fun r => String.eqb (VehicleRow.license_plate (fst r)) licensePlate)
                 (joinVehicleTypes db) with
    | [] => Err ErrVehicleNotFound
    | r :: _ => Ok (toVehicle r)
    end.
Proof.
  unfold GetVehicleByLicensePlate, getVehicleByLicensePlateQuery.
  destruct (filter _ (joinVehicleTypes db)) as [| r l]; [reflexivity|].
  rewrite LIMIT_1_cons. cbn [scanVehicle]. now rewrite scanVehicleFromRows_toVehicle.
Qed.

Lemma GetVehicleByID_Ok (db : DB) (externalID : UUID) (vehicle : Vehicle.t) :
  GetVehicleByID db externalID = Ok vehicle ->
  exists r, In r (joinVehicleTypes db)
            /\ VehicleRow.external_id (fst r) = externalID
            /\ vehicle = toVehicle r.
Proof.
  rewrite GetVehicleByID_eq.
  destruct (filter _ (joinVehicleTypes db)) as [| r l] eqn:Hf; [discriminate|].
  intros [= <-]. exists r.
  assert (Hin : In r (filter (fun r => N.eqb (VehicleRow.external_id (fst r)) externalID)
                             (joinVehicleTypes db))) by (rewrite Hf; now left).
  apply filter_In in Hin. destruct Hin as [Hin Hid]. apply N.eqb_eq in Hid. auto.
Qed.

Lemma GetVehicleByID_absent (db : DB) (externalID : UUID) :
  (forall r, In r (vehicles db) -> VehicleRow.external_id r <> externalID) ->
  GetVehicleByID db externalID = Err ErrVehicleNotFound.
Proof.
  intros Habs. rewrite GetVehicleByID_eq.
  rewrite filter_none; [reflexivity|].
  apply Forall_forall. intros r Hin. apply N.eqb_neq.
  apply Habs. now apply joinVehicleTypes_In.
Qed.

(** [GetVehicleByID] finds a vehicle or reports that there is none: a row
    that is read is always scanned. *)
Lemma GetVehicleByID_cases (db : DB) (externalID : UUID) :
  GetVehicleByID db externalID = Err ErrVehicleNotFound
  \/ exists vehicle, GetVehicleByID db externalID = Ok vehicle.
Proof.
  rewrite GetVehicleByID_eq. destruct (filter _ _); [now left | right; eauto].
Qed.

Lemma sqlUpdate_untouched (rows : list VehicleRow.t) (w : VehicleRow.t -> bool)
  (set : VehicleRow.t -> MySQLError + VehicleRow.t) :
  (forall r, In r rows -> w r = false) -> sqlUpdate rows w set = inr (rows, 0).
Proof.
  intros H. induction rows as [| r rows IH]; [reflexivity|].
  cbn. unfold sqlUpdate in IH. rewrite IH by (intros; apply H; now right).
  rewrite H by now left. reflexivity.
Qed.

Section UnknownVehicle.
Context {G : store.Engine} {E : service.Env}.

Lemma store_UpdateVehicle_absent (db : DB) (now : DateTime) (externalID : UUID)
  (updates : VehicleUpdateFields.t) (updateMask : option (list string)) :
  (forall r, In r (vehicles db) -> VehicleRow.external_id r <> externalID) ->
  store.UpdateVehicle db now externalID updates updateMask = (db, Err ErrVehicleNotFound).
Proof.
  intros Habs. unfold store.UpdateVehicle. cbv zeta.
  rewrite sqlUpdate_untouched; [reflexivity|].
  intros r Hin. apply N.eqb_neq. now apply Habs.
Qed.

Lemma store_UpdateVehicleStatus_absent (db : DB) (now : DateTime) (externalID : UUID)
  (status : VehicleStatus) :
  (forall r, In r (vehicles db) -> VehicleRow.external_id r <> externalID) ->
  store.UpdateVehicleStatus db now externalID status = (db, Err ErrVehicleNotFound).
Proof.
  intros Habs. unfold store.UpdateVehicleStatus.
  rewrite sqlUpdate_untouched; [destruct db; reflexivity|].
  intros r Hin. apply N.eqb_neq. now apply Habs.
Qed.

Lemma store_DeleteVehicle_absent (db : DB) (now : DateTime) (externalID : UUID) :
  (forall r, In r (vehicles db) -> VehicleRow.external_id r <> externalID) ->
  store.DeleteVehicle db now externalID = (db, Some ErrVehicleNotFound).
Proof.
  intros Habs. unfold store.DeleteVehicle.
  rewrite sqlUpdate_untouched; [destruct db; reflexivity|].
  intros r Hin. unfold deleteVehicleWhere.
  rewrite (proj2 (N.eqb_neq _ _) (Habs r Hin)). reflexivity.
Qed.

(** X2. Every call that names a vehicle the store does not hold answers
    NotFound and writes nothing: the read, the status change, the delete, and
    the update of a request that passes validation. *)
Theorem unknown_vehicle_NotFound (db : DB) (now : DateTime) (vehicleId : string)
  (vehicleID : UUID) :
  vehicleId <> ""%string ->
  service.uuid_FromString vehicleId = Some vehicleID ->
  (forall r, In r (vehicles db) -> VehicleRow.external_id r <> vehicleID) ->
  service.GetVehicle db (GetVehicleRequest.mk vehicleId)
  = service.Errorf codes.NotFound "vehicle not found"
  /\ service.DeleteVehicle db now (DeleteVehicleRequest.mk vehicleId)
     = (db, Some (service.mkStatus codes.NotFound "vehicle not found"))
  /\ (forall status,
        status <> VehicleStatus_STATUS_UNSPECIFIED ->
        service.UpdateVehicleStatus db now (UpdateVehicleStatusRequest.mk vehicleId status)
        = (db, service.Errorf codes.NotFound "vehicle not found"))
  /\ (forall payload updateMask vehicle,
        service.ValidateUpdateVehicleRequest
          (UpdateVehicleRequest.mk vehicleId payload updateMask) = inr vehicle ->
        service.UpdateVehicle db now (UpdateVehicleRequest.mk vehicleId payload updateMask)
        = (db, service.Errorf codes.NotFound "vehicle not found"))
  /\ (forall updates updateMask,
        store.UpdateVehicle db now vehicleID updates updateMask
        = (db, Err ErrVehicleNotFound))
  /\ (forall status,
        store.UpdateVehicleStatus db now vehicleID status = (db, Err ErrVehicleNotFound))
  /\ store.DeleteVehicle db now vehicleID = (db, Some ErrVehicleNotFound).
Proof.
  intros Hne Hid Habs.
  assert (Hget := GetVehicleByID_absent db vehicleID Habs).
  apply String.eqb_neq in Hne.
  repeat split.
  - unfold service.GetVehicle. cbn [GetVehicleRequest.VehicleId].
    now rewrite Hne, Hid, Hget.
  - unfold service.DeleteVehicle. cbn [DeleteVehicleRequest.VehicleId].
    now rewrite Hne, Hid, Hget.
  - intros status Hs. unfold service.UpdateVehicleStatus.
    cbn [UpdateVehicleStatusRequest.VehicleId UpdateVehicleStatusRequest.Status].
    rewrite Hne. unfold service.ValidateVehicleStatus.
    destruct (VehicleStatus_eqb status VehicleStatus_STATUS_UNSPECIFIED) eqn:Es.
    + apply VehicleStatus_eqb_eq in Es. contradiction.
    + now rewrite Hid, Hget.
  - intros payload updateMask vehicle Hv. unfold service.UpdateVehicle.
    rewrite Hv. cbn [UpdateVehicleRequest.VehicleId]. now rewrite Hid, Hget.
  - intros. now apply store_UpdateVehicle_absent.
  - intros. now apply store_UpdateVehicleStatus_absent.
  - now apply store_DeleteVehicle_absent.
Qed.

End UnknownVehicle.

Section UnknownVehicleExample.
#[local] Existing Instance samples.engine.

Lemma unknown_vehicle_NotFound_witness :
  ("9"%string <> ""%string
   /\ service.uuid_FromString (Env := samples.env) "9" = Some 9%N
   /\ (forall r, In r (vehicles samples.fleet) -> VehicleRow.external_id r <> 9%N))
  /\ service.GetVehicle (E := samples.env) samples.fleet (GetVehicleRequest.mk "9")
     = service.Errorf codes.NotFound "vehicle not found"
  /\ service.DeleteVehicle (E := samples.env) samples.fleet (samples.at_hour 15)
       (DeleteVehicleRequest.mk "9")
     = (samples.fleet, Some (service.mkStatus codes.NotFound "vehicle not found")).
Proof.
  assert (H : "9"%string <> ""%string
              /\ service.uuid_FromString (Env := samples.env) "9" = Some 9%N
              /\ (forall r, In r (vehicles samples.fleet)
                            -> VehicleRow.external_id r <> 9%N)).
  { split; [discriminate|]. split; [reflexivity|].
    intros r [<- | [<- | [<- | [<- | []]]]]; discriminate. }
  split; [exact H|].
  destruct H as (H1 & H2 & H3).
  destruct (unknown_vehicle_NotFound (E := samples.env) samples.fleet (samples.at_hour 15)
              "9" 9%N H1 H2 H3) as (Hg & Hd & _).
  split; [exact Hg | exact Hd].
Defined.

End UnknownVehicleExample.

(** * Updates through the service *)

Lemma Forall2_In_r {A B : Type} (R : A -> B -> Prop) (l : list A) (l' : list B) (y : B) :
  Forall2 R l l' -> In y l' -> exists x, In x l /\ R x y.
Proof.
  induction 1 as [| x y' l l' HR _ IH]; [intros []|].
  intros [<- | Hin].
  - exists x. split; [now left | exact HR].
  - destruct (IH Hin) as (x0 & Hx0 & HR0). exists x0. split; [now right | exact HR0].
Qed.

Lemma Forall2_In_l {A B : Type} (R : A -> B -> Prop) (l : list A) (l' : list B) (x : A) :
  Forall2 R l l' -> In x l -> exists y, In y l' /\ R x y.
Proof.
  induction 1 as [| x' y l l' HR _ IH]; [intros []|].
  intros [<- | Hin].
  - exists y. split; [now left | exact HR].
  - destruct (IH Hin) as (y0 & Hy0 & HR0). exists y0. split; [now right | exact HR0].
Qed.

Section UpdateThroughService.
Context {G : store.Engine} {E : service.Env}.

(** The vehicle that a successful [store.UpdateVehicle] returns is read from
    a row that the statement assigned. *)
Lemma store_UpdateVehicle_Ok (db db' : DB) (now : DateTime) (externalID : UUID)
  (updates : VehicleUpdateFields.t) (updateMask : option (list string))
  (updated : Vehicle.t) :
  store.UpdateVehicle db now externalID updates updateMask = (db', Ok updated) ->
  exists r typeID fuel vt,
    In r (vehicles db)
    /\ VehicleRow.external_id r = externalID
    /\ In (assigned now updates updateMask typeID fuel r) (vehicles db')
    /\ updated = toVehicle (assigned now updates updateMask typeID fuel r, vt).
Proof.
  intros Hup.
  destruct (store_UpdateVehicle_cases db now externalID updates updateMask)
    as [[e He] | (rows' & He & Hrows)]; rewrite He in Hup; [discriminate|].
  injection Hup as <- Hget.
  apply GetVehicleByID_Ok in Hget. destruct Hget as ([v vt] & Hin & Hid & ->).
  cbn [fst] in Hid. apply joinVehicleTypes_In in Hin. cbn [fst vehicles] in Hin.
  destruct (Forall2_In_r _ _ _ _ Hrows Hin) as (r & Hr & [[Hne ->] | [Heq (typeID & fuel & -> & _)]]).
  - contradiction.
  - exists r, typeID, fuel, vt. cbn [vehicles]. auto.
Qed.

(** A successful update went through validation and [store.UpdateVehicle],
    with the fields prepared from the validated input. *)
Lemma service_UpdateVehicle_Reply (db db' : DB) (now : DateTime)
  (req : UpdateVehicleRequest.t) (updated : Vehicle.t) :
  service.UpdateVehicle db now req = (db', service.Reply updated) ->
  exists vehicle vehicleID,
    service.ValidateUpdateVehicleRequest req = inr vehicle
    /\ service.uuid_FromString (UpdateVehicleRequest.VehicleId req) = Some vehicleID
    /\ store.UpdateVehicle db now vehicleID (service.prepareUpdateFields vehicle)
         (UpdateVehicleRequest.UpdateMask req)
       = (db', Ok updated).
Proof.
  unfold service.UpdateVehicle.
  destruct (service.ValidateUpdateVehicleRequest req) as [? | vehicle]; [discriminate|].
  destruct (service.uuid_FromString _) as [vehicleID |] eqn:Hid; [|discriminate].
  destruct (GetVehicleByID db vehicleID) as [existingVehicle | []]; try discriminate.
  cbv zeta.
  match goal with
  | |- context [match ?c with Some st => (db, service.Failed st) | None => _ end] =>
      destruct c; [discriminate|]
  end.
  match goal with
  | |- context [match ?c with Some st => (db, service.Failed st) | None => _ end] =>
      destruct c; [discriminate|]
  end.
  fold (service.prepareUpdateFields vehicle).
  destruct (store.UpdateVehicle db now vehicleID (service.prepareUpdateFields vehicle)
              (UpdateVehicleRequest.UpdateMask req)) as [db1 [v | []]] eqn:Hup;
    try discriminate.
  intros [= <- <-]. exists vehicle, vehicleID. auto.
Qed.

(** X3. A path of the mask whose field the request leaves empty blanks the
    column: the vehicle that a successful masked update returns has the empty
    text, zero, or no date in every such column. *)
Theorem UpdateVehicle_masked_empty_field_blanks (db db' : DB) (now : DateTime)
  (req : UpdateVehicleRequest.t) (vehicle : VehicleInput.t) (paths : list string)
  (updated : Vehicle.t) :
  service.ValidateUpdateVehicleRequest req = inr vehicle ->
  UpdateVehicleRequest.UpdateMask req = Some paths ->
  service.UpdateVehicle db now req = (db', service.Reply updated) ->
  (In "make"%string paths -> VehicleInput.Make vehicle = ""%string ->
   Vehicle.Make updated = ""%string)
  /\ (In "model"%string paths -> VehicleInput.Model vehicle = ""%string ->
      Vehicle.Model updated = ""%string)
  /\ (In "color"%string paths -> VehicleInput.Color vehicle = ""%string ->
      Vehicle.Color updated = ""%string)
  /\ (In "year"%string paths -> VehicleInput.Year vehicle = 0 ->
      Vehicle.Year updated = 0)
  /\ (In "seating_capacity"%string paths -> VehicleInput.SeatingCapacity vehicle = 0 ->
      Vehicle.SeatingCapacity updated = 0)
  /\ (In "engine_number"%string paths -> VehicleInput.EngineNumber vehicle = ""%string ->
      Vehicle.EngineNumber updated = ""%string)
  /\ (In "chassis_number"%string paths -> VehicleInput.ChassisNumber vehicle = ""%string ->
      Vehicle.ChassisNumber updated = ""%string)
  /\ (In "registration_date"%string paths -> VehicleInput.RegistrationDate vehicle = None ->
      Vehicle.RegistrationDate updated = None)
  /\ (In "insurance_expiry"%string paths -> VehicleInput.InsuranceExpiry vehicle = None ->
      Vehicle.InsuranceExpiry updated = None).
Proof.
  intros Hv Hmask Hup.
  apply service_UpdateVehicle_Reply in Hup.
  destruct Hup as (vehicle' & vehicleID & Hv' & _ & Hup).
  rewrite Hv in Hv'. injection Hv' as <-. rewrite Hmask in Hup.
  apply store_UpdateVehicle_Ok in Hup.
  destruct Hup as (r & typeID & fuel & vt & _ & _ & _ & ->).
  unfold toVehicle, assigned. cbn.
  repeat split; intros Hin Hempty; rewrite (inPaths_true _ _ Hin), Hempty; reflexivity.
Qed.

End UpdateThroughService.

Section BlankExample.
#[local] Existing Instance samples.engine.

Lemma UpdateVehicle_masked_empty_field_blanks_witness :
  exists db' updated,
    (service.ValidateUpdateVehicleRequest (Env := samples.env) samples.blankMake
     = inr samples.blank
     /\ UpdateVehicleRequest.UpdateMask samples.blankMake = Some ["make"; "year"]%string
     /\ service.UpdateVehicle (E := samples.env) samples.fleet (samples.at_hour 15)
          samples.blankMake
        = (db', service.Reply updated))
    /\ Vehicle.Make updated = ""%string
    /\ Vehicle.Year updated = 0.
Proof.
  eexists. eexists.
  match goal with
  | |- ?hyps /\ _ => assert (H : hyps)
  end.
  { split; [reflexivity|]. split; [reflexivity|]. vm_compute. reflexivity. }
  split; [exact H|].
  destruct H as (H1 & H2 & H3).
  destruct (UpdateVehicle_masked_empty_field_blanks (E := samples.env) _ _ _ _ _ _ _ H1 H2 H3)
    as (Hmake & _ & _ & Hyear & _).
  split.
  - apply Hmake; [now left | reflexivity].
  - apply Hyear; [right; now left | reflexivity].
Defined.

End BlankExample.

(** * Status changes and soft delete *)






Lemma store_UpdateVehicleStatus_eq (db : DB) (now : DateTime) (externalID : UUID)
  (status : VehicleStatus) :
  store.UpdateVehicleStatus db now externalID status
  = let db' := mkDB (map (move externalID status now) (vehicles db)) (vehicle_types db) in
    (db',
     match filter (fun r => N.eqb (VehicleRow.external_id r) externalID
                            && changed (fun r => with_status r status now) r)
                  (vehicles db) with
     | [] => Err ErrVehicleNotFound
     | _ :: _ => GetVehicleByID db' externalID
     end).
Proof.
  unfold store.UpdateVehicleStatus. rewrite sqlUpdate_inr. cbv zeta.
  fold (move externalID status now).
  replace (map (fun r => if N.eqb (VehicleRow.external_id r) externalID
                         then with_status r status now else r) (vehicles db))
    with (map (move externalID status now) (vehicles db)) by reflexivity.
  destruct (filter _ (vehicles db)) as [| r l]; [reflexivity|].
  cbn [List.length]. rewrite Nat2Z.inj_succ.
  destruct (Z.eqb_spec (Z.succ (Z.of_nat (List.length l))) 0); [lia | reflexivity].
Qed.





Section StatusChange.
Context {E : service.Env}.



End StatusChange.

(** * What every call keeps *)

Lemma existsb_false {A : Type} (p : A -> bool) (l : list A) (x : A) :
  existsb p l = false -> In x l -> p x = false.
Proof.
  intros H Hin. destruct (p x) eqn:Hp; [|reflexivity].
  rewrite <- H. symmetry. apply existsb_exists. eauto.
Qed.

Section Writes.
Context {G : store.Engine} {E : service.Env}.

(** The row that a successful insert adds. *)
Lemma store_CreateVehicle_cases (db : DB) (now : DateTime) (internalID : Z)
  (externalID : UUID) (data : VehicleData.t) :
  (exists e, store.CreateVehicle db now internalID externalID data = (db, Some e))
  \/ (exists row,
        store.CreateVehicle db now internalID externalID data
        = (mkDB (vehicles db ++ [row]) (vehicle_types db), None)
        /\ VehicleRow.internal_id row = internalID
        /\ VehicleRow.external_id row = externalID
        /\ VehicleRow.license_plate row = VehicleData.LicensePlate data
        /\ store.int_of (VehicleData.VehicleTypeID data)
           = Some (VehicleRow.vehicle_type_id row)
        /\ VehicleRow.status row = VehicleStatus_ACTIVE
        /\ VehicleRow.created_at row = now
        /\ ~ In externalID (map VehicleRow.external_id (vehicles db))
        /\ ~ In (VehicleData.LicensePlate data) (map VehicleRow.license_plate (vehicles db))
        /\ (exists vt, In vt (vehicle_types db)
                       /\ VehicleTypeRow.id vt = VehicleRow.vehicle_type_id row)).
Proof.
  unfold store.CreateVehicle. cbv zeta. unfold assignInt, sqlInsert.
  destruct (int_of (VehicleData.VehicleTypeID data)) as [vehicleTypeID |] eqn:Hint;
    [|left; eexists; reflexivity].
  match goal with
  | |- context [existsb ?p (vehicles db)] => destruct (existsb p (vehicles db)) eqn:Hdup
  end.
  - left. eexists. cbn. reflexivity.
  - match goal with
    | |- context [negb (existsb ?p (vehicle_types db))] =>
        destruct (existsb p (vehicle_types db)) eqn:Hfk
    end; cbn [negb].
    + right. eexists. split; [reflexivity|]. cbn.
      repeat split; try reflexivity.
      * intros Hin. apply in_map_iff in Hin. destruct Hin as (r & Hr & Hin).
        apply (existsb_false _ _ _ Hdup) in Hin. cbn in Hin.
        rewrite Hr, N.eqb_refl, orb_true_r in Hin. discriminate.
      * intros Hin. apply in_map_iff in Hin. destruct Hin as (r & Hr & Hin).
        apply (existsb_false _ _ _ Hdup) in Hin. cbn in Hin.
        rewrite Hr, String.eqb_refl, orb_true_r in Hin. discriminate.
      * apply existsb_exists in Hfk. destruct Hfk as (vt & Hvt & Heq).
        cbn in Heq. apply Z.eqb_eq in Heq. eauto.
    + left. eexists. cbn. reflexivity.
Qed.

Lemma identity_fixed (r r' : VehicleRow.t) :
  fixed_columns_equal r r' -> identity r' = identity r.
Proof. intros (H1 & H2 & _ & H4). unfold identity. now rewrite H1, H2, H4. Qed.

Lemma Forall2_map_eq {A B : Type} (f : A -> B) (l l' : list A) :
  Forall2 (fun x y => f y = f x) l l' -> map f l' = map f l.
Proof. induction 1; cbn; congruence. Qed.

Lemma updated_row_fixed (now : DateTime) (externalID : UUID)
  (updates : VehicleUpdateFields.t) (updateMask : option (list string))
  (r r' : VehicleRow.t) :
  updated_row now externalID updates updateMask r r' -> fixed_columns_equal r r'.
Proof.
  intros [[_ ->] | [_ (typeID & fuel & -> & _)]]; unfold fixed_columns_equal; cbn; auto.
Qed.

Lemma store_UpdateVehicle_fixed (db : DB) (now : DateTime) (externalID : UUID)
  (updates : VehicleUpdateFields.t) (updateMask : option (list string)) :
  Forall2 fixed_columns_equal (vehicles db)
    (vehicles (fst (store.UpdateVehicle db now externalID updates updateMask))).
Proof.
  destruct (store_UpdateVehicle_rows db now externalID updates updateMask) as [_ Hrows].
  eapply Forall2_impl; [|exact Hrows].
  intros r r' [-> | H]; [|now apply updated_row_fixed in H].
  unfold fixed_columns_equal. auto.
Qed.

Lemma service_UpdateVehicleStatus_writes (db : DB) (now : DateTime)
  (req : UpdateVehicleStatusRequest.t) :
  fst (service.UpdateVehicleStatus db now req) = db
  \/ exists vehicleID current,
       GetVehicleByID db vehicleID = Ok current
       /\ IsValidStatusTransition (Vehicle.Status current)
            (UpdateVehicleStatusRequest.Status req) = true
       /\ fst (service.UpdateVehicleStatus db now req)
          = fst (store.UpdateVehicleStatus db now vehicleID
                   (UpdateVehicleStatusRequest.Status req)).
Proof.
  unfold service.UpdateVehicleStatus.
  destruct (String.eqb _ ""); [now left|].
  destruct (service.ValidateVehicleStatus _ _); [now left|].
  destruct (service.uuid_FromString _) as [vehicleID |]; [|now left].
  destruct (GetVehicleByID db vehicleID) as [current | []] eqn:Hget; try now left.
  destruct (IsValidStatusTransition _ _) eqn:Hvalid; cbn [negb]; [|now left].
  right. exists vehicleID, current. repeat split; auto.
  destruct (store.UpdateVehicleStatus db now vehicleID _) as [db' [v | []]]; reflexivity.
Qed.

Lemma service_DeleteVehicle_writes (db : DB) (now : DateTime)
  (req : DeleteVehicleRequest.t) :
  fst (service.DeleteVehicle db now req) = db
  \/ exists vehicleID,
       fst (service.DeleteVehicle db now req) = fst (store.DeleteVehicle db now vehicleID).
Proof.
  unfold service.DeleteVehicle.
  destruct (String.eqb _ ""); [now left|].
  destruct (service.uuid_FromString _) as [vehicleID |]; [|now left].
  destruct (GetVehicleByID db vehicleID) as [current | []]; try now left.
  destruct (VehicleStatus_eqb _ _); [now left|].
  right. exists vehicleID.
  destruct (store.DeleteVehicle db now vehicleID) as [db' [[] |]]; reflexivity.
Qed.

(** X6. No call removes, renumbers or re-dates a stored vehicle: after any
    write of the service the table holds the rows it held, in their order,
    each with its internal and external identifier and its [created_at], and
    after them at most the row a create has added. *)
Theorem step_keeps_rows (db db' : DB) :
  service.step db db' ->
  exists added,
    map identity (vehicles db') = map identity (vehicles db) ++ map identity added
    /\ (List.length added <= 1)%nat.
Proof.
  intros Hstep. destruct Hstep as [db now ids req | db now req | db now req | db now req
                                  | db vts].
  - destruct (service_CreateVehicle_writes db now ids req)
      as [-> | (internalID & externalID & data & ->)].
    + exists []. cbn. rewrite app_nil_r. split; [reflexivity | lia].
    + destruct (store_CreateVehicle_cases db now internalID externalID data)
        as [[e ->] | (row & -> & _)]; cbn [fst vehicles].
      * exists []. cbn. rewrite app_nil_r. split; [reflexivity | lia].
      * exists [row]. rewrite map_app. split; [reflexivity | cbn; lia].
  - exists []. cbn. rewrite app_nil_r. split; [|lia].
    destruct (service_UpdateVehicle_writes db now req)
      as [-> | (vehicleID & updates & _ & ->)]; [reflexivity|].
    apply Forall2_map_eq.
    eapply Forall2_impl; [|apply store_UpdateVehicle_fixed].
    intros r r'. apply identity_fixed.
  - exists []. cbn. rewrite app_nil_r. split; [|lia].
    destruct (service_UpdateVehicleStatus_writes db now req)
      as [-> | (vehicleID & current & _ & _ & ->)]; [reflexivity|].
    rewrite store_UpdateVehicleStatus_eq. cbn [fst vehicles].
    rewrite map_map. apply map_ext. intros r. unfold move.
    now destruct (N.eqb _ _).
  - exists []. cbn. rewrite app_nil_r. split; [|lia].
    destruct (service_DeleteVehicle_writes db now req) as [-> | (vehicleID & ->)];
      [reflexivity|].
    rewrite store_DeleteVehicle_eq. cbn [fst vehicles].
    rewrite map_map. apply map_ext. intros r.
    now destruct (deleteVehicleWhere vehicleID r).
  - exists []. cbn. rewrite app_nil_r. split; [reflexivity | lia].
Qed.

End Writes.

(** * Unique keys and the terminal state *)

Section Unique.
Context {G : store.Engine} {E : service.Env}.

Lemma store_UpdateVehicle_plates (db : DB) (now : DateTime) (externalID : UUID)
  (updates : VehicleUpdateFields.t) (updateMask : option (list string)) :
  Forall2
    (fun r r' =>
       VehicleRow.license_plate r' = VehicleRow.license_plate r
       \/ ~ In (VehicleRow.license_plate r') (map VehicleRow.license_plate (vehicles db)))
    (vehicles db)
    (vehicles (fst (store.UpdateVehicle db now externalID updates updateMask))).
Proof.
  unfold store.UpdateVehicle. cbv zeta.
  match goal with
  | |- context [sqlUpdate ?rows ?w ?set] =>
      destruct (sqlUpdate rows w set) as [e | [rows' n]] eqn:Hexec
  end.
  - destruct (Number e =? 1062); cbn [fst]; apply Forall2_diag; intros; now left.
  - destruct (n =? 0); cbn [fst vehicles]; [apply Forall2_diag; intros; now left|].
    apply sqlUpdate_frame in Hexec.
    eapply Forall2_impl; [|exact Hexec].
    intros r r' [[Hw ->] | [Hw Hset]]; [now left|].
    cbn beta in Hset.
    match type of Hset with
    | match ?c with inl _ => _ | inr _ => _ end = _ =>
        destruct c as [e | typeID]; [discriminate|]
    end.
    match type of Hset with
    | match ?c with _ => _ end = _ => destruct c as [fuel |]; [|discriminate]
    end.
    match type of Hset with
    | (if negb (String.eqb ?a ?b) && existsb ?p ?l then _ else _) = _ =>
        destruct (String.eqb a b) eqn:Hplate;
        [|destruct (existsb p l) eqn:Hdup]; cbn [negb andb] in Hset;
        try discriminate
    end.
    + apply String.eqb_eq in Hplate.
      match type of Hset with
      | (if ?c then _ else _) = _ => destruct c; [discriminate|]
      end.
      injection Hset as <-. left. exact Hplate.
    + match type of Hset with
      | (if ?c then _ else _) = _ => destruct c; [discriminate|]
      end.
      injection Hset as <-. right.
      intros Hin. apply in_map_iff in Hin. destruct Hin as (o & Ho & Hin).
      apply (existsb_false _ _ _ Hdup) in Hin. cbn beta in Hin.
      rewrite Ho, String.eqb_refl in Hin. discriminate.
Qed.

Lemma Forall2_and {A B : Type} (R S : A -> B -> Prop) (l : list A) (l' : list B) :
  Forall2 R l l' -> Forall2 S l l' -> Forall2 (fun x y => R x y /\ S x y) l l'.
Proof.
  induction 1; intros HS; inversion HS; subst; constructor; auto.
Qed.

(** Rows rewritten one vehicle at a time: a plate that appears is the plate of
    the row it replaces, or is new to the table. *)
Lemma rewritten_plates (externalID : UUID) (P : list string) (l l' : list VehicleRow.t) :
  Forall2
    (fun r r' =>
       VehicleRow.external_id r' = VehicleRow.external_id r
       /\ (VehicleRow.external_id r <> externalID -> r' = r)
       /\ (VehicleRow.license_plate r' = VehicleRow.license_plate r
           \/ ~ In (VehicleRow.license_plate r') P))
    l l' ->
  forall p, In p (map VehicleRow.license_plate l') ->
            In p (map VehicleRow.license_plate l)
            \/ (~ In p P /\ In externalID (map VehicleRow.external_id l)).
Proof.
  induction 1 as [| r r' l l' (Hid & Hother & Hplate) _ IH]; [intros p []|].
  intros p [<- | Hin].
  - destruct Hplate as [-> | Hnew]; [left; now left|].
    destruct (N.eq_dec (VehicleRow.external_id r) externalID) as [Heq | Hne].
    + right. split; [exact Hnew | left; exact Heq].
    + rewrite (Hother Hne). left. now left.
  - destruct (IH p Hin) as [Hold | [Hnew Hthere]].
    + left. now right.
    + right. split; [exact Hnew | now right].
Qed.

Lemma rewritten_NoDup (externalID : UUID) (P : list string) (l l' : list VehicleRow.t) :
  Forall2
    (fun r r' =>
       VehicleRow.external_id r' = VehicleRow.external_id r
       /\ (VehicleRow.external_id r <> externalID -> r' = r)
       /\ (VehicleRow.license_plate r' = VehicleRow.license_plate r
           \/ ~ In (VehicleRow.license_plate r') P))
    l l' ->
  NoDup (map VehicleRow.external_id l) ->
  incl (map VehicleRow.license_plate l) P ->
  NoDup (map VehicleRow.license_plate l) ->
  NoDup (map VehicleRow.license_plate l').
Proof.
  induction 1 as [| r r' l l' (Hid & Hother & Hplate) Hrest IH]; [constructor|].
  cbn [map]. intros Hids Hincl Hplates.
  inversion Hids as [| ? ? Hfresh Hids']; subst.
  inversion Hplates as [| ? ? Hnotin Hplates']; subst.
  assert (Hincl' : incl (map VehicleRow.license_plate l) P)
    by (intros p Hp; apply Hincl; now right).
  constructor; [|now apply IH].
  intros Hin. destruct (rewritten_plates externalID P l l' Hrest _ Hin) as [Hold | [Hnew Hthere]].
  - destruct Hplate as [Heq | Hnew].
    + rewrite Heq in Hold. contradiction.
    + apply Hnew. now apply Hincl'.
  - destruct (N.eq_dec (VehicleRow.external_id r) externalID) as [Heq | Hne].
    + rewrite Heq in Hfresh. contradiction.
    + rewrite (Hother Hne) in Hnew. apply Hnew. apply Hincl. now left.
Qed.

Lemma NoDup_snoc {A : Type} (l : list A) (x : A) :
  NoDup l -> ~ In x l -> NoDup (l ++ [x]).
Proof.
  intros Hl Hx. induction Hl as [| y l Hy Hl IH]; cbn.
  - constructor; [intros [] | constructor].
  - constructor.
    + rewrite in_app_iff. intros [Hin | [-> | []]]; [contradiction|].
      apply Hx. now left.
    + apply IH. intros Hin. apply Hx. now right.
Qed.

(** The two unique keys hold after a call if they held before. *)
Lemma unique_step (db db' : DB) :
  service.step db db' ->
  unique_ids db /\ unique_plates db -> unique_ids db' /\ unique_plates db'.
Proof.
  unfold unique_ids, unique_plates.
  intros Hstep [Hids Hplates].
  destruct Hstep as [db now ids req | db now req | db now req | db now req | db vts].
  - destruct (service_CreateVehicle_writes db now ids req)
      as [-> | (internalID & externalID & data & ->)]; [auto|].
    destruct (store_CreateVehicle_cases db now internalID externalID data)
      as [[e ->] | (row & -> & _ & Hid & Hplate & _ & _ & _ & Hfresh & Hnew & _)];
      cbn [fst vehicles]; [auto|].
    rewrite !map_app. cbn [map]. rewrite Hid, Hplate.
    split; now apply NoDup_snoc.
  - destruct (service_UpdateVehicle_writes db now req)
      as [-> | (vehicleID & updates & _ & ->)]; [auto|].
    assert (Hfix := store_UpdateVehicle_fixed db now vehicleID updates
                      (UpdateVehicleRequest.UpdateMask req)).
    split.
    + rewrite (Forall2_map_eq VehicleRow.external_id (vehicles db)); [exact Hids|].
      eapply Forall2_impl; [|exact Hfix]. intros r r' (_ & H & _). exact H.
    + apply (rewritten_NoDup vehicleID (map VehicleRow.license_plate (vehicles db))
               (vehicles db)); auto; [|apply incl_refl].
      destruct (store_UpdateVehicle_rows db now vehicleID updates
                  (UpdateVehicleRequest.UpdateMask req)) as [_ Hrows].
      assert (Hp := store_UpdateVehicle_plates db now vehicleID updates
                      (UpdateVehicleRequest.UpdateMask req)).
      eapply Forall2_impl; [|exact (Forall2_and _ _ _ _ (Forall2_and _ _ _ _ Hfix Hrows) Hp)].
      intros r r' [[(_ & Hid & _) Hrow] Hplate].
      split; [exact Hid|]. split; [|exact Hplate].
      intros Hne. destruct Hrow as [-> | [[_ ->] | [Heq _]]]; auto. contradiction.
  - destruct (service_UpdateVehicleStatus_writes db now req)
      as [-> | (vehicleID & current & _ & _ & ->)]; [auto|].
    rewrite store_UpdateVehicleStatus_eq. cbn [fst vehicles].
    rewrite !map_map.
    rewrite (map_ext (fun r => VehicleRow.external_id (move vehicleID _ now r))
                     VehicleRow.external_id)
      by (intros r; unfold move; now destruct (N.eqb _ _)).
    rewrite (map_ext (fun r => VehicleRow.license_plate (move vehicleID _ now r))
                     VehicleRow.license_plate)
      by (intros r; unfold move; now destruct (N.eqb _ _)).
    auto.
  - destruct (service_DeleteVehicle_writes db now req) as [-> | (vehicleID & ->)]; [auto|].
    rewrite store_DeleteVehicle_eq. cbn [fst vehicles].
    rewrite !map_map.
    rewrite (map_ext
               (fun r => VehicleRow.external_id
                           (if deleteVehicleWhere vehicleID r
                            then with_status r VehicleStatus_RETIRED now else r))
               VehicleRow.external_id)
      by (intros r; now destruct (deleteVehicleWhere vehicleID r)).
    rewrite (map_ext
               (fun r => VehicleRow.license_plate
                           (if deleteVehicleWhere vehicleID r
                            then with_status r VehicleStatus_RETIRED now else r))
               VehicleRow.license_plate)
      by (intros r; now destruct (deleteVehicleWhere vehicleID r)).
    auto.
  - auto.
Qed.

(** X7. In every store the service can reach, no two vehicles share an
    external identifier or a license plate. *)
Theorem reachable_unique_keys (db : DB) :
  service.reachable db -> unique_ids db /\ unique_plates db.
Proof.
  induction 1 as [vts | db db' _ IH Hstep].
  - unfold unique_ids, unique_plates. cbn. split; constructor.
  - now apply (unique_step db db').
Qed.

(** X8. RETIRED is final: a vehicle that is RETIRED is still stored and still
    RETIRED after any call of the service, on a table whose external
    identifiers are unique. *)
Theorem retired_stays_retired (db db' : DB) (r : VehicleRow.t) :
  unique_ids db ->
  service.step db db' ->
  In r (vehicles db) ->
  VehicleRow.status r = VehicleStatus_RETIRED ->
  exists r',
    In r' (vehicles db')
    /\ identity r' = identity r
    /\ VehicleRow.status r' = VehicleStatus_RETIRED.
Proof.
  intros Hids Hstep Hin Hret.
  destruct Hstep as [db now ids req | db now req | db now req | db now req | db vts].
  - exists r. split; [|auto].
    destruct (service_CreateVehicle_writes db now ids req)
      as [-> | (internalID & externalID & data & ->)]; [exact Hin|].
    destruct (store_CreateVehicle_cases db now internalID externalID data)
      as [[e ->] | (row & -> & _)]; cbn [fst vehicles]; [exact Hin|].
    apply in_or_app. now left.
  - destruct (service_UpdateVehicle_writes db now req)
      as [-> | (vehicleID & updates & _ & ->)]; [exists r; auto|].
    destruct (Forall2_In_l _ _ _ _ (store_UpdateVehicle_fixed db now vehicleID updates
                                      (UpdateVehicleRequest.UpdateMask req)) Hin)
      as (r' & Hin' & Hfix).
    exists r'. split; [exact Hin'|]. split; [now apply identity_fixed|].
    destruct Hfix as (_ & _ & Hs & _). congruence.
  - destruct (service_UpdateVehicleStatus_writes db now req)
      as [-> | (vehicleID & current & Hget & Hvalid & ->)]; [exists r; auto|].
    rewrite store_UpdateVehicleStatus_eq. cbn [fst vehicles].
    exists (move vehicleID (UpdateVehicleStatusRequest.Status req) now r).
    split; [now apply in_map|].
    unfold move. destruct (N.eqb_spec (VehicleRow.external_id r) vehicleID) as [Heq | Hne];
      [|auto].
    exfalso. apply GetVehicleByID_Ok in Hget.
    destruct Hget as ([v vt] & Hjoin & Hv & ->). cbn [fst] in Hv.
    apply joinVehicleTypes_In in Hjoin. cbn [fst] in Hjoin.
    assert (v = r) by (apply (unique_ids_inj db r v); auto; congruence).
    subst v. cbn [toVehicle Vehicle.Status fst] in Hvalid. rewrite Hret in Hvalid.
    discriminate.
  - destruct (service_DeleteVehicle_writes db now req) as [-> | (vehicleID & ->)];
      [exists r; auto|].
    rewrite store_DeleteVehicle_eq. cbn [fst vehicles].
    exists (if deleteVehicleWhere vehicleID r
            then with_status r VehicleStatus_RETIRED now else r).
    split; [apply (in_map (fun r => if deleteVehicleWhere vehicleID r
                                    then with_status r VehicleStatus_RETIRED now else r));
            exact Hin|].
    destruct (deleteVehicleWhere vehicleID r); auto.
  - exists r. auto.
Qed.

End Unique.

(** * Create and read back *)

Lemma Parse_Date_Format_Date (t : Time) :
  validWall (wall t) = true -> Parse_Date (Format_Date t) = Some (midnight t).
Proof.
  intros Hw. destruct (GoTimeFacts.validWall_ok _ Hw) as [Hy Hm Hd _ _ _ _].
  pose proof (GoTimeFacts.daysIn_le (Month (wall t)) (Year (wall t))).
  unfold Parse_Date, Format_Date, appendDate.
  rewrite list_ascii_of_string_of_list_ascii.
  rewrite !GoTimeFacts.appendInt_small
    by (change (10 ^ Z.of_nat 2) with 100; change (10 ^ Z.of_nat 4) with 10000; lia).
  cbn [digitsN]. repeat (rewrite <- ?app_assoc; cbn [app]).
  unfold parseDate.
  rewrite GoTimeFacts.parseUint4 by lia.
  rewrite (GoTimeFacts.parseUint2 (Month (wall t))) by lia.
  rewrite (GoTimeFacts.parseUint2 (Day (wall t))) by lia.
  reflexivity.
Qed.

Lemma utoa_length (fuel : nat) : forall (k : nat) (u : Z),
  (k < fuel)%nat -> 10 ^ Z.of_nat k <= u -> (k < List.length (utoa fuel u))%nat.
Proof.
  induction fuel as [| f IH]; intros k u Hk Hu; [lia|].
  cbn [utoa]. destruct (Z.ltb_spec u 10) as [Hlt | Hge].
  - destruct k as [| k].
    + cbn. lia.
    + exfalso. assert (10 ^ 1 <= 10 ^ Z.of_nat (S k)) by (apply Z.pow_le_mono_r; lia).
      lia.
  - rewrite length_app. cbn [List.length].
    destruct k as [| k]; [lia|].
    assert (k < List.length (utoa f (u / 10)))%nat; [|lia].
    apply IH; [lia|].
    rewrite Nat2Z.inj_succ, Z.pow_succ_r in Hu by lia.
    apply Z.div_le_lower_bound; lia.
Qed.

Lemma log2_pow10 (k : nat) (u : Z) : 10 ^ Z.of_nat k <= u -> Z.of_nat k <= Z.log2 u.
Proof.
  intros Hu.
  assert (H2 : 2 ^ Z.of_nat k <= 10 ^ Z.of_nat k) by (apply Z.pow_le_mono_l; lia).
  assert (Hpos : 0 < 2 ^ Z.of_nat k) by (apply Z.pow_pos_nonneg; lia).
  rewrite <- (Z.log2_pow2 (Z.of_nat k)) by lia.
  apply Z.log2_le_mono. lia.
Qed.

Lemma appendInt_length (x : Z) (w : nat) : (w <= List.length (appendInt x w))%nat.
Proof.
  unfold appendInt. rewrite length_app.
  destruct (Z.ltb_spec (Z.abs x) (10 ^ Z.of_nat w)) as [Hlt | Hge].
  - rewrite GoTimeFacts.digitsN_length. lia.
  - assert (w < List.length (utoa (S (Z.to_nat (Z.log2 (Z.abs x)))) (Z.abs x)))%nat; [|lia].
    apply utoa_length; [|exact Hge].
    pose proof (log2_pow10 w _ Hge). lia.
Qed.

Lemma appendInt_year_long (year : Z) :
  year < 0 \/ 9999 < year -> (5 <= List.length (appendInt year 4))%nat.
Proof.
  intros Hy. unfold appendInt. rewrite length_app.
  destruct (Z.ltb_spec year 0) as [Hneg | Hpos].
  - cbn [List.length].
    destruct (Z.ltb_spec (Z.abs year) (10 ^ Z.of_nat 4)) as [Hlt | Hge].
    + rewrite GoTimeFacts.digitsN_length. lia.
    + assert (4 < List.length (utoa (S (Z.to_nat (Z.log2 (Z.abs year)))) (Z.abs year)))%nat;
        [|lia].
      apply utoa_length; [|exact Hge].
      pose proof (log2_pow10 4 _ Hge). lia.
  - change (10 ^ Z.of_nat 4) with 10000.
    destruct (Z.ltb_spec (Z.abs year) 10000) as [Hlt | Hge]; [lia|].
    assert (4 < List.length (utoa (S (Z.to_nat (Z.log2 (Z.abs year)))) (Z.abs year)))%nat;
      [|cbn [List.length]; lia].
    apply utoa_length; [|exact Hge].
    pose proof (log2_pow10 4 _ Hge). lia.
Qed.

Lemma Parse_Date_length (l : list ascii) :
  List.length l <> 10%nat -> Parse_Date (string_of_list_ascii l) = None.
Proof.
  intros Hl. unfold Parse_Date. rewrite list_ascii_of_string_of_list_ascii.
  do 11 (destruct l as [| ? l]; try reflexivity).
  cbn in Hl. lia.
Qed.

(** A year that does not take four digits gives a text that is not read
    back. *)
Lemma Parse_Date_Format_Date_long (t : Time) :
  Year (wall t) < 0 \/ 9999 < Year (wall t) -> Parse_Date (Format_Date t) = None.
Proof.
  intros Hy. unfold Format_Date. apply Parse_Date_length.
  unfold appendDate. rewrite !length_app. cbn [List.length].
  pose proof (appendInt_year_long _ Hy).
  pose proof (appendInt_length (Month (wall t)) 2).
  pose proof (appendInt_length (Day (wall t)) 2).
  lia.
Qed.

Section CreateAndRead.
Context {G : store.Engine} {E : service.Env}.

Lemma store_CreateVehicle_newRow (db : DB) (now : DateTime) (internalID : Z)
  (externalID : UUID) (data : VehicleData.t) :
  (exists e, store.CreateVehicle db now internalID externalID data = (db, Some e))
  \/ (exists vehicleTypeID,
        store.int_of (VehicleData.VehicleTypeID data) = Some vehicleTypeID
        /\ store.CreateVehicle db now internalID externalID data
           = (mkDB (vehicles db ++ [newRow now internalID externalID vehicleTypeID data])
                   (vehicle_types db),
              None)
        /\ ~ In externalID (map VehicleRow.external_id (vehicles db))
        /\ (exists vt, In vt (vehicle_types db) /\ VehicleTypeRow.id vt = vehicleTypeID)).
Proof.
  destruct (store_CreateVehicle_cases db now internalID externalID data)
    as [H | (row & Hc & _ & _ & _ & Hint & _ & _ & Hfresh & _ & Hfk)]; [now left|].
  right. exists (VehicleRow.vehicle_type_id row).
  split; [exact Hint|]. split; [|split; [exact Hfresh | exact Hfk]].
  rewrite Hc. revert Hc. unfold store.CreateVehicle. cbv zeta.
  unfold assignInt. rewrite Hint.
  fold (newRow now internalID externalID (VehicleRow.vehicle_type_id row) data).
  unfold sqlInsert. destruct (existsb _ (vehicles db)).
  - destruct (Number _ =? 1062); discriminate.
  - destruct (negb _).
    + destruct (Number _ =? 1062); discriminate.
    + now intros [= <-].
Qed.

Lemma joinVehicleTypes_app (rows : list VehicleRow.t) (row : VehicleRow.t)
  (vts : list VehicleTypeRow.t) :
  joinVehicleTypes (mkDB (rows ++ [row]) vts)
  = joinVehicleTypes (mkDB rows vts) ++ typesOf (mkDB rows vts) row.
Proof.
  unfold joinVehicleTypes, typesOf. cbn [vehicles vehicle_types].
  rewrite flat_map_app. cbn [flat_map]. now rewrite app_nil_r.
Qed.

(** Reading back the vehicle of a row that was just added under a fresh
    identifier. *)
Lemma GetVehicleByID_added (db : DB) (row : VehicleRow.t) (vehicle : Vehicle.t) :
  ~ In (VehicleRow.external_id row) (map VehicleRow.external_id (vehicles db)) ->
  GetVehicleByID (mkDB (vehicles db ++ [row]) (vehicle_types db))
    (VehicleRow.external_id row) = Ok vehicle ->
  exists vt, vehicle = toVehicle (row, vt).
Proof.
  intros Hfresh Hget. apply GetVehicleByID_Ok in Hget.
  destruct Hget as ([v vt] & Hin & Hid & ->). cbn [fst] in Hid.
  rewrite joinVehicleTypes_app in Hin. apply in_app_or in Hin.
  destruct Hin as [Hold | Hnew].
  - exfalso. apply Hfresh. apply joinVehicleTypes_In in Hold. cbn [fst vehicles] in Hold.
    rewrite <- Hid. now apply in_map.
  - pose proof (typesOf_fst (mkDB (vehicles db) (vehicle_types db)) row) as Hall.
    rewrite Forall_forall in Hall. specialize (Hall _ Hnew). cbn [fst] in Hall.
    subst v. now exists vt.
Qed.

(** A successful create went through validation, the insert, and the read
    of the new row. *)
Lemma service_CreateVehicle_Reply (db db' : DB) (now : DateTime) (ids : service.IdSource)
  (req : CreateVehicleRequest.t) (created : Vehicle.t) :
  service.CreateVehicle db now ids req = (db', service.Reply created) ->
  exists vehicle externalID,
    service.ValidateCreateVehicleRequest now req = inr vehicle
    /\ service.NewV4 ids = Some externalID
    /\ store.CreateVehicle db now (service.Next ids) externalID
         (service.prepareVehicleData vehicle) = (db', None)
    /\ GetVehicleByID db' externalID = Ok created.
Proof.
  unfold service.CreateVehicle.
  destruct (service.ValidateCreateVehicleRequest now req) as [? | vehicle]; [discriminate|].
  destruct (GetVehicleTypeByID db _) as [vt | []]; try discriminate.
  cbv zeta.
  destruct (GetVehicleByLicensePlate db _) as [? | err]; [discriminate|].
  destruct (negb (is_ErrVehicleNotFound err)); [discriminate|].
  destruct (service.GetSnowflakeNodeID ids); [|discriminate].
  destruct (service.NewV4 ids) as [externalID |]; [|discriminate].
  destruct (store.CreateVehicle db now (service.Next ids) externalID
              (service.prepareVehicleData vehicle)) as [db1 [err1 |]] eqn:Hc.
  - destruct (is_ErrDuplicateEntry err1); discriminate.
  - destruct (GetVehicleByID db1 externalID) as [v |] eqn:Hget; [|discriminate].
    intros [= <- <-]. exists vehicle, externalID. auto.
Qed.


(** X10. Dates are kept to the day, or dropped.  The registration date and
    the insurance expiry of a created vehicle come back as the start of their
    day in UTC, whatever their time of day in the request; a date whose year
    does not take four digits is dropped without an error, and the vehicle is
    created without it. *)
Theorem CreateVehicle_keeps_dates_to_the_day (db db' : DB) (now : DateTime)
  (ids : service.IdSource) (req : CreateVehicleRequest.t) (vehicle : VehicleInput.t)
  (created : Vehicle.t) :
  service.ValidateCreateVehicleRequest now req = inr vehicle ->
  service.CreateVehicle db now ids req = (db', service.Reply created) ->
  (forall regDate,
      VehicleInput.RegistrationDate vehicle = Some regDate ->
      (validWall (wall regDate) = true ->
       Vehicle.RegistrationDate created = Some (Date (midnight regDate)))
      /\ (Year (wall regDate) < 0 \/ 9999 < Year (wall regDate) ->
          Vehicle.RegistrationDate created = None))
  /\ (VehicleInput.RegistrationDate vehicle = None ->
      Vehicle.RegistrationDate created = None)
  /\ (forall expiry,
        VehicleInput.InsuranceExpiry vehicle = Some expiry ->
        (validWall (wall expiry) = true ->
         Vehicle.InsuranceExpiry created = Some (Date (midnight expiry)))
        /\ (Year (wall expiry) < 0 \/ 9999 < Year (wall expiry) ->
            Vehicle.InsuranceExpiry created = None))
  /\ (VehicleInput.InsuranceExpiry vehicle = None ->
      Vehicle.InsuranceExpiry created = None).
Proof.
  intros Hv Hc. apply service_CreateVehicle_Reply in Hc.
  destruct Hc as (vehicle' & externalID & Hv' & Hid & Hc & Hget).
  rewrite Hv in Hv'. injection Hv' as <-.
  destruct (store_CreateVehicle_newRow db now (service.Next ids) externalID
              (service.prepareVehicleData vehicle))
    as [[e He] | (vehicleTypeID & _ & He & Hfresh & _)];
    rewrite He in Hc; [discriminate|].
  injection Hc as <-.
  destruct (GetVehicleByID_added db
              (newRow now (service.Next ids) externalID vehicleTypeID
                 (service.prepareVehicleData vehicle))
              created Hfresh Hget) as (vt & ->).
  cbn. repeat split.
  - intros Hw. rewrite H. cbn. now rewrite Parse_Date_Format_Date.
  - intros Hy. rewrite H. cbn. now rewrite Parse_Date_Format_Date_long.
  - intros ->. reflexivity.
  - intros Hw. rewrite H. cbn. now rewrite Parse_Date_Format_Date.
  - intros Hy. rewrite H. cbn. now rewrite Parse_Date_Format_Date_long.
  - intros ->. reflexivity.
Qed.

End CreateAndRead.

(** * Pages *)

Section Pages.
Context {G : store.Engine}.

Lemma scanRows_toVehicle (rows : list (VehicleRow.t * VehicleTypeRow.t))
  (acc : list Vehicle.t) (last : Time) :
  scanRows rows acc last = Ok (acc ++ map toVehicle rows, lastCreatedAtOf rows last).
Proof.
  revert acc last. induction rows as [| r rows IH]; intros acc last.
  - cbn. now rewrite app_nil_r.
  - cbn [scanRows]. rewrite scanVehicleFromRows_toVehicle, IH.
    cbn [map lastCreatedAtOf fold_left]. rewrite <- app_assoc. reflexivity.
Qed.

(** The result of [store.ListVehicles] in terms of the rows of its query. *)
Lemma store_ListVehicles_eq (db : DB) (params : ListVehiclesParams.t) :
  store.ListVehicles db params
  = match decodePageToken (ListVehiclesParams.PageToken params) with
    | Err e => Err e
    | Ok cursorTime =>
        let rows := listVehiclesRows db params cursorTime in
        if pageSizeOf params <? Z.of_nat (List.length rows) then
          match encodePageToken (lastCreatedAtOf rows zeroTime) with
          | Err e => Err e
          | Ok nextPageToken =>
              Ok (firstn (Z.to_nat (pageSizeOf params)) (map toVehicle rows), nextPageToken)
          end
        else Ok (map toVehicle rows, ""%string)
    end.
Proof.
  unfold store.ListVehicles. cbv zeta. fold (pageSizeOf params).
  destruct (decodePageToken _) as [cursorTime | e]; [|reflexivity].
  fold (cursorStrOf cursorTime). fold (listVehiclesRows db params cursorTime).
  rewrite scanRows_toVehicle. cbn [app]. rewrite length_map. reflexivity.
Qed.

Lemma pageSizeOf_range (params : ListVehiclesParams.t) : 1 <= pageSizeOf params <= 100.
Proof.
  unfold pageSizeOf.
  destruct (Z.leb_spec (ListVehiclesParams.PageSize params) 0);
    destruct (Z.ltb_spec 100 (ListVehiclesParams.PageSize params)); cbn [orb]; lia.
Qed.

Lemma clampPageSize_range (pageSize : Z) : 1 <= service.clampPageSize pageSize <= 100.
Proof.
  unfold service.clampPageSize.
  destruct (Z.leb_spec pageSize 0); [cbn; lia|].
  destruct (Z.ltb_spec 100 pageSize); lia.
Qed.

Lemma pageSizeOf_listParams (req : ListVehiclesRequest.t) :
  pageSizeOf (service.listParams req)
  = service.clampPageSize (ListVehiclesRequest.PageSize req).
Proof.
  pose proof (clampPageSize_range (ListVehiclesRequest.PageSize req)).
  unfold pageSizeOf. cbn [service.listParams ListVehiclesParams.PageSize].
  destruct (Z.leb_spec (service.clampPageSize (ListVehiclesRequest.PageSize req)) 0);
    [lia|].
  destruct (Z.ltb_spec 100 (service.clampPageSize (ListVehiclesRequest.PageSize req)));
    [lia | reflexivity].
Qed.

Lemma service_ListVehicles_eq (db : DB) (req : ListVehiclesRequest.t) :
  service.ListVehicles db req
  = match store.ListVehicles db (service.listParams req) with
    | Err _ => service.Errorf codes.Internal "failed to list vehicles: %v"
    | Ok (vehicles, nextPageToken) =>
        service.Reply (ListVehiclesResponse.mk vehicles nextPageToken
                         (Z.of_nat (List.length vehicles)))
    end.
Proof. reflexivity. Qed.

(** A reply of [service.ListVehicles] in terms of the rows of the query. *)
Lemma service_ListVehicles_Reply (db : DB) (req : ListVehiclesRequest.t)
  (resp : ListVehiclesResponse.t) :
  service.ListVehicles db req = service.Reply resp ->
  exists cursorTime,
    decodePageToken (ListVehiclesRequest.PageToken req) = Ok cursorTime
    /\ ListVehiclesResponse.TotalCount resp
       = Z.of_nat (List.length (ListVehiclesResponse.Vehicles resp))
    /\ let rows := listVehiclesRows db (service.listParams req) cursorTime in
       let P := service.clampPageSize (ListVehiclesRequest.PageSize req) in
       (P < Z.of_nat (List.length rows)
        /\ ListVehiclesResponse.Vehicles resp = firstn (Z.to_nat P) (map toVehicle rows)
        /\ encodePageToken (lastCreatedAtOf rows zeroTime)
           = Ok (ListVehiclesResponse.NextPageToken resp))
       \/ (Z.of_nat (List.length rows) <= P
           /\ ListVehiclesResponse.Vehicles resp = map toVehicle rows
           /\ ListVehiclesResponse.NextPageToken resp = ""%string).
Proof.
  rewrite service_ListVehicles_eq, store_ListVehicles_eq.
  cbn [service.listParams ListVehiclesParams.PageToken].
  destruct (decodePageToken _) as [cursorTime | e]; [|discriminate].
  cbv zeta. rewrite pageSizeOf_listParams.
  exists cursorTime. split; [reflexivity|].
  destruct (Z.ltb_spec (service.clampPageSize (ListVehiclesRequest.PageSize req))
              (Z.of_nat (List.length (listVehiclesRows db (service.listParams req)
                                        cursorTime)))) as [Hlt | Hge].
  - destruct (encodePageToken _) as [token | e] eqn:Henc; [|discriminate].
    injection H as <-. cbn. split; [reflexivity|]. left. auto.
  - injection H as <-. cbn. split; [reflexivity|]. right. auto.
Qed.

Lemma LIMIT_length {A : Type} (n : Z) (l : list A) :
  0 <= n -> Z.of_nat (List.length (LIMIT n l)) <= n.
Proof.
  intros Hn. unfold LIMIT. rewrite length_firstn. lia.
Qed.

Lemma listVehiclesRows_length (db : DB) (params : ListVehiclesParams.t) (cursorTime : Time) :
  Z.of_nat (List.length (listVehiclesRows db params cursorTime)) <= pageSizeOf params + 1.
Proof.
  pose proof (pageSizeOf_range params).
  unfold listVehiclesRows, listVehiclesQuery. apply LIMIT_length. lia.
Qed.

Lemma MarshalText_nonempty (t : Time) (b : list ascii) : MarshalText t = Some b -> b <> [].
Proof.
  unfold MarshalText. cbv zeta.
  destruct (appendFormatRFC3339 t) as [| c l] eqn:Hb; [discriminate|].
  intros H. destruct (negb _); [discriminate|].
  destruct (Ascii.eqb _ _); [injection H as <-; discriminate|].
  destruct (_ || _); [discriminate|]. injection H as <-. discriminate.
Qed.

Lemma encodePageToken_nonempty (t : Time) (token : string) :
  encodePageToken t = Ok token -> token <> ""%string.
Proof.
  unfold encodePageToken. destruct (MarshalText t) as [b |] eqn:Hm; [|discriminate].
  intros [= <-]. apply MarshalText_nonempty in Hm.
  apply String.eqb_neq. now apply EncodeToString_nonempty.
Qed.

Lemma listVehiclesRows_matching (db : DB) (params : ListVehiclesParams.t)
  (cursorTime : Time) :
  listVehiclesRows db params cursorTime
  = firstn (Z.to_nat (pageSizeOf params + 1))
      (orderByCreatedAtDesc (matching db params cursorTime)).
Proof. reflexivity. Qed.

Lemma listVehiclesRows_count (db : DB) (params : ListVehiclesParams.t) (cursorTime : Time) :
  Z.of_nat (List.length (listVehiclesRows db params cursorTime))
  = Z.min (pageSizeOf params + 1)
          (Z.of_nat (List.length (matching db params cursorTime))).
Proof.
  pose proof (pageSizeOf_range params).
  rewrite listVehiclesRows_matching, length_firstn, orderByCreatedAtDesc_length. lia.
Qed.

(** X11. A page is never longer than the page size the service settles on,
    which lies between 1 and 100 and is 50 when the request names none.  The
    page holds as many vehicles as match, up to that size; a token for a next
    page is returned exactly when more vehicles match than the page holds, and
    the count of the reply is the length of the page. *)
Theorem ListVehicles_page_size (db : DB) (req : ListVehiclesRequest.t)
  (resp : ListVehiclesResponse.t) :
  service.ListVehicles db req = service.Reply resp ->
  exists cursorTime,
    decodePageToken (ListVehiclesRequest.PageToken req) = Ok cursorTime
    /\ let P := service.clampPageSize (ListVehiclesRequest.PageSize req) in
       let n := Z.of_nat (List.length (matching db (service.listParams req) cursorTime)) in
       1 <= P <= 100
       /\ (ListVehiclesRequest.PageSize req <= 0 -> P = 50)
       /\ (100 < ListVehiclesRequest.PageSize req -> P = 100)
       /\ Z.of_nat (List.length (ListVehiclesResponse.Vehicles resp)) = Z.min n P
       /\ (ListVehiclesResponse.NextPageToken resp <> ""%string <-> P < n)
       /\ ListVehiclesResponse.TotalCount resp
          = Z.of_nat (List.length (ListVehiclesResponse.Vehicles resp)).
Proof.
  intros Hreply. apply service_ListVehicles_Reply in Hreply.
  destruct Hreply as (cursorTime & Hdec & Hcount & Hpage).
  exists cursorTime. split; [exact Hdec|]. cbv zeta in Hpage |- *.
  pose proof (clampPageSize_range (ListVehiclesRequest.PageSize req)) as HP.
  pose proof (listVehiclesRows_count db (service.listParams req) cursorTime) as Hn.
  rewrite pageSizeOf_listParams in Hn.
  split; [exact HP|]. split.
  { intros Hle. unfold service.clampPageSize.
    destruct (Z.leb_spec (ListVehiclesRequest.PageSize req) 0); [reflexivity | lia]. }
  split.
  { intros Hgt. unfold service.clampPageSize.
    destruct (Z.leb_spec (ListVehiclesRequest.PageSize req) 0); [lia|].
    destruct (Z.ltb_spec 100 (ListVehiclesRequest.PageSize req)); [reflexivity | lia]. }
  destruct Hpage as [(Hlt & Hv & Henc) | (Hge & Hv & Ht)].
  - split; [rewrite Hv, length_firstn, length_map; lia|]. split; [|exact Hcount].
    split; [lia|]. intros _. now apply encodePageToken_nonempty in Henc.
  - split; [rewrite Hv, length_map; lia|]. split; [|exact Hcount].
    rewrite Ht. split; [congruence | lia].
Qed.
End Pages.

Import GoTimeFacts.

Lemma atoi_bound (l : list ascii) : forall x v,
  0 <= x -> atoi l x = Some v -> x * 10 ^ Z.of_nat (List.length l) <= v
                                  < (x + 1) * 10 ^ Z.of_nat (List.length l).
Proof.
  induction l as [| c l IH]; intros x v Hx H.
  - cbn in H. injection H as <-. cbn. lia.
  - cbn [atoi] in H. destruct (isDigit c) eqn:Hc; [|discriminate].
    assert (Hd : 0 <= digitVal c <= 9).
    { unfold isDigit in Hc. unfold digitVal.
      apply andb_true_iff in Hc as [H1 H2].
      apply Z.leb_le in H1. apply Z.leb_le in H2. lia. }
    apply IH in H; [|lia].
    cbn [List.length]. rewrite Nat2Z.inj_succ, Z.pow_succ_r by lia.
    assert (0 < 10 ^ Z.of_nat (List.length l)) by (apply Z.pow_pos_nonneg; lia).
    nia.
Qed.

Lemma parseNanoseconds_range (ds : list ascii) : 0 <= parseNanoseconds ds < 1000000000.
Proof.
  unfold parseNanoseconds. cbv zeta.
  destruct (atoi (firstn 9 ds) 0) as [ns |] eqn:Ha; [|lia].
  apply atoi_bound in Ha; [|lia].
  assert (Hlen : (List.length (firstn 9 ds) <= 9)%nat) by (rewrite length_firstn; lia).
  set (n := List.length (firstn 9 ds)) in *.
  assert (Hsplit : 10 ^ Z.of_nat n * 10 ^ Z.of_nat (9 - n) = 1000000000).
  { rewrite <- Z.pow_add_r by lia. replace (Z.of_nat n + Z.of_nat (9 - n)) with 9 by lia.
    reflexivity. }
  assert (0 < 10 ^ Z.of_nat (9 - n)) by (apply Z.pow_pos_nonneg; lia).
  assert (0 < 10 ^ Z.of_nat n) by (apply Z.pow_pos_nonneg; lia).
  nia.
Qed.

Lemma parseFraction_range (s : list ascii) : 0 <= fst (parseFraction s) < 1000000000.
Proof.
  unfold parseFraction. destruct s as [| dot [| c s]]; cbn [fst]; try lia.
  destruct (Ascii.eqb dot "." && isDigit c); cbn [fst]; [|lia].
  destruct (spanDigits _) as [ds r]. cbn [fst]. apply parseNanoseconds_range.
Qed.

Lemma parseUint_range (s : list ascii) (lo hi v : Z) :
  parseUint s lo hi = Some v -> lo <= v <= hi.
Proof.
  unfold parseUint. destruct (atoi s 0) as [x |]; [|discriminate].
  destruct (Z.ltb_spec x lo); [discriminate|].
  destruct (Z.ltb_spec hi x); [discriminate|]. cbn. intros [= <-]. lia.
Qed.

Lemma parseZone_valid (s : list ascii) (off : Z) :
  parseZone s = Some off -> validZone off = true.
Proof.
  unfold parseZone.
  destruct s as [| c0 [| c1 [| c2 [| c3 [| c4 [| c5 [| c6 s]]]]]]]; try discriminate.
  - destruct (Ascii.eqb c0 "Z"); [|discriminate]. intros [= <-]. reflexivity.
  - destruct (parseUint [c1; c2] 0 23) as [hr |] eqn:Hh; [|discriminate].
    destruct (parseUint [c4; c5] 0 59) as [mm |] eqn:Hm; [|discriminate].
    apply parseUint_range in Hh. apply parseUint_range in Hm.
    destruct (_ && _); [|discriminate].
    intros [= <-]. unfold validZone.
    destruct (Ascii.eqb c0 "-").
    + apply andb_true_iff. split; [apply andb_true_iff; split|].
      * apply Z.eqb_eq. replace (- ((hr * 60 + mm) * 60)) with ((- (hr * 60 + mm)) * 60) by lia.
        apply Z.mod_mul. lia.
      * apply Z.ltb_lt. lia.
      * apply Z.ltb_lt. lia.
    + apply andb_true_iff. split; [apply andb_true_iff; split|].
      * apply Z.eqb_eq. apply Z.mod_mul. lia.
      * apply Z.ltb_lt. lia.
      * apply Z.ltb_lt. lia.
Qed.

(** What the RFC 3339 reader returns is a time that has an RFC 3339 text. *)
Lemma parseRFC3339_valid (s : list ascii) (t : Time) :
  parseRFC3339 s = Some t -> valid t = true.
Proof.
  unfold parseRFC3339.
  do 19 (destruct s as [| ? s]; [discriminate|]).
  unfold parseDate.
  destruct (parseUint [a; a0; a1; a2] 0 9999) as [year |] eqn:Hy; [|discriminate].
  destruct (parseUint [a4; a5] 1 12) as [month |] eqn:Hm; [|discriminate].
  destruct (parseUint [a7; a8] 1 (daysIn month year)) as [day |] eqn:Hd; [|discriminate].
  destruct (_ && _); [|discriminate].
  destruct (parseUint [a10; a11] 0 23) as [hour |] eqn:Hh; [|discriminate].
  destruct (parseUint [a13; a14] 0 59) as [min |] eqn:Hmi; [|discriminate].
  destruct (parseUint [a16; a17] 0 59) as [sec |] eqn:Hs; [|discriminate].
  destruct (_ && _); [|discriminate].
  pose proof (parseFraction_range s) as Hn.
  destruct (parseFraction s) as [nsec rest]. cbn [fst] in Hn.
  destruct (parseZone rest) as [off |] eqn:Hz; [|discriminate].
  intros [= <-].
  apply parseUint_range in Hy, Hm, Hd, Hh, Hmi, Hs. apply parseZone_valid in Hz.
  unfold valid, validWall. cbn. rewrite Hz.
  repeat (apply andb_true_iff; split); try (apply Z.leb_le; lia); try (apply Z.ltb_lt; lia).
  reflexivity.
Qed.

Lemma getnum_range (s : list ascii) (fixed : bool) (v : Z) (r : list ascii) :
  getnum s fixed = Some (v, r) -> 0 <= v <= 99.
Proof.
  assert (Hd : forall c, isDigit c = true -> 0 <= digitVal c <= 9).
  { intros c Hc. unfold isDigit in Hc. unfold digitVal.
    apply andb_true_iff in Hc as [H1 H2].
    apply Z.leb_le in H1. apply Z.leb_le in H2. lia. }
  unfold getnum. destruct s as [| c0 [| c1 s]]; [discriminate | |].
  - destruct (isDigit c0) eqn:H0; [|discriminate].
    destruct fixed; [discriminate|]. intros [= <- _]. specialize (Hd c0 H0). lia.
  - destruct (isDigit c0) eqn:H0; [|discriminate].
    destruct (isDigit c1) eqn:H1.
    + intros [= <- _]. pose proof (Hd c0 H0). pose proof (Hd c1 H1). lia.
    + destruct fixed; [discriminate|]. intros [= <- _]. specialize (Hd c0 H0). lia.
Qed.

Lemma parseSecondFraction_range (s : list ascii) :
  0 <= fst (parseSecondFraction s) < 1000000000.
Proof.
  unfold parseSecondFraction. destruct s as [| sep [| c s]]; cbn [fst]; try lia.
  destruct (commaOrPeriod sep && isDigit c); cbn [fst]; [|lia].
  destruct (spanDigits _) as [ds r]. cbn [fst]. apply parseNanoseconds_range.
Qed.

Lemma parseISO8601ColonTZ_zone (s r : list ascii) (off : Z) :
  parseISO8601ColonTZ s = Some (off, r) -> lenientZone off = true.
Proof.
  unfold parseISO8601ColonTZ. destruct s as [| z s]; [discriminate|].
  destruct (Ascii.eqb z "Z"); [intros [= <- _]; reflexivity|].
  destruct s as [| h1 [| h2 [| c [| m1 [| m2 rest]]]]]; try discriminate.
  destruct (negb (Ascii.eqb c ":")); [discriminate|].
  destruct (getnum [h1; h2] true) as [[hr ?] |] eqn:Hh; [|discriminate].
  destruct (getnum [m1; m2] true) as [[mm ?] |] eqn:Hm; [|discriminate].
  apply getnum_range in Hh. apply getnum_range in Hm.
  destruct (Z.ltb_spec 24 hr); [discriminate|].
  destruct (Z.ltb_spec 60 mm); [discriminate|]. cbn [orb].
  assert (Hplus : lenientZone ((hr * 60 + mm) * 60) = true).
  { unfold lenientZone. rewrite Z.mod_mul by lia.
    repeat (apply andb_true_iff; split); [reflexivity | apply Z.leb_le; lia
                                         | apply Z.leb_le; lia]. }
  assert (Hminus : lenientZone (- ((hr * 60 + mm) * 60)) = true).
  { unfold lenientZone.
    replace (- ((hr * 60 + mm) * 60)) with ((- (hr * 60 + mm)) * 60) by lia.
    rewrite Z.mod_mul by lia.
    repeat (apply andb_true_iff; split); [reflexivity | apply Z.leb_le; lia
                                         | apply Z.leb_le; lia]. }
  destruct (Ascii.eqb z "+"); [intros [= <- _]; exact Hplus|].
  destruct (Ascii.eqb z "-"); [intros [= <- _]; exact Hminus | discriminate].
Qed.

(** What the lenient reader returns is a reading of a calendar and a clock,
    in a zone of whole minutes. *)
Lemma Parse_RFC3339_wall (s : list ascii) (t : Time) :
  Parse_RFC3339 s = Some t ->
  validWall (wall t) = true /\ lenientZone (zoneOffset t) = true.
Proof.
  unfold Parse_RFC3339.
  destruct s as [| y1 [| y2 [| y3 [| y4 s]]]]; try discriminate.
  destruct (negb (isDigit y1)); [discriminate|].
  destruct (atoi [y1; y2; y3; y4] 0) as [year |] eqn:Hy; [|discriminate].
  apply atoi_bound in Hy; [|lia]. cbn [List.length] in Hy.
  change (10 ^ Z.of_nat 4) with 10000 in Hy.
  destruct (skip s "-") as [s1 |]; [|discriminate].
  destruct (getnum s1 true) as [[month s2] |]; [|discriminate].
  destruct (Z.leb_spec month 0); [discriminate|].
  destruct (Z.ltb_spec 12 month); [discriminate|]. cbn [orb].
  destruct (skip s2 "-") as [s3 |]; [|discriminate].
  destruct (getnum s3 true) as [[day s4] |]; [|discriminate].
  destruct (skip s4 "T") as [s5 |]; [|discriminate].
  destruct (getnum s5 false) as [[hour s6] |] eqn:Hh; [|discriminate].
  apply getnum_range in Hh.
  destruct (Z.leb_spec 24 hour); [discriminate|].
  destruct (skip s6 ":") as [s7 |]; [|discriminate].
  destruct (getnum s7 true) as [[min s8] |] eqn:Hmi; [|discriminate].
  apply getnum_range in Hmi.
  destruct (Z.leb_spec 60 min); [discriminate|].
  destruct (skip s8 ":") as [s9 |]; [|discriminate].
  destruct (getnum s9 true) as [[sec s10] |] eqn:Hs; [|discriminate].
  apply getnum_range in Hs.
  destruct (Z.leb_spec 60 sec); [discriminate|].
  pose proof (parseSecondFraction_range s10) as Hn.
  destruct (parseSecondFraction s10) as [nsec s11]. cbn [fst] in Hn.
  destruct (parseISO8601ColonTZ s11) as [[off s12] |] eqn:Hz; [|discriminate].
  apply parseISO8601ColonTZ_zone in Hz.
  destruct s12; [|discriminate].
  destruct (Z.ltb_spec day 1); [discriminate|].
  destruct (Z.ltb_spec (daysIn month year) day); [discriminate|]. cbn [orb].
  intros [= <-]. split; [|exact Hz].
  unfold validWall. cbn.
  repeat (apply andb_true_iff; split); try (apply Z.leb_le; lia); apply Z.ltb_lt; lia.
Qed.

Lemma validZone_lenientZone (off : Z) : validZone off = true -> lenientZone off = true.
Proof.
  unfold validZone, lenientZone. intros H.
  apply andb_true_iff in H as [H Hhi]. apply andb_true_iff in H as [Hm Hlo].
  apply Z.ltb_lt in Hlo, Hhi. rewrite Hm.
  repeat (apply andb_true_iff; split); [reflexivity | apply Z.leb_le; lia
                                       | apply Z.leb_le; lia].
Qed.

(** The time that a page token decodes to. *)
Lemma decodePageToken_wall (token : string) (cursorTime : Time) :
  decodePageToken token = Ok cursorTime ->
  validWall (wall cursorTime) = true /\ lenientZone (zoneOffset cursorTime) = true.
Proof.
  unfold decodePageToken. destruct (String.eqb token "").
  - intros [= <-]. split; reflexivity.
  - destruct (Base64.DecodeString token) as [decoded |]; [|discriminate].
    unfold UnmarshalText, parseStrictRFC3339.
    destruct (parseRFC3339 decoded) as [t |] eqn:Hstrict.
    + intros [= <-]. apply parseRFC3339_valid in Hstrict. unfold valid in Hstrict.
      apply andb_true_iff in Hstrict as [Hw Hz].
      split; [exact Hw | now apply validZone_lenientZone].
    + destruct (Parse_RFC3339 decoded) as [t |] eqn:Hlenient; [|discriminate].
      intros [= <-]. exact (Parse_RFC3339_wall decoded t Hlenient).
Qed.

(** The text of a zone of whole minutes within a hundred hours of UTC. *)
Lemma appendZone_minutes (off : Z) :
  off mod 60 = 0 -> -360000 < off < 360000 -> off <> 0 ->
  let k := Z.abs off / 60 in
  appendZone off
  = zoneSign off :: digitsN 2 (k / 60) ++ ":"%char :: digitsN 2 (k mod 60).
Proof.
  intros Hm Hr Hnz k.
  unfold appendZone. destruct (Z.eqb_spec off 0) as [| _]; [contradiction|].
  assert (Hq : Z.quot off 60 = off / 60) by divlia.
  rewrite Hq.
  assert (Hk : Z.abs (off / 60) = k) by (subst k; divlia).
  rewrite Hk.
  rewrite !appendInt_small by (change (10 ^ Z.of_nat 2) with 100; subst k; divlia).
  unfold zoneSign.
  replace (off / 60 <? 0) with (off <? 0).
  - destruct (off <? 0); reflexivity.
  - destruct (Z.ltb_spec off 0), (Z.ltb_spec (off / 60) 0); try reflexivity; divlia.
Qed.

(** A zone of a day or more from UTC has a text, which the RFC 3339 reader
    refuses. *)
Lemma parse_format_wide (t : Time) :
  validWall (wall t) = true -> lenientZone (zoneOffset t) = true ->
  validZone (zoneOffset t) = false ->
  parseRFC3339 (appendFormatRFC3339 t) = None.
Proof.
  intros Hw Hl Hz.
  unfold lenientZone in Hl.
  apply andb_true_iff in Hl as [Hl Hhi]. apply andb_true_iff in Hl as [Hm Hlo].
  apply Z.eqb_eq in Hm. apply Z.leb_le in Hlo, Hhi.
  assert (Hwide : zoneOffset t <= -86400 \/ 86400 <= zoneOffset t).
  { unfold validZone in Hz. rewrite (proj2 (Z.eqb_eq _ _) Hm) in Hz. cbn [andb] in Hz.
    destruct (Z.ltb_spec (-86400) (zoneOffset t)); [|lia].
    destruct (Z.ltb_spec (zoneOffset t) 86400); [discriminate | lia]. }
  pose proof (validWall_ok _ Hw) as Hok.
  rewrite appendFormat_valid by assumption.
  destruct Hok as [Hy Hmo Hd Hh Hmi Hs Hn].
  pose proof (daysIn_le (Month (wall t)) (Year (wall t))).
  unfold head19. cbn [digitsN]. repeat (rewrite <- ?app_assoc; cbn [app]).
  unfold parseRFC3339, parseDate.
  rewrite parseUint4 by lia. rewrite (parseUint2 (Month (wall t))) by lia.
  rewrite (parseUint2 (Day (wall t))) by lia.
  change (Ascii.eqb "-" "-") with true. cbn [andb].
  rewrite !parseUint2 by lia.
  change (Ascii.eqb "T" "T") with true. change (Ascii.eqb ":" ":") with true. cbn [andb].
  pose proof (appendZone_minutes (zoneOffset t) Hm ltac:(lia) ltac:(lia)) as Hzone.
  cbv zeta in Hzone.
  set (k := Z.abs (zoneOffset t) / 60) in *.
  rewrite parseFraction_appendNano; [| assumption |].
  - rewrite Hzone. cbn [digitsN app]. unfold parseZone.
    replace (parseUint [digit (k / 60 / 10 mod 10); digit (k / 60 mod 10)] 0 23)
      with (@None Z); [reflexivity|].
    symmetry. unfold parseUint.
    change [digit (k / 60 / 10 mod 10); digit (k / 60 mod 10)] with (digitsN 2 (k / 60)).
    rewrite atoi_digitsN. change (10 ^ Z.of_nat 2) with 100.
    rewrite Z.mod_small by (subst k; divlia).
    replace (0 * 100 + k / 60 <? 0) with false
      by (symmetry; apply Z.ltb_ge; subst k; divlia).
    replace (23 <? 0 * 100 + k / 60) with true
      by (symmetry; apply Z.ltb_lt; subst k; divlia).
    reflexivity.
  - rewrite Hzone. cbn [zoneHead]. unfold zoneSign.
    destruct (zoneOffset t <? 0); auto.
Qed.

(** With the text of a cursor that a token decodes to, [created_at > ?]
    selects only rows created after the cursor. *)
Lemma created_after_decoded (created_at : DateTime) (cursorTime : Time) :
  validWall (wall cursorTime) = true -> lenientZone (zoneOffset cursorTime) = true ->
  created_after created_at (Format_RFC3339Nano cursorTime) = true ->
  After (Date created_at) cursorTime = true.
Proof.
  intros Hw Hl. unfold created_after, Format_RFC3339Nano.
  rewrite list_ascii_of_string_of_list_ascii.
  destruct (validZone (zoneOffset cursorTime)) eqn:Hz.
  - rewrite parse_format; [auto|]. unfold valid. now rewrite Hw, Hz.
  - rewrite parse_format_wide by assumption. discriminate.
Qed.

(** With the text of a cursor, [created_at > ?] selects the rows created
    after the cursor. *)
Lemma created_after_cursor (created_at : DateTime) (cursorTime : Time) :
  valid cursorTime = true ->
  created_after created_at (Format_RFC3339Nano cursorTime)
  = After (Date created_at) cursorTime.
Proof.
  intros Hv. unfold created_after, Format_RFC3339Nano.
  rewrite list_ascii_of_string_of_list_ascii, parse_format by exact Hv. reflexivity.
Qed.
Lemma After_asym (a b : Time) : After a b = true -> After b a = false.
Proof.
  unfold After. intros H.
  destruct (Z.ltb_spec (absSeconds b) (absSeconds a));
    destruct (Z.ltb_spec (absSeconds a) (absSeconds b));
    destruct (Z.eqb_spec (absSeconds b) (absSeconds a));
    destruct (Z.eqb_spec (absSeconds a) (absSeconds b));
    destruct (Z.ltb_spec (Nanosecond (wall b)) (Nanosecond (wall a)));
    destruct (Z.ltb_spec (Nanosecond (wall a)) (Nanosecond (wall b)));
    cbn in *; try reflexivity; try discriminate; lia.
Qed.

Lemma After_false_trans (a b c : Time) :
  After a b = false -> After b c = false -> After a c = false.
Proof.
  unfold After. intros H1 H2.
  destruct (Z.ltb_spec (absSeconds b) (absSeconds a));
    destruct (Z.eqb_spec (absSeconds b) (absSeconds a));
    destruct (Z.ltb_spec (Nanosecond (wall b)) (Nanosecond (wall a)));
    cbn in H1; try discriminate;
    destruct (Z.ltb_spec (absSeconds c) (absSeconds b));
    destruct (Z.eqb_spec (absSeconds c) (absSeconds b));
    destruct (Z.ltb_spec (Nanosecond (wall c)) (Nanosecond (wall b)));
    cbn in H2; try discriminate;
    destruct (Z.ltb_spec (absSeconds c) (absSeconds a));
    destruct (Z.eqb_spec (absSeconds c) (absSeconds a));
    destruct (Z.ltb_spec (Nanosecond (wall c)) (Nanosecond (wall a)));
    cbn; try reflexivity; lia.
Qed.

Lemma insertDesc_In (x r : VehicleRow.t * VehicleTypeRow.t)
  (l : list (VehicleRow.t * VehicleTypeRow.t)) :
  In r (insertDesc x l) <-> r = x \/ In r l.
Proof.
  induction l as [| y l IH]; cbn.
  - intuition.
  - destruct (After _ _); cbn; rewrite ?IH; intuition.
Qed.

Lemma orderByCreatedAtDesc_In (r : VehicleRow.t * VehicleTypeRow.t)
  (l : list (VehicleRow.t * VehicleTypeRow.t)) :
  In r (orderByCreatedAtDesc l) <-> In r l.
Proof.
  unfold orderByCreatedAtDesc. induction l as [| y l IH]; cbn; [tauto|].
  rewrite insertDesc_In, IH. intuition.
Qed.

Lemma descending_insertDesc (x : VehicleRow.t * VehicleTypeRow.t)
  (l : list (VehicleRow.t * VehicleTypeRow.t)) :
  descending (map toVehicle l) -> descending (map toVehicle (insertDesc x l)).
Proof.
  induction l as [| y l IH]; intros Hl.
  - cbn. split; [constructor | exact I].
  - cbn [insertDesc].
    destruct (After (Date (VehicleRow.created_at (fst y)))
                    (Date (VehicleRow.created_at (fst x)))) eqn:Hyx.
    + cbn [map descending] in Hl |- *. destruct Hl as [Hy Hl].
      split; [|now apply IH].
      apply Forall_forall. intros u Hu. apply in_map_iff in Hu.
      destruct Hu as (r & <- & Hr). apply insertDesc_In in Hr.
      destruct Hr as [-> | Hr].
      * cbn. now apply After_asym.
      * rewrite Forall_forall in Hy. apply Hy. now apply in_map.
    + cbn [map descending] in Hl |- *. destruct Hl as [Hy Hl].
      split; [|split; assumption].
      constructor; [exact Hyx|].
      apply Forall_forall. intros u Hu. rewrite Forall_forall in Hy.
      apply (After_false_trans _ (Vehicle.CreatedAt (toVehicle y))); [now apply Hy|].
      exact Hyx.
Qed.

Lemma descending_orderByCreatedAtDesc (l : list (VehicleRow.t * VehicleTypeRow.t)) :
  descending (map toVehicle (orderByCreatedAtDesc l)).
Proof.
  unfold orderByCreatedAtDesc. induction l as [| x l IH]; cbn [fold_right].
  - exact I.
  - now apply descending_insertDesc.
Qed.

Lemma firstn_In {A : Type} (n : nat) (l : list A) (x : A) :
  In x (firstn n l) -> In x l.
Proof.
  revert l. induction n as [| n IH]; intros [| y l]; cbn; try tauto.
  intros [-> | H]; [now left | right; now apply IH].
Qed.

Lemma descending_firstn (n : nat) (l : list Vehicle.t) :
  descending l -> descending (firstn n l).
Proof.
  revert l. induction n as [| n IH]; intros [| v l]; cbn; auto.
  intros [Hv Hl]. split; [|now apply IH].
  apply Forall_forall. intros u Hu. rewrite Forall_forall in Hv.
  apply Hv. eapply firstn_In; eassumption.
Qed.

Section PageContents.
Context {G : store.Engine}.

Lemma listVehiclesRows_In (db : DB) (params : ListVehiclesParams.t) (cursorTime : Time)
  (r : VehicleRow.t * VehicleTypeRow.t) :
  In r (listVehiclesRows db params cursorTime) -> In r (matching db params cursorTime).
Proof.
  rewrite listVehiclesRows_matching. intros H.
  apply orderByCreatedAtDesc_In. eapply firstn_In; eassumption.
Qed.
Lemma VehicleStatus_String_eqb (a b : VehicleStatus) :
  String.eqb (VehicleStatus_String a) (VehicleStatus_String b) = true -> a = b.
Proof. destruct a, b; cbn; congruence. Qed.

Lemma VehicleStatus_String_nonempty (s : VehicleStatus) :
  String.eqb (VehicleStatus_String s) "" = false.
Proof. now destruct s. Qed.

Lemma nonEmpty_Some (s t : string) : service.nonEmpty s = Some t -> s = t /\ t <> ""%string.
Proof.
  unfold service.nonEmpty. destruct (String.eqb_spec s ""); [discriminate|].
  intros [= <-]. auto.
Qed.

(** What a row that matches satisfies. *)
Lemma matching_In (db : DB) (req : ListVehiclesRequest.t) (cursorTime : Time)
  (r : VehicleRow.t * VehicleTypeRow.t) :
  In r (matching db (service.listParams req) cursorTime) ->
  In r (joinVehicleTypes db)
  /\ (forall s, ListVehiclesRequest.StatusFilter req = Some s ->
                VehicleRow.status (fst r) = s)
  /\ (forall t, ListVehiclesRequest.VehicleTypeFilter req = Some t -> t <> ""%string ->
                store.int_eq (VehicleRow.vehicle_type_id (fst r)) t = true)
  /\ (forall m, ListVehiclesRequest.MakeFilter req = Some m -> m <> ""%string ->
                LIKE (VehicleRow.make (fst r)) ("%" ++ m ++ "%") = true)
  /\ (IsZero cursorTime = false ->
      created_after (VehicleRow.created_at (fst r)) (Format_RFC3339Nano cursorTime) = true).
Proof.
  unfold matching. intros H. apply filter_In in H. destruct H as [Hin Hw].
  split; [exact Hin|].
  unfold listVehiclesWhere in Hw.
  cbn [service.listParams ListVehiclesParams.StatusFilter
         ListVehiclesParams.VehicleTypeFilter ListVehiclesParams.MakeFilter] in Hw.
  apply andb_true_iff in Hw as [Hw Hcur]. apply andb_true_iff in Hw as [Hw Hmake].
  apply andb_true_iff in Hw as [Hstatus Htype].
  repeat split.
  - intros s Hs. rewrite Hs in Hstatus.
    rewrite VehicleStatus_String_nonempty in Hstatus. cbn [orb] in Hstatus.
    now apply VehicleStatus_String_eqb.
  - intros t Ht Hne. rewrite Ht in Htype. unfold service.nonEmpty in Htype.
    apply String.eqb_neq in Hne. rewrite Hne in Htype. rewrite Hne in Htype.
    cbn [orb] in Htype. exact Htype.
  - intros m Hm Hne. rewrite Hm in Hmake. unfold service.nonEmpty in Hmake.
    apply String.eqb_neq in Hne. rewrite Hne in Hmake.
    destruct (String.eqb ("%" ++ m ++ "%") "") eqn:He; [|exact Hmake].
    apply String.eqb_eq in He. discriminate.
  - intros Hz. unfold cursorStrOf in Hcur. rewrite Hz in Hcur.
    destruct (String.eqb (Format_RFC3339Nano cursorTime) "") eqn:He; [|exact Hcur].
    exfalso. apply String.eqb_eq in He. unfold Format_RFC3339Nano in He.
    apply (f_equal list_ascii_of_string) in He.
    rewrite list_ascii_of_string_of_list_ascii in He. cbn in He.
    unfold appendFormatRFC3339, appendZone in He. cbv zeta in He.
    apply (f_equal (@List.length ascii)) in He. rewrite !length_app in He.
    cbn [List.length] in He. lia.
Qed.

(** The vehicles of a reply are read from rows of the query. *)
Lemma service_ListVehicles_In (db : DB) (req : ListVehiclesRequest.t)
  (resp : ListVehiclesResponse.t) (v : Vehicle.t) :
  service.ListVehicles db req = service.Reply resp ->
  In v (ListVehiclesResponse.Vehicles resp) ->
  exists cursorTime r,
    decodePageToken (ListVehiclesRequest.PageToken req) = Ok cursorTime
    /\ In r (matching db (service.listParams req) cursorTime)
    /\ v = toVehicle r.
Proof.
  intros Hreply Hin. apply service_ListVehicles_Reply in Hreply.
  destruct Hreply as (cursorTime & Hdec & _ & Hpage). cbv zeta in Hpage.
  exists cursorTime.
  assert (Hv : In v (map toVehicle (listVehiclesRows db (service.listParams req)
                                      cursorTime))).
  { destruct Hpage as [(_ & Hv & _) | (_ & Hv & _)]; rewrite Hv in Hin;
      [eapply firstn_In; eassumption | exact Hin]. }
  apply in_map_iff in Hv. destruct Hv as (r & <- & Hr).
  exists r. split; [exact Hdec|]. split; [|reflexivity].
  now apply listVehiclesRows_In.
Qed.

(** X12. Every vehicle on a page is a stored vehicle that passes the filters
    of the request: it has the status asked for, a vehicle type whose number
    the engine finds equal to the text asked for, and, when the request
    carries the token of a time, a [created_at] after that time. *)
Theorem ListVehicles_page_passes_filters (db : DB) (req : ListVehiclesRequest.t)
  (resp : ListVehiclesResponse.t) (v : Vehicle.t) :
  service.ListVehicles db req = service.Reply resp ->
  In v (ListVehiclesResponse.Vehicles resp) ->
  (exists r, In r (joinVehicleTypes db) /\ v = toVehicle r)
  /\ (forall s, ListVehiclesRequest.StatusFilter req = Some s -> Vehicle.Status v = s)
  /\ (forall t, ListVehiclesRequest.VehicleTypeFilter req = Some t -> t <> ""%string ->
                exists vehicleTypeID,
                  Vehicle.VehicleTypeId v = FormatInt vehicleTypeID
                  /\ store.int_eq vehicleTypeID t = true)
  /\ (forall cursorTime,
        decodePageToken (ListVehiclesRequest.PageToken req) = Ok cursorTime ->
        IsZero cursorTime = false ->
        After (Vehicle.CreatedAt v) cursorTime = true).
Proof.
  intros Hreply Hin.
  destruct (service_ListVehicles_In db req resp v Hreply Hin)
    as (cursorTime & r & Hdec & Hr & ->).
  apply matching_In in Hr. destruct Hr as (Hjoin & Hs & Ht & Hm & Hc).
  split; [eauto|]. cbn [toVehicle Vehicle.Status Vehicle.VehicleTypeId Vehicle.CreatedAt].
  split; [exact Hs|]. split.
  - intros t Hfilter Hne. exists (VehicleRow.vehicle_type_id (fst r)).
    split; [reflexivity | now apply Ht].
  - intros cursorTime' Hdec' Hz. rewrite Hdec in Hdec'. injection Hdec' as <-.
    destruct (decodePageToken_wall _ _ Hdec) as [Hw Hl].
    apply (created_after_decoded _ cursorTime Hw Hl). now apply Hc.
Qed.

(** X13. A page is in the order of the query, newest first: no vehicle on it
    is followed by one with a later [created_at]. *)
Theorem ListVehicles_page_descending (db : DB) (req : ListVehiclesRequest.t)
  (resp : ListVehiclesResponse.t) :
  service.ListVehicles db req = service.Reply resp ->
  descending (ListVehiclesResponse.Vehicles resp).
Proof.
  intros Hreply. apply service_ListVehicles_Reply in Hreply.
  destruct Hreply as (cursorTime & _ & _ & Hpage). cbv zeta in Hpage.
  assert (Hd : descending (map toVehicle (listVehiclesRows db (service.listParams req)
                                            cursorTime))).
  { rewrite listVehiclesRows_matching, <- firstn_map. apply descending_firstn.
    apply descending_orderByCreatedAtDesc. }
  destruct Hpage as [(_ & -> & _) | (_ & -> & _)]; [now apply descending_firstn | exact Hd].
Qed.

End PageContents.

(** * Specialized queries *)

Section DerivedQueries.
Context {G : store.Engine}.

Lemma getAvailableVehiclesWhere_eq (vehicleTypeStr cursorStr : string) (v : VehicleRow.t) :
  getAvailableVehiclesWhere vehicleTypeStr cursorStr v
  = listVehiclesWhere "ACTIVE" vehicleTypeStr "" cursorStr v.
Proof.
  unfold getAvailableVehiclesWhere, listVehiclesWhere.
  change (String.eqb "ACTIVE" "") with false. change (String.eqb "" "") with true.
  cbn [orb]. now rewrite andb_true_r.
Qed.

Lemma getAvailableVehiclesQuery_eq (db : DB) (vehicleTypeStr cursorStr : string) (limit : Z) :
  getAvailableVehiclesQuery db vehicleTypeStr cursorStr limit
  = listVehiclesQuery db "ACTIVE" vehicleTypeStr "" cursorStr limit.
Proof.
  unfold getAvailableVehiclesQuery, listVehiclesQuery. do 2 f_equal.
  apply filter_ext. intros r. apply getAvailableVehiclesWhere_eq.
Qed.

(** X14. The query for available vehicles is the list query with the status
    filter ACTIVE: the two store operations, written separately, return the
    same page and the same token for the same vehicle type, page size and
    token. *)
Theorem GetAvailableVehicles_is_ListVehicles_ACTIVE (db : DB)
  (vehicleTypeID : option string) (params : ListVehiclesParams.t) :
  store.GetAvailableVehicles db vehicleTypeID params
  = store.ListVehicles db
      (ListVehiclesParams.mk
         (ListVehiclesParams.PageSize params)
         (ListVehiclesParams.PageToken params)
         (Some VehicleStatus_ACTIVE)
         vehicleTypeID
         None).
Proof.
  unfold store.GetAvailableVehicles, store.ListVehicles. cbv zeta.
  cbn [ListVehiclesParams.PageSize ListVehiclesParams.PageToken
         ListVehiclesParams.StatusFilter ListVehiclesParams.VehicleTypeFilter
         ListVehiclesParams.MakeFilter VehicleStatus_String].
  destruct (decodePageToken _) as [cursorTime | e]; [|reflexivity].
  now rewrite getAvailableVehiclesQuery_eq.
Qed.

Lemma store_ListVehicles_In (db : DB) (params : ListVehiclesParams.t)
  (vehicles : list Vehicle.t) (token : string) (v : Vehicle.t) :
  store.ListVehicles db params = Ok (vehicles, token) ->
  In v vehicles ->
  exists cursorTime r,
    decodePageToken (ListVehiclesParams.PageToken params) = Ok cursorTime
    /\ In r (matching db params cursorTime)
    /\ v = toVehicle r.
Proof.
  rewrite store_ListVehicles_eq.
  destruct (decodePageToken _) as [cursorTime | e]; [|discriminate].
  cbv zeta. intros H Hin. exists cursorTime.
  assert (Hv : In v (map toVehicle (listVehiclesRows db params cursorTime))).
  { destruct (_ <? _).
    - destruct (encodePageToken _); [|discriminate]. injection H as <- _.
      eapply firstn_In; eassumption.
    - injection H as <- _. exact Hin. }
  apply in_map_iff in Hv. destruct Hv as (r & <- & Hr).
  exists r. split; [reflexivity|]. split; [|reflexivity].
  now apply listVehiclesRows_In.
Qed.

Lemma matching_status (db : DB) (params : ListVehiclesParams.t) (cursorTime : Time)
  (r : VehicleRow.t * VehicleTypeRow.t) (s : VehicleStatus) :
  In r (matching db params cursorTime) ->
  ListVehiclesParams.StatusFilter params = Some s ->
  VehicleRow.status (fst r) = s.
Proof.
  unfold matching. intros H Hs. apply filter_In in H. destruct H as [_ Hw].
  unfold listVehiclesWhere in Hw. rewrite Hs in Hw.
  apply andb_true_iff in Hw as [Hw _]. apply andb_true_iff in Hw as [Hw _].
  apply andb_true_iff in Hw as [Hstatus _].
  rewrite VehicleStatus_String_nonempty in Hstatus. cbn [orb] in Hstatus.
  now apply VehicleStatus_String_eqb.
Qed.

Lemma matching_type (db : DB) (params : ListVehiclesParams.t) (cursorTime : Time)
  (r : VehicleRow.t * VehicleTypeRow.t) (t : string) :
  In r (matching db params cursorTime) ->
  ListVehiclesParams.VehicleTypeFilter params = Some t ->
  t <> ""%string ->
  store.int_eq (VehicleRow.vehicle_type_id (fst r)) t = true.
Proof.
  unfold matching. intros H Ht Hne. apply filter_In in H. destruct H as [_ Hw].
  unfold listVehiclesWhere in Hw. rewrite Ht in Hw.
  apply andb_true_iff in Hw as [Hw _]. apply andb_true_iff in Hw as [Hw _].
  apply andb_true_iff in Hw as [_ Htype].
  apply String.eqb_neq in Hne. rewrite Hne in Htype. cbn [orb] in Htype.
  exact Htype.
Qed.

(** X15. [GetAvailableVehicles] returns only ACTIVE vehicles, and, when the
    request names a vehicle type, only vehicles whose vehicle type is a number
    that the engine finds equal to that text, under which a vehicle type is
    then stored. *)
Theorem GetAvailableVehicles_only_ACTIVE (db : DB) (req : GetAvailableVehiclesRequest.t)
  (resp : ListVehiclesResponse.t) (v : Vehicle.t) :
  service.GetAvailableVehicles db req = service.Reply resp ->
  In v (ListVehiclesResponse.Vehicles resp) ->
  Vehicle.Status v = VehicleStatus_ACTIVE
  /\ (forall t, GetAvailableVehiclesRequest.VehicleTypeId req = Some t ->
                t <> ""%string ->
                (exists vehicleTypeID,
                    Vehicle.VehicleTypeId v = FormatInt vehicleTypeID
                    /\ store.int_eq vehicleTypeID t = true)
                /\ exists vt, GetVehicleTypeByID db t = Ok vt).
Proof.
  intros Hreply Hin. unfold service.GetAvailableVehicles in Hreply.
  cbv zeta in Hreply.
  match type of Hreply with
  | match ?c with Some st => _ | None => _ end = _ =>
      destruct c eqn:Hcheck; [discriminate|]
  end.
  assert (Hsame : forall vehicleTypeID params,
             store.GetAvailableVehicles db vehicleTypeID params
             = store.ListVehicles db
                 (ListVehiclesParams.mk
                    (ListVehiclesParams.PageSize params)
                    (ListVehiclesParams.PageToken params)
                    (Some VehicleStatus_ACTIVE) vehicleTypeID None)).
  { intros vehicleTypeID params.
    unfold store.GetAvailableVehicles, store.ListVehicles. cbv zeta.
    cbn [ListVehiclesParams.PageSize ListVehiclesParams.PageToken
           ListVehiclesParams.StatusFilter ListVehiclesParams.VehicleTypeFilter
           ListVehiclesParams.MakeFilter VehicleStatus_String].
    destruct (decodePageToken _) as [cursorTime | e]; [|reflexivity].
    now rewrite getAvailableVehiclesQuery_eq. }
  rewrite Hsame in Hreply.
  match type of Hreply with
  | match ?c with Ok _ => _ | Err _ => _ end = _ =>
      destruct c as [[vehicles token] | e] eqn:Hlist; [|discriminate]
  end.
  injection Hreply as <-. cbn [ListVehiclesResponse.Vehicles] in Hin.
  destruct (store_ListVehicles_In _ _ _ _ _ Hlist Hin) as (cursorTime & r & _ & Hr & ->).
  split.
  - apply (matching_status _ _ _ _ _ Hr). reflexivity.
  - intros t Ht Hne. split.
    + exists (VehicleRow.vehicle_type_id (fst r)). split; [reflexivity|].
      apply (matching_type _ _ _ _ _ Hr); [exact Ht | exact Hne].
    + rewrite Ht in Hcheck. apply String.eqb_neq in Hne. rewrite Hne in Hcheck.
      cbn [negb] in Hcheck.
      destruct (GetVehicleTypeByID db t) as [vt | []]; try discriminate. eauto.
Qed.

(** X16. [GetVehiclesByType] answers a request that names a vehicle type
    under which one is stored, and returns only vehicles whose vehicle type is
    a number that the engine finds equal to the text of the request, and of
    the status of the request when it names one. *)
Theorem GetVehiclesByType_only_that_type (db : DB) (req : GetVehiclesByTypeRequest.t)
  (resp : ListVehiclesResponse.t) (v : Vehicle.t) :
  service.GetVehiclesByType db req = service.Reply resp ->
  In v (ListVehiclesResponse.Vehicles resp) ->
  GetVehiclesByTypeRequest.VehicleTypeId req <> ""%string
  /\ (exists vt, GetVehicleTypeByID db (GetVehiclesByTypeRequest.VehicleTypeId req) = Ok vt)
  /\ (exists vehicleTypeID,
        Vehicle.VehicleTypeId v = FormatInt vehicleTypeID
        /\ store.int_eq vehicleTypeID (GetVehiclesByTypeRequest.VehicleTypeId req) = true)
  /\ (forall s, GetVehiclesByTypeRequest.StatusFilter req = Some s ->
                Vehicle.Status v = s).
Proof.
  unfold service.GetVehiclesByType.
  destruct (String.eqb_spec (GetVehiclesByTypeRequest.VehicleTypeId req) "") as [| Hne];
    [discriminate|].
  destruct (GetVehicleTypeByID db _) as [vt | []]; try discriminate.
  cbv zeta. unfold store.GetVehiclesByType.
  match goal with
  | |- context [store.ListVehicles db ?p] =>
      destruct (store.ListVehicles db p) as [[vehicles token] | e] eqn:Hlist;
      [|discriminate]
  end.
  intros [= <-] Hin. cbn [ListVehiclesResponse.Vehicles] in Hin.
  destruct (store_ListVehicles_In _ _ _ _ _ Hlist Hin) as (cursorTime & r & _ & Hr & ->).
  split; [exact Hne|]. split; [eauto|]. split.
  - exists (VehicleRow.vehicle_type_id (fst r)). split; [reflexivity|].
    apply (matching_type _ _ _ _ _ Hr); [reflexivity | assumption].
  - intros s Hs. apply (matching_status _ _ _ _ _ Hr). exact Hs.
Qed.

End DerivedQueries.

(** * Vehicle types *)

Lemma GetVehicleTypeByName_found (db : DB) (name : string) :
  In name (map VehicleTypeRow.name (vehicle_types db)) ->
  exists vt,
    GetVehicleTypeByName db name = Ok vt /\ VehicleType.Name vt = name.
Proof.
  intros Hin. apply in_map_iff in Hin. destruct Hin as (row & Hname & Hin).
  unfold GetVehicleTypeByName, getVehicleTypeByNameQuery.
  destruct (filter _ (vehicle_types db)) as [| vt l] eqn:Hf.
  - exfalso.
    assert (Hrow : In row (filter (fun vt => String.eqb (VehicleTypeRow.name vt) name)
                                  (vehicle_types db))).
    { apply filter_In. split; [exact Hin|]. rewrite Hname. apply String.eqb_refl. }
    rewrite Hf in Hrow. destruct Hrow.
  - exists (scanVehicleType vt). split; [reflexivity|].
    assert (Hvt : In vt (filter (fun vt => String.eqb (VehicleTypeRow.name vt) name)
                                (vehicle_types db))) by (rewrite Hf; now left).
    apply filter_In in Hvt. destruct Hvt as [_ Hvt]. now apply String.eqb_eq in Hvt.
Qed.

Lemma GetVehicleTypeByName_missing (db : DB) (name : string) :
  ~ In name (map VehicleTypeRow.name (vehicle_types db)) ->
  GetVehicleTypeByName db name = Err ErrVehicleTypeNotFound.
Proof.
  intros Hnot. unfold GetVehicleTypeByName, getVehicleTypeByNameQuery.
  rewrite filter_none; [reflexivity|].
  apply Forall_forall. intros vt Hin. apply String.eqb_neq. intros Heq.
  apply Hnot. rewrite <- Heq. now apply in_map.
Qed.

Lemma store_CreateVehicleType_new (db : DB) (now : DateTime) (LastInsertId : Z)
  (name description : string) :
  ~ In name (map VehicleTypeRow.name (vehicle_types db)) ->
  store.CreateVehicleType db now LastInsertId name description
  = (mkDB (vehicles db)
          (vehicle_types db ++ [VehicleTypeRow.mk LastInsertId name description now]),
     Ok (VehicleType.mk (FormatInt LastInsertId) name description (Date now))).
Proof.
  intros Hnot. unfold store.CreateVehicleType, sqlInsertType.
  cbn [VehicleTypeRow.name].
  destruct (existsb _ (vehicle_types db)) eqn:Hdup; [|reflexivity].
  exfalso. apply existsb_exists in Hdup. destruct Hdup as (vt & Hin & Heq).
  apply String.eqb_eq in Heq. apply Hnot. rewrite <- Heq. now apply in_map.
Qed.

Lemma store_CreateVehicleType_duplicate (db : DB) (now : DateTime) (LastInsertId : Z)
  (name description : string) :
  In name (map VehicleTypeRow.name (vehicle_types db)) ->
  store.CreateVehicleType db now LastInsertId name description
  = (db, Err ErrDuplicateEntry).
Proof.
  intros Hin. apply in_map_iff in Hin. destruct Hin as (row & Hname & Hin).
  unfold store.CreateVehicleType, sqlInsertType. cbn [VehicleTypeRow.name].
  destruct (existsb _ (vehicle_types db)) eqn:Hdup; [reflexivity|].
  apply (existsb_false _ _ _ Hdup) in Hin. cbn beta in Hin.
  rewrite Hname, String.eqb_refl in Hin. discriminate.
Qed.

(** The loop of the initialization: it ends without an error, adds rows to
    the vehicle types only, and leaves every name of its list stored. *)
Lemma initializeVehicleTypes_spec (engine : string -> DateTime * Z)
  (stdTypes : list (string * string)) : forall db : DB,
  exists added,
    service.initializeVehicleTypes engine stdTypes db
    = (mkDB (vehicles db) (vehicle_types db ++ added), None)
    /\ (forall name, In name (map fst stdTypes) ->
                     In name (map VehicleTypeRow.name (vehicle_types db ++ added)))
    /\ (forall row, In row added ->
                    ~ In (VehicleTypeRow.name row)
                         (map VehicleTypeRow.name (vehicle_types db)))
    /\ (List.length added <= List.length stdTypes)%nat.
Proof.
  induction stdTypes as [| [Name Description] rest IH]; intros db.
  - exists []. cbn. rewrite app_nil_r. destruct db.
    split; [reflexivity|]. split; [intros ? []|]. split; [intros ? [] | lia].
  - cbn [service.initializeVehicleTypes].
    destruct (in_dec string_dec Name (map VehicleTypeRow.name (vehicle_types db)))
      as [Hin | Hnot].
    + destruct (GetVehicleTypeByName_found db Name Hin) as (vt & -> & _).
      destruct (IH db) as (added & -> & Hall & Hadded & Hlen).
      exists added. split; [reflexivity|]. split; [|split].
      * intros name [<- | Hname]; [|now apply Hall].
        rewrite map_app. apply in_or_app. now left.
      * exact Hadded.
      * cbn [List.length]. lia.
    + rewrite (GetVehicleTypeByName_missing db Name Hnot).
      rewrite (store_CreateVehicleType_new db _ _ Name Description Hnot).
      match goal with
      | |- context [service.initializeVehicleTypes engine rest ?d] =>
          destruct (IH d) as (added & -> & Hall & Hadded & Hlen)
      end.
      cbn [vehicles vehicle_types] in *.
      exists (VehicleTypeRow.mk (snd (engine Name)) Name Description
                (fst (engine Name)) :: added).
      rewrite <- app_assoc in *. cbn [app] in *.
      split; [reflexivity|]. split; [|split].
      * intros name [<- | Hname]; [|now apply Hall].
        rewrite map_app. apply in_or_app. right. now left.
      * intros row [<- | Hrow]; cbn [VehicleTypeRow.name]; [exact Hnot|].
        intros Hc. apply (Hadded row Hrow). rewrite map_app. apply in_or_app. now left.
      * cbn [List.length]. lia.
Qed.

Lemma initializeVehicleTypes_present (engine : string -> DateTime * Z)
  (stdTypes : list (string * string)) (db : DB) :
  (forall name, In name (map fst stdTypes) ->
                In name (map VehicleTypeRow.name (vehicle_types db))) ->
  service.initializeVehicleTypes engine stdTypes db = (db, None).
Proof.
  induction stdTypes as [| [Name Description] rest IH]; intros Hall; [reflexivity|].
  cbn [service.initializeVehicleTypes].
  destruct (GetVehicleTypeByName_found db Name) as (vt & -> & _).
  - apply Hall. now left.
  - apply IH. intros name Hname. apply Hall. now right.
Qed.

(** X17. Initialization with the standard vehicle types always succeeds,
    writes nothing but new rows of vehicle types, leaves each of the seven
    standard names stored under that name, adds no name twice, and is
    idempotent: a second run, at any time, changes nothing. *)
Theorem InitializeStandardVehicleTypes_idempotent
  (engine engine' : string -> DateTime * Z) (db : DB) :
  exists added,
    let db' := mkDB (vehicles db) (vehicle_types db ++ added) in
    service.InitializeStandardVehicleTypes engine db = (db', None)
    /\ (forall name description,
          In (name, description) StandardVehicleTypes ->
          exists vt, GetVehicleTypeByName db' name = Ok vt /\ VehicleType.Name vt = name)
    /\ (forall row, In row added ->
                    ~ In (VehicleTypeRow.name row)
                         (map VehicleTypeRow.name (vehicle_types db)))
    /\ (List.length added <= 7)%nat
    /\ service.InitializeStandardVehicleTypes engine' db' = (db', None).
Proof.
  unfold service.InitializeStandardVehicleTypes.
  destruct (initializeVehicleTypes_spec engine StandardVehicleTypes db)
    as (added & Hrun & Hall & Hadded & Hlen).
  exists added. cbv zeta. split; [exact Hrun|]. split; [|split; [|split]].
  - intros name description Hin. apply GetVehicleTypeByName_found.
    cbn [vehicle_types]. apply Hall.
    apply (in_map fst) in Hin. exact Hin.
  - exact Hadded.
  - exact Hlen.
  - apply initializeVehicleTypes_present. cbn [vehicle_types]. exact Hall.
Qed.

Section ByIdentifier.
Context {G : store.Engine}.



End ByIdentifier.

(** * What validation lets through *)

Lemma orElse_None (err rest : option validator.ValidationError) :
  validator.orElse err rest = None -> err = None /\ rest = None.
Proof. destruct err; cbn; [discriminate | auto]. Qed.

Section Validation.
Context {G : store.Engine} {T : validator.Text}.

(** X19. A create request that passes validation carries a vehicle, which
    comes out normalised, with a year from 1900 to the year after the current
    one, a seating capacity from 1 to 100 and a fuel type; its registration
    date, if any, is neither after the time of the call nor before 1900, and
    its insurance expiry, if any, is not more than a year before the time of
    the call. *)
Theorem ValidateCreateVehicleRequest_lets_through (now : DateTime)
  (req : CreateVehicleRequest.t) (vehicle : VehicleInput.t) :
  validator.ValidateCreateVehicleRequest now req = inr vehicle ->
  (exists input,
      CreateVehicleRequest.Vehicle req = Some input
      /\ vehicle = validator.NormalizeVehicleFields input)
  /\ 1900 <= VehicleInput.Year vehicle <= Year now + 1
  /\ 1 <= VehicleInput.SeatingCapacity vehicle <= 100
  /\ VehicleInput.FuelType vehicle <> FuelType_FUEL_UNSPECIFIED
  /\ (forall regDate,
        VehicleInput.RegistrationDate vehicle = Some regDate ->
        After regDate (Date now) = false
        /\ Before regDate (Date (mkDateTime 1900 1 1 0 0 0 0)) = false)
  /\ (forall expiry,
        VehicleInput.InsuranceExpiry vehicle = Some expiry ->
        Before expiry (AddDate_years (Date now) (-1)) = false).
Proof.
  unfold validator.ValidateCreateVehicleRequest.
  destruct (CreateVehicleRequest.Vehicle req) as [input |]; [|discriminate].
  cbv zeta.
  destruct (validator.validateCreate now (validator.NormalizeVehicleFields input))
    as [err |] eqn:Hv; [discriminate|].
  intros [= <-]. split; [eauto|].
  set (vehicle := validator.NormalizeVehicleFields input) in *.
  unfold validator.validateCreate in Hv.
  repeat match type of Hv with
         | validator.orElse _ _ = None =>
             let H := fresh "Hcheck" in
             apply orElse_None in Hv; destruct Hv as [H Hv]
         end.
  unfold validator.ValidateVehicleYear in *. cbv zeta in *.
  unfold validator.ValidateSeatingCapacity in *.
  split; [|split; [|split; [|split]]].
  - destruct (Z.ltb_spec (VehicleInput.Year vehicle) 1900); [discriminate|].
    destruct (Z.ltb_spec (Year now + 1) (VehicleInput.Year vehicle));
      [discriminate | lia].
  - destruct (Z.ltb_spec (VehicleInput.SeatingCapacity vehicle) 1); [discriminate|].
    destruct (Z.ltb_spec 100 (VehicleInput.SeatingCapacity vehicle));
      [discriminate | lia].
  - intros Hfuel. rewrite Hfuel in *. discriminate.
  - intros regDate Hreg. rewrite Hreg in *.
    destruct (After regDate (Date now)); [discriminate|].
    destruct (Before regDate _); [discriminate | auto].
  - intros expiry Hexp. rewrite Hexp in *.
    destruct (Before expiry _); [discriminate | reflexivity].
Qed.

Lemma validateMaskedField_unsupported (now : DateTime) (vehicle : VehicleInput.t)
  (path : string) :
  ~ In path validator.maskPaths ->
  validator.validateMaskedField now vehicle path <> None.
Proof.
  intros Hnot. unfold validator.validateMaskedField.
  repeat match goal with
         | |- context [String.eqb path ?p] =>
             destruct (String.eqb_spec path p) as [-> |];
             [exfalso; apply Hnot; unfold validator.maskPaths; cbn; tauto|]
         end.
  discriminate.
Qed.

Lemma validateMaskedFields_unsupported (now : DateTime) (vehicle : VehicleInput.t)
  (paths : list string) (path : string) :
  In path paths -> ~ In path validator.maskPaths ->
  validator.validateMaskedFields now vehicle paths <> None.
Proof.
  intros Hin Hnot. induction paths as [| p paths IH]; [destruct Hin|].
  cbn [validator.validateMaskedFields]. intros Hv. apply orElse_None in Hv.
  destruct Hv as [Hp Hrest]. destruct Hin as [-> | Hin].
  - now apply (validateMaskedField_unsupported now vehicle path).
  - now apply IH.
Qed.

(** X20. A masked update can name only the ten paths the validator knows.
    Any other path in the mask, and so [registration_date] and
    [insurance_expiry], which the statement of the store has a place for,
    makes validation fail: the service answers InvalidArgument and writes
    nothing, whatever else the request carries. *)
Theorem UpdateVehicle_mask_refuses_other_paths
  (uuid_FromString : string -> option UUID) (clock : DateTime)
  (db : DB) (now : DateTime) (req : UpdateVehicleRequest.t)
  (paths : list string) (path : string) :
  UpdateVehicleRequest.UpdateMask req = Some paths ->
  In path paths ->
  ~ In path validator.maskPaths ->
  service.UpdateVehicle (E := validator.env uuid_FromString clock) db now req
  = (db, service.Errorf codes.InvalidArgument "validation failed: %v")
  /\ ~ In "registration_date"%string validator.maskPaths
  /\ ~ In "insurance_expiry"%string validator.maskPaths.
Proof.
  intros Hmask Hin Hnot. split.
  - unfold service.UpdateVehicle.
    cbn [service.ValidateUpdateVehicleRequest validator.env].
    unfold validator.ValidateUpdateVehicleRequest.
    destruct (validator.isEmpty _); [reflexivity|].
    destruct (UpdateVehicleRequest.Vehicle req) as [input |]; [|reflexivity].
    cbv zeta. rewrite Hmask.
    destruct (validator.validateMaskedFields clock _ paths) as [err |] eqn:Hv;
      [reflexivity|].
    exfalso. revert Hv. now apply validateMaskedFields_unsupported with (path := path).
  - unfold validator.maskPaths. cbn.
    split; intros H; repeat (destruct H as [H | H]; [discriminate|]); exact H.
Qed.

End Validation.

Lemma ValidateCreateVehicleRequest_lets_through_witness :
  validator.ValidateCreateVehicleRequest (T := samples.text) (samples.at_hour 15)
    (CreateVehicleRequest.mk (Some (samples.input "KAA 005B" "Mazda")))
  = inr (samples.input "KAA 005B" "Mazda")
  /\ 1900 <= VehicleInput.Year (samples.input "KAA 005B" "Mazda") <= 2025 + 1
  /\ 1 <= VehicleInput.SeatingCapacity (samples.input "KAA 005B" "Mazda") <= 100.
Proof.
  assert (H : validator.ValidateCreateVehicleRequest (T := samples.text)
                (samples.at_hour 15)
                (CreateVehicleRequest.mk (Some (samples.input "KAA 005B" "Mazda")))
              = inr (samples.input "KAA 005B" "Mazda")) by reflexivity.
  split; [exact H|].
  destruct (ValidateCreateVehicleRequest_lets_through (T := samples.text) _ _ _ H)
    as (_ & Hyear & Hseats & _).
  split; [exact Hyear | exact Hseats].
Defined.

Section MaskExample.
#[local] Existing Instance samples.engine.

Lemma UpdateVehicle_mask_refuses_other_paths_witness :
  (UpdateVehicleRequest.UpdateMask
     (UpdateVehicleRequest.mk "2" (Some (samples.input "KAA 002B" "Mazda"))
        (Some ["make"; "registration_date"]%string))
   = Some ["make"; "registration_date"]%string
   /\ In "registration_date"%string ["make"; "registration_date"]%string
   /\ ~ In "registration_date"%string validator.maskPaths)
  /\ service.UpdateVehicle (E := validator.env (T := samples.text) samples.decimal
                                   (samples.at_hour 15))
       samples.fleet (samples.at_hour 15)
       (UpdateVehicleRequest.mk "2" (Some (samples.input "KAA 002B" "Mazda"))
          (Some ["make"; "registration_date"]%string))
     = (samples.fleet, service.Errorf codes.InvalidArgument "validation failed: %v").
Proof.
  assert (H : UpdateVehicleRequest.UpdateMask
                (UpdateVehicleRequest.mk "2" (Some (samples.input "KAA 002B" "Mazda"))
                   (Some ["make"; "registration_date"]%string))
              = Some ["make"; "registration_date"]%string
              /\ In "registration_date"%string ["make"; "registration_date"]%string
              /\ ~ In "registration_date"%string validator.maskPaths).
  { split; [reflexivity|]. split; [right; now left|].
    unfold validator.maskPaths. cbn. intros H.
    repeat (destruct H as [H | H]; [discriminate|]). exact H. }
  split; [exact H|]. destruct H as (H1 & H2 & H3).
  exact (proj1 (UpdateVehicle_mask_refuses_other_paths (T := samples.text) samples.decimal
                  (samples.at_hour 15) samples.fleet (samples.at_hour 15) _ _ _ H1 H2 H3)).
Defined.

End MaskExample.

(** * Tokens and what follows a page *)

Section FollowingPages.
Context {G : store.Engine}.

Lemma lastCreatedAtOf_snoc (l : list (VehicleRow.t * VehicleTypeRow.t))
  (r : VehicleRow.t * VehicleTypeRow.t) (init : Time) :
  lastCreatedAtOf (l ++ [r]) init = Date (VehicleRow.created_at (fst r)).
Proof. unfold lastCreatedAtOf. now rewrite fold_left_app. Qed.

Lemma firstn_succ_nth {A : Type} (n : nat) (l : list A) (x : A) :
  nth_error l n = Some x -> firstn (S n) l = firstn n l ++ [x].
Proof.
  revert l. induction n as [| n IH]; intros [| y l] H; try discriminate.
  - cbn in H. injection H as <-. reflexivity.
  - cbn in H. change (y :: firstn (S n) l = y :: (firstn n l ++ [x])).
    f_equal. now apply IH.
Qed.

(** A reply with a token: the page is the head of the ordered rows, and the
    token is of the row that follows it. *)
Lemma service_ListVehicles_more (db : DB) (req : ListVehiclesRequest.t)
  (resp : ListVehiclesResponse.t) :
  service.ListVehicles db req = service.Reply resp ->
  ListVehiclesResponse.NextPageToken resp <> ""%string ->
  exists cursorTime next,
    decodePageToken (ListVehiclesRequest.PageToken req) = Ok cursorTime
    /\ nth_error (orderByCreatedAtDesc (matching db (service.listParams req) cursorTime))
                 (Z.to_nat (service.clampPageSize (ListVehiclesRequest.PageSize req)))
       = Some next
    /\ ListVehiclesResponse.Vehicles resp
       = map toVehicle
           (firstn (Z.to_nat (service.clampPageSize (ListVehiclesRequest.PageSize req)))
              (orderByCreatedAtDesc (matching db (service.listParams req) cursorTime)))
    /\ encodePageToken (Date (VehicleRow.created_at (fst next)))
       = Ok (ListVehiclesResponse.NextPageToken resp).
Proof.
  intros Hreply Htoken. apply service_ListVehicles_Reply in Hreply.
  destruct Hreply as (cursorTime & Hdec & _ & Hpage). cbv zeta in Hpage.
  destruct Hpage as [(Hlt & Hv & Henc) | (_ & _ & Ht)]; [|contradiction].
  pose proof (clampPageSize_range (ListVehiclesRequest.PageSize req)) as HP.
  set (P := service.clampPageSize (ListVehiclesRequest.PageSize req)) in *.
  set (sorted := orderByCreatedAtDesc (matching db (service.listParams req) cursorTime)).
  assert (Hrows : listVehiclesRows db (service.listParams req) cursorTime
                  = firstn (S (Z.to_nat P)) sorted).
  { rewrite listVehiclesRows_matching, pageSizeOf_listParams. fold P. fold sorted.
    f_equal. lia. }
  rewrite Hrows in *.
  destruct (nth_error sorted (Z.to_nat P)) as [next |] eqn:Hnth.
  - exists cursorTime, next. split; [exact Hdec|]. split; [exact Hnth|]. split.
    + rewrite Hv, firstn_map, firstn_firstn.
      replace (Nat.min (Z.to_nat P) (S (Z.to_nat P))) with (Z.to_nat P) by lia.
      reflexivity.
    + rewrite (firstn_succ_nth _ _ _ Hnth) in Henc.
      now rewrite lastCreatedAtOf_snoc in Henc.
  - exfalso. apply nth_error_None in Hnth. rewrite length_firstn in Hlt. lia.
Qed.

(** X21. When more vehicles match than a page holds, the token of the reply
    is the text of the [created_at] of the first vehicle left off the page:
    the row after the last one returned, in the order of the query. *)
Theorem ListVehicles_token_is_of_next_row (db : DB) (req : ListVehiclesRequest.t)
  (resp : ListVehiclesResponse.t) :
  service.ListVehicles db req = service.Reply resp ->
  ListVehiclesResponse.NextPageToken resp <> ""%string ->
  exists cursorTime next,
    decodePageToken (ListVehiclesRequest.PageToken req) = Ok cursorTime
    /\ nth_error (orderByCreatedAtDesc (matching db (service.listParams req) cursorTime))
                 (Z.to_nat (service.clampPageSize (ListVehiclesRequest.PageSize req)))
       = Some next
    /\ ListVehiclesResponse.Vehicles resp
       = map toVehicle
           (firstn (Z.to_nat (service.clampPageSize (ListVehiclesRequest.PageSize req)))
              (orderByCreatedAtDesc (matching db (service.listParams req) cursorTime)))
    /\ encodePageToken (Date (VehicleRow.created_at (fst next)))
       = Ok (ListVehiclesResponse.NextPageToken resp).
Proof. apply service_ListVehicles_more. Qed.
Lemma decodePageToken_encodePageToken (t : Time) (token : string) :
  valid t = true -> encodePageToken t = Ok token -> decodePageToken token = Ok t.
Proof.
  intros Hv. unfold encodePageToken, decodePageToken.
  rewrite GoTimeFacts.MarshalText_valid by assumption. intros [= <-].
  rewrite EncodeToString_nonempty by now apply appendFormatRFC3339_nonempty.
  rewrite Base64Facts.DecodeString_EncodeToString.
  unfold UnmarshalText, parseStrictRFC3339. now rewrite GoTimeFacts.parse_format.
Qed.

Lemma After_irrefl (t : Time) : After t t = false.
Proof.
  unfold After. rewrite !Z.ltb_irrefl. now rewrite andb_false_r.
Qed.

Lemma descending_after (l1 l2 : list (VehicleRow.t * VehicleTypeRow.t))
  (x y : VehicleRow.t * VehicleTypeRow.t) :
  descending (map toVehicle (l1 ++ x :: l2)) ->
  In y l2 ->
  After (Date (VehicleRow.created_at (fst y))) (Date (VehicleRow.created_at (fst x))) = false.
Proof.
  induction l1 as [| z l1 IH]; cbn [app map descending]; intros [Hx Hrest] Hy.
  - rewrite Forall_forall in Hx. apply (Hx (toVehicle y)). now apply in_map.
  - now apply IH.
Qed.

Lemma nth_error_split_firstn {A : Type} (l : list A) (n : nat) (x : A) :
  nth_error l n = Some x -> exists rest, l = firstn n l ++ x :: rest.
Proof.
  revert l. induction n as [| n IH]; intros [| y l] H; try discriminate.
  - cbn in H. injection H as <-. now exists l.
  - cbn in H. destruct (IH l H) as (rest & Hrest). exists rest.
    change (y :: l = y :: (firstn n l ++ x :: rest)). now f_equal.
Qed.

Lemma cursorStrOf_zeroTime : cursorStrOf zeroTime = ""%string.
Proof. reflexivity. Qed.

(** The rows that match with a cursor match without one. *)
Lemma matching_without_cursor (db : DB) (params params' : ListVehiclesParams.t)
  (cursorTime : Time) (r : VehicleRow.t * VehicleTypeRow.t) :
  ListVehiclesParams.StatusFilter params' = ListVehiclesParams.StatusFilter params ->
  ListVehiclesParams.VehicleTypeFilter params'
  = ListVehiclesParams.VehicleTypeFilter params ->
  ListVehiclesParams.MakeFilter params' = ListVehiclesParams.MakeFilter params ->
  In r (matching db params' cursorTime) ->
  In r (matching db params zeroTime)
  /\ (IsZero cursorTime = false ->
      created_after (VehicleRow.created_at (fst r)) (Format_RFC3339Nano cursorTime) = true).
Proof.
  intros Hs Ht Hm. unfold matching. rewrite Hs, Ht, Hm, cursorStrOf_zeroTime.
  intros Hin. apply filter_In in Hin. destruct Hin as [Hin Hw]. split.
  - apply filter_In. split; [exact Hin|].
    unfold listVehiclesWhere in *.
    apply andb_true_iff in Hw as [Hw _]. rewrite Hw. reflexivity.
  - intros Hz. unfold listVehiclesWhere in Hw. apply andb_true_iff in Hw as [_ Hc].
    unfold cursorStrOf in Hc. rewrite Hz in Hc.
    destruct (String.eqb (Format_RFC3339Nano cursorTime) "") eqn:He; [|exact Hc].
    exfalso. apply String.eqb_eq in He. unfold Format_RFC3339Nano in He.
    apply (f_equal list_ascii_of_string) in He.
    rewrite list_ascii_of_string_of_list_ascii in He. cbn in He.
    unfold appendFormatRFC3339, appendZone in He. cbv zeta in He.
    apply (f_equal (@List.length ascii)) in He. rewrite !length_app in He.
    cbn [List.length] in He. lia.
Qed.

(** X22. Following the token of a first page leads to no vehicle that the
    first page did not show: every vehicle on the page fetched with that token
    was on the first page already, so the vehicles left off the first page are
    never listed.  The [created_at] of the stored rows are readings of a
    calendar. *)
Theorem ListVehicles_next_page_shows_nothing_new (db : DB) (req : ListVehiclesRequest.t)
  (resp resp2 : ListVehiclesResponse.t) (v : Vehicle.t) :
  Forall (fun r => validWall (VehicleRow.created_at r) = true) (vehicles db) ->
  ListVehiclesRequest.PageToken req = ""%string ->
  service.ListVehicles db req = service.Reply resp ->
  ListVehiclesResponse.NextPageToken resp <> ""%string ->
  service.ListVehicles db
    (ListVehiclesRequest.mk
       (ListVehiclesRequest.PageSize req)
       (ListVehiclesResponse.NextPageToken resp)
       (ListVehiclesRequest.StatusFilter req)
       (ListVehiclesRequest.VehicleTypeFilter req)
       (ListVehiclesRequest.MakeFilter req))
  = service.Reply resp2 ->
  In v (ListVehiclesResponse.Vehicles resp2) ->
  In v (ListVehiclesResponse.Vehicles resp).
Proof.
  intros Hcal Hfirst Hreply Htoken Hreply2 Hin.
  set (req2 := ListVehiclesRequest.mk
                 (ListVehiclesRequest.PageSize req)
                 (ListVehiclesResponse.NextPageToken resp)
                 (ListVehiclesRequest.StatusFilter req)
                 (ListVehiclesRequest.VehicleTypeFilter req)
                 (ListVehiclesRequest.MakeFilter req)) in *.
  destruct (service_ListVehicles_more db req resp Hreply Htoken)
    as (cursor1 & next & Hdec1 & Hnth & Hpage1 & Henc).
  rewrite Hfirst in Hdec1. cbn in Hdec1. injection Hdec1 as <-.
  set (P := Z.to_nat (service.clampPageSize (ListVehiclesRequest.PageSize req))) in *.
  set (sorted := orderByCreatedAtDesc (matching db (service.listParams req) zeroTime)) in *.
  set (T := Date (VehicleRow.created_at (fst next))) in *.
  (* the token reads back as the time of the next row *)
  assert (Hnext : In next sorted) by (eapply nth_error_In; eassumption).
  assert (HvalidT : valid T = true).
  { unfold sorted in Hnext. apply (proj1 (orderByCreatedAtDesc_In _ _)) in Hnext.
    unfold matching in Hnext.
    apply filter_In in Hnext. destruct Hnext as [Hjoin _].
    apply joinVehicleTypes_In in Hjoin. rewrite Forall_forall in Hcal.
    unfold valid, T. cbn. rewrite (Hcal _ Hjoin). reflexivity. }
  assert (Hdec2 : decodePageToken (ListVehiclesResponse.NextPageToken resp) = Ok T)
    by now apply decodePageToken_encodePageToken.
  destruct (IsZero T) eqn:Hz.
  - (* the token of the zero time: the second call runs the query of the first *)
    apply service_ListVehicles_Reply in Hreply2.
    destruct Hreply2 as (cursor2 & Hdec2' & _ & Hpage2).
    cbn [req2 ListVehiclesRequest.PageToken ListVehiclesRequest.PageSize] in Hdec2', Hpage2.
    rewrite Hdec2 in Hdec2'. injection Hdec2' as <-. cbv zeta in Hpage2.
    assert (Hrows : listVehiclesRows db (service.listParams req2) T
                    = listVehiclesRows db (service.listParams req) zeroTime).
    { unfold listVehiclesRows. unfold cursorStrOf. rewrite Hz. reflexivity. }
    rewrite Hrows in Hpage2.
    apply service_ListVehicles_Reply in Hreply.
    destruct Hreply as (cursor1 & Hdec1 & _ & Hpage). cbv zeta in Hpage.
    rewrite Hfirst in Hdec1. cbn in Hdec1. injection Hdec1 as <-.
    destruct Hpage as [(Hlt & Hv1 & _) | (_ & _ & Ht)]; [|contradiction].
    destruct Hpage2 as [(_ & Hv2 & _) | (Hge & _ & _)]; [|lia].
    rewrite Hv1. rewrite Hv2 in Hin. exact Hin.
  - destruct (service_ListVehicles_In db req2 resp2 v Hreply2 Hin)
      as (cursor2 & r2 & Hdec2' & Hr2 & ->).
    cbn [req2 ListVehiclesRequest.PageToken] in Hdec2'.
    rewrite Hdec2 in Hdec2'. injection Hdec2' as <-.
    destruct (matching_without_cursor db (service.listParams req) (service.listParams req2)
                T r2) as [Hm Hafter]; try reflexivity; [exact Hr2|].
    specialize (Hafter Hz). rewrite created_after_cursor in Hafter by exact HvalidT.
    rewrite Hpage1. apply in_map.
    apply (proj2 (orderByCreatedAtDesc_In _ _)) in Hm. fold sorted in Hm.
    destruct (nth_error_split_firstn _ _ _ Hnth) as (rest & Hsplit).
    fold P in Hsplit. rewrite Hsplit in Hm. apply in_app_or in Hm.
    destruct Hm as [Hhead | [<- | Hrest]].
    + fold P. exact Hhead.
    + unfold T in Hafter. rewrite After_irrefl in Hafter. discriminate.
    + exfalso.
      assert (Hd : descending (map toVehicle sorted))
        by apply descending_orderByCreatedAtDesc.
      rewrite Hsplit in Hd.
      unfold T in Hafter.
      rewrite (descending_after _ _ _ _ Hd Hrest) in Hafter. discriminate.
Qed.

(** X23. A reply without a token is complete: the page holds every vehicle
    that matches the filters and the cursor of the request, each row of the
    query once. *)
Theorem ListVehicles_without_token_is_complete (db : DB) (req : ListVehiclesRequest.t)
  (resp : ListVehiclesResponse.t) :
  service.ListVehicles db req = service.Reply resp ->
  ListVehiclesResponse.NextPageToken resp = ""%string ->
  exists cursorTime,
    decodePageToken (ListVehiclesRequest.PageToken req) = Ok cursorTime
    /\ ListVehiclesResponse.Vehicles resp
       = map toVehicle
           (orderByCreatedAtDesc (matching db (service.listParams req) cursorTime))
    /\ (forall r, In r (matching db (service.listParams req) cursorTime) ->
                  In (toVehicle r) (ListVehiclesResponse.Vehicles resp))
    /\ List.length (ListVehiclesResponse.Vehicles resp)
       = List.length (matching db (service.listParams req) cursorTime).
Proof.
  intros Hreply Htoken. apply service_ListVehicles_Reply in Hreply.
  destruct Hreply as (cursorTime & Hdec & _ & Hpage). cbv zeta in Hpage.
  exists cursorTime. split; [exact Hdec|].
  destruct Hpage as [(_ & _ & Henc) | (Hge & Hv & _)].
  - apply encodePageToken_nonempty in Henc. contradiction.
  - pose proof (clampPageSize_range (ListVehiclesRequest.PageSize req)) as HP.
    pose proof (listVehiclesRows_count db (service.listParams req) cursorTime) as Hn.
    rewrite pageSizeOf_listParams in Hn.
    assert (Hrows : listVehiclesRows db (service.listParams req) cursorTime
                    = orderByCreatedAtDesc (matching db (service.listParams req)
                                              cursorTime)).
    { rewrite listVehiclesRows_matching. apply firstn_all2.
      rewrite orderByCreatedAtDesc_length, pageSizeOf_listParams. lia. }
    rewrite Hrows in Hv. split; [exact Hv|]. split.
    + intros r Hr. rewrite Hv. apply in_map. now apply orderByCreatedAtDesc_In.
    + now rewrite Hv, length_map, orderByCreatedAtDesc_length.
Qed.

(** ** Pages of vehicle types *)

Lemma scanTypeRows_eq (rows : list VehicleTypeRow.t) (acc : list VehicleType.t)
  (last : Time) :
  fst (scanTypeRows rows acc last) = acc ++ map scanVehicleType rows.
Proof.
  revert acc last. induction rows as [| r rows IH]; intros acc last.
  - cbn. now rewrite app_nil_r.
  - cbn [scanTypeRows]. rewrite IH. cbn [map]. now rewrite <- app_assoc.
Qed.

Lemma insertTypeDesc_In (x r : VehicleTypeRow.t) (l : list VehicleTypeRow.t) :
  In r (insertTypeDesc x l) <-> r = x \/ In r l.
Proof.
  induction l as [| y l IH]; cbn.
  - intuition.
  - destruct (After _ _); cbn; rewrite ?IH; intuition.
Qed.

Lemma insertTypeDesc_length (x : VehicleTypeRow.t) (l : list VehicleTypeRow.t) :
  List.length (insertTypeDesc x l) = S (List.length l).
Proof.
  induction l as [| y l IH]; cbn; [reflexivity|].
  destruct (After _ _); cbn; now rewrite ?IH.
Qed.

Lemma orderTypes_In (r : VehicleTypeRow.t) (l : list VehicleTypeRow.t) :
  In r (fold_right insertTypeDesc [] l) <-> In r l.
Proof.
  induction l as [| y l IH]; cbn; [tauto|].
  rewrite insertTypeDesc_In, IH. intuition.
Qed.

Lemma orderTypes_length (l : list VehicleTypeRow.t) :
  List.length (fold_right insertTypeDesc [] l) = List.length l.
Proof.
  induction l as [| y l IH]; cbn; [reflexivity|].
  now rewrite insertTypeDesc_length, IH.
Qed.

(** X24. A table of vehicle types that fits on one page is listed whole: a
    request without a token, on a table with no more types than the page size
    the service settles on, returns every stored vehicle type once and no
    token. *)
Theorem ListVehicleTypes_lists_all (db : DB) (req : ListVehicleTypesRequest.t) :
  ListVehicleTypesRequest.PageToken req = ""%string ->
  Z.of_nat (List.length (vehicle_types db))
  <= service.clampPageSize (ListVehicleTypesRequest.PageSize req) ->
  exists resp,
    service.ListVehicleTypes db req = service.Reply resp
    /\ ListVehicleTypesResponse.NextPageToken resp = ""%string
    /\ List.length (ListVehicleTypesResponse.VehicleTypes resp)
       = List.length (vehicle_types db)
    /\ (forall row, In row (vehicle_types db) ->
                    In (scanVehicleType row) (ListVehicleTypesResponse.VehicleTypes resp)).
Proof.
  intros Hfirst Hfits.
  pose proof (clampPageSize_range (ListVehicleTypesRequest.PageSize req)) as HP.
  unfold service.ListVehicleTypes, store.ListVehicleTypes. cbv zeta.
  set (P := service.clampPageSize (ListVehicleTypesRequest.PageSize req)) in *.
  destruct (Z.leb_spec P 0); [lia|]. destruct (Z.ltb_spec 100 P); [lia|]. cbn [orb].
  rewrite Hfirst. cbn [decodePageToken String.eqb].
  change (IsZero zeroTime) with true. cbv iota.
  unfold listVehicleTypesQuery. change (String.eqb "" "") with true. cbn [orb].
  rewrite (filter_all (fun _ => true)) by (apply Forall_forall; reflexivity).
  unfold LIMIT. rewrite firstn_all2 by (rewrite orderTypes_length; lia).
  destruct (scanTypeRows (fold_right insertTypeDesc [] (vehicle_types db)) [] zeroTime)
    as [types last] eqn:Hscan.
  assert (Htypes : types = map scanVehicleType
                             (fold_right insertTypeDesc [] (vehicle_types db))).
  { pose proof (scanTypeRows_eq (fold_right insertTypeDesc [] (vehicle_types db)) []
                  zeroTime) as Hs.
    rewrite Hscan in Hs. exact Hs. }
  assert (Hlen : List.length types = List.length (vehicle_types db))
    by now rewrite Htypes, length_map, orderTypes_length.
  destruct (Z.ltb_spec P (Z.of_nat (List.length types))); [lia|].
  eexists. split; [reflexivity|]. cbn. split; [reflexivity|]. split; [exact Hlen|].
  intros row Hrow. rewrite Htypes. apply in_map. now apply orderTypes_In.
Qed.

End FollowingPages.

(** * Updates that collide *)

Lemma unique_plates_inj (db : DB) (v v' : VehicleRow.t) :
  unique_plates db -> In v (vehicles db) -> In v' (vehicles db) ->
  VehicleRow.license_plate v' = VehicleRow.license_plate v -> v' = v.
Proof.
  unfold unique_plates. induction (vehicles db) as [| x l IH]; [intros _ []|].
  cbn [map]. intros Hnd Hv Hv' Heq. inversion Hnd as [| ? ? Hx Hl]; subst.
  destruct Hv as [-> | Hv], Hv' as [-> | Hv']; auto.
  - exfalso. apply Hx. rewrite <- Heq. now apply in_map.
  - exfalso. apply Hx. rewrite Heq. now apply in_map.
Qed.

Lemma GetVehicleByID_stored (db : DB) (v : VehicleRow.t) :
  fk_ok db -> unique_ids db -> In v (vehicles db) ->
  exists vt, GetVehicleByID db (VehicleRow.external_id v) = Ok (toVehicle (v, vt)).
Proof.
  intros Hfk Hids Hin. rewrite GetVehicleByID_eq.
  destruct (join_first_match db (fun r => N.eqb (VehicleRow.external_id r)
                                                (VehicleRow.external_id v)) v Hfk Hin)
    as (v' & vt & rest & -> & Hin' & Hv'); [apply N.eqb_refl|].
  apply N.eqb_eq in Hv'. assert (v' = v) by now apply (unique_ids_inj db).
  subst v'. now exists vt.
Qed.

Lemma GetVehicleByLicensePlate_stored (db : DB) (v : VehicleRow.t) :
  fk_ok db -> unique_plates db -> In v (vehicles db) ->
  exists vt,
    GetVehicleByLicensePlate db (VehicleRow.license_plate v) = Ok (toVehicle (v, vt)).
Proof.
  intros Hfk Hplates Hin. rewrite GetVehicleByLicensePlate_eq.
  destruct (join_first_match db (fun r => String.eqb (VehicleRow.license_plate r)
                                                     (VehicleRow.license_plate v)) v Hfk Hin)
    as (v' & vt & rest & -> & Hin' & Hv'); [apply String.eqb_refl|].
  apply String.eqb_eq in Hv'. assert (v' = v) by now apply (unique_plates_inj db).
  subst v'. now exists vt.
Qed.

Section Collide.
Context {G : store.Engine} {E : service.Env}.

(** X25. An update that would give a vehicle the license plate of another
    stored vehicle is answered AlreadyExists and writes nothing, on a table
    that keeps its keys, when the request passes validation and names no
    vehicle type or a stored one. *)
Theorem UpdateVehicle_duplicate_plate_AlreadyExists (db : DB) (now : DateTime)
  (req : UpdateVehicleRequest.t) (vehicle : VehicleInput.t) (v other : VehicleRow.t) :
  fk_ok db -> unique_ids db -> unique_plates db ->
  In v (vehicles db) -> In other (vehicles db) ->
  VehicleRow.external_id other <> VehicleRow.external_id v ->
  service.ValidateUpdateVehicleRequest req = inr vehicle ->
  service.uuid_FromString (UpdateVehicleRequest.VehicleId req)
  = Some (VehicleRow.external_id v) ->
  VehicleInput.LicensePlate vehicle = VehicleRow.license_plate other ->
  VehicleRow.license_plate other <> ""%string ->
  (VehicleInput.VehicleTypeId vehicle = ""%string
   \/ exists vt, GetVehicleTypeByID db (VehicleInput.VehicleTypeId vehicle) = Ok vt) ->
  service.UpdateVehicle db now req
  = (db, service.Errorf codes.AlreadyExists "vehicle with license plate %s already exists").
Proof.
  intros Hfk Hids Hplates Hv Hother Hne Hvalid Hid Hplate Hnonempty Htype.
  unfold service.UpdateVehicle. rewrite Hvalid, Hid.
  destruct (GetVehicleByID_stored db v Hfk Hids Hv) as (vt & ->).
  cbv zeta.
  assert (Htc : (if negb (String.eqb (VehicleInput.VehicleTypeId vehicle) "")
                 then match GetVehicleTypeByID db (VehicleInput.VehicleTypeId vehicle) with
                      | Ok _ => None
                      | Err ErrVehicleTypeNotFound =>
                          Some (service.mkStatus codes.InvalidArgument
                                  "vehicle type not found: %s")
                      | Err _ =>
                          Some (service.mkStatus codes.Internal
                                  "failed to validate vehicle type: %v")
                      end
                 else None) = None).
  { destruct Htype as [-> | (vt' & ->)]; [reflexivity|].
    now destruct (negb _). }
  rewrite Htc.
  rewrite Hplate. apply String.eqb_neq in Hnonempty. rewrite Hnonempty.
  cbn [negb andb toVehicle Vehicle.LicensePlate Vehicle.Id fst snd].
  assert (Hdiff : String.eqb (VehicleRow.license_plate other) (VehicleRow.license_plate v)
                  = false).
  { apply String.eqb_neq. intros Heq. apply Hne.
    now rewrite (unique_plates_inj db v other Hplates Hv Hother Heq). }
  rewrite Hdiff. cbn [negb].
  destruct (GetVehicleByLicensePlate_stored db other Hfk Hplates Hother) as (vt' & ->).
  cbn [toVehicle Vehicle.Id fst].
  apply N.eqb_neq in Hne. rewrite Hne. reflexivity.
Qed.

End Collide.

(** * The status change of the staff service *)

Section StaffStatus.
Variable Driver : Type.
Variable Status : Driver -> DriverStatus.
Variable LicenseExpired : Driver -> bool.
Variable Store : Type.
Variable GetDriverByID : Store -> UUID -> Store * staff_service.result Driver.
Variable store_UpdateDriverStatus :
  Store -> UUID -> DriverStatus -> string -> Store * staff_service.result Driver.
Variable ValidateDriverStatus : string -> DriverStatus -> option service.ValidationError.
Variable uuid_FromString : string -> option UUID.

(** X26. The status of a driver changes only along an edge of the driver
    table and never to ACTIVE on an expired license: a status change that
    succeeds has read the driver, found the pair of its status and the new one
    in the table, found the license valid if the new status is ACTIVE, and
    returns what the status update of the store returned. *)
Theorem UpdateDriverStatus_guarded (s s' : Store)
  (req : staff_service.UpdateDriverStatusRequest.t) (updated : Driver) :
  staff_service.UpdateDriverStatus Driver Status LicenseExpired Store GetDriverByID
    store_UpdateDriverStatus ValidateDriverStatus uuid_FromString s req
  = (s', service.Reply updated) ->
  exists driverID s1 current,
    uuid_FromString (staff_service.UpdateDriverStatusRequest.DriverId req) = Some driverID
    /\ GetDriverByID s driverID = (s1, staff_service.Ok current)
    /\ staff_types.IsValidDriverStatusTransition (Status current)
         (staff_service.UpdateDriverStatusRequest.Status req) = true
    /\ Status current <> staff_service.UpdateDriverStatusRequest.Status req
    /\ staff_service.UpdateDriverStatusRequest.Status req <> DriverStatus_STATUS_UNSPECIFIED
    /\ (staff_service.UpdateDriverStatusRequest.Status req = DriverStatus_ACTIVE ->
        LicenseExpired current = false)
    /\ store_UpdateDriverStatus s1 driverID
         (staff_service.UpdateDriverStatusRequest.Status req)
         (staff_service.UpdateDriverStatusRequest.Reason req)
       = (s', staff_service.Ok updated).
Proof.
  unfold staff_service.UpdateDriverStatus.
  destruct (String.eqb _ ""); [discriminate|].
  destruct (ValidateDriverStatus _ _); [discriminate|].
  destruct (uuid_FromString _) as [driverID |]; [|discriminate].
  destruct (GetDriverByID s driverID) as [s1 [current | []]] eqn:Hget; try discriminate.
  destruct (staff_types.IsValidDriverStatusTransition _ _) eqn:Hvalid; cbn [negb];
    [|discriminate].
  destruct (DriverStatus_eqb _ DriverStatus_ACTIVE && LicenseExpired current) eqn:Hact;
    [discriminate|].
  destruct (store_UpdateDriverStatus s1 driverID _ _) as [s2 [d | []]] eqn:Hup;
    try discriminate.
  intros [= <- <-]. exists driverID, s1, current.
  repeat split; auto.
  - intros Heq. rewrite Heq in Hvalid.
    now destruct (staff_service.UpdateDriverStatusRequest.Status req).
  - intros Heq. rewrite Heq in Hvalid. now destruct (Status current).
  - intros Heq. rewrite Heq in Hact. cbn in Hact. exact Hact.
Qed.

End StaffStatus.

Lemma UpdateDriverStatus_guarded_witness :
  exists s' updated,
    staff_service.UpdateDriverStatus (DriverStatus * bool) fst snd samples.Drivers
      samples.getDriver samples.setDriver (fun _ _ => None) samples.decimal
      [(7%N, (DriverStatus_SUSPENDED, false))]
      (staff_service.UpdateDriverStatusRequest.mk "7" DriverStatus_ACTIVE "reinstated")
    = (s', service.Reply updated)
    /\ staff_types.IsValidDriverStatusTransition DriverStatus_SUSPENDED DriverStatus_ACTIVE
       = true.
Proof.
  eexists. eexists.
  match goal with
  | |- ?hyp /\ _ => assert (H : hyp) by (vm_compute; reflexivity)
  end.
  split; [exact H|].
  destruct (UpdateDriverStatus_guarded _ _ _ _ _ _ _ _ _ _ _ _ H)
    as (driverID & s1 & current & Hid & Hget & Hvalid & _).
  vm_compute in Hid. injection Hid as <-.
  vm_compute in Hget. injection Hget as <- <-. exact Hvalid.
Defined.

(** * Examples *)

(** The theorems above at the sample fleet. *)

Ltac no_duplicates :=
  repeat (constructor;
          [cbn; let H := fresh in
                intros H; repeat (destruct H as [H | H]; [discriminate H|]); exact H|]);
  constructor.

Ltac split_hypotheses tac :=
  match goal with
  | |- ?hyp /\ _ => let H := fresh "Hyp" in assert (H : hyp) by tac; split; [exact H|]
  end.

Section Examples.
#[local] Existing Instance samples.engine.



Lemma step_keeps_rows_witness :
  service.step (E := samples.env) samples.fleet
    (fst (service.DeleteVehicle (E := samples.env) samples.fleet (samples.at_hour 15)
            (DeleteVehicleRequest.mk "2")))
  /\ exists added,
       map identity
         (vehicles (fst (service.DeleteVehicle (E := samples.env) samples.fleet
                           (samples.at_hour 15) (DeleteVehicleRequest.mk "2"))))
       = map identity (vehicles samples.fleet) ++ map identity added
       /\ (List.length added <= 1)%nat.
Proof.
  split_hypotheses ltac:(apply service.step_DeleteVehicle).
  exact (step_keeps_rows (E := samples.env) _ _ Hyp).
Defined.

Lemma reachable_unique_keys_witness :
  service.reachable (E := samples.env)
    (fst (service.CreateVehicle (E := samples.env) samples.empty (samples.at_hour 15)
            samples.ids (CreateVehicleRequest.mk (Some (samples.input "KAA 005B" "Mazda")))))
  /\ unique_ids
       (fst (service.CreateVehicle (E := samples.env) samples.empty (samples.at_hour 15)
               samples.ids
               (CreateVehicleRequest.mk (Some (samples.input "KAA 005B" "Mazda")))))
  /\ unique_plates
       (fst (service.CreateVehicle (E := samples.env) samples.empty (samples.at_hour 15)
               samples.ids
               (CreateVehicleRequest.mk (Some (samples.input "KAA 005B" "Mazda"))))).
Proof.
  split_hypotheses ltac:(eapply service.reachable_step;
                         [apply service.reachable_init | apply service.step_CreateVehicle]).
  exact (reachable_unique_keys (E := samples.env) _ Hyp).
Defined.

Lemma retired_stays_retired_witness :
  (unique_ids samples.retired
   /\ service.step (E := samples.env) samples.retired
        (fst (service.UpdateVehicleStatus (E := samples.env) samples.retired
                (samples.at_hour 16)
                (UpdateVehicleStatusRequest.mk "2" VehicleStatus_ACTIVE)))
   /\ In (with_status samples.v2 VehicleStatus_RETIRED (samples.at_hour 15))
         (vehicles samples.retired)
   /\ VehicleRow.status (with_status samples.v2 VehicleStatus_RETIRED (samples.at_hour 15))
      = VehicleStatus_RETIRED)
  /\ exists r',
       In r' (vehicles (fst (service.UpdateVehicleStatus (E := samples.env) samples.retired
                               (samples.at_hour 16)
                               (UpdateVehicleStatusRequest.mk "2" VehicleStatus_ACTIVE))))
       /\ identity r'
          = identity (with_status samples.v2 VehicleStatus_RETIRED (samples.at_hour 15))
       /\ VehicleRow.status r' = VehicleStatus_RETIRED.
Proof.
  split_hypotheses ltac:(split; [unfold unique_ids; no_duplicates|];
                         split; [apply service.step_UpdateVehicleStatus|];
                         split; [right; left; reflexivity | reflexivity]).
  destruct Hyp as (H1 & H2 & H3 & H4).
  exact (retired_stays_retired (E := samples.env) _ _ _ H1 H2 H3 H4).
Defined.


Lemma CreateVehicle_keeps_dates_to_the_day_witness :
  exists db' created,
    (service.ValidateCreateVehicleRequest (Env := samples.env) (samples.at_hour 15)
       (CreateVehicleRequest.mk (Some samples.dated)) = inr samples.dated
     /\ service.CreateVehicle (E := samples.env) samples.fleet (samples.at_hour 15)
          samples.ids (CreateVehicleRequest.mk (Some samples.dated))
        = (db', service.Reply created))
    /\ Vehicle.RegistrationDate created = Some (Date (mkDateTime 2022 1 10 0 0 0 0))
    /\ Vehicle.InsuranceExpiry created = Some (Date (mkDateTime 2026 12 31 0 0 0 0)).
Proof.
  eexists. eexists.
  split_hypotheses ltac:(split; [reflexivity | vm_compute; reflexivity]).
  destruct Hyp as (H1 & H2).
  destruct (CreateVehicle_keeps_dates_to_the_day (E := samples.env) _ _ _ _ _ _ _ H1 H2)
    as (Hreg & _ & Hins & _).
  split.
  - exact (proj1 (Hreg _ eq_refl) eq_refl).
  - exact (proj1 (Hins _ eq_refl) eq_refl).
Defined.

Lemma ListVehicles_page_size_witness :
  exists resp,
    service.ListVehicles samples.three samples.firstPage = service.Reply resp
    /\ exists cursorTime,
         decodePageToken (ListVehiclesRequest.PageToken samples.firstPage) = Ok cursorTime
         /\ Z.of_nat (List.length (ListVehiclesResponse.Vehicles resp))
            = Z.min (Z.of_nat (List.length
                                 (matching samples.three
                                    (service.listParams samples.firstPage) cursorTime)))
                    (service.clampPageSize (ListVehiclesRequest.PageSize samples.firstPage)).
Proof.
  eexists.
  split_hypotheses ltac:(vm_compute; reflexivity).
  destruct (ListVehicles_page_size _ _ _ Hyp) as (cursorTime & Hdec & _ & _ & _ & Hlen & _).
  exists cursorTime. split; [exact Hdec | exact Hlen].
Defined.

Lemma ListVehicles_page_passes_filters_witness :
  exists resp v,
    (service.ListVehicles samples.fleet
       (ListVehiclesRequest.mk 2 "" (Some VehicleStatus_ACTIVE) None None)
     = service.Reply resp
     /\ In v (ListVehiclesResponse.Vehicles resp))
    /\ Vehicle.Status v = VehicleStatus_ACTIVE.
Proof.
  eexists. eexists.
  split_hypotheses ltac:(split; [vm_compute; reflexivity | left; reflexivity]).
  destruct Hyp as (H1 & H2).
  destruct (ListVehicles_page_passes_filters _ _ _ _ H1 H2) as (_ & Hstatus & _).
  exact (Hstatus _ eq_refl).
Defined.

Lemma ListVehicles_page_descending_witness :
  exists resp,
    service.ListVehicles samples.fleet (ListVehiclesRequest.mk 3 "" None None None)
    = service.Reply resp
    /\ descending (ListVehiclesResponse.Vehicles resp).
Proof.
  eexists.
  split_hypotheses ltac:(vm_compute; reflexivity).
  exact (ListVehicles_page_descending _ _ _ Hyp).
Defined.

Lemma GetAvailableVehicles_only_ACTIVE_witness :
  exists resp v,
    (service.GetAvailableVehicles samples.fleet
       (GetAvailableVehiclesRequest.mk (Some "1"%string) 10 "")
     = service.Reply resp
     /\ In v (ListVehiclesResponse.Vehicles resp))
    /\ Vehicle.Status v = VehicleStatus_ACTIVE.
Proof.
  eexists. eexists.
  split_hypotheses ltac:(split; [vm_compute; reflexivity | left; reflexivity]).
  destruct Hyp as (H1 & H2).
  exact (proj1 (GetAvailableVehicles_only_ACTIVE _ _ _ _ H1 H2)).
Defined.

Lemma GetVehiclesByType_only_that_type_witness :
  exists resp v,
    (service.GetVehiclesByType samples.fleet
       (GetVehiclesByTypeRequest.mk "1" 10 "" (Some VehicleStatus_ASSIGNED))
     = service.Reply resp
     /\ In v (ListVehiclesResponse.Vehicles resp))
    /\ (exists vehicleTypeID,
          Vehicle.VehicleTypeId v = FormatInt vehicleTypeID
          /\ store.int_eq vehicleTypeID "1" = true)
    /\ Vehicle.Status v = VehicleStatus_ASSIGNED.
Proof.
  eexists. eexists.
  split_hypotheses ltac:(split; [vm_compute; reflexivity | left; reflexivity]).
  destruct Hyp as (H1 & H2).
  destruct (GetVehiclesByType_only_that_type _ _ _ _ H1 H2) as (_ & _ & Htype & Hstatus).
  split; [exact Htype | exact (Hstatus _ eq_refl)].
Defined.


Lemma ListVehicles_token_is_of_next_row_witness :
  exists resp,
    (service.ListVehicles samples.three samples.firstPage = service.Reply resp
     /\ ListVehiclesResponse.NextPageToken resp <> ""%string)
    /\ encodePageToken (Date (VehicleRow.created_at samples.v1))
       = Ok (ListVehiclesResponse.NextPageToken resp).
Proof.
  eexists.
  split_hypotheses ltac:(split; [vm_compute; reflexivity | discriminate]).
  destruct Hyp as (H1 & H2).
  destruct (ListVehicles_token_is_of_next_row _ _ _ H1 H2)
    as (cursorTime & next & Hdec & Hnth & _ & Henc).
  vm_compute in Hdec. injection Hdec as <-.
  vm_compute in Hnth. injection Hnth as <-. exact Henc.
Defined.

Lemma ListVehicles_next_page_shows_nothing_new_witness :
  exists resp resp2 v,
    (Forall (fun r => validWall (VehicleRow.created_at r) = true) (vehicles samples.three)
     /\ ListVehiclesRequest.PageToken samples.firstPage = ""%string
     /\ service.ListVehicles samples.three samples.firstPage = service.Reply resp
     /\ ListVehiclesResponse.NextPageToken resp <> ""%string
     /\ service.ListVehicles samples.three
          (ListVehiclesRequest.mk
             (ListVehiclesRequest.PageSize samples.firstPage)
             (ListVehiclesResponse.NextPageToken resp)
             (ListVehiclesRequest.StatusFilter samples.firstPage)
             (ListVehiclesRequest.VehicleTypeFilter samples.firstPage)
             (ListVehiclesRequest.MakeFilter samples.firstPage))
        = service.Reply resp2
     /\ In v (ListVehiclesResponse.Vehicles resp2))
    /\ In v (ListVehiclesResponse.Vehicles resp).
Proof.
  eexists. eexists. eexists.
  split_hypotheses ltac:(split; [repeat constructor|]; split; [reflexivity|];
                         split; [vm_compute; reflexivity|]; split; [discriminate|];
                         split; [vm_compute; reflexivity | left; reflexivity]).
  destruct Hyp as (H1 & H2 & H3 & H4 & H5 & H6).
  exact (ListVehicles_next_page_shows_nothing_new _ _ _ _ _ H1 H2 H3 H4 H5 H6).
Defined.

Lemma ListVehicles_without_token_is_complete_witness :
  exists resp,
    (service.ListVehicles samples.fleet (ListVehiclesRequest.mk 10 "" None None None)
     = service.Reply resp
     /\ ListVehiclesResponse.NextPageToken resp = ""%string)
    /\ List.length (ListVehiclesResponse.Vehicles resp) = 4%nat.
Proof.
  eexists.
  split_hypotheses ltac:(split; [vm_compute; reflexivity | reflexivity]).
  destruct Hyp as (H1 & H2).
  destruct (ListVehicles_without_token_is_complete _ _ _ H1 H2)
    as (cursorTime & Hdec & _ & _ & Hlen).
  vm_compute in Hdec. injection Hdec as <-. rewrite Hlen. reflexivity.
Defined.

Lemma ListVehicleTypes_lists_all_witness :
  (ListVehicleTypesRequest.PageToken (ListVehicleTypesRequest.mk 10 "") = ""%string
   /\ Z.of_nat (List.length (vehicle_types samples.fleet))
      <= service.clampPageSize
           (ListVehicleTypesRequest.PageSize (ListVehicleTypesRequest.mk 10 "")))
  /\ exists resp,
       service.ListVehicleTypes samples.fleet (ListVehicleTypesRequest.mk 10 "")
       = service.Reply resp
       /\ ListVehicleTypesResponse.NextPageToken resp = ""%string
       /\ In (scanVehicleType samples.cab) (ListVehicleTypesResponse.VehicleTypes resp).
Proof.
  split_hypotheses ltac:(split; [reflexivity | vm_compute; discriminate]).
  destruct Hyp as (H1 & H2).
  destruct (ListVehicleTypes_lists_all samples.fleet _ H1 H2)
    as (resp & Hreply & Htoken & _ & Hall).
  exists resp. split; [exact Hreply|]. split; [exact Htoken|].
  apply Hall. now left.
Defined.

Lemma UpdateVehicle_duplicate_plate_AlreadyExists_witness :
  (fk_ok samples.fleet
   /\ unique_ids samples.fleet
   /\ unique_plates samples.fleet
   /\ In samples.v2 (vehicles samples.fleet)
   /\ In samples.v1 (vehicles samples.fleet)
   /\ VehicleRow.external_id samples.v1 <> VehicleRow.external_id samples.v2
   /\ service.ValidateUpdateVehicleRequest (Env := samples.env)
        (UpdateVehicleRequest.mk "2" (Some (samples.input "KAA 001A" "Toyota")) None)
      = inr (samples.input "KAA 001A" "Toyota")
   /\ service.uuid_FromString (Env := samples.env)
        (UpdateVehicleRequest.VehicleId
           (UpdateVehicleRequest.mk "2" (Some (samples.input "KAA 001A" "Toyota")) None))
      = Some (VehicleRow.external_id samples.v2)
   /\ VehicleInput.LicensePlate (samples.input "KAA 001A" "Toyota")
      = VehicleRow.license_plate samples.v1
   /\ VehicleRow.license_plate samples.v1 <> ""%string
   /\ (VehicleInput.VehicleTypeId (samples.input "KAA 001A" "Toyota") = ""%string
       \/ exists vt,
            GetVehicleTypeByID samples.fleet
              (VehicleInput.VehicleTypeId (samples.input "KAA 001A" "Toyota")) = Ok vt))
  /\ service.UpdateVehicle (E := samples.env) samples.fleet (samples.at_hour 15)
       (UpdateVehicleRequest.mk "2" (Some (samples.input "KAA 001A" "Toyota")) None)
     = (samples.fleet,
        service.Errorf codes.AlreadyExists "vehicle with license plate %s already exists").
Proof.
  split_hypotheses ltac:(split; [apply foreign_key_fk_ok; reflexivity|];
                         split; [unfold unique_ids; no_duplicates|];
                         split; [unfold unique_plates; no_duplicates|];
                         split; [right; left; reflexivity|];
                         split; [left; reflexivity|];
                         split; [discriminate|];
                         split; [reflexivity|];
                         split; [reflexivity|];
                         split; [reflexivity|];
                         split; [discriminate|];
                         right; eexists; reflexivity).
  destruct Hyp as (H1 & H2 & H3 & H4 & H5 & H6 & H7 & H8 & H9 & H10 & H11).
  exact (UpdateVehicle_duplicate_plate_AlreadyExists (E := samples.env) samples.fleet
           (samples.at_hour 15) _ _ _ _ H1 H2 H3 H4 H5 H6 H7 H8 H9 H10 H11).
Defined.

(** A cursor whose hour is written with one digit, [2025-09-05T1:00:00Z], is
    not a strict RFC 3339 text; the reader takes it on its second reading and
    the page is served. *)
Example ListVehicles_one_digit_hour_token :
  parseRFC3339 (list_ascii_of_string "2025-09-05T1:00:00Z") = None
  /\ decodePageToken "MjAyNS0wOS0wNVQxOjAwOjAwWg=="
     = Ok (mkTime (mkDateTime 2025 9 5 1 0 0 0) 0)
  /\ service.page (service.ListVehicles samples.fleet
                     (ListVehiclesRequest.mk 10 "MjAyNS0wOS0wNVQxOjAwOjAwWg==" None None None))
     = Some ([4%N; 3%N; 2%N; 1%N], ""%string).
Proof.
  split; [reflexivity|]. split; vm_compute; reflexivity.
Qed.

(** On the sample engine the text [01] is the number 1: the vehicle type of
    number 1 is found under it, and the vehicles of that type are listed. *)
Example vehicle_type_01_is_1 :
  GetVehicleTypeByID samples.fleet "01" = Ok samples.cab
  /\ service.page (service.ListVehicles samples.fleet
                     (ListVehiclesRequest.mk 10 "" None (Some "01"%string) None))
     = Some ([4%N; 3%N; 2%N; 1%N], ""%string).
Proof.
  split; vm_compute; reflexivity.
Qed.

(** A vehicle created with the type text [01] is stored under the number 1,
    and read back with the type text [1]. *)
Example CreateVehicle_type_01_reads_1 :
  exists db' created,
    service.CreateVehicle (E := samples.env) samples.fleet (samples.at_hour 15) samples.ids
      (CreateVehicleRequest.mk
         (Some (VehicleInput.mk "01" "KAA 005B" "Mazda" "Atenza" 2018 "Blue" 5
                  FuelType_PETROL "" "" None None)))
    = (db', service.Reply created)
    /\ Vehicle.VehicleTypeId created = "1"%string.
Proof.
  eexists. eexists. split; [vm_compute; reflexivity | reflexivity].
Qed.

End Examples.
